(* ===== verification/_CoqProject ===== *)
-Q . S2P
Prelude.v
RouteGuard.v
Validation.v
JsValue.v
Json.v
Types.v
HttpClient.v
Concurrency.v
AuthStore.v
Mutations.v
AuthFlows.v
Profile.v
UiKit.v
Screen.v
VerifyEmail.v
ResetPassword.v
Timers.v
SignUp.v
Settings.v
LoginPage.v
Navigation.v
ProfileCache.v
Tests.v
ComponentTests.v
