(* ===== verification/Prelude.v ===== *)
(** * A verification development of the tiktok-ui front end

    The repository is a Next.js front end for an authentication service:
    login, sign-up, password reset, e-mail verification, account
    settings.  This library translates its TypeScript sources under
    [src/src/] into Rocq definitions (a shallow embedding) and proves
    what makes them correct, or exhibits where they are not.

    ** The program and how its parts interact

    - The route guard [src/src/middleware.ts] runs on each navigation
      its [config.matcher] selects:
      it parses the [cookie] header ([cookie] package [parse]) and sends
      the visitor to [/login] or [/dashboard] by the class of the path.
    - The HTTP client [src/src/lib/api/axiosInstance.ts] is an axios
      instance whose response interceptor refreshes the session on a 401
      token error and replays the request once ([_retry]); when the
      refresh fails it calls [handleSessionExpiration] (logout, then
      [/login]).  The services [AuthService] and [UserService]
      ([src/src/lib/api/services/]) call the same instance, so the
      interceptor is re-entrant: its refresh and logout calls pass
      through it again.
    - The stores: the session store [src/src/stores/useAuthStore.ts]
      ([login], [logout], [setUser], [setRole]), the loader store
      [src/src/stores/useLoaderStore.ts], and [AuthProvider]
      ([src/src/context/AuthContext.tsx]) that copies the fetched profile
      into the session store.
    - The react-query mutations [src/src/lib/api/mutations/auth.ts],
      [src/src/lib/api/mutations/user.ts] and the profile query
      [src/src/lib/api/queries/user.ts] call the services between
      [showLoader] and [hideLoader] and report through toasts, the
      session store and the router.
    - The screens call the mutations: login (with a lockout after five
      failures), sign-up, forgot password, the two reset-password
      screens, e-mail verification and account settings; the yup and zod
      schemas of [src/src/lib/validations/] and of the reset page check
      passwords.  The public pricing page
      [src/src/components/screens/plan/page.tsx] sends a chosen plan to
      the sign-up form in the query of [/signup]; the sidebar of the
      signed-in layout links to the protected pages and logs out.

    ** Files

    - [Prelude] (this file): the state monad [prog] with its [let!]
      notation, the [web] hint databases, generic lemmas on boolean list
      quantifiers and the shared tactics.
    - [RouteGuard]: Module [Cookie] is the [cookie] package's [parse]
      (split on [;], trim, first occurrence wins, no decoding) with its
      inverse [serialize]; Module [Middleware] is [middleware],
      [hasValidAuthToken], the [config.matcher] and [guard], the
      middleware run on the paths the matcher selects.
    - [Validation]: [passwordSchema], [emailSchema] and the object
      schemas of [authSchema.ts], the zod schema of the reset page and
      the checks of the settings password tab, as lists of failing-test
      messages; the regular expressions are written out as boolean
      functions.
    - [JsValue]: the JavaScript values the code passes untyped
      (truthiness, [?.], [||], [??], assignment, object spread,
      [String(v)]), with the observational equivalence of objects and its
      [Proper] instances.
    - [Json]: [JSON.stringify] ([stringify]: QuoteJSONString and
      SerializeJSONObject) and [JSON.parse] ([parse_value] on fuel,
      [JSON_parse] with its [SyntaxError]) on those values, with the
      round trip [JSON_parse_stringify] and the termination of the
      parser on the fuel [JSON_parse] gives it ([parse_value_fuel]).
    - [Types], Module [TsTypes]: the TypeScript interfaces of
      [src/src/lib/api/types/], [src/src/types/global.ts], the request
      types of the user service and the store's [User] as values of
      [tstype], and [conforms], the values of a type.
    - [HttpClient], Module [Http]: request configs, axios [settle], the
      [ApiError] class, the services, the interceptor [onRejected] and
      [handleSessionExpiration] as programs of the free monad [Async]
      (send a request, navigate, call the instance); [interp] runs them
      against a server [serve : Srv -> Config -> Srv * Answer] with
      fuel, [runs] is their natural semantics.
    - [Concurrency], Module [Concurrent]: calls in flight together.  A
      call takes one effect per [step] (a request reaching the server
      and its answer, a navigation, a call of the instance unfolding to
      its pipeline); a pool of calls runs under a schedule, the order in
      which the event loop resumes them ([run_schedule]).  Its steps
      agree with [runs] ([steps_runs]).
    - [AuthStore]: the session store as a record with its four actions,
      its transition relation [store_step], reachability and invariant;
      the class [SessionStore] is the interface the mutations use.
    - [Mutations]: the loader store and the application state [App]
      (stores, toasts, routes pushed, [localStorage], the login form,
      invalidated queries); the login and logout mutations, react-query's
      [Mutation.execute] ([execute]: the function, then the hook's
      [onSuccess], what either throws going to the hook's [onError]),
      [mutate] ([run_mutation]) and the login form's [handleSubmit].
    - [AuthFlows]: the other four auth mutations (one shape,
      [envelope_fn]), the two user mutations and the profile query;
      each hook as the options record it passes to [useMutation]
      ([MutationOptions]).
    - [Profile], Module [ProfilePage]: the profile page, which renders
      [JSON.stringify] of the stored user.
    - [Screen]: screens with state of their own run in
      [World Srv (App * P)]; [zoom] lifts the application's programs
      there, [mutate] and [mutateAsync] run a mutation's [execute];
      [Panel] describes what a screen renders.
    - [VerifyEmail], [ResetPassword] (Modules [ResetForm] and
      [ResetPage]), [SignUp] (Modules [SignUpPage] and [ForgotPassword]),
      [Settings] and [LoginPage]: one screen each, with its state, its
      handlers and effects, and its view.  The login screen's mount
      effect reads the stored lockout with [Json.JSON_parse] and
      [new Date], and answers the error it throws on a stored text that
      is not JSON or is [null].
    - [Timers], Module [Timers]: an effect that arms [setTimeout] and
      clears it in its cleanup, on a timeline of commits (re-running the
      effect when its dependencies change), elapsed time and unmounting;
      instantiated with the redirect effects of the verify-email screen
      and the reset-password page.
    - [UiKit]: [cn] ([clsx]), the [Button] and [Typography] components,
      the [Loader] overlay of the loader store, and [removeAllCookies]
      over a cookie jar ([BrowserCookies]).
    - [Navigation]: Module [Url] (a URL's path and [searchParams.get]),
      Module [PlanPage] (the plans, the billing toggle,
      [handlePlanSelect], the cards), Modules [Sidebar] and [MainLayout]
      (what they render and the events of the layout), Module
      [RootLayout] (the signed-in layout: [AuthProvider]'s sync, then
      [MainLayout]), and the links of the landing page and of the auth
      screens' layout (Modules [Landing] and [AuthLayout]) with what the
      route guard does with them.
    - [ProfileCache], Module [ProfileCache]: the entry of the profile
      query in react-query's cache ([staleTime], freshness, what a mount
      reports from it) and the events of a tab (login, logout, the
      signed-in layout mounting, the profile fetch, its invalidation) as
      steps on the world and the entry ([tab_step], [run_tab]).
    - [Tests]: the Jest suites of [src/src/__tests__/] whose subjects
      are modelled (the schemas, the middleware, the two stores, the
      services, the interceptor, the auth and user mutations, the
      profile query and [AuthProvider]), one boolean per [it] block over
      the model, a mocked service being a server giving the mock's
      answer; a remark per suite checks them by evaluation.  Module
      [JestSetup] is [src/jest.setup.ts]: the suites run with the
      [axiosInstance] module replaced by a bare mock without the
      interceptor, under which the service suites are run again.
      Module [TypeTests] runs the type suites ([conforms] for a typed
      literal).
    - [ComponentTests]: the component suites of
      [src/src/__tests__/components/] and [src/src/__tests__/app/]
      whose subjects are in the sources.  A suite's mocked hook is a
      parameter of the screen's handler ([Mutations.handleSubmit_with],
      [ResetPage.page_submit_with]) given [ComponentMocks.mockMutate],
      which records its argument and calls the callback the suite's
      implementation calls; a mocked [useState] is the state the view is
      computed from.

    ** What the theorems show

    - The interceptor (C1-C9): refresh and single replay on a first
      token error (C1), session termination when the retry is exhausted
      (C2) or the refresh fails (C3), the browser going to [/login] only
      if the logout call resolved; any other answer, a network error
      included, settles the call after one request, a 2xx passed through
      and an error normalised (C9).  With auth endpoints that
      never answer with a token error every call settles within three
      levels of nesting and sends one of five request sequences (C4).
      When the refresh endpoint answers with a token error a call never
      settles (C5, C6); when the logout endpoint does, session
      termination never completes (C7, C8).  The interpreter is
      adequate for the natural semantics ([Http.interp_adequate]), so
      divergence is stated both ways.
    - Concurrent calls (C10): when the access token has expired, calls
      whose requests all reach the server before a refresh does each
      run their own refresh (one refresh per call, the spec's known
      gap); run one after the other they share one refresh.
    - The route guard (C11-C15): the three routing rules of the spec and
      no redirect chains (C11-C14), the token test being a presence
      test ([hasValidAuthToken_serialize]);
      the [config.matcher] leaves every path that starts with [/api]
      unguarded, not only the API routes (C15).
    - The session store (C16-C19): the invariant of reachable states
      and the [AuthProvider] sync, which merges the profile with
      [setUser] and leaves a fresh page load with a user that is not
      authenticated (C16, C17); after a login the profile page prints
      the access and refresh tokens (C18); the profile cached in one
      session is merged into the next session's user when the signed-in
      layout mounts within the query's five-minute [staleTime]: the
      store holds the new user's tokens under the previous user's id,
      name and e-mail (C19).
    - The pricing page (C20, C21): a chosen plan reaches the sign-up
      form through the URL (path, query, initial form and plan chip);
      the route guard sends a visitor choosing Agency to [/login] and a
      signed-in user choosing another plan to [/dashboard].
    - The mutations and the lockout (C22-C27): the login lockout never
      engages because rejections carry no [code] (C22); were it to
      engage, its record would survive a remount until it expires
      (C23, a round trip through [JSON.stringify], [JSON.parse] and
      [new Date]); the login scenario of the spec, submitted from the
      form, which also clears the stored failure count, and the
      [TypeError] shown instead when the response has no [user] (C24);
      a logout the server refuses keeps the session and shows the
      error's message (C25); every
      mutation function only brackets its call with the loader (C26); a
      2xx profile update is reported as a success whatever its
      [success] says, and a [null] body as the [TypeError] of
      [data.message] (C27).
    - The screens (C28-C31, C33-C35): the verification effect runs once and
      its specific error messages are never shown: an API error with
      [EXPIRED_TOKEN] shows the server's message (C28, C29); the
      sign-up form is guarded by the browser's [required] and
      [type="email"] checks only, never by [signupSchema] (C30); the links a visitor
      meets on the sign-up form, the landing page and the auth layout
      open their pages except the guarded [/privacy] and [/help] (C31);
      the reset page's friendly message is unreachable and the reset
      form is never disabled for a missing token (C33, C34); the
      settings password checks (C35).  The
      redirect timers of the verify-email screen and the reset page fire
      once, ten seconds after the success, and an unmount cancels them
      ([Timers.verify_redirects_once], [Timers.reset_redirects_once],
      [Timers.unmount_cancels]).
    - Types (C32, C36): the sign-up form's state keeps its TypeScript
      type and its request body is a [SignUpCredentials]; the settings
      forms hold strings under any sequence of events as long as the
      fetched profiles have the properties the screen reads, so the
      avatar never throws.
    - The reset page end to end (C37): an accepted new password is
      sent once, the page shows its success view, and the redirect
      timer sends the browser to [/login] exactly once, ten seconds
      later, and never after an unmount (the spec's cancellation).
    - Validation: the password regular expression is characterised
      ([Validation.password_regex_spec]); the three password policies
      are nested, the settings' being the weakest
      ([Validation.password_policies_nested]).
    - Bounds (C38): the lockout countdown [m:ss] of the login screen has
      [0 <= s < 60] written with two digits, is the time left rounded
      down to the second, never exceeds [15:00] for a fifteen-minute
      lockout, and is empty once the lockout has ended.

    - The test suites run on the model: every [it] block translated
      holds except the error tests of the two services and the two
      error-toast tests of the user mutations, which read error shapes
      that only their mocks produce ([Tests.ServiceTests],
      [Tests.MutationTests]); the service suites pass as Jest runs them
      only because [jest.setup.ts] mocks out the interceptor; the interceptor test named for an
      immediate logout on [INVALID_TOKEN] passes although the
      interceptor refreshes first.  The component suites pass; the
      lockout and friendly-message blocks of the login and reset suites
      pass only because their mocked callbacks receive an error with a
      [code] or [errorCode], which the real mutations never produce
      (C22, C33).

    ** Fuel and bounds

    [interp] takes fuel for the nesting depth of instance calls, the only
    recursion of the client.  Three levels suffice when the auth
    endpoints behave (C4: the call, the refresh or logout inside it, the
    replay), and [interp_mono] makes any larger fuel give the same
    result; divergence is proved for every fuel and, through [runs], as
    the absence of any finite execution.  Status codes and times are
    [Z]; the countdown's bounds are exact integer division facts.
    [Json.parse_value] takes fuel for each value and object member it
    reads; each reads at least one character, so one more than the
    length of the text is enough ([Json.parse_value_fuel]).
    The schedules of [Concurrent] name their steps one by one: a call
    sent with an expired token takes two steps to its 401 and four more
    to refresh and replay (C10).

    ** What is not modelled

    Concurrency beyond the calls of the HTTP client (the session store
    is updated by one handler at a time, as the spec assumes), the
    timing of React renders (an effect's promise is run to completion),
    react-query caching beyond [retry: 1], invalidation and the
    freshness of the profile entry,
    presentational markup (styling beyond the classes the components
    compute; icons, images and spinners), the react-query client wiring
    ([src/src/components/QueryProvider.tsx] only passes the client of
    [@/lib/queryClient], a module that is not in the sources), the
    mock of [next/navigation] in [src/__mocks__/] (every suite whose
    subject uses that module mocks it itself), the ESLint configuration (no runtime
    behaviour), the jest-dom import and [ResizeObserver] mock of
    [src/jest.setup.ts] (used by component tests only), logging,
    percent-decoding of URLs and non-ASCII strings.  The login form's
    failure count is a natural number: a stored count that [parseInt]
    reads as [NaN] or as a negative number is left out of the state
    rather than stored.  Prices are exact
    tenths of a dollar rather than floating-point numbers.  JSON numbers
    with a fraction or an exponent and JSON arrays are outside
    [Json.JSON_parse] (it answers [None] for them).  [Date.parse] and
    [toISOString] are parameters of the login screen; the one property
    of them a theorem assumes is that [Date.parse] reads back what
    [toISOString] writes (C23).

    ** Modelling conventions

    - Asynchronous code is written in [prog W A := W -> option A * W]:
      [None] means the fuel ran out before the promise settled; the
      world records the requests sent, the navigations and the
      application state.
    - A thrown value is the JavaScript object it denotes ([ApiError],
      [Error], [TypeError]), so the code's property tests on errors are
      modelled as written.  A property read without [?.] is
      [JsValue.dot], which throws the [TypeError] on [null] and
      [undefined]; a hook's [onSuccess] returns [inl tt] or throws
      [inr e], and [Mutations.execute] passes what it throws to the
      hook's [onError] and rejects, as react-query's [Mutation.execute]
      does.
    - The browser's constraint validation of a form ([required],
      [type="email"]) runs before its [submit] event: the sign-up form's
      [SignUpPage.form_submit] calls [onSubmit] only when it passes. *)

From stdpp Require Export base strings list gmap option pretty.
From Stdlib Require Export ZArith Ascii String.

Open Scope string_scope.

(** stdpp makes [String.append] opaque to [simpl]; the string code of
    this development computes with it. *)
Arguments String.append : simpl nomatch.

(** ** The program monad: state passing with an out-of-fuel outcome *)

Definition prog (W A : Type) : Type := W -> option A * W.

Definition pret {W A} (a : A) : prog W A := fun w => (Some a, w).

Definition pbind {W A B} (c : prog W A) (k : A -> prog W B) : prog W B :=
  fun w =>
    match c w with
    | (Some a, w') => k a w'
    | (None, w') => (None, w')
    end.

(** Out of fuel: the computation has not settled. *)
Definition pstuck {W A} : prog W A := fun w => (None, w).

(** Read a component of the state. *)
Definition pgets {W A} (f : W -> A) : prog W A := fun w => (Some (f w), w).

Declare Scope prog_scope.
Delimit Scope prog_scope with prog.
Notation "'let!' x := c 'in' k" := (pbind c (fun x => k))
  (at level 10, x name, c at level 100, k at level 200,
   format "'[v' 'let!'  x  :=  c  'in' '/' k ']'") : prog_scope.
Open Scope prog_scope.

Create HintDb web discriminated.
Create Rewrite HintDb web_rw.

Section ProgLaws.
Context {W A B C : Type}.

Lemma pbind_pret_l (a : A) (k : A -> prog W B) w :
  pbind (pret a) k w = k a w.
Proof. reflexivity. Qed.

Lemma pbind_pret_r (c : prog W A) w : pbind c pret w = c w.
Proof. unfold pbind, pret. by destruct (c w) as [[a|] w']. Qed.

Lemma pbind_assoc (c : prog W A) (f : A -> prog W B) (g : B -> prog W C) w :
  pbind (pbind c f) g w = pbind c (fun a => pbind (f a) g) w.
Proof. unfold pbind. by destruct (c w) as [[a|] w']. Qed.

(** A computation that runs out of fuel makes its continuation unreachable. *)
Lemma pbind_stuck (c : prog W A) (k : A -> prog W B) w w' :
  c w = (None, w') -> pbind c k w = (None, w').
Proof. unfold pbind. by intros ->. Qed.

Lemma pbind_some (c : prog W A) (k : A -> prog W B) w a w' :
  c w = (Some a, w') -> pbind c k w = k a w'.
Proof. unfold pbind. by intros ->. Qed.
Lemma pbind_fst_none (c : prog W A) (k : A -> prog W B) w :
  fst (c w) = None -> fst (pbind c k w) = None.
Proof. unfold pbind. by destruct (c w) as [[a|] w']. Qed.
End ProgLaws.

#[export] Hint Rewrite @pbind_pret_l @pbind_assoc : web_rw.

(** ** JavaScript truthiness *)

(** [!!s] for a string or [undefined]. *)
Definition str_truthy (s : option string) : bool :=
  match s with
  | Some v => negb (String.eqb v "")
  | None => false
  end.

(** ** Boolean list quantifiers *)

Lemma existsb_impl {A} (p q : A -> bool) (l : list A) :
  (forall x, p x = true -> q x = true) -> existsb p l = true -> existsb q l = true.
Proof. intros Hpq (x & Hin & Hx)%existsb_exists. apply existsb_exists. eauto. Qed.

Lemma forallb_impl {A} (p q : A -> bool) (l : list A) :
  (forall x, p x = true -> q x = true) -> forallb p l = true -> forallb q l = true.
Proof. intros Hpq Hl. apply forallb_forall. intros x Hx. by apply Hpq, (proj1 (forallb_forall p l) Hl). Qed.

(** ** Shared tactics *)

(** Decide a property of one character by its 256 values. *)
Ltac ascii_cases c := destruct c as [[] [] [] [] [] [] [] []]; vm_compute; try done.

(** Invert a settled sequence [pbind c k w = (Some _, _)]: [c] settled. *)
Ltac pbind_inv H :=
  match type of H with
  | pbind ?c ?k ?w = (Some _, _) =>
      let a := fresh "a" in let w1 := fresh "w" in let E := fresh "E" in
      destruct (c w) as [[a|] w1] eqn:E;
      [rewrite (pbind_some c k w a w1 E) in H
      |rewrite (pbind_stuck c k w w1 E) in H; discriminate]
  end.

