(* ===== verification/RouteGuard.v ===== *)
(** * The route guard: [src/src/middleware.ts]

    Module [Cookie] models the [cookie] package's [parse] (version 1.x:
    the header is cut at [;], a segment without [=] is skipped, key and
    value are trimmed of spaces and tabs, the first occurrence of a key
    wins, a header shorter than two characters gives the empty object;
    percent-decoding is left out, it never turns a non-empty value into
    an empty one).  Module [Middleware] models [hasValidAuthToken],
    [middleware] and the [config.matcher] of the file.  Everything is
    pure: a request is the pair of its path and its [cookie] header. *)

From S2P Require Import Prelude.

Module Cookie.

(** A space (0x20) or a horizontal tab (0x09), the characters that
    [startIndex]/[endIndex] skip. *)
Definition is_ows (a : ascii) : bool :=
  Ascii.eqb a " " || Ascii.eqb a (Ascii.ascii_of_nat 9).

Fixpoint trim_start (s : string) : string :=
  match s with
  | EmptyString => EmptyString
  | String a s' => if is_ows a then trim_start s' else s
  end.

(** Drop the trailing blanks ([endIndex] scans backwards over them). *)
Fixpoint trim_end (s : string) : string :=
  match s with
  | EmptyString => EmptyString
  | String a s' =>
      let t := trim_end s' in
      if String.eqb t "" && is_ows a then EmptyString else String a t
  end.

Definition trim (s : string) : string := trim_end (trim_start s).

(** The segments between the [;] separators, in order. *)
Fixpoint split_on (c : ascii) (s : string) : list string :=
  match s with
  | EmptyString => [EmptyString]
  | String a s' =>
      if Ascii.eqb a c then EmptyString :: split_on c s'
      else match split_on c s' with
           | seg :: rest => String a seg :: rest
           | [] => [String a EmptyString]
           end
  end.

(** Cut a segment at its first [=] ([str.indexOf("=", index)]). *)
Fixpoint break_at (c : ascii) (s : string) : option (string * string) :=
  match s with
  | EmptyString => None
  | String a s' =>
      if Ascii.eqb a c then Some (EmptyString, s')
      else match break_at c s' with
           | Some (k, v) => Some (String a k, v)
           | None => None
           end
  end.

(** One iteration of the parse loop: [if (obj[key] === undefined)
    obj[key] = dec(value)]. *)
Definition add_pair (obj : gmap string string) (seg : string) : gmap string string :=
  match break_at "=" seg with
  | None => obj
  | Some (k, v) =>
      let key := trim k in
      match obj !! key with
      | Some _ => obj
      | None => <[key := trim v]> obj
      end
  end.

Definition parse (str : string) : gmap string string :=
  if Nat.ltb (String.length str) 2 then ∅
  else foldl add_pair ∅ (split_on ";" str).

(** ** Serialising a list of pairs, and the first value of a key *)

Definition seg (kv : string * string) : string := kv.1 +:+ "=" +:+ kv.2.

(** A [Cookie] request header as a browser sends it. *)
Definition serialize (kvs : list (string * string)) : string :=
  String.concat "; " (map seg kvs).

Fixpoint first_value (k : string) (kvs : list (string * string)) : option string :=
  match kvs with
  | [] => None
  | (k', v) :: rest => if String.eqb k k' then Some v else first_value k rest
  end.

Fixpoint has_char (c : ascii) (s : string) : bool :=
  match s with
  | EmptyString => false
  | String a s' => Ascii.eqb a c || has_char c s'
  end.

(** Unchanged by trimming: no leading or trailing space or tab. *)
Definition trimmed (s : string) : bool := String.eqb (trim s) s.

(** The pairs a server sets: a non-empty key without [;] or [=], a
    value without [;], neither padded with blanks. *)
Definition cookie_pair_ok (kv : string * string) : bool :=
  let '(k, v) := kv in
  negb (String.eqb k "") && negb (has_char ";" k) && negb (has_char "=" k)
  && trimmed k && negb (has_char ";" v) && trimmed v.

(** ** Lemmas on the string helpers *)

Lemma has_char_app c s t : has_char c (s +:+ t) = has_char c s || has_char c t.
Proof. induction s as [|a s IH]; simpl; [done|]. by rewrite IH, orb_assoc. Qed.

Lemma length_app_str s t : String.length (s +:+ t) = String.length s + String.length t.
Proof. induction s as [|a s IH]; simpl; auto. Qed.

Lemma split_on_nochar c s : has_char c s = false -> split_on c s = [s].
Proof.
  induction s as [|a s IH]; simpl; [done|].
  intros [Ha Hs]%orb_false_iff. by rewrite Ha, IH.
Qed.

Lemma split_on_app c s t :
  has_char c s = false -> split_on c (s +:+ String c t) = s :: split_on c t.
Proof.
  induction s as [|a s IH]; simpl.
  - by rewrite Ascii.eqb_refl.
  - intros [Ha Hs]%orb_false_iff. by rewrite Ha, IH.
Qed.

Lemma break_at_app c k v :
  has_char c k = false -> break_at c (k +:+ String c v) = Some (k, v).
Proof.
  induction k as [|a k IH]; simpl.
  - by rewrite Ascii.eqb_refl.
  - intros [Ha Hk]%orb_false_iff. by rewrite Ha, IH.
Qed.

Lemma trim_blank_prefix s : trim (" " +:+ s) = trim s.
Proof. reflexivity. Qed.

Lemma seg_has_char c kv :
  has_char c (seg kv) = has_char c kv.1 || Ascii.eqb "=" c || has_char c kv.2.
Proof. destruct kv. unfold seg. simpl. rewrite has_char_app. simpl. by rewrite orb_assoc. Qed.

(** A padded segment [pad ++ k=v] adds [k := v] unless [k] is bound. *)
Lemma add_pair_seg (m : gmap string string) pad k v :
  pad = "" \/ pad = " " -> cookie_pair_ok (k, v) = true ->
  add_pair m (pad +:+ seg (k, v)) =
    match m !! k with Some _ => m | None => <[k := v]> m end.
Proof.
  intros Hpad Hok. simpl in Hok. unfold trimmed in Hok.
  repeat rewrite andb_true_iff in Hok. rewrite !negb_true_iff in Hok.
  destruct Hok as (((((_ & _) & Heq) & Hk) & _) & Hv).
  apply String.eqb_eq in Hk, Hv.
  unfold add_pair, seg; simpl.
  assert (Hb : break_at "=" (pad +:+ k +:+ String "=" v) = Some (pad +:+ k, v)).
  { destruct Hpad as [-> | ->]; cbn; [by apply break_at_app|].
    by rewrite break_at_app. }
  rewrite Hb. cbv zeta.
  replace (trim (pad +:+ k)) with k; [by rewrite Hv|].
  destruct Hpad as [-> | ->]; [done|]. by rewrite trim_blank_prefix.
Qed.

Lemma pair_ok_no_semi kv :
  cookie_pair_ok kv = true -> has_char ";" (seg kv) = false.
Proof.
  destruct kv as [k v]. intros Hok. simpl in Hok.
  repeat rewrite andb_true_iff in Hok. rewrite !negb_true_iff in Hok.
  rewrite seg_has_char. simpl. destruct Hok as (((((_ & ->) & _) & _) & ->) & _). done.
Qed.

(** The header of several pairs splits back into their segments, all
    but the first preceded by the blank of the ["; "] separator. *)
Lemma split_serialize kv rest :
  Forall (fun kv => cookie_pair_ok kv = true) (kv :: rest) ->
  split_on ";" (serialize (kv :: rest)) =
    seg kv :: map (fun kv' => " " +:+ seg kv') rest.
Proof.
  revert kv. induction rest as [|kv' rest IH]; intros kv Hall;
    inv Hall as [|? ? Hkv Hrest].
  - change (serialize [kv]) with (seg kv).
    by rewrite (split_on_nochar _ _ (pair_ok_no_semi kv Hkv)).
  - change (serialize (kv :: kv' :: rest))
      with (seg kv +:+ String ";" (String " " (serialize (kv' :: rest)))).
    rewrite split_on_app by (by apply pair_ok_no_semi).
    cbn [split_on Ascii.eqb Bool.eqb]. by rewrite IH.
Qed.

(** Folding the blank-padded segments: the first binding of a key wins. *)
Lemma foldl_add_pair_lookup (m : gmap string string) kvs x :
  Forall (fun kv => cookie_pair_ok kv = true) kvs ->
  foldl add_pair m (map (fun kv => " " +:+ seg kv) kvs) !! x =
    match m !! x with Some v => Some v | None => first_value x kvs end.
Proof.
  revert m. induction kvs as [|[k v] kvs IH]; intros m Hall; cbn [map foldl first_value].
  - by destruct (m !! x).
  - inv Hall as [|? ? Hkv Hrest].
    rewrite add_pair_seg by auto. rewrite IH by done.
    destruct (m !! k) as [v'|] eqn:Hk; destruct (String.eqb_spec x k); subst.
    + by rewrite Hk.
    + done.
    + by rewrite lookup_insert_eq, Hk.
    + by rewrite lookup_insert_ne.
Qed.

Lemma serialize_length kv rest :
  cookie_pair_ok kv = true -> 2 <= String.length (serialize (kv :: rest)).
Proof.
  destruct kv as [k v]. intros Hok. simpl in Hok.
  destruct k as [|a k]; [done|].
  assert (2 <= String.length (seg (String a k, v))).
  { unfold seg. simpl. rewrite !length_app_str. simpl. lia. }
  destruct rest as [|kv' rest]; [done|].
  change (serialize (_ :: kv' :: rest))
    with (seg (String a k, v) +:+ "; " +:+ serialize (kv' :: rest)).
  rewrite length_app_str. lia.
Qed.

(** Helper form of the property stated next. *)
Lemma parse_serialize_first kvs x :
  Forall (fun kv => cookie_pair_ok kv = true) kvs ->
  parse (serialize kvs) !! x = first_value x kvs.
Proof.
  destruct kvs as [|[k v] rest]; intros Hall; [done|].
  pose proof Hall as Hall'. inv Hall' as [|? ? Hkv Hrest].
  unfold parse. rewrite (proj2 (Nat.ltb_ge _ _)) by (by apply serialize_length).
  rewrite split_serialize by done. cbn [foldl].
  rewrite (add_pair_seg _ "" k v) by auto.
  rewrite lookup_empty, foldl_add_pair_lookup by done. simpl.
  destruct (String.eqb_spec x k); subst.
  - by rewrite lookup_insert_eq.
  - by rewrite lookup_insert_ne, lookup_empty.
Qed.

(** Parsing the header a browser sends for a list of well-formed
    pairs gives, for every key, the value of its first pair: the
    parsed cookie object is the serialised one, and a duplicated
    cookie name keeps its first value. *)
Theorem parse_serialize kvs x :
  Forall (fun kv => cookie_pair_ok kv = true) kvs ->
  parse (serialize kvs) !! x = first_value x kvs.
Proof. exact (parse_serialize_first kvs x). Qed.

End Cookie.

Module Middleware.
Import Cookie.

(** The parts of a [NextRequest] the guard reads: [request.nextUrl]'s
    [pathname] and [request.headers.get('cookie')] ([null] is [None]). *)
Record NextRequest := {
  pathname : string;
  cookie_header : option string
}.

Definition publicRoutes : list string := ["/"; "/terms"; "/privacy-policy"; "/plan"].

Definition authRoutes : list string :=
  ["/login"; "/signup"; "/forgot-password"; "/reset-password"; "/verify-email"].

(** [!!cookies['accessToken']]: presence of a non-empty value, no
    signature or expiry check. *)
Definition hasValidAuthToken (request : NextRequest) : bool :=
  let cookies := parse (default "" (cookie_header request)) in
  str_truthy (cookies !! "accessToken").

(** [NextResponse.next()] or [NextResponse.redirect(new URL(path,
    request.url))]; the redirect keeps the origin, so only the path is
    recorded. *)
Inductive NextResponse :=
| Next
| Redirect (path : string).

#[export] Instance NextResponse_eq_dec : EqDecision NextResponse.
Proof. solve_decision. Defined.

Definition isPublic (pathname : string) : bool :=
  existsb (fun route => String.eqb pathname route) publicRoutes.

Definition isAuth (pathname : string) : bool :=
  existsb (fun route => String.prefix route pathname) authRoutes.

Definition middleware (request : NextRequest) : NextResponse :=
  let isAuthenticated := hasValidAuthToken request in
  if isPublic (pathname request) then Next
  else if isAuth (pathname request) then
    (if isAuthenticated then Redirect "/dashboard" else Next)
  else if negb isAuthenticated then Redirect "/login"
  else Next.

(** *** [config.matcher]

    The pattern is [/(] then the lookahead [(?!api|_next/static|_next/image|favicon.ico)]
    then [.] repeated, then [)]:
    the middleware runs on a path that is [/] followed by a text which
    does not start with one of the four alternatives of the negative
    lookahead, [.] being any character but a line terminator there and
    in the repetition.  The match is case-sensitive, as the pattern is written. *)

(** A character of a pattern: a literal, or [.] ([None]). *)
Definition pat_char (p : option ascii) (c : ascii) : bool :=
  match p with
  | Some a => Ascii.eqb a c
  | None => negb (Ascii.eqb c (ascii_of_nat 10) || Ascii.eqb c (ascii_of_nat 13))
  end.

Fixpoint pat_prefix (p : list (option ascii)) (cs : list ascii) : bool :=
  match p, cs with
  | [], _ => true
  | a :: p', c :: cs' => pat_char a c && pat_prefix p' cs'
  | _ :: _, [] => false
  end.

Definition lit (s : string) : list (option ascii) := map Some (list_ascii_of_string s).

(** The alternatives of [(?!api|_next/static|_next/image|favicon.ico)]. *)
Definition matcher_alts : list (list (option ascii)) :=
  [lit "api"; lit "_next/static"; lit "_next/image"; (lit "favicon" ++ [None] ++ lit "ico")%list].

Definition matcher (pathname : string) : bool :=
  match list_ascii_of_string pathname with
  | c :: rest =>
      Ascii.eqb c "/" && negb (existsb (fun p => pat_prefix p rest) matcher_alts) &&
      forallb (pat_char None) rest
  | [] => false
  end.

(** What Next.js runs for a navigation: the middleware on the paths the
    matcher selects; any other path is served as it is. *)
Definition guard (request : NextRequest) : NextResponse :=
  if matcher (pathname request) then middleware request else Next.

(** ** Lemmas *)

Lemma isPublic_spec p : isPublic p = true <-> In p publicRoutes.
Proof.
  unfold isPublic. rewrite existsb_exists. split.
  - intros (r & Hr & Heq%String.eqb_eq). by subst.
  - intros Hp. exists p. by rewrite String.eqb_refl.
Qed.

Lemma isAuth_not_public p : isAuth p = true -> isPublic p = false.
Proof.
  intros Ha. destruct (isPublic p) eqn:Hp; [|done].
  apply isPublic_spec in Hp. repeat destruct Hp as [<-|Hp]; done.
Qed.

Lemma hasValidAuthToken_header r r' :
  cookie_header r = cookie_header r' -> hasValidAuthToken r = hasValidAuthToken r'.
Proof. unfold hasValidAuthToken. by intros ->. Qed.

(** C11: a public path ([/], [/terms], [/privacy-policy], [/plan], exact
    match) is let through whatever the cookie. *)
Theorem middleware_public request :
  In (pathname request) publicRoutes -> middleware request = Next.
Proof. intros Hp%isPublic_spec. unfold middleware. by rewrite Hp. Qed.

(** C12: a path that starts with an auth-only route ([/login],
    [/signup], [/forgot-password], [/reset-password], [/verify-email])
    is redirected to [/dashboard] when the access-token cookie is
    present and let through when it is absent. *)
Theorem middleware_auth_only request :
  isAuth (pathname request) = true ->
  middleware request =
    if hasValidAuthToken request then Redirect "/dashboard" else Next.
Proof.
  intros Ha. unfold middleware. by rewrite (isAuth_not_public _ Ha), Ha.
Qed.

(** C13: every other path is protected: redirected to [/login] without
    the cookie, let through with it. *)
Theorem middleware_protected request :
  isPublic (pathname request) = false -> isAuth (pathname request) = false ->
  middleware request =
    if hasValidAuthToken request then Next else Redirect "/login".
Proof.
  intros Hp Ha. unfold middleware. rewrite Hp, Ha.
  by destruct (hasValidAuthToken request).
Qed.

(** C14: the guard never redirects into a redirect: following its
    redirect with the same cookie header is let through. *)
Theorem middleware_no_redirect_loop request path :
  middleware request = Redirect path ->
  middleware {| pathname := path; cookie_header := cookie_header request |} = Next.
Proof.
  unfold middleware.
  destruct (isPublic (pathname request)); [done|].
  destruct (hasValidAuthToken request) eqn:Hv;
    destruct (isAuth (pathname request)); simpl; intros [=<-];
    unfold middleware; simpl;
    by rewrite (hasValidAuthToken_header _ request), Hv.
Qed.

(** The token test is a presence test: for a header of well-formed
    pairs the request counts as authenticated exactly when the first
    [accessToken] pair has a non-empty value, whatever that value is. *)
Lemma hasValidAuthToken_serialize p kvs :
  Forall (fun kv => cookie_pair_ok kv = true) kvs ->
  hasValidAuthToken {| pathname := p; cookie_header := Some (serialize kvs) |} =
    str_truthy (first_value "accessToken" kvs).
Proof. intros Hall. unfold hasValidAuthToken. simpl. by rewrite parse_serialize_first. Qed.

(** C15: the matcher exempts more than the API routes: every path that
    starts with [/api] ([/apikeys], [/api-docs], ...) is served without
    running the middleware, even where the middleware would send a
    visitor without a session to [/login]. *)
Theorem guard_api_prefix_unguarded suffix h :
  let r := {| pathname := "/api" +:+ suffix; cookie_header := h |} in
  guard r = Next /\
  (hasValidAuthToken r = false -> middleware r = Redirect "/login").
Proof.
  intros r. split.
  - unfold guard, matcher, r. simpl. done.
  - intros Hv. unfold middleware. rewrite Hv. unfold r. simpl.
    by destruct suffix.
Qed.

End Middleware.

(** ** Concrete requests *)

Module RouteWitnesses.
Import Cookie Middleware.

(** A path under [/api] that is no API route: [/apikeys]. *)
Lemma guard_api_prefix_unguarded_witness :
  let r := {| pathname := "/api" +:+ "keys"; cookie_header := None |} in
  guard r = Next /\ (hasValidAuthToken r = false -> middleware r = Redirect "/login").
Proof. exact (guard_api_prefix_unguarded "keys" None). Defined.

Lemma middleware_public_witness :
  middleware {| pathname := "/terms"; cookie_header := Some "accessToken=abc" |} = Next.
Proof. apply middleware_public. simpl. auto. Defined.

Lemma middleware_auth_only_witness :
  middleware {| pathname := "/login/help"; cookie_header := Some "accessToken=abc" |} =
    if hasValidAuthToken {| pathname := "/login/help"; cookie_header := Some "accessToken=abc" |}
    then Redirect "/dashboard" else Next.
Proof. apply middleware_auth_only. reflexivity. Defined.

Lemma middleware_protected_witness :
  middleware {| pathname := "/settings"; cookie_header := None |} =
    if hasValidAuthToken {| pathname := "/settings"; cookie_header := None |}
    then Next else Redirect "/login".
Proof. apply middleware_protected; reflexivity. Defined.

Lemma middleware_no_redirect_loop_witness :
  middleware {| pathname := "/login"; cookie_header := Some "theme=dark" |} = Next.
Proof.
  apply (middleware_no_redirect_loop {| pathname := "/settings"; cookie_header := Some "theme=dark" |}).
  reflexivity.
Defined.

End RouteWitnesses.
