(* ===== verification/Validation.v ===== *)
(** * Password and e-mail validation

    The yup schemas of [src/src/lib/validations/schemas.ts] and
    [src/src/lib/validations/authSchema.ts], the zod schema of
    [src/src/app/(auth)/reset-password/page.tsx] and the two checks of
    [handlePasswordSubmit] in
    [src/src/components/screens/accountSetting/page.tsx].

    A schema is the list of the messages of its failing tests, in the
    order the tests are declared; a value is accepted when the list is
    empty.  Strings are ASCII: [.min(8)] counts characters.  The regular
    expressions are written out as boolean functions: a lookahead
    [(?=.*X)] holds when a character of class [X] occurs before the first
    line terminator, as [.] does not match one. *)

From S2P Require Import Prelude.

Module Validation.
Local Open Scope list_scope.

Definition chars (s : string) : list ascii := list_ascii_of_string s.

Definition in_range (lo hi : nat) (c : ascii) : bool :=
  Nat.leb lo (nat_of_ascii c) && Nat.leb (nat_of_ascii c) hi.

(** [a-z], [A-Z], [\d] *)
Definition is_lower : ascii -> bool := in_range 97 122.
Definition is_upper : ascii -> bool := in_range 65 90.
Definition is_digit : ascii -> bool := in_range 48 57.
Definition is_alnum (c : ascii) : bool := is_lower c || is_upper c || is_digit c.

(** A character class written as the string of its members. *)
Definition in_class (cls : string) (c : ascii) : bool := existsb (Ascii.eqb c) (chars cls).

(** [[@$!%*?&]] *)
Definition is_yup_special : ascii -> bool := in_class "@$!%*?&".

(** [[\W_]]: neither a letter nor a digit. *)
Definition is_non_alnum (c : ascii) : bool := negb (is_alnum c).

(** The line terminators [.] does not match ([\n], [\r]). *)
Definition is_line_terminator (c : ascii) : bool :=
  Ascii.eqb c (ascii_of_nat 10) || Ascii.eqb c (ascii_of_nat 13).

Fixpoint first_line (cs : list ascii) : list ascii :=
  match cs with
  | [] => []
  | c :: rest => if is_line_terminator c then [] else c :: first_line rest
  end.

(** [(?=.*[X])] at the start of the input. *)
Definition lookahead (p : ascii -> bool) (cs : list ascii) : bool := existsb p (first_line cs).

(** ** [passwordSchema] *)

Definition yup_allowed (c : ascii) : bool :=
  is_upper c || is_lower c || is_digit c || is_yup_special c.

(** [/^(?=.*[a-z])(?=.*[A-Z])(?=.*\d)(?=.*[@$!%*?&])[A-Za-z\d@$!%*?&]{8,}$/] *)
Definition password_regex (s : string) : bool :=
  let cs := chars s in
  lookahead is_lower cs && lookahead is_upper cs && lookahead is_digit cs &&
  lookahead is_yup_special cs && forallb yup_allowed cs && Nat.leb 8 (List.length cs).

Definition password_min_msg := "Password must be at least 8 characters".
Definition password_matches_msg :=
  "Password must contain at least one uppercase letter, one lowercase letter, one number, and one special character".
Definition password_required_msg := "Password is required".

(** [Yup.string().min(8).matches(re).required()]: [min] and [matches]
    also test the empty string. *)
Definition passwordSchema (v : string) : list string :=
  (if Nat.ltb (String.length v) 8 then [password_min_msg] else []) ++
  (if password_regex v then [] else [password_matches_msg]) ++
  (if String.eqb v "" then [password_required_msg] else []).

(** ** [emailSchema] *)

(** yup's [rEmail]:
    [/^[a-zA-Z0-9.!#$%&'*+\/=?^_`{|}~-]+@[a-zA-Z0-9](?:[a-zA-Z0-9-]{0,61}[a-zA-Z0-9])?(?:\.[a-zA-Z0-9](?:[a-zA-Z0-9-]{0,61}[a-zA-Z0-9])?)*$/] *)
Definition is_local_char (c : ascii) : bool := is_alnum c || in_class ".!#$%&'*+/=?^_`{|}~-" c.

Definition label_ok (l : list ascii) : bool :=
  match l with
  | [] => false
  | c :: _ =>
      is_alnum c && is_alnum (List.last l c) &&
      forallb (fun x => is_alnum x || Ascii.eqb x "-") l && Nat.leb (List.length l) 63
  end.

Fixpoint split_at (sep : ascii) (cs : list ascii) : list (list ascii) :=
  match cs with
  | [] => [[]]
  | c :: rest =>
      if Ascii.eqb c sep then [] :: split_at sep rest
      else match split_at sep rest with
           | l :: ls => (c :: l) :: ls
           | [] => [[c]]
           end
  end.

Fixpoint break_first (sep : ascii) (cs : list ascii) : option (list ascii * list ascii) :=
  match cs with
  | [] => None
  | c :: rest =>
      if Ascii.eqb c sep then Some ([], rest)
      else option_map (fun p => (c :: p.1, p.2)) (break_first sep rest)
  end.

Definition email_regex (s : string) : bool :=
  match break_first "@" (chars s) with
  | Some (local, domain) =>
      negb (bool_decide (local = [])) && forallb is_local_char local &&
      forallb label_ok (split_at "." domain)
  | None => false
  end.

(** [Yup.string().email().required()]: [email] skips the empty string. *)
Definition emailSchema (v : string) : list string :=
  (if String.eqb v "" || email_regex v then [] else ["Invalid email address"]) ++
  (if String.eqb v "" then ["Email is required"] else []).

(** ** The object schemas of [authSchema.ts] *)

Record SignupValues := {
  sv_email : string;
  sv_password : string;
  sv_confirmPassword : string;
  sv_name : string;
  sv_companyName : string;
  sv_acceptTerms : bool
}.

Definition signupSchema (v : SignupValues) : list string :=
  emailSchema (sv_email v) ++ passwordSchema (sv_password v) ++
  (if String.eqb (sv_confirmPassword v) (sv_password v) then [] else ["Passwords must match"]) ++
  (if String.eqb (sv_confirmPassword v) "" then ["Confirm password is required"] else []) ++
  (if Nat.ltb (String.length (sv_name v)) 2 then ["Name must be at least 2 characters"] else []) ++
  (if Nat.ltb 50 (String.length (sv_name v)) then ["Name must not exceed 50 characters"] else []) ++
  (if String.eqb (sv_name v) "" then ["Name is required"] else []) ++
  (if String.eqb (sv_companyName v) "" then ["Company name is required"] else []) ++
  (if sv_acceptTerms v then [] else ["You must accept the Terms and Privacy Policy"]).

Definition loginSchema (email password : string) : list string :=
  emailSchema email ++ passwordSchema password.

Definition forgotPasswordSchema (email : string) : list string := emailSchema email.

Definition resetPasswordSchema (newPassword confirmPassword : string) : list string :=
  passwordSchema newPassword ++
  (if String.eqb confirmPassword newPassword then [] else ["Passwords must match"]) ++
  (if String.eqb confirmPassword "" then ["Confirm password is required"] else []).

Definition valid (errors : list string) : bool := bool_decide (errors = []).

(** ** The zod schema of the reset-password page *)

(** [/^(?=.*[a-z])(?=.*[A-Z])(?=.*\d)(?=.*[\W_]).{8,}$/] *)
Definition zod_password_regex (s : string) : bool :=
  let cs := chars s in
  lookahead is_lower cs && lookahead is_upper cs && lookahead is_digit cs &&
  lookahead is_non_alnum cs && forallb (fun c => negb (is_line_terminator c)) cs &&
  Nat.leb 8 (List.length cs).

Definition zodResetSchema (password confirmPassword : string) : list string :=
  (if Nat.ltb (String.length password) 8 then ["At least 8 characters"] else []) ++
  (if zod_password_regex password then []
   else ["Must include uppercase, lowercase, number & special char"]) ++
  (if String.eqb password confirmPassword then [] else ["Passwords do not match"]).

(** ** The checks of [handlePasswordSubmit] *)

Definition settings_password_check (newPassword confirmPassword : string) : option string :=
  if negb (String.eqb newPassword confirmPassword) then
    Some "Passwords don't match. Please try again."
  else if Nat.ltb (String.length newPassword) 8 then
    Some "Password must be at least 8 characters long."
  else None.

(** ** Lemmas *)

Lemma length_chars s : List.length (chars s) = String.length s.
Proof. induction s; simpl; by f_equal. Qed.

Lemma first_line_id cs :
  forallb (fun c => negb (is_line_terminator c)) cs = true -> first_line cs = cs.
Proof.
  induction cs as [|c cs IH]; simpl; [done|].
  intros [Hc Hcs]%andb_prop. destruct (is_line_terminator c); [done|]. by rewrite IH.
Qed.

Lemma yup_allowed_not_lt c : yup_allowed c = true -> negb (is_line_terminator c) = true.
Proof. ascii_cases c. Qed.

Lemma yup_special_non_alnum c : is_yup_special c = true -> is_non_alnum c = true.
Proof. ascii_cases c. Qed.

Lemma valid_app l1 l2 : valid (l1 ++ l2) = valid l1 && valid l2.
Proof.
  unfold valid. destruct l1 as [|x l1]; [done|].
  rewrite (bool_decide_eq_false_2 ((x :: l1) ++ l2 = [])) by done.
  by rewrite bool_decide_eq_false_2.
Qed.

Lemma valid_if (b : bool) (m : string) : valid (if b then [m] else []) = negb b.
Proof. by destruct b. Qed.

Lemma valid_if_not (b : bool) (m : string) : valid (if b then [] else [m]) = b.
Proof. by destruct b. Qed.

#[export] Hint Rewrite valid_app valid_if valid_if_not : web_rw.

Lemma existsb_In_iff (p : ascii -> bool) cs : existsb p cs = true <-> exists c, In c cs /\ p c = true.
Proof. apply existsb_exists. Qed.

(** An accepted password has the regex's shape and at least 8 characters. *)
Lemma passwordSchema_valid p :
  valid (passwordSchema p) = true <-> password_regex p = true /\ 8 <= String.length p.
Proof.
  unfold passwordSchema. autorewrite with web_rw.
  destruct (password_regex p), (String.eqb_spec p ""), (Nat.ltb_spec (String.length p) 8);
    subst; simpl in *; intuition (try lia; try congruence).
Qed.

Lemma zod_settings p c :
  valid (zodResetSchema p c) = true -> settings_password_check p c = None.
Proof.
  unfold zodResetSchema, settings_password_check. autorewrite with web_rw.
  destruct (Nat.ltb_spec (String.length p) 8), (String.eqb_spec p c); simpl; try done.
  by rewrite andb_false_r.
Qed.

(** The [passwordSchema] regular expression accepts exactly the
    strings of at least eight characters, each a letter, a digit or one
    of [@$!%*?&], among which a lower-case letter, an upper-case letter,
    a digit and one of [@$!%*?&] occur. *)
Theorem password_regex_spec s :
  password_regex s = true <->
  8 <= String.length s /\ Forall (fun c => yup_allowed c = true) (chars s) /\
  (exists c, In c (chars s) /\ is_lower c = true) /\
  (exists c, In c (chars s) /\ is_upper c = true) /\
  (exists c, In c (chars s) /\ is_digit c = true) /\
  (exists c, In c (chars s) /\ is_yup_special c = true).
Proof.
  unfold password_regex, lookahead. rewrite Forall_forall, <-length_chars.
  destruct (forallb yup_allowed (chars s)) eqn:Hall.
  - rewrite first_line_id by (exact (forallb_impl _ _ _ yup_allowed_not_lt Hall)).
    rewrite !andb_true_r, !andb_true_iff, !existsb_In_iff, Nat.leb_le.
    pose proof (proj1 (forallb_forall _ _) Hall) as H.
    assert (forall x, x ∈ chars s -> yup_allowed x = true) by (intros x Hx%list_elem_of_In; auto).
    tauto.
  - rewrite !andb_false_r, andb_false_l. split; [done|].
    intros (_ & Hf & _). rewrite <-not_true_iff_false in Hall. exfalso. apply Hall.
    apply forallb_forall. intros x Hx%list_elem_of_In. auto.
Qed.

(** The password policies are nested: a password [passwordSchema]
    accepts, confirmed, passes the zod schema of the reset-password page,
    and whatever that schema accepts passes the account-settings checks. *)
Theorem password_policies_nested p c :
  valid (passwordSchema p) = true -> String.eqb p c = true ->
  valid (zodResetSchema p c) = true /\ settings_password_check p c = None.
Proof.
  intros [Hre Hlen]%passwordSchema_valid Hpc%String.eqb_eq. subst c.
  assert (Hz : valid (zodResetSchema p p) = true).
  { unfold zodResetSchema, zod_password_regex, lookahead. autorewrite with web_rw.
    rewrite String.eqb_refl. unfold password_regex, lookahead in Hre.
    apply andb_prop in Hre as [Hre Hl8]. apply andb_prop in Hre as [Hre Hall].
    apply andb_prop in Hre as [Hre Hsp]. apply andb_prop in Hre as [Hre Hdg].
    apply andb_prop in Hre as [Hlo Hup].
    rewrite Hlo, Hup, Hdg, Hl8, (forallb_impl _ _ _ yup_allowed_not_lt Hall).
    rewrite (existsb_impl _ _ _ yup_special_non_alnum Hsp).
    destruct (Nat.ltb_spec (String.length p) 8); [lia|done]. }
  split; [done|]. by apply zod_settings.
Qed.

(** The nesting is strict: the reset-password page accepts
    [Abcdefg1#], which [passwordSchema] rejects ([#] is not one of its
    special characters), and the account settings accept [abcdefgh],
    which both reset schemas reject. *)
Remark password_policies_differ :
  valid (zodResetSchema "Abcdefg1#" "Abcdefg1#") = true /\
  valid (passwordSchema "Abcdefg1#") = false /\
  settings_password_check "abcdefgh" "abcdefgh" = None /\
  valid (zodResetSchema "abcdefgh" "abcdefgh") = false /\
  valid (resetPasswordSchema "abcdefgh" "abcdefgh") = false.
Proof. vm_compute. repeat split. Qed.

End Validation.
