(* ===== verification/JsValue.v ===== *)
(** * JavaScript values and objects

    The values the code passes around untyped: response bodies
    ([error.response?.data]), the envelope [{success, data, message,
    errorCode}] and the session object of the store.  An object is the
    list of its own properties in insertion order; property read with
    optional chaining is [get], assignment is [set_prop], the object
    spread [{...a, ...b}] is [spread].  Two objects are equivalent when
    every key reads the same ([obj_equiv]); [set_prop] and [spread] are
    [Proper] for it.  Numbers are integers (status codes), arrays and
    [NaN] are not modelled. *)

From S2P Require Import Prelude.

Inductive jsval :=
| JUndef
| JNull
| JBool (b : bool)
| JNum (n : Z)
| JStr (s : string)
| JObj (props : list (string * jsval)).

Definition props := list (string * jsval).

(** JavaScript truthiness ([!!v]). *)
Definition truthy (v : jsval) : bool :=
  match v with
  | JUndef | JNull => false
  | JBool b => b
  | JNum n => negb (Z.eqb n 0)
  | JStr s => negb (String.eqb s "")
  | JObj _ => true
  end.

(** [a || b] *)
Definition js_or (a b : jsval) : jsval := if truthy a then a else b.

(** [v === "s"] *)
Definition is_str (v : jsval) (s : string) : bool :=
  match v with
  | JStr t => String.eqb t s
  | _ => false
  end.

Fixpoint lookup_prop (k : string) (ps : props) : option jsval :=
  match ps with
  | [] => None
  | (k', x) :: rest => if String.eqb k k' then Some x else lookup_prop k rest
  end.

(** [v?.k]: [undefined] on [undefined], [null], primitives and missing keys. *)
Definition get (v : jsval) (k : string) : jsval :=
  match v with
  | JObj ps => default JUndef (lookup_prop k ps)
  | _ => JUndef
  end.

(** [o.k = x]: overwrite in place, or append a new key at the end. *)
Fixpoint set_prop (k : string) (x : jsval) (ps : props) : props :=
  match ps with
  | [] => [(k, x)]
  | (k', y) :: rest =>
      if String.eqb k k' then (k', x) :: rest else (k', y) :: set_prop k x rest
  end.

(** [{...base, ...src}]: the own properties of [src], in order, assigned
    over [base]; spreading [null] or [undefined] adds nothing. *)
Definition spread (base : props) (src : jsval) : props :=
  match src with
  | JObj ps => fold_left (fun acc kx => set_prop kx.1 kx.2 acc) ps base
  | _ => base
  end.

(** [String(v)] *)
Definition js_string (v : jsval) : string :=
  match v with
  | JUndef => "undefined"
  | JNull => "null"
  | JBool b => if b then "true" else "false"
  | JNum n => pretty n
  | JStr s => s
  | JObj _ => "[object Object]"
  end.

(** [a ?? b] *)
Definition js_coalesce (a b : jsval) : jsval :=
  match a with JUndef | JNull => b | _ => a end.

(** The [TypeError] thrown by [v.k] without optional chaining when [v] is
    [null] or [undefined]. *)
Definition type_error (k : string) (v : jsval) : jsval :=
  JObj [("message", JStr ("Cannot read properties of " +:+
    match v with JNull => "null" | _ => "undefined" end +:+ " (reading '" +:+ k +:+ "')"))].

(** [v == null] *)
Definition nullish (v : jsval) : bool :=
  match v with JUndef | JNull => true | _ => false end.

(** [v.k] without optional chaining: the property, or the [TypeError]
    thrown when [v] is [null] or [undefined]. *)
Definition dot (v : jsval) (k : string) : jsval + jsval :=
  if nullish v then inr (type_error k v) else inl (get v k).

(** Objects built by literals and [JSON.parse] have distinct keys. *)
Definition keys_nodup (ps : props) : Prop := NoDup (map fst ps).

Definition obj_equiv (ps qs : props) : Prop :=
  forall k, lookup_prop k ps = lookup_prop k qs.

(** ** Laws of property access *)

Lemma truthy_not_nullish v : truthy v = true -> nullish v = false.
Proof. by destruct v. Qed.

(** A value with a truthy property is an object. *)
Lemma get_truthy_not_nullish v k : truthy (get v k) = true -> nullish v = false.
Proof. by destruct v. Qed.

(** A value with a property that is neither [null] nor [undefined] is an object. *)
Lemma get_not_nullish v k : nullish (get v k) = false -> nullish v = false.
Proof. by destruct v. Qed.

(** Reading a property of a value that is not [null] or [undefined]
    does not throw. *)
Lemma dot_get v k : nullish v = false -> dot v k = inl (get v k).
Proof. unfold dot. by intros ->. Qed.

Lemma lookup_set_prop_eq k x ps : lookup_prop k (set_prop k x ps) = Some x.
Proof.
  induction ps as [|[k' y] ps IH]; simpl; [by rewrite String.eqb_refl|].
  destruct (String.eqb_spec k k'); simpl.
  - subst. by rewrite String.eqb_refl.
  - by apply String.eqb_neq in n as ->.
Qed.

Lemma lookup_set_prop_ne k k' x ps :
  k <> k' -> lookup_prop k' (set_prop k x ps) = lookup_prop k' ps.
Proof.
  intros Hne. induction ps as [|[j y] ps IH]; simpl.
  - destruct (String.eqb_spec k' k); congruence.
  - destruct (String.eqb_spec k j); simpl; subst.
    + destruct (String.eqb_spec k' j); congruence.
    + by rewrite IH.
Qed.

Lemma lookup_set_prop k k' x ps :
  lookup_prop k' (set_prop k x ps) = if String.eqb k' k then Some x else lookup_prop k' ps.
Proof.
  destruct (String.eqb_spec k' k).
  - subst. apply lookup_set_prop_eq.
  - apply lookup_set_prop_ne. congruence.
Qed.

#[export] Hint Rewrite lookup_set_prop_eq lookup_set_prop : web_rw.

(** Spreading an object with distinct keys: a key of [src] reads from
    [src], any other key from [base]. *)
Lemma lookup_spread k base ps :
  keys_nodup ps ->
  lookup_prop k (spread base (JObj ps)) =
    match lookup_prop k ps with Some x => Some x | None => lookup_prop k base end.
Proof.
  unfold keys_nodup. simpl. revert base.
  induction ps as [|[j y] ps IH]; intros base Hnd; simpl; [done|].
  inversion Hnd as [|? ? Hj Hnd']; subst.
  rewrite IH by done. rewrite lookup_set_prop.
  destruct (String.eqb_spec k j); subst; [|done].
  destruct (lookup_prop j ps) eqn:Hl; [|done].
  exfalso. apply Hj. clear -Hl. induction ps as [|[i z] ps IH]; simpl in *; [done|].
  destruct (String.eqb_spec j i); subst; [by left|right; auto].
Qed.

(** Induction on values through the properties of objects (the
    nested-inductive principle [jsval_ind] does not give). *)
Lemma jsval_ind' (P : jsval -> Prop)
    (HU : P JUndef) (HN : P JNull) (HB : forall b, P (JBool b)) (HNum : forall n, P (JNum n))
    (HS : forall s, P (JStr s)) (HO : forall ps, Forall (fun kx => P kx.2) ps -> P (JObj ps)) :
  forall v, P v.
Proof.
  fix IH 1. intros [| | b | n | s | ps]; [exact HU|exact HN|apply HB|apply HNum|apply HS|].
  apply HO. revert ps. fix IHl 1. intros [|[k x] ps]; constructor; [apply IH|apply IHl].
Qed.

(** Assigning a key the object does not have appends it. *)
Lemma set_prop_fresh k x ps : k ∉ map fst ps -> set_prop k x ps = (ps ++ [(k, x)])%list.
Proof.
  induction ps as [|[k' y] ps IH]; intros Hk; [done|]. simpl in *.
  rewrite not_elem_of_cons in Hk. destruct Hk as [Hne Hk].
  destruct (String.eqb_spec k k') as [->|]; [done|]. by rewrite IH.
Qed.

(** ** The observational equivalence of objects *)

#[export] Instance obj_equiv_equivalence : Equivalence obj_equiv.
Proof.
  split; unfold obj_equiv.
  - done.
  - intros ps qs H k. by rewrite H.
  - intros ps qs rs H1 H2 k. by rewrite H1, H2.
Qed.

#[export] Instance lookup_prop_proper k : Proper (obj_equiv ==> eq) (lookup_prop k).
Proof. intros ps qs H. apply H. Qed.

#[export] Instance set_prop_proper k x : Proper (obj_equiv ==> obj_equiv) (set_prop k x).
Proof. intros ps qs H k'. rewrite !lookup_set_prop. by rewrite H. Qed.

#[export] Instance spread_proper : Proper (obj_equiv ==> eq ==> obj_equiv) spread.
Proof.
  intros ps qs H src ? <-. destruct src as [| | | | |rs]; simpl; try done.
  revert ps qs H. induction rs as [|[j y] rs IH]; intros ps qs H; simpl; [done|].
  apply IH. by rewrite H.
Qed.
