(* ===== verification/Json.v ===== *)
(** * JSON text: [JSON.stringify] and [JSON.parse]

    The code writes JSON text in two places, and reads it back in one:
    - [LoginForm.tsx] stores [JSON.stringify({ lockoutEndTime })] under
      [account_lockout] and reads it back with [JSON.parse] when it mounts;
    - [app/(root)/profile/page.tsx] renders [JSON.stringify(user)].
    These are ECMAScript built-ins, not code of the repository.  This file
    gives them as ECMA-262 defines them (SerializeJSONProperty and
    QuoteJSONString for [stringify]; the JSON grammar of RFC 8259 for
    [parse]), on the values of [JsValue.jsval].

    The model's numbers are integers: [stringify] writes one as its
    decimal digits, which is what [Number.prototype.toString] gives below
    [1e21].  [parse] reads an integer; a number with a fraction or an
    exponent, an array and a [\u] escape above [ÿ] are JSON the
    model does not follow: [JSON_parse] then answers [None] instead of
    a value or a [SyntaxError].  [parse_value] runs on fuel; the fuel
    [JSON_parse] gives it, one more than the length of the text, never
    runs out ([parse_value_fuel]). *)

From S2P Require Import Prelude JsValue.

Module Json.
Local Open Scope nat_scope.

(** ** [JSON.stringify] *)

Definition qchar : ascii := ascii_of_nat 34.
Definition bslash : ascii := ascii_of_nat 92.

(** The lower-case hexadecimal digit of [n < 16]. *)
Definition hex_digit (n : nat) : ascii := ascii_of_nat (if n <? 10 then 48 + n else 87 + n).

(** QuoteJSONString on one code unit: the quote and the backslash are
    escaped, the control characters by their short escape or [\u00XX],
    every other code unit is written as it is. *)
Definition escape_char (c : ascii) : string :=
  let n := nat_of_ascii c in
  if n =? 34 then String bslash (String qchar EmptyString)
  else if n =? 92 then String bslash (String bslash EmptyString)
  else if n =? 8 then String bslash "b"
  else if n =? 12 then String bslash "f"
  else if n =? 10 then String bslash "n"
  else if n =? 13 then String bslash "r"
  else if n =? 9 then String bslash "t"
  else if n <? 32 then
    String bslash ("u00" +:+ String (hex_digit (n / 16)) (String (hex_digit (n mod 16)) EmptyString))
  else String c EmptyString.

Fixpoint quote_body (s : string) : string :=
  match s with
  | EmptyString => EmptyString
  | String c s' => escape_char c +:+ quote_body s'
  end.

(** QuoteJSONString *)
Definition quote (s : string) : string := String qchar (quote_body s +:+ String qchar EmptyString).

(** SerializeJSONObject without indentation, given the serialization
    [str] of the values: ["key":text] for each property whose value has
    a text, in order. *)
Definition members_with (str : jsval -> option string) : props -> list string :=
  fix members (ps : props) : list string :=
    match ps with
    | [] => []
    | (k, x) :: rest =>
        match str x with
        | Some t => (quote k +:+ ":" +:+ t) :: members rest
        | None => members rest
        end
    end.

(** SerializeJSONProperty: [undefined] has no text
    ([JSON.stringify(undefined)] is [undefined]), and a property whose
    value has none is left out of its object. *)
Fixpoint stringify (v : jsval) : option string :=
  match v with
  | JUndef => None
  | JNull => Some "null"
  | JBool b => Some (if b then "true" else "false")
  | JNum n => Some (pretty n)
  | JStr s => Some (quote s)
  | JObj ps => Some ("{" +:+ String.concat "," (members_with stringify ps) +:+ "}")
  end.

(** [JSON.stringify(v)] as a JavaScript value. *)
Definition JSON_stringify (v : jsval) : jsval :=
  match stringify v with Some t => JStr t | None => JUndef end.

(** ** [JSON.parse] *)

(** Why a parse stops: the text is not JSON; it is JSON the model does
    not follow; the fuel ran out. *)
Inductive perr := PSyntax | POutside | PFuel.

(** A parse of an [A]: the value and the text after it, or why it failed. *)
Definition presult (A : Type) : Type := ((A * string) + perr)%type.

Definition is_ws (c : ascii) : bool :=
  let n := nat_of_ascii c in (n =? 32) || (n =? 9) || (n =? 10) || (n =? 13).

Fixpoint skip_ws (s : string) : string :=
  match s with
  | String c s' => if is_ws c then skip_ws s' else s
  | EmptyString => EmptyString
  end.

Definition digit_value (c : ascii) : option N :=
  let n := nat_of_ascii c in
  if (48 <=? n) && (n <=? 57) then Some (N.of_nat (n - 48)) else None.

Definition hex_value (c : ascii) : option nat :=
  let n := nat_of_ascii c in
  if (48 <=? n) && (n <=? 57) then Some (n - 48)
  else if (97 <=? n) && (n <=? 102) then Some (n - 87)
  else if (65 <=? n) && (n <=? 70) then Some (n - 55)
  else None.

(** The longest run of digits, added to [acc]. *)
Fixpoint read_digits (acc : N) (s : string) : N * string :=
  match s with
  | String c s' =>
      match digit_value c with
      | Some d => read_digits (acc * 10 + d)%N s'
      | None => (acc, s)
      end
  | EmptyString => (acc, EmptyString)
  end.

Definition starts_digit (s : string) : bool :=
  match s with String c _ => bool_decide (is_Some (digit_value c)) | EmptyString => false end.

(** After the integer part: a fraction or an exponent, well formed, is
    a number the model does not follow; a dot or an [e] without digits
    is a syntax error. *)
Definition number_end (n : N) (s : string) : presult N :=
  match s with
  | String c s' =>
      if Ascii.eqb c "." then (if starts_digit s' then inr POutside else inr PSyntax)
      else if Ascii.eqb c "e" || Ascii.eqb c "E" then
        let s'' := match s' with
                   | String c' s'' => if Ascii.eqb c' "+" || Ascii.eqb c' "-" then s'' else s'
                   | EmptyString => s'
                   end in
        if starts_digit s'' then inr POutside else inr PSyntax
      else inl (n, s)
  | EmptyString => inl (n, s)
  end.

(** The integer part: [0], or a digit from 1 to 9 and more digits. *)
Definition parse_nat (s : string) : presult N :=
  match s with
  | String c s' =>
      match digit_value c with
      | Some 0%N => number_end 0 s'
      | Some d => let '(n, r) := read_digits d s' in number_end n r
      | None => inr PSyntax
      end
  | EmptyString => inr PSyntax
  end.

(** The short escapes: a backslash and one of the quote, the backslash, [/], [b], [f], [n], [r], [t]. *)
Definition unescape (e : ascii) : option ascii :=
  let n := nat_of_ascii e in
  if n =? 34 then Some qchar
  else if n =? 92 then Some bslash
  else if n =? 47 then Some "/"%char
  else if n =? 98 then Some (ascii_of_nat 8)
  else if n =? 102 then Some (ascii_of_nat 12)
  else if n =? 110 then Some (ascii_of_nat 10)
  else if n =? 114 then Some (ascii_of_nat 13)
  else if n =? 116 then Some (ascii_of_nat 9)
  else None.

Definition hex4 (a b c d : ascii) : option nat :=
  match hex_value a, hex_value b, hex_value c, hex_value d with
  | Some a, Some b, Some c, Some d => Some (((a * 16 + b) * 16 + c) * 16 + d)
  | _, _, _, _ => None
  end.

Definition cons_char (c : ascii) (r : presult string) : presult string :=
  match r with
  | inl (t, rest) => inl (String c t, rest)
  | inr e => inr e
  end.

(** The characters of a string literal after its opening quote, up to
    and without the closing one; a raw control character is an error. *)
Fixpoint parse_chars (s : string) : presult string :=
  match s with
  | EmptyString => inr PSyntax
  | String c s' =>
      if Ascii.eqb c qchar then inl (EmptyString, s')
      else if Ascii.eqb c bslash then
        match s' with
        | String e s'' =>
            match unescape e with
            | Some c' => cons_char c' (parse_chars s'')
            | None =>
                if Ascii.eqb e "u" then
                  match s'' with
                  | String h1 (String h2 (String h3 (String h4 r))) =>
                      match hex4 h1 h2 h3 h4 with
                      | Some n => if n <? 256 then cons_char (ascii_of_nat n) (parse_chars r)
                                  else inr POutside
                      | None => inr PSyntax
                      end
                  | _ => inr PSyntax
                  end
                else inr PSyntax
            end
        | EmptyString => inr PSyntax
        end
      else if nat_of_ascii c <? 32 then inr PSyntax
      else cons_char c (parse_chars s')
  end.

Fixpoint strip_prefix (w s : string) : option string :=
  match w, s with
  | EmptyString, _ => Some s
  | String a w', String b s' => if Ascii.eqb a b then strip_prefix w' s' else None
  | String _ _, EmptyString => None
  end.

(** The literals [true], [false], [null]. *)
Definition parse_keyword (s : string) : presult jsval :=
  match strip_prefix "true" s with
  | Some r => inl (JBool true, r)
  | None =>
      match strip_prefix "false" s with
      | Some r => inl (JBool false, r)
      | None =>
          match strip_prefix "null" s with
          | Some r => inl (JNull, r)
          | None => inr PSyntax
          end
      end
  end.

Definition map_presult {A B} (f : A -> B) (r : presult A) : presult B :=
  match r with inl (a, rest) => inl (f a, rest) | inr e => inr e end.

(** A value after blanks; the members of an object after its [{], put
    into [acc] as [CreateDataProperty] does: a repeated key keeps its
    place and takes the later value ([set_prop]). *)
Fixpoint parse_value (fuel : nat) (s : string) : presult jsval :=
  match fuel with
  | 0 => inr PFuel
  | S fuel' =>
      match skip_ws s with
      | String c r =>
          if Ascii.eqb c "{" then
            match skip_ws r with
            | String c' r' => if Ascii.eqb c' "}" then inl (JObj [], r') else parse_members fuel' [] r
            | EmptyString => inr PSyntax
            end
          else if Ascii.eqb c qchar then map_presult JStr (parse_chars r)
          else if Ascii.eqb c "[" then inr POutside
          else if Ascii.eqb c "-" then map_presult (fun n => JNum (- Z.of_N n)) (parse_nat r)
          else if bool_decide (is_Some (digit_value c)) then map_presult (fun n => JNum (Z.of_N n)) (parse_nat (String c r))
          else parse_keyword (String c r)
      | EmptyString => inr PSyntax
      end
  end
with parse_members (fuel : nat) (acc : props) (s : string) : presult jsval :=
  match fuel with
  | 0 => inr PFuel
  | S fuel' =>
      match skip_ws s with
      | String c r =>
          if Ascii.eqb c qchar then
            match parse_chars r with
            | inl (k, r1) =>
                match skip_ws r1 with
                | String c1 r2 =>
                    if Ascii.eqb c1 ":" then
                      match parse_value fuel' r2 with
                      | inl (v, r3) =>
                          match skip_ws r3 with
                          | String c3 r4 =>
                              if Ascii.eqb c3 "," then parse_members fuel' (set_prop k v acc) r4
                              else if Ascii.eqb c3 "}" then inl (JObj (set_prop k v acc), r4)
                              else inr PSyntax
                          | EmptyString => inr PSyntax
                          end
                      | inr e => inr e
                      end
                    else inr PSyntax
                | EmptyString => inr PSyntax
                end
            | inr e => inr e
            end
          else inr PSyntax
      | EmptyString => inr PSyntax
      end
  end.

(** The [SyntaxError] [JSON.parse] throws; its message is the engine's
    and is not modelled. *)
Definition syntax_error : jsval := JObj [("name", JStr "SyntaxError")].

(** [JSON.parse(text)]: the value ([inl]) or the error it throws
    ([inr]); [None] for JSON the model does not follow. *)
Definition JSON_parse (text : string) : option (jsval + jsval) :=
  match parse_value (S (String.length text)) text with
  | inl (v, rest) => Some (if String.eqb (skip_ws rest) "" then inl v else inr syntax_error)
  | inr PSyntax => Some (inr syntax_error)
  | inr _ => None
  end.

(** ** What a round trip keeps *)

(** The text after a value that ends a number: nothing, a comma, a
    closing brace or a blank. *)
Definition delim (s : string) : bool :=
  match s with
  | EmptyString => true
  | String c _ => Ascii.eqb c "," || Ascii.eqb c "}" || is_ws c
  end.

(** The value [JSON.parse(JSON.stringify(v))] gives back: [v] without
    its [undefined] properties, at every depth. *)
Definition drop_with (d : jsval -> jsval) : props -> props :=
  fix go (ps : props) : props :=
    match ps with
    | [] => []
    | (k, JUndef) :: rest => go rest
    | (k, x) :: rest => (k, d x) :: go rest
    end.

Fixpoint drop_undef (v : jsval) : jsval :=
  match v with
  | JObj ps => JObj (drop_with drop_undef ps)
  | _ => v
  end.

(** Objects whose keys are distinct, at every depth: the objects of
    JavaScript. *)
Fixpoint json_wf (v : jsval) : bool :=
  match v with
  | JObj ps => bool_decide (NoDup (map fst ps)) && forallb (fun kx => json_wf kx.2) ps
  | _ => true
  end.

(** [m] occurs in [s]. *)
Definition infix (m s : string) : Prop := exists pre post, s = pre +:+ m +:+ post.

(** ** Lemmas: string literals *)

Lemma append_String c s t : String c s +:+ t = String c (s +:+ t).
Proof. reflexivity. Qed.

Lemma append_assoc_str (a b c : string) : (a +:+ b) +:+ c = a +:+ (b +:+ c).
Proof. induction a as [|x a IH]; simpl; [done|by rewrite IH]. Qed.

(** Each escape reads back as its code unit, whatever follows it. *)
Lemma parse_chars_escape c s :
  parse_chars (escape_char c +:+ s) = cons_char c (parse_chars s).
Proof. destruct c as [[] [] [] [] [] [] [] []]; reflexivity. Qed.

(** The body of a quoted string, then the closing quote. *)
Lemma parse_chars_quote k r :
  parse_chars (quote_body k +:+ String qchar r) = inl (k, r).
Proof.
  induction k as [|c k IH]; [reflexivity|].
  cbn [quote_body]. by rewrite append_assoc_str, parse_chars_escape, IH.
Qed.

(** ** Lemmas: numbers *)

Lemma length_append_str (a b : string) : String.length (a +:+ b) = String.length a + String.length b.
Proof. induction a as [|c a IH]; simpl; [done|by rewrite IH]. Qed.

Lemma digit_value_char d : (d < 10)%N -> digit_value (pretty_N_char d) = Some d.
Proof.
  intros Hd. assert (d = 0 \/ d = 1 \/ d = 2 \/ d = 3 \/ d = 4 \/ d = 5 \/ d = 6 \/ d = 7 \/
                     d = 8 \/ d = 9)%N as Hc by lia.
  decompose [or] Hc; subst; reflexivity.
Qed.

(** A blank, comma or brace ends a run of digits and an integer. *)
Lemma read_digits_delim acc s : delim s = true -> read_digits acc s = (acc, s).
Proof. destruct s as [|c s]; [done|]. destruct c as [[] [] [] [] [] [] [] []]; done. Qed.

Lemma number_end_delim n s : delim s = true -> number_end n s = inl (n, s).
Proof. destruct s as [|c s]; [done|]. destruct c as [[] [] [] [] [] [] [] []]; done. Qed.

(** Reading the digits [pretty_N_go x] writes before [s] multiplies
    the accumulator by a power of ten and adds [x]. *)
Lemma read_digits_pretty x s rest acc :
  exists k, read_digits acc (pretty_N_go x s +:+ rest) = read_digits (acc * 10 ^ k + x)%N (s +:+ rest).
Proof.
  revert s acc. induction (N.lt_wf_0 x) as [x _ IH]; intros s acc.
  destruct (decide (x = 0)%N) as [->|Hx].
  - exists 0%N. rewrite pretty_N_go_0. f_equal. lia.
  - rewrite pretty_N_go_step by lia.
    destruct (IH (x / 10)%N ltac:(apply N.div_lt; lia) (String (pretty_N_char (x mod 10)) s) acc)
      as [k ->].
    exists (k + 1)%N. cbn [append read_digits].
    rewrite digit_value_char by (apply N.mod_lt; lia). f_equal.
    pose proof (N.div_mod x 10 ltac:(lia)). rewrite N.pow_add_r, N.pow_1_r. lia.
Qed.

(** A positive number is written from a digit other than [0]. *)
Lemma pretty_N_go_first x s :
  (0 < x)%N -> exists d t, (0 < d < 10)%N /\ pretty_N_go x s = String (pretty_N_char d) t.
Proof.
  revert s. induction (N.lt_wf_0 x) as [x _ IH]; intros s Hx.
  rewrite pretty_N_go_step by done.
  destruct (decide (x < 10)%N).
  - rewrite N.div_small, pretty_N_go_0, N.mod_small by done. by exists x, s.
  - apply IH; [apply N.div_lt; lia|]. apply N.div_str_pos. lia.
Qed.

Lemma parse_nat_pretty (x : N) rest : delim rest = true -> parse_nat (pretty x +:+ rest) = inl (x, rest).
Proof.
  intros Hd. unfold pretty, pretty_N. case_decide as Hx.
  - subst. by apply number_end_delim.
  - destruct (pretty_N_go_first x "" ltac:(lia)) as (d & t & Hd10 & Ht).
    destruct (read_digits_pretty x "" rest 0) as [k Hk].
    rewrite Ht in Hk |- *. cbn [append read_digits] in Hk. cbn [append parse_nat].
    rewrite digit_value_char in Hk |- * by lia.
    destruct d as [|p]; [lia|]. replace (0 * 10 + N.pos p)%N with (N.pos p) in Hk by lia.
    rewrite Hk, read_digits_delim by done.
    by apply number_end_delim.
Qed.

(** The text of a number opens with a digit or a minus sign. *)
Lemma pretty_N_head (x : N) : exists c t, pretty x = String c t /\ is_Some (digit_value c).
Proof.
  unfold pretty, pretty_N. case_decide; [by exists "0"%char, ""; split; [|eexists]|].
  destruct (pretty_N_go_first x "" ltac:(lia)) as (d & t & Hd & ->).
  exists (pretty_N_char d), t. rewrite digit_value_char by lia. by split; [|eexists].
Qed.

Lemma parse_value_digit f c r :
  is_Some (digit_value c) ->
  parse_value (S f) (String c r) = map_presult (fun n => JNum (Z.of_N n)) (parse_nat (String c r)).
Proof. destruct c as [[] [] [] [] [] [] [] []]; intros [? H]; try discriminate H; reflexivity. Qed.

Lemma parse_value_pretty_N f (x : N) rest :
  delim rest = true ->
  parse_value (S f) (pretty x +:+ rest) = inl (JNum (Z.of_N x), rest).
Proof.
  intros Hd. destruct (pretty_N_head x) as (c & t & Hx & Hc).
  pose proof (parse_nat_pretty x rest Hd) as Hp. rewrite Hx in Hp |- *.
  cbn [append] in Hp |- *. by rewrite parse_value_digit, Hp.
Qed.

(** A number reads back. *)
Lemma parse_value_pretty f z rest :
  delim rest = true -> parse_value (S f) (pretty z +:+ rest) = inl (JNum z, rest).
Proof.
  intros Hd. destruct z as [|p|p].
  - apply (parse_value_pretty_N f 0%N rest Hd).
  - apply (parse_value_pretty_N f (Npos p) rest Hd).
  - change (pretty (Z.neg p)) with (String "-" (pretty (Npos p))). cbn [append].
    change (parse_value (S f) (String "-" (pretty (N.pos p) +:+ rest)))
      with (map_presult (fun n => JNum (- Z.of_N n)) (parse_nat (pretty (N.pos p) +:+ rest))).
    by rewrite parse_nat_pretty.
Qed.

(** ** Lemmas: objects and the round trip *)

Lemma stringify_none v : stringify v = None <-> v = JUndef.
Proof. destruct v; split; done. Qed.

Lemma append_empty_str (s : string) : s +:+ "" = s.
Proof. induction s as [|c s IH]; simpl; [done|by rewrite IH]. Qed.

Lemma drop_cons k x ps :
  x <> JUndef -> drop_with drop_undef ((k, x) :: ps) = (k, drop_undef x) :: drop_with drop_undef ps.
Proof. by destruct x. Qed.

(** An object all of whose properties are [undefined] reads back empty. *)
Lemma members_nil_drop ps :
  members_with stringify ps = [] -> drop_with drop_undef ps = [].
Proof.
  induction ps as [|[k x] ps IH]; [done|]. cbn [members_with].
  destruct (stringify x) eqn:Hx; [done|]. apply stringify_none in Hx as ->. exact IH.
Qed.

Lemma parse_value_quote f s rest : parse_value (S f) (quote s +:+ rest) = inl (JStr s, rest).
Proof.
  unfold quote. cbn [append]. rewrite append_assoc_str. cbn [append].
  change (parse_value (S f) (String qchar ?r)) with (map_presult JStr (parse_chars r)).
  by rewrite parse_chars_quote.
Qed.

(** One member ["k":text] and what follows it. *)
Lemma parse_members_step f acc k t sep v :
  parse_value f (t +:+ sep) = inl (v, sep) ->
  parse_members (S f) acc ((quote k +:+ ":" +:+ t) +:+ sep) =
    match skip_ws sep with
    | String c3 r4 =>
        if Ascii.eqb c3 "," then parse_members f (set_prop k v acc) r4
        else if Ascii.eqb c3 "}" then inl (JObj (set_prop k v acc), r4)
        else inr PSyntax
    | EmptyString => inr PSyntax
    end.
Proof.
  intros Hv. unfold quote. cbn [append]. rewrite !append_assoc_str. cbn [append].
  cbn -[parse_chars parse_value append].
  change (is_ws qchar) with false. cbn iota beta.
  change (Ascii.eqb qchar qchar) with true. cbn iota beta.
  rewrite parse_chars_quote. cbn -[parse_value skip_ws]. change (skip_ws (String ":" ?x)) with (String ":" x). cbn iota beta. change (Ascii.eqb ":" ":") with true. cbn iota beta. by rewrite Hv.
Qed.

(** The text of the members of an object opens with a quote. *)
Lemma members_head ps x :
  members_with stringify ps <> [] -> exists r, String.concat "," (members_with stringify ps) +:+ x = String qchar r.
Proof.
  induction ps as [|[k v] ps IH]; [done|]. cbn [members_with].
  destruct (stringify v); [|exact IH]. intros _.
  destruct (members_with stringify ps); eexists; reflexivity.
Qed.

Lemma drop_keys ps k : k ∈ map fst (drop_with drop_undef ps) -> k ∈ map fst ps.
Proof.
  induction ps as [|[k' x] ps IH]; [done|]. cbn [map fst]. rewrite elem_of_cons.
  intros H. destruct x; cbn [drop_with map fst] in H; rewrite ?elem_of_cons in H;
    (destruct H as [->|H]; [by left|by right; apply IH]) || (right; by apply IH).
Qed.

Lemma concat_cons2 sep x y ys :
  String.concat sep (x :: y :: ys) = x +:+ sep +:+ String.concat sep (y :: ys).
Proof. reflexivity. Qed.

Ltac len_tac :=
  unfold quote in *; rewrite ?length_append_str in *; cbn [String.length] in *;
  rewrite ?length_append_str in *; cbn [String.length] in *; lia.

(** The members of an object, read into [acc] whose keys they do not
    repeat, give [acc] and then the properties that have a text. *)
Lemma parse_members_rt ps acc rest f :
  Forall (fun kx : string * jsval => forall t rest f,
            json_wf kx.2 = true -> stringify kx.2 = Some t -> delim rest = true ->
            String.length (t +:+ rest) < f -> parse_value f (t +:+ rest) = inl (drop_undef kx.2, rest)) ps ->
  NoDup (map fst ps) -> forallb (fun kx => json_wf kx.2) ps = true ->
  (forall k, k ∈ map fst ps -> k ∉ map fst acc) ->
  members_with stringify ps <> [] ->
  String.length (String.concat "," (members_with stringify ps) +:+ "}" +:+ rest) < f ->
  parse_members f acc (String.concat "," (members_with stringify ps) +:+ "}" +:+ rest) =
    inl (JObj (acc ++ drop_with drop_undef ps)%list, rest).
Proof.
  intros HF. revert acc f.
  induction HF as [|[k x] ps Hx HF IH]; intros acc f Hnd Hwf Hfresh Hne Hlen; [done|].
  cbn [map fst] in Hnd. apply NoDup_cons in Hnd as [Hk Hnd].
  cbn [forallb] in Hwf. apply andb_true_iff in Hwf as [Hwx Hwf]. cbn [snd] in Hx, Hwx.
  assert (Hfresh' : forall k', k' ∈ map fst ps -> k' ∉ map fst acc)
    by (intros k' Hk'; apply Hfresh; by right).
  cbn [members_with] in Hne, Hlen |- *.
  destruct (stringify x) as [t|] eqn:Ht.
  2: { apply stringify_none in Ht as ->. exact (IH acc f Hnd Hwf Hfresh' Hne Hlen). }
  rewrite drop_cons by (intros ->; discriminate).
  destruct f as [|f]; [lia|].
  assert (Hfk : k ∉ map fst acc) by (apply Hfresh; by left).
  set (m0 := quote k +:+ ":" +:+ t) in *.
  destruct (members_with stringify ps) as [|m ms] eqn:Hms.
  - rewrite (members_nil_drop ps Hms). cbn [String.concat] in Hlen |- *.
    change ("}" +:+ ?y) with (String "}" y) in Hlen |- *. subst m0.
    rewrite (parse_members_step f acc k t (String "}" rest) (drop_undef x)).
    + cbn. by rewrite set_prop_fresh.
    + apply Hx; [done|done|done|]. len_tac.
  - rewrite concat_cons2, !append_assoc_str in Hlen |- *.
    set (C := String.concat "," (m :: ms)) in *.
    change ("," +:+ ?y) with (String "," y) in Hlen |- *. subst m0.
    rewrite (parse_members_step f acc k t _ (drop_undef x)).
    + change (skip_ws (String "," ?y)) with (String "," y). cbn iota beta.
      change (Ascii.eqb "," ",") with true. cbn iota beta.
      rewrite set_prop_fresh by done.
      replace (acc ++ (k, drop_undef x) :: drop_with drop_undef ps)%list
        with ((acc ++ [(k, drop_undef x)]) ++ drop_with drop_undef ps)%list by by rewrite <-app_assoc.
      subst C. apply IH; [done|done| |done|len_tac].
      intros k' Hk'. rewrite map_app, elem_of_app. cbn [map fst]. rewrite list_elem_of_singleton.
      intros [Hin|Heq]; [by apply (Hfresh' k')|subst; done].
    + apply Hx; [done|done|done|]. len_tac.
Qed.

(** [JSON.parse] reads back what [JSON.stringify] writes, whatever
    follows it up to a delimiter, given fuel beyond the length of the
    text: the value without its [undefined] properties. *)
Lemma parse_stringify v :
  forall t rest f, json_wf v = true -> stringify v = Some t -> delim rest = true ->
  String.length (t +:+ rest) < f -> parse_value f (t +:+ rest) = inl (drop_undef v, rest).
Proof.
  induction v as [| | b | n | s | ps IH] using jsval_ind'; intros t rest f Hwf Ht Hd Hlen;
    destruct f as [|f]; try lia; cbn [stringify] in Ht; try discriminate Ht; injection Ht as <-.
  - reflexivity.
  - by destruct b.
  - by apply parse_value_pretty.
  - apply parse_value_quote.
  - cbn [json_wf] in Hwf. apply andb_true_iff in Hwf as [Hnd Hwf]. apply bool_decide_eq_true in Hnd.
    change (drop_undef (JObj ps)) with (JObj (drop_with drop_undef ps)).
    destruct (members_with stringify ps) as [|m ms] eqn:Hms.
    + by rewrite (members_nil_drop ps Hms).
    + cbn [append] in Hlen |- *. rewrite !append_assoc_str in Hlen |- *.
      destruct (members_head ps ("}" +:+ rest)) as [r Hr]; [by rewrite Hms|].
      rewrite Hms in Hr. rewrite Hr.
      change (parse_value (S f) (String "{" (String qchar r))) with (parse_members f [] (String qchar r)).
      rewrite <-Hr, <-Hms. apply (parse_members_rt ps [] rest f IH Hnd Hwf); [set_solver|by rewrite Hms|].
      rewrite Hms. cbn [String.length] in Hlen. lia.
Qed.

(** ** Lemmas: every step reads some text; the fuel is enough *)

Lemma skip_ws_le s : String.length (skip_ws s) <= String.length s.
Proof. induction s as [|c s IH]; cbn; [lia|]. destruct (is_ws c); cbn; lia. Qed.

Lemma skip_ws_String s c r : skip_ws s = String c r -> String.length r < String.length s.
Proof. intros H. pose proof (skip_ws_le s) as Hle. rewrite H in Hle. cbn in Hle. lia. Qed.

Lemma cons_char_inl c x t r : cons_char c x = inl (t, r) -> exists t', x = inl (t', r).
Proof. destruct x as [[]|]; cbn; intros; simplify_eq; eauto. Qed.

Lemma parse_chars_shorter_n n s t r :
  String.length s <= n -> parse_chars s = inl (t, r) -> String.length r < String.length s.
Proof.
  revert s t r. induction n as [|n IH]; intros [|c s] t r Hn H; cbn in H, Hn; try done; [lia|].
  repeat case_match; simplify_eq;
    repeat match goal with
           | H : cons_char _ _ = inl _ |- _ => apply cons_char_inl in H as [? H]
           | H : parse_chars _ = inl _ |- _ => apply IH in H; [|subst; cbn in *; lia]
           end; subst; cbn in *; lia.
Qed.

Lemma parse_chars_shorter s t r : parse_chars s = inl (t, r) -> String.length r < String.length s.
Proof. apply parse_chars_shorter_n with (n := String.length s). lia. Qed.

Lemma cons_char_no_fuel c x : x <> inr PFuel -> cons_char c x <> inr PFuel.
Proof. destruct x as [[]|]; cbn; congruence. Qed.

Lemma parse_chars_no_fuel_n n s : String.length s <= n -> parse_chars s <> inr PFuel.
Proof.
  revert s. induction n as [|n IH]; intros [|c s] Hn; cbn in Hn |- *; try done; [lia|].
  repeat case_match; try done; subst; apply cons_char_no_fuel, IH; cbn in *; lia.
Qed.

Lemma parse_chars_no_fuel s : parse_chars s <> inr PFuel.
Proof. by apply parse_chars_no_fuel_n with (n := String.length s). Qed.

Lemma read_digits_le acc s : String.length (read_digits acc s).2 <= String.length s.
Proof.
  revert acc. induction s as [|c s IH]; intros acc; cbn; [lia|].
  destruct (digit_value c); cbn; [specialize (IH (acc * 10 + n)%N); lia|lia].
Qed.

Lemma number_end_inl n s m r : number_end n s = inl (m, r) -> r = s.
Proof. unfold number_end. repeat case_match; congruence. Qed.

Lemma number_end_no_fuel n s : number_end n s <> inr PFuel.
Proof. unfold number_end. by repeat case_match. Qed.

Lemma parse_nat_shorter s n r : parse_nat s = inl (n, r) -> String.length r < String.length s.
Proof.
  destruct s as [|c s]; cbn; [done|].
  destruct (digit_value c) as [[|p]|]; [intros H; apply number_end_inl in H as ->; lia| |done].
  destruct (read_digits (Npos p) s) as [m r'] eqn:Hr. intros H. apply number_end_inl in H as ->.
  pose proof (read_digits_le (Npos p) s) as Hle. rewrite Hr in Hle. cbn in Hle. lia.
Qed.

Lemma parse_nat_no_fuel s : parse_nat s <> inr PFuel.
Proof. destruct s; cbn; repeat case_match; try done; apply number_end_no_fuel. Qed.

Lemma strip_prefix_len w s r :
  strip_prefix w s = Some r -> String.length r + String.length w = String.length s.
Proof.
  revert s. induction w as [|a w IH]; intros [|b s]; cbn; try (intros; simplify_eq; cbn; lia).
  destruct (Ascii.eqb a b); [intros H; apply IH in H; lia|done].
Qed.

Lemma parse_keyword_shorter s v r : parse_keyword s = inl (v, r) -> String.length r < String.length s.
Proof.
  unfold parse_keyword. repeat case_match; intros; simplify_eq;
    match goal with H : strip_prefix _ _ = Some _ |- _ => apply strip_prefix_len in H end; cbn in *; lia.
Qed.

Lemma parse_keyword_no_fuel s : parse_keyword s <> inr PFuel.
Proof. unfold parse_keyword. by repeat case_match. Qed.

Lemma map_presult_inl {A B} (g : A -> B) x v r : map_presult g x = inl (v, r) -> exists a, x = inl (a, r).
Proof. destruct x as [[]|]; cbn; intros; simplify_eq; eauto. Qed.

Lemma map_presult_no_fuel {A B} (g : A -> B) x : x <> inr PFuel -> map_presult g x <> inr PFuel.
Proof. destruct x as [[]|]; cbn; congruence. Qed.

Ltac shorter :=
  repeat match goal with
  | H : skip_ws _ = String _ _ |- _ => apply skip_ws_String in H
  | H : parse_chars _ = inl _ |- _ => apply parse_chars_shorter in H
  | H : parse_nat _ = inl _ |- _ => apply parse_nat_shorter in H
  | H : parse_keyword _ = inl _ |- _ => apply parse_keyword_shorter in H
  | H : map_presult _ _ = inl _ |- _ => apply map_presult_inl in H as [? H]
  end; cbn [String.length] in *; lia.

(** A value, and the members of an object, are read from text that is
    longer than the text left after them. *)
Lemma parse_shorter f :
  (forall s v r, parse_value f s = inl (v, r) -> String.length r < String.length s) /\
  (forall acc s v r, parse_members f acc s = inl (v, r) -> String.length r < String.length s).
Proof.
  induction f as [|f [IHv IHm]]; split; intros *; cbn [parse_value parse_members]; try done;
    repeat case_match; intros Hres; simplify_eq;
    repeat match goal with
           | H : parse_members _ _ _ = inl _ |- _ => apply IHm in H
           | H : parse_value _ _ = inl _ |- _ => apply IHv in H
           end; shorter.
Qed.

(** Termination of the parser: fuel beyond the length of the text
    never runs out, so [JSON_parse] answers [None] only for JSON the
    model does not follow. *)
Lemma parse_fuel f :
  (forall s, String.length s < f -> parse_value f s <> inr PFuel) /\
  (forall acc s, String.length s < f -> parse_members f acc s <> inr PFuel).
Proof.
  induction f as [|f [IHv IHm]]; split; intros *; cbn [parse_value parse_members]; [lia|lia| |];
    intros Hlen; repeat case_match; try done;
    try (apply map_presult_no_fuel; first [apply parse_chars_no_fuel|apply parse_nat_no_fuel]);
    try apply parse_keyword_no_fuel.
  all: first
    [ apply IHm;
      repeat match goal with H : parse_value _ _ = inl _ |- _ => apply (proj1 (parse_shorter f)) in H end;
      shorter
    | intros [= ->];
      match goal with
      | H : parse_chars _ = inr PFuel |- _ => by apply parse_chars_no_fuel in H
      | H : parse_value _ _ = inr PFuel |- _ => revert H; apply IHv; shorter
      end ].
Qed.

(** [JSON_parse] gives its parser enough fuel: its [None] is only ever
    JSON the model does not follow. *)
Lemma parse_value_fuel text : parse_value (S (String.length text)) text <> inr PFuel.
Proof. apply (proj1 (parse_fuel _)). lia. Qed.

Lemma JSON_parse_None text :
  JSON_parse text = None <-> parse_value (S (String.length text)) text = inr POutside.
Proof.
  pose proof (parse_value_fuel text) as Hf. unfold JSON_parse.
  destruct (parse_value _ text) as [[]|[| |]]; split; congruence.
Qed.

(** [JSON.parse(JSON.stringify(v))] is [v] without its [undefined]
    properties, for every value that has a text. *)
Lemma JSON_parse_stringify v t :
  json_wf v = true -> stringify v = Some t -> JSON_parse t = Some (inl (drop_undef v)).
Proof.
  intros Hwf Ht. unfold JSON_parse.
  pose proof (parse_stringify v t "" (S (String.length t)) Hwf Ht eq_refl) as H.
  rewrite append_empty_str in H. rewrite H by lia. reflexivity.
Qed.

(** ** Lemmas: what the text of an object shows *)

Lemma concat_infix sep m ms : In m ms -> infix m (String.concat sep ms).
Proof.
  induction ms as [|m' [|y ys] IH]; [done| |].
  - intros [<-|[]]. exists "", "". cbn. by rewrite append_empty_str.
  - intros [<-|Hin].
    + exists "", (sep +:+ String.concat sep (y :: ys)). reflexivity.
    + destruct (IH Hin) as (pre & post & Heq). exists (m' +:+ sep +:+ pre), post.
      rewrite concat_cons2, Heq, !append_assoc_str. reflexivity.
Qed.

Lemma members_In ps k x t :
  In (k, x) ps -> stringify x = Some t -> In (quote k +:+ ":" +:+ t) (members_with stringify ps).
Proof.
  induction ps as [|[k' x'] ps IH]; [done|]. intros [Heq|Hin] Ht; cbn [members_with].
  - injection Heq as <- <-. rewrite Ht. by left.
  - destruct (stringify x'); [right|]; auto.
Qed.

(** [JSON.stringify] of an object shows ["key":text] for each of its
    properties that has a text. *)
Lemma stringify_member ps k x t :
  In (k, x) ps -> stringify x = Some t ->
  exists s, stringify (JObj ps) = Some s /\ infix (quote k +:+ ":" +:+ t) s.
Proof.
  intros Hin Ht. exists ("{" +:+ String.concat "," (members_with stringify ps) +:+ "}").
  split; [reflexivity|].
  destruct (concat_infix "," _ _ (members_In ps k x t Hin Ht)) as (pre & post & Heq).
  exists ("{" +:+ pre), (post +:+ "}"). rewrite Heq, !append_assoc_str. reflexivity.
Qed.

End Json.
