(* ===== verification/Types.v ===== *)
(** * The TypeScript types of the sources

    The interfaces of [src/src/lib/api/types/api.types.ts],
    [src/src/lib/api/types/auth.types.ts], [src/src/types/global.ts],
    the request types of [src/src/lib/api/services/userService.ts] and
    the [User] of [src/src/stores/useAuthStore.ts] as values of [tstype], and [conforms t v]: the JavaScript value [v]
    is a value of type [t].  Object types are structural, as in
    TypeScript: the listed properties must have their types (an optional
    one may also be [undefined]), other properties are free.  [IUser]
    comes from [src/src/types/user.ts], which is not in the repository:
    it is [TsAny] here.  React and Next.js types ([ReactNode],
    [StaticImageData]) are [TsAny] too. *)

From S2P Require Import Prelude JsValue.

Module TsTypes.
Local Open Scope list_scope.

Inductive tstype :=
| TsAny
| TsString
| TsNumber
| TsBoolean
| TsNull
| TsUndefined
| TsUnion (a b : tstype)
| TsArray (t : tstype)
(** properties: name, optional ([?:]), type *)
| TsObject (fields : list (string * bool * tstype)).

(** [v] is a value of type [t]. *)
Fixpoint conforms (t : tstype) (v : jsval) : bool :=
  match t with
  | TsAny => true
  | TsString => match v with JStr _ => true | _ => false end
  | TsNumber => match v with JNum _ => true | _ => false end
  | TsBoolean => match v with JBool _ => true | _ => false end
  | TsNull => match v with JNull => true | _ => false end
  | TsUndefined => match v with JUndef => true | _ => false end
  | TsUnion a b => conforms a v || conforms b v
  (** arrays are not among the values of the model *)
  | TsArray _ => false
  | TsObject fs =>
      match v with
      | JObj _ =>
          (fix fields (fs : list (string * bool * tstype)) : bool :=
             match fs with
             | [] => true
             | (k, opt, t') :: fs' =>
                 (conforms t' (get v k) ||
                  opt && match get v k with JUndef => true | _ => false end) && fields fs'
             end) fs
      | _ => false
      end
  end.

(** [export interface ApiResponse<T = any>] *)
Definition ApiResponse (T : tstype) : tstype :=
  TsObject [("success", false, TsBoolean); ("data", true, T); ("message", false, TsString);
            ("errorCode", true, TsString)].

Definition IUser : tstype := TsAny.

Definition LoginCredentials : tstype :=
  TsObject [("email", false, TsString); ("password", false, TsString); ("rememberMe", false, TsBoolean)].

Definition SignUpCredentials : tstype :=
  TsObject [("name", false, TsString); ("email", false, TsString); ("password", false, TsString);
            ("companyName", false, TsString)].

Definition ResetPasswordCredentials : tstype :=
  TsObject [("token", false, TsString); ("newPassword", false, TsString)].

Definition VerifyEmailCredentials : tstype := TsObject [("token", false, TsString)].

Definition JwtPayload : tstype :=
  TsObject [("userId", false, TsString); ("role", false, TsString); ("iat", false, TsNumber);
            ("exp", false, TsNumber)].

Definition LoginResponse : tstype :=
  TsObject [("user", false, IUser); ("accessToken", false, TsString); ("refreshToken", false, TsString)].

Definition RefreshTokenResponse : tstype :=
  TsObject [("accessToken", false, TsString); ("refreshToken", true, TsString);
            ("expiresIn", true, TsNumber)].

(** [UpdateProfileRequest] and [ChangePasswordRequest] of
    [src/src/lib/api/services/userService.ts] *)
Definition UpdateProfileRequest : tstype :=
  TsObject [("name", false, TsString); ("email", true, TsString); ("companyName", true, TsString)].

Definition ChangePasswordRequest : tstype :=
  TsObject [("currentPassword", false, TsString); ("newPassword", false, TsString);
            ("confirmPassword", false, TsString)].

(** The [User] of the session store, [src/src/stores/useAuthStore.ts] *)
Definition User : tstype :=
  TsObject [("id", false, TsString); ("name", false, TsString); ("email", false, TsString);
            ("role", false, TsString); ("companyName", true, TsString); ("picture", true, TsString);
            ("accessToken", true, TsString); ("refreshToken", true, TsString)].

(** [src/src/types/global.ts] *)
Definition LayoutProps : tstype := TsObject [("children", false, TsAny)].

Definition MenuItem : tstype :=
  TsObject [("name", false, TsString); ("href", false, TsString);
            ("icon", false, TsUnion TsString TsAny); ("active", true, TsBoolean);
            ("nested", true, TsArray TsAny)].

(** ** Lemmas *)

Lemma conforms_object_cons k opt t fs ps :
  conforms (TsObject ((k, opt, t) :: fs)) (JObj ps) =
    (conforms t (get (JObj ps) k) || opt && match get (JObj ps) k with JUndef => true | _ => false end)
    && conforms (TsObject fs) (JObj ps).
Proof. reflexivity. Qed.

(** An object conforms to an object type when each listed property
    does. *)
Lemma conforms_object fs ps :
  conforms (TsObject fs) (JObj ps) = true <->
  Forall (fun '(k, opt, t) =>
            conforms t (get (JObj ps) k) = true \/
            (opt = true /\ get (JObj ps) k = JUndef)) fs.
Proof.
  induction fs as [|[[k opt] t] fs IH]; [split; [constructor|done]|].
  rewrite conforms_object_cons, Forall_cons, <-IH, andb_true_iff, orb_true_iff, andb_true_iff.
  destruct opt, (get (JObj ps) k); intuition (try discriminate; auto).
Qed.

(** Assigning a property keeps an object of type [TsObject fs] in the
    type when the new value has the type of every field of that name. *)
Lemma conforms_set_prop fs ps k v :
  conforms (TsObject fs) (JObj ps) = true ->
  (forall opt t, In (k, opt, t) fs -> conforms t v = true) ->
  conforms (TsObject fs) (JObj (set_prop k v ps)) = true.
Proof.
  rewrite !conforms_object. intros Hall Hk.
  apply Forall_forall. intros [[k' opt] t] Hin.
  pose proof (proj1 (Forall_forall _ _) Hall _ Hin) as Hf. simpl in Hf |- *.
  rewrite lookup_set_prop. destruct (String.eqb_spec k' k) as [->|]; [left; simpl; apply (Hk opt t); by apply list_elem_of_In|done].
Qed.

(** A required property of an object of type [TsObject fs] has its type. *)
Lemma conforms_field fs ps k t :
  conforms (TsObject fs) (JObj ps) = true -> In (k, false, t) fs ->
  conforms t (get (JObj ps) k) = true.
Proof.
  rewrite conforms_object, Forall_forall. intros Hall Hin.
  destruct (Hall (k, false, t) (proj2 (list_elem_of_In _ _) Hin)) as [|[? _]]; done.
Qed.

End TsTypes.
