(* ===== verification/HttpClient.v ===== *)
(** * The HTTP client: [src/src/lib/api/axiosInstance.ts] and the services

    The axios instance is modelled as a program of [Async], a free monad
    over three effects: [Send] (one round trip over the network, answered
    by the server), [Navigate] ([window.location.href = ...]) and [Axios]
    (a call of [axiosInstance(config)] itself, which runs the whole
    pipeline again: request, then the response interceptor).  The
    interceptor calls [AuthService.refreshToken] and [AuthService.logout],
    which go through the same instance, so [Axios] is a recursive call.

    [pipeline] is the request of [axiosInstance], [onRejected] the error
    handler of [interceptors.response.use], [handleSessionExpiration] the
    helper of the same name.  [interp] runs an [Async] program against a
    server ([serve], a state machine answering each request) with fuel
    bounding the nesting of [Axios] calls; [runs] is the inductive
    natural semantics of the same programs, without fuel.  Both are
    defined in Section [Interp], whose variables are the server and the
    [typeof window !== 'undefined'] test. *)

From S2P Require Import Prelude JsValue.

Module Http.
Local Open Scope list_scope.

Inductive Method := GET | POST | PUT.

(** The fields of [InternalAxiosRequestConfig] the code reads or
    writes; [_retry?: boolean] is [false] when undefined. *)
Record Config := {
  method : Method;
  url : string;
  body : jsval;
  _retry : bool
}.

(** [originalRequest._retry = true] *)
Definition set_retry (cfg : Config) : Config :=
  {| method := method cfg; url := url cfg; body := body cfg; _retry := true |}.

(** What the network gives back: a response with a status and a
    parsed body, or no response at all. *)
Inductive Answer :=
| Reply (st : Z) (payload : jsval)
| NetworkError.

Record AxiosResponse := { status : Z; data : jsval }.

Record AxiosError := {
  response : option AxiosResponse;
  config : Config
}.

(** axios' default [validateStatus]. *)
Definition validateStatus (st : Z) : bool := (200 <=? st)%Z && (st <? 300)%Z.

(** axios' [settle]: resolve on a 2xx status, reject otherwise. *)
Definition settle (cfg : Config) (a : Answer) : AxiosResponse + AxiosError :=
  match a with
  | Reply st b =>
      if validateStatus st then inl {| status := st; data := b |}
      else inr {| response := Some {| status := st; data := b |}; config := cfg |}
  | NetworkError => inr {| response := None; config := cfg |}
  end.

(** [class ApiError extends Error]: [success] is always [false]; the
    message is kept as the value passed to the constructor. *)
Record ApiError := {
  message : jsval;
  ae_status : Z;
  cause : jsval
}.

(** A settled call of the instance: resolved or rejected. *)
Definition outcome : Type := AxiosResponse + ApiError.

(** ** Asynchronous programs *)

Inductive Async (A : Type) : Type :=
| Done (a : A)
| Send (cfg : Config) (k : Answer -> Async A)
| Navigate (href : string) (k : Async A)
| Axios (cfg : Config) (k : outcome -> Async A).

Arguments Done {A} a.
Arguments Send {A} cfg k.
Arguments Navigate {A} href k.
Arguments Axios {A} cfg k.

Fixpoint abind {A B} (t : Async A) (f : A -> Async B) : Async B :=
  match t with
  | Done a => f a
  | Send cfg k => Send cfg (fun x => abind (k x) f)
  | Navigate h k => Navigate h (abind k f)
  | Axios cfg k => Axios cfg (fun r => abind (k r) f)
  end.

Declare Scope async_scope.
Delimit Scope async_scope with async.
Notation "'await' x := c 'in' k" := (abind c (fun x => k))
  (at level 10, x name, c at level 100, k at level 200,
   format "'[v' 'await'  x  :=  c  'in' '/' k ']'") : async_scope.
Open Scope async_scope.

(** [(await axiosInstance.post(url, body)).data] *)
Definition response_data (r : outcome) : jsval + ApiError :=
  match r with
  | inl resp => inl (data resp)
  | inr e => inr e
  end.

Definition post (u : string) (b : jsval) : Async (jsval + ApiError) :=
  Axios {| method := POST; url := u; body := b; _retry := false |}
    (fun r => Done (response_data r)).

Definition get_ (u : string) : Async (jsval + ApiError) :=
  Axios {| method := GET; url := u; body := JUndef; _retry := false |}
    (fun r => Done (response_data r)).

Definition put (u : string) (b : jsval) : Async (jsval + ApiError) :=
  Axios {| method := PUT; url := u; body := b; _retry := false |}
    (fun r => Done (response_data r)).

(** ** [AuthService] ([src/src/lib/api/services/authService.ts]) *)
Module AuthService.
Definition refresh_url := "/api/v1/auth/refresh-token".
Definition logout_url := "/api/v1/auth/logout/".

Definition login (credentials : jsval) := post "/api/v1/auth/login/" credentials.
Definition signUp (credentials : jsval) := post "/api/v1/auth/signup/" credentials.
Definition logout := post logout_url JUndef.
Definition forgotPassword (payload : jsval) := post "/api/v1/auth/forgot-password/" payload.
Definition resetPassword (payload : jsval) := post "/api/v1/auth/reset-password/" payload.
Definition verifyEmail (payload : jsval) := post "/api/v1/auth/verify-email/" payload.
Definition refreshToken := post refresh_url (JObj []).
End AuthService.

(** ** [UserService] ([src/src/lib/api/services/userService.ts]) *)
Module UserService.
Definition me := get_ "/api/v1/user/me".
Definition updateProfile (payload : jsval) := put "/api/v1/user/profile" payload.
Definition changePassword (payload : jsval) := post "/api/v1/user/change-password" payload.
End UserService.

Definition logout_cfg : Config :=
  {| method := POST; url := AuthService.logout_url; body := JUndef; _retry := false |}.
Definition refresh_cfg : Config :=
  {| method := POST; url := AuthService.refresh_url; body := JObj []; _retry := false |}.

(** ** The response interceptor *)

(** [await AuthService.logout(); window.location.href = '/login'] in a
    [try] whose [catch] only logs. *)
Definition handleSessionExpiration : Async unit :=
  await r := AuthService.logout in
  match r with
  | inl _ => Navigate "/login" (Done tt)
  | inr _ => Done tt
  end.

Definition is_token_error (errorCode : jsval) : bool :=
  is_str errorCode "TOKEN_EXPIRED" || is_str errorCode "INVALID_TOKEN".

(** [error.response?.data] *)
Definition err_data (error : AxiosError) : jsval :=
  match response error with Some r => data r | None => JUndef end.

(** [error.response?.status || 500] *)
Definition err_status (error : AxiosError) : Z :=
  match response error with
  | Some r => if Z.eqb (status r) 0 then 500 else status r
  | None => 500
  end.

Definition expired_message := "Your session has expired. Please log in again.".
Definition retry_message := "Session expired, please log in again".

(** The [catch (refreshError)] branch. *)
Definition expire (errorData : jsval) : Async outcome :=
  await _ := handleSessionExpiration in
  Done (inr {| message := JStr expired_message; ae_status := 401; cause := errorData |}).

Definition onRejected (in_browser : bool) (error : AxiosError) : Async outcome :=
  let errorData := js_or (err_data error) (JObj []) in
  let status := err_status error in
  let errorCode := get (err_data error) "errorCode" in
  let originalRequest := config error in
  if Z.eqb status 401 && is_token_error errorCode && in_browser then
    if _retry originalRequest then
      await _ := handleSessionExpiration in
      Done (inr {| message := JStr retry_message; ae_status := 401; cause := errorData |})
    else
      await rr := AuthService.refreshToken in
      match rr with
      | inl refreshResponse =>
          if negb (truthy (get refreshResponse "success"))
             || negb (truthy (get refreshResponse "data"))
          then expire errorData
          else Axios (set_retry originalRequest) Done
      | inr _ => expire errorData
      end
  else
    Done (inr {| message := js_or (get (err_data error) "message") (JStr "Something went wrong");
                 ae_status := status; cause := errorData |}).

(** [axiosInstance(config)]: send, then the success handler (the
    identity) or [onRejected]. *)
Definition pipeline (in_browser : bool) (cfg : Config) : Async outcome :=
  Send cfg (fun a =>
    match settle cfg a with
    | inl resp => Done (inl resp)
    | inr err => onRejected in_browser err
    end).

(** ** Classifying answers *)

(** A 401 whose body carries [TOKEN_EXPIRED] or [INVALID_TOKEN]: the
    answer the interceptor tries to recover from. *)
Definition token_reply (a : Answer) : bool :=
  match a with
  | Reply st b => Z.eqb st 401 && is_token_error (get b "errorCode")
  | NetworkError => false
  end.

(** A 2xx answer: the promise resolves. *)
Definition answer_ok (a : Answer) : bool :=
  match a with
  | Reply st _ => validateStatus st
  | NetworkError => false
  end.

(** The [ApiError] of the last line of the interceptor. *)
Definition normalize (error : AxiosError) : ApiError :=
  {| message := js_or (get (err_data error) "message") (JStr "Something went wrong");
     ae_status := err_status error;
     cause := js_or (err_data error) (JObj []) |}.

(** What a call settles with when the interceptor does not retry. *)
Definition plain_outcome (cfg : Config) (a : Answer) : outcome :=
  match settle cfg a with
  | inl resp => inl resp
  | inr err => inr (normalize err)
  end.

(** A refresh answer that makes the interceptor give up: a rejection,
    or a 2xx whose envelope has a falsy [success] or [data]. *)
Definition refresh_fails (a : Answer) : bool :=
  match a with
  | Reply st b =>
      if validateStatus st
      then negb (truthy (get b "success")) || negb (truthy (get b "data"))
      else true
  | NetworkError => true
  end.

(** The request sequences a call may send when the refresh and logout
    endpoints never answer with a token error: the call, then at most
    one refresh, at most one replay, at most one logout. *)
Definition allowed_traces (cfg : Config) : list (list Config) :=
  [[cfg]; [cfg; logout_cfg]; [cfg; refresh_cfg; logout_cfg];
   [cfg; refresh_cfg; set_retry cfg]; [cfg; refresh_cfg; set_retry cfg; logout_cfg]].

(** ** Running programs against a server *)

Record World (Srv E : Type) := {
  server : Srv;
  sent : list Config;
  href : option string;
  app : E
}.
Arguments server {Srv E} w.
Arguments sent {Srv E} w.
Arguments href {Srv E} w.
Arguments app {Srv E} w.

Section Interp.
Context {Srv E : Type}.
(** The server: answers each request and moves to a new state. *)
Variable serve : Srv -> Config -> Srv * Answer.
(** [typeof window !== 'undefined'] *)
Variable in_browser : bool.

Definition after_send (w : World Srv E) (cfg : Config) (s' : Srv) : World Srv E :=
  {| server := s'; sent := sent w ++ [cfg]; href := href w; app := app w |}.

Definition set_href (w : World Srv E) (h : string) : World Srv E :=
  {| server := server w; sent := sent w; href := Some h; app := app w |}.

Definition send (cfg : Config) : prog (World Srv E) Answer :=
  fun w => let '(s', a) := serve (server w) cfg in (Some a, after_send w cfg s').

Definition navigate (h : string) : prog (World Srv E) unit :=
  fun w => (Some tt, set_href w h).

(** Fuel bounds the depth of nested [axiosInstance] calls. *)
Fixpoint interp (fuel : nat) : forall A, Async A -> prog (World Srv E) A :=
  fun A => fix go (t : Async A) : prog (World Srv E) A :=
    match t with
    | Done a => pret a
    | Send cfg k => let! a := send cfg in go (k a)
    | Navigate h k => let! _ := navigate h in go k
    | Axios cfg k =>
        match fuel with
        | O => pstuck
        | S f => let! r := interp f _ (pipeline in_browser cfg) in go (k r)
        end
    end.
Arguments interp fuel {A} t.

(** A call [axiosInstance(cfg)] made by the application. *)
Definition request (fuel : nat) (cfg : Config) : prog (World Srv E) outcome :=
  interp fuel (Axios cfg Done).

(** The natural semantics: [runs w t a w'] when [t] started in [w]
    settles with [a] in [w'] after finitely many steps. *)
Inductive runs : forall {A}, World Srv E -> Async A -> A -> World Srv E -> Prop :=
| runs_done {A} w (a : A) : runs w (Done a) a w
| runs_send {A} w cfg (k : Answer -> Async A) s' ans a w' :
    serve (server w) cfg = (s', ans) ->
    runs (after_send w cfg s') (k ans) a w' ->
    runs w (Send cfg k) a w'
| runs_navigate {A} w h (k : Async A) a w' :
    runs (set_href w h) k a w' ->
    runs w (Navigate h k) a w'
| runs_axios {A} w cfg (k : outcome -> Async A) r w1 a w' :
    runs w (pipeline in_browser cfg) r w1 ->
    runs w1 (k r) a w' ->
    runs w (Axios cfg k) a w'.

(** ** The interpreter, equation by equation *)

Lemma interp_done n {A} (a : A) w : interp n (Done a) w = (Some a, w).
Proof. by destruct n. Qed.

Lemma interp_send n {A} cfg (k : Answer -> Async A) w :
  interp n (Send cfg k) w =
    let '(s', ans) := serve (server w) cfg in interp n (k ans) (after_send w cfg s').
Proof. destruct n; simpl; unfold pbind, send; by destruct (serve (server w) cfg). Qed.

Lemma interp_navigate n {A} h (k : Async A) w :
  interp n (Navigate h k) w = interp n k (set_href w h).
Proof. by destruct n. Qed.

Lemma interp_axios n {A} cfg (k : outcome -> Async A) w :
  interp (S n) (Axios cfg k) w =
    pbind (interp n (pipeline in_browser cfg)) (fun r => interp (S n) (k r)) w.
Proof. reflexivity. Qed.

Lemma interp_axios_0 {A} cfg (k : outcome -> Async A) w :
  interp 0 (Axios cfg k) w = (None, w).
Proof. reflexivity. Qed.

(** [await] is sequencing of the interpretations. *)
Lemma interp_abind n {A B} (t : Async A) (f : A -> Async B) w :
  interp n (abind t f) w = pbind (interp n t) (fun a => interp n (f a)) w.
Proof.
  revert w. induction t as [a|cfg k IH|h k IH|cfg k IH]; intros w.
  - cbn [abind]. unfold pbind. by rewrite interp_done.
  - cbn [abind]. unfold pbind at 1. rewrite !interp_send.
    destruct (serve (server w) cfg). apply IH.
  - cbn [abind]. unfold pbind at 1. rewrite !interp_navigate. apply IH.
  - destruct n as [|n]; [reflexivity|]. cbn [abind].
    rewrite interp_axios. unfold pbind. rewrite interp_axios. unfold pbind.
    destruct (interp n (pipeline in_browser cfg) w) as [[r|] w1]; [|done].
    specialize (IH r w1). unfold pbind in IH. exact IH.
Qed.

(** ** Fuel: monotonicity, soundness and completeness *)

Lemma interp_mono n {A} (t : Async A) w a w' :
  interp n t w = (Some a, w') -> interp (S n) t w = (Some a, w').
Proof.
  revert A t w a w'. induction n as [|n IHn]; intros A t w a w';
    induction t as [a0|cfg k IH|h k IH|cfg k IH] in w |- *.
  1,5: rewrite !interp_done; congruence.
  1,4: rewrite !interp_send; destruct (serve (server w) cfg); apply IH.
  1,3: rewrite !interp_navigate; apply IH.
  - by rewrite interp_axios_0.
  - rewrite (interp_axios (S n)), (interp_axios n). unfold pbind.
    destruct (interp n (pipeline in_browser cfg) w) as [[r|] w1] eqn:Hp; [|done].
    rewrite (IHn _ _ _ _ _ Hp). apply IH.
Qed.

Lemma interp_mono_le n m {A} (t : Async A) w a w' :
  n <= m -> interp n t w = (Some a, w') -> interp m t w = (Some a, w').
Proof. induction 1; auto using interp_mono. Qed.

(** The network layer leaves the application state alone. *)
Lemma interp_app n {A} (t : Async A) w : app (snd (interp n t w)) = app w.
Proof.
  revert A t w. induction n as [|n IHn]; intros A t w;
    induction t as [a0|cfg k IH|h k IH|cfg k IH] in w |- *.
  1,5: by rewrite interp_done.
  1,4: rewrite interp_send; destruct (serve (server w) cfg); by rewrite IH.
  1,3: rewrite interp_navigate; by rewrite IH.
  - by rewrite interp_axios_0.
  - rewrite interp_axios. unfold pbind.
    pose proof (IHn _ (pipeline in_browser cfg) w) as H.
    destruct (interp n (pipeline in_browser cfg) w) as [[r|] w1]; simpl in *; [|done].
    by rewrite IH.
Qed.

(** Requests are only ever appended to the log. *)
Lemma interp_sent n {A} (t : Async A) w : exists rest, sent (snd (interp n t w)) = sent w ++ rest.
Proof.
  revert A t w. induction n as [|n IHn]; intros A t w;
    induction t as [a0|cfg k IH|h k IH|cfg k IH] in w |- *.
  1,5: rewrite interp_done; exists []; by rewrite app_nil_r.
  1,4: rewrite interp_send; destruct (serve (server w) cfg) as [s' ans];
       destruct (IH ans (after_send w cfg s')) as [rest ->]; exists (cfg :: rest);
       simpl; by rewrite <-app_assoc.
  1,3: rewrite interp_navigate; destruct (IH (set_href w h)) as [r H]; by exists r.
  - rewrite interp_axios_0. exists []; by rewrite app_nil_r.
  - rewrite interp_axios. unfold pbind.
    destruct (IHn _ (pipeline in_browser cfg) w) as [r1 H1].
    destruct (interp n (pipeline in_browser cfg) w) as [[r|] w1]; simpl in *; [|by exists r1].
    destruct (IH r w1) as [r2 ->]. rewrite H1, <-app_assoc. by eexists.
Qed.

(** A call made with some fuel sends its own request first. *)
Lemma interp_axios_sent n {A} cfg (k : outcome -> Async A) w :
  exists rest, sent (snd (interp (S n) (Axios cfg k) w)) = sent w ++ cfg :: rest.
Proof.
  rewrite interp_axios. unfold pipeline, pbind. rewrite interp_send.
  destruct (serve (server w) cfg) as [s' ans].
  match goal with |- context [interp n ?t (after_send w cfg s')] =>
    destruct (interp_sent n t (after_send w cfg s')) as [r1 H1];
    destruct (interp n t (after_send w cfg s')) as [[r|] w1] end; cbv beta iota; simpl in H1.
  - destruct (interp_sent (S n) (k r) w1) as [r2 ->]. rewrite H1.
    exists (r1 ++ r2). by rewrite <-!app_assoc.
  - simpl. rewrite H1. exists r1. by rewrite <-app_assoc.
Qed.

Lemma interp_sound n {A} (t : Async A) w a w' :
  interp n t w = (Some a, w') -> runs w t a w'.
Proof.
  revert A t w a w'. induction n as [|n IHn]; intros A t w a w';
    induction t as [a0|cfg k IH|h k IH|cfg k IH] in w |- *.
  1,5: rewrite interp_done; intros [= -> ->]; constructor.
  1,4: rewrite interp_send; destruct (serve (server w) cfg) eqn:Hs;
       intros H; econstructor; [exact Hs|]; by apply IH.
  1,3: rewrite interp_navigate; intros H; constructor; by apply IH.
  - by rewrite interp_axios_0.
  - rewrite interp_axios. unfold pbind.
    destruct (interp n (pipeline in_browser cfg) w) as [[r|] w1] eqn:Hp; [|done].
    intros H. econstructor; [by apply IHn in Hp|]. by apply IH.
Qed.

Lemma interp_complete {A} w (t : Async A) a w' :
  runs w t a w' -> exists n, interp n t w = (Some a, w').
Proof.
  induction 1 as [A w a|A w cfg k s' ans a w' Hs _ [n IH]|A w h k a w' _ [n IH]
                  |A w cfg k r w1 a w' _ [n1 IH1] _ [n2 IH2]].
  - exists 0. by rewrite interp_done.
  - exists n. by rewrite interp_send, Hs.
  - exists n. by rewrite interp_navigate.
  - exists (S (Nat.max n1 n2)). rewrite interp_axios.
    rewrite (pbind_some _ _ _ r w1); [|apply (interp_mono_le n1); [lia|done]].
    apply (interp_mono_le n2); [lia|done].
Qed.

(** The fuel-bounded interpreter is adequate for the natural
    semantics of asynchronous programs: a program settles with a
    value and a final world in [runs] exactly when some fuel makes
    [interp] return them. *)
Theorem interp_adequate {A} (t : Async A) w a w' :
  runs w t a w' <-> exists n, interp n t w = (Some a, w').
Proof.
  split; [apply interp_complete|].
  intros [n Hn]. by apply (interp_sound n).
Qed.

(** ** The interceptor, branch by branch *)

Definition auth_endpoint (c : Config) : Prop :=
  url c = AuthService.refresh_url \/ url c = AuthService.logout_url.

Lemma settle_reject_cond cfg a err :
  settle cfg a = inr err ->
  Z.eqb (err_status err) 401 && is_token_error (get (err_data err) "errorCode") = token_reply a.
Proof.
  destruct a as [st b|]; simpl; [|by intros [= <-]].
  destruct (validateStatus st) eqn:Hv; [done|]. intros [= <-].
  unfold err_status, err_data; simpl.
  destruct (Z.eqb_spec st 0); [subst; simpl; by destruct (is_token_error (get b "errorCode"))|done].
Qed.

(** A call whose answer is not a recoverable token error settles at
    once with [plain_outcome], for any fuel. *)
Lemma pipeline_plain n cfg w s' a :
  serve (server w) cfg = (s', a) -> token_reply a && in_browser = false ->
  interp n (pipeline in_browser cfg) w = (Some (plain_outcome cfg a), after_send w cfg s').
Proof.
  intros Hs Hc. unfold pipeline. rewrite interp_send, Hs. unfold plain_outcome.
  destruct (settle cfg a) as [resp|err] eqn:Hse; [by rewrite interp_done|].
  unfold onRejected. rewrite (settle_reject_cond _ _ _ Hse), Hc. by rewrite interp_done.
Qed.

Lemma pipeline_token n cfg w s' a :
  serve (server w) cfg = (s', a) -> token_reply a = true -> in_browser = true ->
  exists err, settle cfg a = inr err /\ config err = cfg /\
    interp n (pipeline in_browser cfg) w =
      interp n (onRejected in_browser err) (after_send w cfg s').
Proof.
  intros Hs Ht Hb. unfold pipeline. rewrite interp_send, Hs.
  destruct a as [st b|]; [|done]. simpl in Ht. apply andb_true_iff in Ht as [Hst _].
  apply Z.eqb_eq in Hst as ->. by eexists.
Qed.

Lemma ok_not_token st b :
  validateStatus st = true -> token_reply (Reply st b) && in_browser = false.
Proof.
  unfold validateStatus. intros Hv. simpl.
  destruct (Z.eqb_spec st 401); [|done]. subst. done.
Qed.

Lemma plain_outcome_ok c a :
  answer_ok a = true -> exists resp, plain_outcome c a = inl resp.
Proof.
  destruct a as [st b|]; simpl; [|done]. intros Hv. unfold plain_outcome; simpl.
  rewrite Hv. by eexists.
Qed.

Lemma plain_outcome_ko c a :
  answer_ok a = false -> exists e, plain_outcome c a = inr e.
Proof.
  unfold plain_outcome. destruct a as [st b|]; simpl; [|by eexists].
  intros Hv. rewrite Hv. by eexists.
Qed.

(** A nested call answered without a token error returns at once. *)
Lemma interp_axios_plain n {A} c (k : outcome -> Async A) w s' a :
  serve (server w) c = (s', a) -> token_reply a && in_browser = false ->
  interp (S n) (Axios c k) w = interp (S n) (k (plain_outcome c a)) (after_send w c s').
Proof.
  intros Hs Hc. rewrite interp_axios.
  rewrite (pbind_some _ _ _ (plain_outcome c a) (after_send w c s')); [done|].
  by apply pipeline_plain.
Qed.

(** The world after [handleSessionExpiration] when the logout call is
    answered [a]: the redirection happens only if logout resolved. *)
Definition expire_world (w : World Srv E) (s' : Srv) (a : Answer) : World Srv E :=
  let w' := after_send w logout_cfg s' in
  if answer_ok a then set_href w' "/login" else w'.

Lemma interp_handleSessionExpiration n w s' a :
  serve (server w) logout_cfg = (s', a) -> token_reply a && in_browser = false ->
  interp (S n) handleSessionExpiration w = (Some tt, expire_world w s' a).
Proof.
  intros Hs Hc. unfold handleSessionExpiration, AuthService.logout, post. cbn [abind].
  rewrite (interp_axios_plain _ _ _ _ _ _ Hs Hc). unfold expire_world.
  destruct (answer_ok a) eqn:Ho.
  - destruct (plain_outcome_ok logout_cfg a Ho) as [resp ->]. reflexivity.
  - destruct (plain_outcome_ko logout_cfg a Ho) as [e ->]. reflexivity.
Qed.

Lemma onRejected_token err :
  Z.eqb (err_status err) 401 && is_token_error (get (err_data err) "errorCode") = true ->
  in_browser = true ->
  onRejected in_browser err =
    let errorData := js_or (err_data err) (JObj []) in
    if _retry (config err) then
      await _ := handleSessionExpiration in
      Done (inr {| message := JStr retry_message; ae_status := 401; cause := errorData |})
    else
      await rr := AuthService.refreshToken in
      match rr with
      | inl refreshResponse =>
          if negb (truthy (get refreshResponse "success"))
             || negb (truthy (get refreshResponse "data"))
          then expire errorData
          else Axios (set_retry (config err)) Done
      | inr _ => expire errorData
      end.
Proof. intros Hc Hb. unfold onRejected. cbv zeta. by rewrite Hc, Hb. Qed.

Lemma request_plain n cfg w s' a :
  serve (server w) cfg = (s', a) -> token_reply a && in_browser = false ->
  request (S n) cfg w = (Some (plain_outcome cfg a), after_send w cfg s').
Proof.
  intros Hs Hc. unfold request. rewrite (interp_axios_plain _ _ _ _ _ _ Hs Hc).
  apply interp_done.
Qed.

(** The interceptor entered with a 401 token error of body [b1]. *)
Lemma request_token_entry n cfg w s1 b1 :
  in_browser = true -> serve (server w) cfg = (s1, Reply 401 b1) ->
  is_token_error (get b1 "errorCode") = true ->
  request (S n) cfg w =
    pbind (interp n (onRejected in_browser
              {| response := Some {| status := 401; data := b1 |}; config := cfg |}))
          pret (after_send w cfg s1).
Proof.
  intros Hb Hs Ht. unfold request. rewrite interp_axios. unfold pbind at 1.
  unfold pipeline. rewrite interp_send, Hs. reflexivity.
Qed.

Lemma refresh_cont_fails a ed (k : Async outcome) :
  refresh_fails a = true ->
  match response_data (plain_outcome refresh_cfg a) with
  | inl refreshResponse =>
      if negb (truthy (get refreshResponse "success"))
         || negb (truthy (get refreshResponse "data"))
      then expire ed else k
  | inr _ => expire ed
  end = expire ed.
Proof.
  unfold plain_outcome. destruct a as [st b|]; simpl; [|done].
  destruct (validateStatus st); simpl; [|done]. by intros ->.
Qed.

Lemma interp_expire n w s' a ed :
  serve (server w) logout_cfg = (s', a) -> token_reply a && in_browser = false ->
  interp (S n) (expire ed) w =
    (Some (inr {| message := JStr expired_message; ae_status := 401; cause := ed |}),
     expire_world w s' a).
Proof.
  intros Hs Hc. unfold expire. rewrite interp_abind. unfold pbind.
  by rewrite (interp_handleSessionExpiration _ _ _ _ Hs Hc).
Qed.

(** A 2xx answer is passed through unchanged; one request is sent. *)
Lemma request_success n cfg w s' st b :
  serve (server w) cfg = (s', Reply st b) -> validateStatus st = true ->
  request (S n) cfg w = (Some (inl {| status := st; data := b |}), after_send w cfg s').
Proof.
  intros Hs Hv. unfold request.
  rewrite (interp_axios_plain _ _ _ _ _ _ Hs) by (by apply ok_not_token).
  unfold plain_outcome. simpl. rewrite Hv. reflexivity.
Qed.

(** Any other answer is rejected with the normalised [ApiError]. *)
Lemma request_plain_error n cfg w s' st b :
  serve (server w) cfg = (s', Reply st b) -> validateStatus st = false ->
  token_reply (Reply st b) && in_browser = false ->
  request (S n) cfg w =
    (Some (inr {| message := js_or (get b "message") (JStr "Something went wrong");
                  ae_status := if Z.eqb st 0 then 500 else st;
                  cause := js_or b (JObj []) |}),
     after_send w cfg s').
Proof.
  intros Hs Hv Hc. unfold request.
  rewrite (interp_axios_plain _ _ _ _ _ _ Hs Hc), interp_done.
  unfold plain_outcome. simpl. by rewrite Hv.
Qed.

(** C9: a request whose answer is not a recoverable token error (or
    any request outside the browser) is settled by that answer alone:
    a 2xx reply is passed through unchanged; any other reply is
    rejected with the normalised [ApiError]: status kept ([|| 500] for
    0), the body's message or ["Something went wrong"], and the body as
    cause; a call with no response (a network error) is rejected with
    ["Something went wrong"], status 500 and an empty cause.  No
    refresh is attempted and exactly one request is sent. *)
Theorem request_settles_plain n cfg w s' a :
  serve (server w) cfg = (s', a) ->
  token_reply a && in_browser = false ->
  request (S n) cfg w =
    (Some match a with
          | Reply st b =>
              if validateStatus st then inl {| status := st; data := b |}
              else inr {| message := js_or (get b "message") (JStr "Something went wrong");
                          ae_status := if Z.eqb st 0 then 500 else st;
                          cause := js_or b (JObj []) |}
          | NetworkError =>
              inr {| message := JStr "Something went wrong"; ae_status := 500; cause := JObj [] |}
          end,
     after_send w cfg s').
Proof.
  intros Hs Hc. destruct a as [st b|].
  - destruct (validateStatus st) eqn:Hv.
    + by apply request_success.
    + by apply request_plain_error.
  - unfold request. by rewrite (interp_axios_plain _ _ _ _ _ _ Hs Hc), interp_done.
Qed.

(** Helper form of the property stated next. *)
Lemma refresh_replay_eq n cfg w s1 a1 s2 st2 b2 :
  in_browser = true -> _retry cfg = false ->
  serve (server w) cfg = (s1, a1) -> token_reply a1 = true ->
  serve s1 refresh_cfg = (s2, Reply st2 b2) -> validateStatus st2 = true ->
  truthy (get b2 "success") = true -> truthy (get b2 "data") = true ->
  request (S (S n)) cfg w =
    request (S n) (set_retry cfg) (after_send (after_send w cfg s1) refresh_cfg s2).
Proof.
  intros Hb Hr Hs1 Ht Hs2 Hv Hsu Hda. unfold request.
  rewrite !interp_axios. unfold pbind.
  destruct (pipeline_token (S n) cfg w s1 a1 Hs1 Ht Hb) as (err & Hse & Hcfg & ->).
  rewrite onRejected_token by (by rewrite ?(settle_reject_cond _ _ _ Hse)).
  cbv zeta. rewrite Hcfg, Hr.
  unfold AuthService.refreshToken, post. cbn [abind].
  rewrite (interp_axios_plain _ _ _ (after_send w cfg s1) _ _ Hs2) by (by apply ok_not_token).
  unfold plain_outcome. simpl. rewrite Hv. simpl. rewrite Hsu, Hda. simpl.
  by rewrite pbind_pret_r.
Qed.

(** C1: a first 401 token error on a fresh request triggers exactly
    one refresh call; when it succeeds the original request is
    replayed once, with [_retry] set, through the same pipeline, and
    the caller receives the replay's result. *)
Theorem request_refresh_replay n cfg w s1 a1 s2 st2 b2 :
  in_browser = true -> _retry cfg = false ->
  serve (server w) cfg = (s1, a1) -> token_reply a1 = true ->
  serve s1 refresh_cfg = (s2, Reply st2 b2) -> validateStatus st2 = true ->
  truthy (get b2 "success") = true -> truthy (get b2 "data") = true ->
  request (S (S n)) cfg w =
    request (S n) (set_retry cfg) (after_send (after_send w cfg s1) refresh_cfg s2).
Proof. exact (refresh_replay_eq n cfg w s1 a1 s2 st2 b2). Qed.

(** Helper form of the property stated next. *)
Lemma retry_exhausted_eq n cfg w s1 b1 s2 a2 :
  in_browser = true -> _retry cfg = true ->
  serve (server w) cfg = (s1, Reply 401 b1) -> is_token_error (get b1 "errorCode") = true ->
  serve s1 logout_cfg = (s2, a2) -> token_reply a2 = false ->
  request (S (S n)) cfg w =
    (Some (inr {| message := JStr retry_message; ae_status := 401; cause := js_or b1 (JObj []) |}),
     expire_world (after_send w cfg s1) s2 a2).
Proof.
  intros Hb Hr Hs1 Ht Hs2 Ha2.
  rewrite (request_token_entry _ _ _ _ _ Hb Hs1 Ht).
  rewrite onRejected_token; [|exact Ht|exact Hb]. cbv zeta. simpl _retry.
  rewrite Hr. unfold pbind. rewrite interp_abind. unfold pbind.
  rewrite (interp_handleSessionExpiration _ (after_send w cfg s1) _ _ Hs2) by (by rewrite Ha2).
  reflexivity.
Qed.

(** C2: a 401 token error on a request already replayed ([_retry]
    set) calls no refresh: the logout call is made (one request), the
    browser goes to [/login] if it resolved, and the call is rejected
    with ["Session expired, please log in again"], status 401. *)
Theorem request_retry_exhausted n cfg w s1 b1 s2 a2 :
  in_browser = true -> _retry cfg = true ->
  serve (server w) cfg = (s1, Reply 401 b1) -> is_token_error (get b1 "errorCode") = true ->
  serve s1 logout_cfg = (s2, a2) -> token_reply a2 = false ->
  request (S (S n)) cfg w =
    (Some (inr {| message := JStr retry_message; ae_status := 401; cause := js_or b1 (JObj []) |}),
     expire_world (after_send w cfg s1) s2 a2).
Proof. exact (retry_exhausted_eq n cfg w s1 b1 s2 a2). Qed.

(** Helper form of the property stated next. *)
Lemma refresh_fails_eq n cfg w s1 b1 s2 a2 s3 a3 :
  in_browser = true -> _retry cfg = false ->
  serve (server w) cfg = (s1, Reply 401 b1) -> is_token_error (get b1 "errorCode") = true ->
  serve s1 refresh_cfg = (s2, a2) -> token_reply a2 = false -> refresh_fails a2 = true ->
  serve s2 logout_cfg = (s3, a3) -> token_reply a3 = false ->
  request (S (S n)) cfg w =
    (Some (inr {| message := JStr expired_message; ae_status := 401; cause := js_or b1 (JObj []) |}),
     expire_world (after_send (after_send w cfg s1) refresh_cfg s2) s3 a3).
Proof.
  intros Hb Hr Hs1 Ht Hs2 Ha2 Hf Hs3 Ha3.
  rewrite (request_token_entry _ _ _ _ _ Hb Hs1 Ht).
  rewrite onRejected_token; [|exact Ht|exact Hb]. cbv zeta. simpl _retry.
  rewrite Hr. unfold AuthService.refreshToken, post. cbn [abind].
  unfold pbind.
  rewrite (interp_axios_plain _ _ _ (after_send w cfg s1) _ _ Hs2) by (by rewrite Ha2).
  rewrite refresh_cont_fails by done.
  by rewrite (interp_expire _ (after_send (after_send w cfg s1) refresh_cfg s2) _ _ _ Hs3)
    by (by rewrite Ha3).
Qed.

(** C3: when the refresh call fails (rejected, or resolved with a
    falsy [success] or [data]) the logout call is made, the browser
    goes to [/login] if it resolved, and the original call is rejected
    with ["Your session has expired. Please log in again."], 401; the
    original request is not replayed. *)
Theorem request_refresh_fails n cfg w s1 b1 s2 a2 s3 a3 :
  in_browser = true -> _retry cfg = false ->
  serve (server w) cfg = (s1, Reply 401 b1) -> is_token_error (get b1 "errorCode") = true ->
  serve s1 refresh_cfg = (s2, a2) -> token_reply a2 = false -> refresh_fails a2 = true ->
  serve s2 logout_cfg = (s3, a3) -> token_reply a3 = false ->
  request (S (S n)) cfg w =
    (Some (inr {| message := JStr expired_message; ae_status := 401; cause := js_or b1 (JObj []) |}),
     expire_world (after_send (after_send w cfg s1) refresh_cfg s2) s3 a3).
Proof. exact (refresh_fails_eq n cfg w s1 b1 s2 a2 s3 a3). Qed.

Lemma interp_pipeline_401 n c w s1 b1 :
  serve (server w) c = (s1, Reply 401 b1) ->
  interp n (pipeline in_browser c) w =
    interp n (onRejected in_browser {| response := Some {| status := 401; data := b1 |}; config := c |})
      (after_send w c s1).
Proof. intros Hs. unfold pipeline. by rewrite interp_send, Hs. Qed.

(** ** Termination when the auth endpoints behave *)

(** The refresh and logout endpoints never answer with a token error. *)
Definition endpoints_ok : Prop :=
  forall s c, auth_endpoint c -> token_reply (snd (serve s c)) = false.

Lemma token_entry_inv a :
  token_reply a && in_browser = true ->
  exists b, a = Reply 401 b /\ is_token_error (get b "errorCode") = true /\ in_browser = true.
Proof.
  destruct a as [st b|]; simpl; [|done]. rewrite !andb_true_iff, Z.eqb_eq.
  intros [[-> Ht] Hb]. by exists b.
Qed.

Lemma refresh_ok_inv a :
  refresh_fails a = false ->
  exists st b, a = Reply st b /\ validateStatus st = true /\
    truthy (get b "success") = true /\ truthy (get b "data") = true.
Proof.
  destruct a as [st b|]; simpl; [|done].
  destruct (validateStatus st) eqn:Hv; [|done].
  rewrite orb_false_iff, !negb_false_iff. intros [Hs Hd]. by exists st, b.
Qed.

Lemma sent_after_send w c s' : sent (after_send w c s') = sent w ++ [c].
Proof. reflexivity. Qed.

Lemma sent_expire_world w s' a : sent (expire_world w s' a) = sent w ++ [logout_cfg].
Proof. unfold expire_world. by destruct (answer_ok a). Qed.

Ltac solve_sent :=
  rewrite ?sent_expire_world, ?sent_after_send; simpl; rewrite <- ?app_assoc; reflexivity.

Section WellBehaved.
Hypothesis Hwb : endpoints_ok.

Lemma wb_logout s : token_reply (snd (serve s logout_cfg)) = false.
Proof. apply Hwb. by right. Qed.

Lemma wb_refresh s : token_reply (snd (serve s refresh_cfg)) = false.
Proof. apply Hwb. by left. Qed.

(** The replayed request settles, sending itself and at most a logout. *)
Lemma replay_settles cfg w :
  exists r w', request 2 (set_retry cfg) w = (Some r, w') /\
    (sent w' = sent w ++ [set_retry cfg] \/ sent w' = sent w ++ [set_retry cfg; logout_cfg]).
Proof.
  destruct (serve (server w) (set_retry cfg)) as [s1 a1] eqn:Hs1.
  destruct (token_reply a1 && in_browser) eqn:Hc.
  - destruct (token_entry_inv _ Hc) as (b1 & -> & Ht & Hb).
    pose proof (wb_logout s1) as Hl. destruct (serve s1 logout_cfg) as [s2 a2] eqn:Hs2.
    rewrite (retry_exhausted_eq 0 _ _ s1 b1 s2 a2) by done.
    do 2 eexists. split; [done|]. right. solve_sent.
  - rewrite (request_plain _ _ _ _ _ Hs1 Hc). do 2 eexists. split; [done|]. left. solve_sent.
Qed.

(** C4: when the refresh and logout endpoints never answer with a
    token error, every call settles with three levels of fuel (so
    with any more, by monotonicity), and it sends one of the five
    sequences of [allowed_traces]: at most one refresh, at most one
    replay, at most one logout. *)
Theorem request_terminates_bounded n cfg w :
  3 <= n ->
  exists r w', request n cfg w = (Some r, w') /\
    exists tr, In tr (allowed_traces cfg) /\ sent w' = sent w ++ tr.
Proof.
  intros Hn. enough (H3 : exists r w', request 3 cfg w = (Some r, w') /\
    exists tr, In tr (allowed_traces cfg) /\ sent w' = sent w ++ tr).
  { destruct H3 as (r & w' & Hr & Htr). exists r, w'. split; [|done].
    by apply (interp_mono_le 3). }
  destruct (serve (server w) cfg) as [s1 a1] eqn:Hs1.
  destruct (token_reply a1 && in_browser) eqn:Hc.
  2:{ rewrite (request_plain _ _ _ _ _ Hs1 Hc). do 2 eexists. split; [done|].
      exists [cfg]. split; [simpl; tauto|solve_sent]. }
  destruct (token_entry_inv _ Hc) as (b1 & -> & Ht & Hb).
  destruct (_retry cfg) eqn:Hr.
  { pose proof (wb_logout s1) as Hl. destruct (serve s1 logout_cfg) as [s2 a2] eqn:Hs2.
    rewrite (retry_exhausted_eq 1 _ _ s1 b1 s2 a2) by done.
    do 2 eexists. split; [done|]. exists [cfg; logout_cfg]. split; [simpl; tauto|solve_sent]. }
  pose proof (wb_refresh s1) as Hrf. destruct (serve s1 refresh_cfg) as [s2 a2] eqn:Hs2.
  destruct (refresh_fails a2) eqn:Hf.
  { pose proof (wb_logout s2) as Hl. destruct (serve s2 logout_cfg) as [s3 a3] eqn:Hs3.
    rewrite (refresh_fails_eq 1 _ _ s1 b1 s2 a2 s3 a3) by done.
    do 2 eexists. split; [done|]. exists [cfg; refresh_cfg; logout_cfg].
    split; [simpl; tauto|solve_sent]. }
  destruct (refresh_ok_inv _ Hf) as (st2 & b2 & -> & Hv & Hsu & Hda).
  rewrite (refresh_replay_eq 1 cfg w s1 (Reply 401 b1) s2 st2 b2) by done.
  destruct (replay_settles cfg (after_send (after_send w cfg s1) refresh_cfg s2))
    as (r & w' & -> & [Hsent|Hsent]); do 2 eexists; (split; [done|]).
  - exists [cfg; refresh_cfg; set_retry cfg]. split; [simpl; tauto|].
    rewrite Hsent. solve_sent.
  - exists [cfg; refresh_cfg; set_retry cfg; logout_cfg]. split; [simpl; tauto|].
    rewrite Hsent. solve_sent.
Qed.
End WellBehaved.

(** ** Divergence when an auth endpoint answers with a token error *)

Section RefreshLoop.
Hypothesis Hb : in_browser = true.
(** The refresh endpoint answers every call with 401 [INVALID_TOKEN]
    or [TOKEN_EXPIRED] (an expired or revoked refresh token). *)
Hypothesis Hloop : forall s, token_reply (snd (serve s refresh_cfg)) = true.

(** Helper form of the property stated next. *)
Lemma refresh_loop_trace n w :
  fst (interp n (pipeline in_browser refresh_cfg) w) = None /\
  sent (snd (interp n (pipeline in_browser refresh_cfg) w)) = sent w ++ repeat refresh_cfg (S n).
Proof.
  revert w. induction n as [|n IH]; intros w;
    pose proof (Hloop (server w)) as Ht;
    destruct (serve (server w) refresh_cfg) as [s1 a1] eqn:Hs; simpl in Ht;
    destruct (token_entry_inv a1 ltac:(by rewrite Ht, Hb)) as (b1 & -> & Htok & _);
    rewrite (interp_pipeline_401 _ _ _ _ _ Hs);
    rewrite onRejected_token by (exact Htok || exact Hb); cbv zeta; simpl _retry;
    unfold AuthService.refreshToken, post; cbn [abind]; fold refresh_cfg.
  - rewrite interp_axios_0. split; [done|]. solve_sent.
  - rewrite interp_axios. unfold pbind.
    destruct (IH (after_send w refresh_cfg s1)) as [Hn Hsent].
    destruct (interp n (pipeline in_browser refresh_cfg) (after_send w refresh_cfg s1))
      as [[r|] w2]; [done|]. split; [done|]. simpl in Hsent |- *. rewrite Hsent.
    simpl. rewrite <- app_assoc. reflexivity.
Qed.

(** C6: the refresh call re-enters the interceptor with a fresh
    config whose [_retry] is unset, which refreshes again: with fuel
    [n] the refresh call has not settled and [n + 1] refresh requests
    have been sent. *)
Theorem refresh_pipeline_loops n w :
  fst (interp n (pipeline in_browser refresh_cfg) w) = None /\
  sent (snd (interp n (pipeline in_browser refresh_cfg) w)) = sent w ++ repeat refresh_cfg (S n).
Proof. exact (refresh_loop_trace n w). Qed.

(** C5: a call that gets a first token error never settles: there
    is no finite execution of it in the natural semantics. *)
Theorem request_refresh_loop_never_settles cfg w s1 a1 r w' :
  _retry cfg = false -> serve (server w) cfg = (s1, a1) -> token_reply a1 = true ->
  ~ runs w (Axios cfg Done) r w'.
Proof.
  intros Hr Hs Ht1 [n Hn]%interp_complete.
  assert (Hc : token_reply a1 && in_browser = true) by (by rewrite Ht1, Hb).
  destruct (token_entry_inv _ Hc) as (b1 & -> & Htok & _).
  destruct n as [|[|m]]; [done| |].
  all: match type of Hn with interp ?k _ _ = _ =>
         change (interp k (Axios cfg Done) w) with (request k cfg w) in Hn end;
    rewrite (request_token_entry _ _ _ _ _ Hb Hs Htok) in Hn;
    rewrite onRejected_token in Hn by (exact Htok || exact Hb); cbv zeta in Hn;
    simpl _retry in Hn; rewrite Hr in Hn;
    unfold AuthService.refreshToken, post in Hn; cbn [abind] in Hn; fold refresh_cfg in Hn;
    unfold pbind at 1 in Hn.
  - by rewrite interp_axios_0 in Hn.
  - rewrite interp_axios in Hn. unfold pbind in Hn.
    destruct (refresh_loop_trace m (after_send w cfg s1)) as [Hnone _].
    destruct (interp m (pipeline in_browser refresh_cfg) (after_send w cfg s1))
      as [[?|] ?]; done.
Qed.
End RefreshLoop.

Section LogoutLoop.
Hypothesis Hb : in_browser = true.
(** The logout endpoint answers every call with a token error, as an
    endpoint that requires the just-expired access token does. *)
Hypothesis Hlogout :
  forall s c, url c = AuthService.logout_url -> token_reply (snd (serve s c)) = true.

Lemma logout_token_entry (w : World Srv E) c :
  url c = AuthService.logout_url ->
  exists s1 b1, serve (server w) c = (s1, Reply 401 b1) /\
    is_token_error (get b1 "errorCode") = true.
Proof.
  intros Hu. pose proof (Hlogout (server w) c Hu) as Ht.
  destruct (serve (server w) c) as [s1 a1]. simpl in Ht.
  destruct (token_entry_inv a1 ltac:(by rewrite Ht, Hb)) as (b1 & -> & Htok & _).
  by exists s1, b1.
Qed.

Lemma hse_fuel_none n (w : World Srv E) : fst (interp n handleSessionExpiration w) = None.
Proof.
  revert w. induction n as [n IH] using lt_wf_ind; intros w.
  unfold handleSessionExpiration, AuthService.logout, post. cbn [abind]. fold logout_cfg.
  destruct n as [|m]; [by rewrite interp_axios_0|].
  rewrite interp_axios. apply pbind_fst_none.
  destruct (logout_token_entry w logout_cfg eq_refl) as (s1 & b1 & Hs & Htok).
  rewrite (interp_pipeline_401 _ _ _ _ _ Hs).
  rewrite onRejected_token by (exact Htok || exact Hb). cbv zeta. simpl _retry.
  unfold AuthService.refreshToken, post. cbn [abind]. fold refresh_cfg.
  destruct m as [|p]; [by rewrite interp_axios_0|].
  rewrite interp_axios. unfold pbind at 1.
  destruct (interp p (pipeline in_browser refresh_cfg) _) as [[r|] w2]; [|done].
  assert (Hexp : forall ed w, fst (interp (S p) (expire ed) w) = None).
  { intros ed w'. unfold expire. rewrite interp_abind. apply pbind_fst_none.
    apply IH. lia. }
  destruct r as [resp|e]; cbn [response_data abind]; [|apply Hexp].
  destruct (negb _ || negb _); [apply Hexp|].
  rewrite interp_axios. apply pbind_fst_none.
  destruct (logout_token_entry w2 (set_retry logout_cfg) eq_refl) as (s3 & b3 & Hs3 & Htok3).
  rewrite (interp_pipeline_401 _ _ _ _ _ Hs3).
  rewrite onRejected_token by (exact Htok3 || exact Hb). cbv zeta. simpl _retry.
  cbv iota. rewrite interp_abind. apply pbind_fst_none. apply IH. lia.
Qed.

(** C7: session termination never completes when the logout
    endpoint answers with a token error: its logout call refreshes,
    and whether the refresh succeeds or fails it ends in a new
    session termination.  No finite execution exists, so the page is
    never sent to [/login]. *)
Theorem handleSessionExpiration_never_settles (w : World Srv E) u w' :
  ~ runs w handleSessionExpiration u w'.
Proof.
  intros [n Hn]%interp_complete. pose proof (hse_fuel_none n w) as H.
  by rewrite Hn in H.
Qed.

(** C8: hence a call whose token error cannot be refreshed (the
    refresh call fails without a token error) never settles: the
    caller's promise stays pending and the user is not redirected. *)
Theorem request_refresh_fails_never_settles cfg w s1 b1 s2 a2 r w' :
  _retry cfg = false ->
  serve (server w) cfg = (s1, Reply 401 b1) -> is_token_error (get b1 "errorCode") = true ->
  serve s1 refresh_cfg = (s2, a2) -> token_reply a2 = false -> refresh_fails a2 = true ->
  ~ runs w (Axios cfg Done) r w'.
Proof.
  intros Hr Hs1 Htok Hs2 Ha2 Hf [n Hn]%interp_complete.
  destruct n as [|[|m]]; [done| |].
  all: match type of Hn with interp ?k _ _ = _ =>
         change (interp k (Axios cfg Done) w) with (request k cfg w) in Hn end;
    rewrite (request_token_entry _ _ _ _ _ Hb Hs1 Htok) in Hn;
    rewrite onRejected_token in Hn by (exact Htok || exact Hb); cbv zeta in Hn;
    simpl _retry in Hn; rewrite Hr in Hn;
    unfold AuthService.refreshToken, post in Hn; cbn [abind] in Hn; fold refresh_cfg in Hn;
    unfold pbind at 1 in Hn.
  - by rewrite interp_axios_0 in Hn.
  - rewrite (interp_axios_plain _ _ _ (after_send w cfg s1) _ _ Hs2) in Hn by (by rewrite Ha2).
    rewrite refresh_cont_fails in Hn by done.
    pose proof (hse_fuel_none (S m) (after_send (after_send w cfg s1) refresh_cfg s2)) as H.
    unfold expire in Hn. rewrite interp_abind in Hn. unfold pbind in Hn.
    destruct (interp (S m) handleSessionExpiration _) as [[?|] ?]; done.
Qed.
End LogoutLoop.

End Interp.

Arguments interp {Srv E} serve in_browser fuel {A} t.

End Http.

(** ** Concrete runs *)

Module HttpWitnesses.
Import Http.
Local Open Scope list_scope.

Definition data_cfg : Config :=
  {| method := GET; url := "/api/v1/data"; body := JUndef; _retry := false |}.
Definition token_body : jsval := JObj [("errorCode", JStr "TOKEN_EXPIRED")].
Definition refresh_body : jsval :=
  JObj [("success", JBool true); ("data", JObj [("accessToken", JStr "t2")])].
Definition ok_body : jsval := JObj [("success", JBool true)].

(** A server answering the [n]-th request with the [n]-th answer. *)
Definition scripted (answers : list Answer) (s : nat) (_ : Config) : nat * Answer :=
  (S s, nth s answers NetworkError).

Definition w0 : World nat unit := {| server := 0; sent := []; href := None; app := tt |}.

(** The access token is expired until the refresh endpoint is called. *)
Definition demo_server (refreshed : bool) (c : Config) : bool * Answer :=
  if String.eqb (url c) AuthService.refresh_url then (true, Reply 200 refresh_body)
  else if String.eqb (url c) AuthService.logout_url then (refreshed, Reply 200 ok_body)
  else if refreshed then (refreshed, Reply 200 ok_body)
  else (refreshed, Reply 401 token_body).

Definition wb0 : World bool unit := {| server := false; sent := []; href := None; app := tt |}.

(** Every request is refused with a token error. *)
Definition expired_server (s : nat) (_ : Config) : nat * Answer := (S s, Reply 401 token_body).

(** The refresh token is revoked (403) and logout requires the expired
    access token. *)
Definition revoked_server (s : nat) (c : Config) : nat * Answer :=
  if String.eqb (url c) AuthService.refresh_url then (S s, Reply 403 (JObj []))
  else (S s, Reply 401 token_body).

Lemma request_refresh_replay_witness :
  request (scripted [Reply 401 token_body; Reply 200 refresh_body; Reply 200 ok_body]) true
    2 data_cfg w0 =
  request (scripted [Reply 401 token_body; Reply 200 refresh_body; Reply 200 ok_body]) true
    1 (set_retry data_cfg) (after_send (after_send w0 data_cfg 1) refresh_cfg 2).
Proof.
  apply (request_refresh_replay _ _ 0 data_cfg w0 1 (Reply 401 token_body) 2 200 refresh_body);
    reflexivity.
Defined.

Lemma request_retry_exhausted_witness :
  request (scripted [Reply 401 token_body; Reply 200 ok_body]) true 2 (set_retry data_cfg) w0 =
    (Some (inr {| message := JStr retry_message; ae_status := 401;
                  cause := js_or token_body (JObj []) |}),
     expire_world (after_send w0 (set_retry data_cfg) 1) 2 (Reply 200 ok_body)).
Proof.
  apply (request_retry_exhausted _ _ 0 (set_retry data_cfg) w0 1 token_body 2 (Reply 200 ok_body));
    reflexivity.
Defined.

Lemma request_refresh_fails_witness :
  request (scripted [Reply 401 token_body; Reply 403 (JObj []); Reply 200 ok_body]) true 2 data_cfg w0 =
    (Some (inr {| message := JStr expired_message; ae_status := 401;
                  cause := js_or token_body (JObj []) |}),
     expire_world (after_send (after_send w0 data_cfg 1) refresh_cfg 2) 3 (Reply 200 ok_body)).
Proof.
  apply (request_refresh_fails _ _ 0 data_cfg w0 1 token_body 2 (Reply 403 (JObj [])) 3
           (Reply 200 ok_body)); reflexivity.
Defined.

Lemma request_terminates_bounded_witness :
  exists r w', request demo_server true 3 data_cfg wb0 = (Some r, w') /\
    exists tr, In tr (allowed_traces data_cfg) /\ sent w' = sent wb0 ++ tr.
Proof.
  apply (request_terminates_bounded demo_server true).
  - intros s c [H|H]; unfold demo_server; rewrite H; reflexivity.
  - lia.
Defined.

Lemma request_refresh_loop_never_settles_witness :
  ~ runs expired_server true w0 (Axios data_cfg Done) (inl {| status := 200; data := JUndef |}) w0.
Proof.
  apply (request_refresh_loop_never_settles expired_server true eq_refl (fun _ => eq_refl)
           data_cfg w0 1 (Reply 401 token_body)); reflexivity.
Defined.

Lemma refresh_pipeline_loops_witness :
  fst (interp expired_server true 3 (pipeline true refresh_cfg) w0) = None /\
  sent (snd (interp expired_server true 3 (pipeline true refresh_cfg) w0)) =
    sent w0 ++ repeat refresh_cfg 4.
Proof. exact (refresh_pipeline_loops expired_server true eq_refl (fun _ => eq_refl) 3 w0). Defined.

Lemma handleSessionExpiration_never_settles_witness :
  ~ runs expired_server true w0 handleSessionExpiration tt w0.
Proof.
  exact (handleSessionExpiration_never_settles expired_server true eq_refl
           (fun _ _ _ => eq_refl) w0 tt w0).
Defined.

Lemma request_refresh_fails_never_settles_witness :
  ~ runs revoked_server true w0 (Axios data_cfg Done) (inl {| status := 200; data := JUndef |}) w0.
Proof.
  apply (request_refresh_fails_never_settles revoked_server true eq_refl
           ltac:(intros s c H; unfold revoked_server; rewrite H; reflexivity)
           data_cfg w0 1 token_body 2 (Reply 403 (JObj []))); reflexivity.
Defined.

(** A 404 with a message is normalised; a 200 is passed through; a
    call with no response is a 500. *)
Lemma request_settles_plain_witness :
  request (scripted [Reply 404 (JObj [("message", JStr "Not found")])]) true 1 data_cfg w0 =
    (Some (inr {| message := JStr "Not found"; ae_status := 404;
                  cause := JObj [("message", JStr "Not found")] |}), after_send w0 data_cfg 1) /\
  request (scripted [Reply 200 ok_body]) true 1 data_cfg w0 =
    (Some (inl {| status := 200; data := ok_body |}), after_send w0 data_cfg 1) /\
  request (scripted [NetworkError]) true 1 data_cfg w0 =
    (Some (inr {| message := JStr "Something went wrong"; ae_status := 500; cause := JObj [] |}),
     after_send w0 data_cfg 1).
Proof.
  split; [|split].
  - apply (request_settles_plain _ _ 0 data_cfg w0 1 (Reply 404 (JObj [("message", JStr "Not found")])));
      reflexivity.
  - apply (request_settles_plain _ _ 0 data_cfg w0 1 (Reply 200 ok_body)); reflexivity.
  - apply (request_settles_plain _ _ 0 data_cfg w0 1 NetworkError); reflexivity.
Defined.

End HttpWitnesses.
