(* ===== verification/Concurrency.v ===== *)
(** * Calls in flight together

    The spec says of the HTTP client: "simultaneous parallel requests
    that each 401 will each independently trigger their own refresh
    call; no de-duplication/coalescing exists".  [Http.interp] runs one
    call to its end; here the calls of [src/src/lib/api/axiosInstance.ts]
    get a small-step semantics, one effect per step ([step]), and a pool
    of calls in flight runs under a schedule, the order in which the
    event loop resumes them ([run_schedule]).  A [Send] is the server
    receiving a request and answering it, so the schedule is the order
    in which the requests reach the server; a call of the instance
    ([Axios]) unfolds to its pipeline followed by its continuation.

    [step] agrees with [Http.runs] for one call ([steps_runs]).  Section
    [TokenExpiry] runs the calls against a server whose access token has
    expired: started together, requests each refresh (C10); one after
    the other, they share one refresh. *)

From Stdlib Require Import FunctionalExtensionality.
From S2P Require Import Prelude JsValue HttpClient.
Import Http.

Module Concurrent.
Local Open Scope list_scope.

Section Steps.
Context {Srv E : Type}.
Variable serve : Srv -> Config -> Srv * Answer.
Variable in_browser : bool.

Abbreviation W := (World Srv E).

(** One step of a call: its next effect, or [None] once it has settled. *)
Definition step {A} (t : Async A) (w : W) : option (Async A * W) :=
  match t with
  | Done _ => None
  | Send cfg k => let '(s', a) := serve (server w) cfg in Some (k a, after_send w cfg s')
  | Navigate h k => Some (k, set_href w h)
  | Axios cfg k => Some (abind (pipeline in_browser cfg) k, w)
  end.

(** The calls in flight. *)
Abbreviation Pool := (list (Async outcome)).

(** The event loop resumes call [i]; a schedule naming a settled or
    missing call is not a run ([None]). *)
Definition step_at (i : nat) (p : Pool) (w : W) : option (Pool * W) :=
  match p !! i with
  | Some t => match step t w with Some (t', w') => Some (<[i := t']> p, w') | None => None end
  | None => None
  end.

Fixpoint run_schedule (sched : list nat) (p : Pool) (w : W) : option (Pool * W) :=
  match sched with
  | [] => Some (p, w)
  | i :: rest =>
      match step_at i p w with
      | Some (p', w') => run_schedule rest p' w'
      | None => None
      end
  end.

(** Exactly [n] steps of one call; [None] if it settles before. *)
Fixpoint steps {A} (n : nat) (t : Async A) (w : W) : option (Async A * W) :=
  match n with
  | 0 => Some (t, w)
  | S n' => match step t w with Some (t', w') => steps n' t' w' | None => None end
  end.

(** Each of the calls [m], ..., [m + n - 1] in turn runs [k] steps. *)
Definition round (k m n : nat) : list nat := List.concat (map (replicate k) (seq m n)).

(** ** One call: small steps against the natural semantics *)

(** [await] is associative; continuations are compared pointwise. *)
Lemma abind_assoc {A B C} (t : Async A) (f : A -> Async B) (g : B -> Async C) :
  abind (abind t f) g = abind t (fun x => abind (f x) g).
Proof.
  induction t as [a|cfg k IH|h k IH|cfg k IH]; cbn [abind]; [done| |by rewrite IH|];
    f_equal; apply functional_extensionality; apply IH.
Qed.

Lemma steps_trans {A} n m (t : Async A) w t1 w1 :
  steps n t w = Some (t1, w1) -> steps (n + m) t w = steps m t1 w1.
Proof.
  revert t w. induction n as [|n IH]; intros t w; cbn [steps plus]; [congruence|].
  destruct (step t w) as [[t' w']|]; [apply IH|done].
Qed.

(** The steps of [t] are steps of [await r := t in k r] until [t] settles. *)
Lemma steps_abind {A B} n (t : Async A) (k : A -> Async B) w r w1 :
  steps n t w = Some (Done r, w1) -> steps n (abind t k) w = Some (k r, w1).
Proof.
  revert t w. induction n as [|n IH]; intros t w; cbn [steps].
  { by intros [= -> ->]. }
  destruct t as [a|cfg k'|h k'|cfg k']; cbn [step abind]; [done| |apply IH|].
  - destruct (serve (server w) cfg). apply IH.
  - rewrite <-abind_assoc. apply IH.
Qed.

Lemma runs_steps {A} (t : Async A) w a w' :
  runs serve in_browser w t a w' -> exists n, steps n t w = Some (Done a, w').
Proof.
  induction 1 as [A0 w a|A0 w cfg k s' ans a w' Hs _ [n IH]|A0 w h k a w' _ [n IH]
                  |A0 w cfg k r w1 a w' _ [n1 IH1] _ [n2 IH2]].
  - by exists 0.
  - exists (S n). cbn [steps step]. by rewrite Hs.
  - by exists (S n).
  - exists (S (n1 + n2)). cbn [steps step].
    rewrite (steps_trans n1 n2 _ _ (k r) w1); [done|]. by apply steps_abind.
Qed.

Lemma steps_interp {A} n (t : Async A) w a w' :
  steps n t w = Some (Done a, w') -> exists f, interp serve in_browser f t w = (Some a, w').
Proof.
  revert A t w a w'. induction n as [|n IH]; intros A t w a w'; cbn [steps].
  { intros [= -> ->]. exists 0. by rewrite interp_done. }
  destruct t as [a0|cfg k|h k|cfg k]; cbn [step]; [done| | |].
  - destruct (serve (server w) cfg) as [s' ans] eqn:Hs. intros [f Hf]%IH.
    exists f. by rewrite interp_send, Hs.
  - intros [f Hf]%IH. exists f. by rewrite interp_navigate.
  - intros [f Hf]%IH. exists (S f). rewrite interp_axios, interp_abind in *.
    unfold pbind in *. destruct (interp _ _ f (pipeline in_browser cfg) w) as [[r|] w1]; [|done].
    by apply interp_mono.
Qed.

(** The small steps agree with [Http.runs]: a call settles with [a]
    in [w'] exactly when finitely many steps take it there. *)
Lemma steps_runs {A} (t : Async A) w a w' :
  runs serve in_browser w t a w' <-> exists n, steps n t w = Some (Done a, w').
Proof.
  split; [apply runs_steps|]. intros [n (f & Hf)%steps_interp].
  by apply (interp_sound _ _ f).
Qed.

(** ** Pools *)

Lemma run_schedule_app s1 s2 p w :
  run_schedule (s1 ++ s2) p w =
    match run_schedule s1 p w with Some (p', w') => run_schedule s2 p' w' | None => None end.
Proof.
  revert p w. induction s1 as [|i s1 IH]; intros p w; [done|]. rewrite <-app_comm_cons. cbn [run_schedule].
  destruct (step_at i p w) as [[p1 w1]|]; [apply IH|done].
Qed.

(** Resuming call [i] [n] times in a row runs [n] of its steps. *)
Lemma run_schedule_replicate n i p w t t' w' :
  p !! i = Some t -> steps n t w = Some (t', w') ->
  run_schedule (replicate n i) p w = Some (<[i := t']> p, w').
Proof.
  revert p w t. induction n as [|n IH]; intros p w t Hi; cbn [steps run_schedule replicate].
  { intros [= -> ->]. by rewrite list_insert_id. }
  unfold step_at. rewrite Hi. destruct (step t w) as [[t1 w1]|]; [|done]. intros Hs.
  rewrite (IH _ _ t1); [|apply list_lookup_insert_eq; by eapply lookup_lt_Some|done].
  by rewrite list_insert_insert_eq.
Qed.

(** A round over calls [f x] for [x] in [xs], each of which, started
    in a world where [inv] holds, takes [k] steps to a call [P x]
    allows, keeps [inv] and sends [g x]. *)
Lemma run_round {X} (inv : W -> Prop) (f : X -> Async outcome)
    (P : X -> Async outcome -> Prop) (g : X -> list Config) k pre xs w :
  (forall x w, In x xs -> inv w -> exists t' w', steps k (f x) w = Some (t', w') /\
     P x t' /\ inv w' /\ sent w' = sent w ++ g x) ->
  inv w ->
  exists ts w', run_schedule (round k (List.length pre) (List.length xs)) (pre ++ map f xs) w = Some (pre ++ ts, w') /\
    Forall2 P xs ts /\ inv w' /\ sent w' = sent w ++ List.concat (map g xs).
Proof.
  revert pre w. induction xs as [|x xs IH]; intros pre w Hth Hw.
  { exists [], w. rewrite !app_nil_r. by repeat split. }
  destruct (Hth x w) as (t' & w1 & Hs & HP & Hw1 & Hsent1); [by left|done|].
  unfold round. cbn [List.length seq map List.concat]. rewrite (run_schedule_app (replicate k _)).
  rewrite (run_schedule_replicate _ _ _ _ (f x) t' w1); [|by apply list_lookup_middle|done].
  rewrite insert_app_r_alt, Nat.sub_diag by lia. cbn [insert list_insert].
  destruct (IH (pre ++ [t']) w1) as (ts & w' & Hrun & HF & Hw' & Hsent); [|done|].
  { intros y wy Hy. apply Hth. by right. }
  exists (t' :: ts), w'. rewrite List.length_app, Nat.add_1_r, <-!app_assoc in Hrun.
  split; [exact Hrun|]. split; [by constructor|]. split; [done|].
  rewrite Hsent, Hsent1. cbn [map List.concat]. by rewrite <-app_assoc.
Qed.

(** The answer of a 2xx reply flows to the continuation of the call. *)
Lemma step_pipeline_ok {A} c (k : outcome -> Async A) w s' st b :
  serve (server w) c = (s', Reply st b) -> validateStatus st = true ->
  step (abind (pipeline in_browser c) k) w = Some (k (inl {| status := st; data := b |}), after_send w c s').
Proof. intros Hs Hv. cbn [step abind pipeline]. rewrite Hs. cbn. by rewrite Hv. Qed.

End Steps.

Lemma Forall2_eq_map {X Y} (f : X -> Y) xs ys :
  Forall2 (fun x y => y = f x) xs ys -> ys = map f xs.
Proof. induction 1; by subst. Qed.

Lemma Forall2_Forall_r {X Y} (Q : Y -> Prop) (xs : list X) ys :
  Forall2 (fun _ y => Q y) xs ys -> Forall Q ys.
Proof. induction 1; by constructor. Qed.

Lemma concat_singletons {X} (xs : list X) : List.concat (map (fun x => [x]) xs) = xs.
Proof. induction xs as [|x xs IH]; [done|]. cbn. by rewrite IH. Qed.

(** A call of the instance, awaited: [await axiosInstance(config)]. *)
Definition call (c : Config) : Async outcome := Axios c Done.

(** A request the interceptor may refresh for: not an auth endpoint,
    not a replay. *)
Definition fresh (c : Config) : Prop := ~ auth_endpoint c /\ _retry c = false.

(** The call once its request got a 401 with body [b]: the interceptor. *)
Definition refreshing (c : Config) (b : jsval) : Async outcome :=
  abind (onRejected true {| response := Some {| status := 401; data := b |}; config := c |}) Done.

Definition settled_ok (t : Async outcome) : Prop := exists r, t = Done (inl r).

(** ** An access token that has expired

    The server's state is whether the access token is valid.  While it
    is not, every request but the auth endpoints' is answered 401 with
    a token error; a refresh always succeeds and makes it valid; then
    requests succeed. *)
Section TokenExpiry.
Context {E : Type}.
Variable serve : bool -> Config -> bool * Answer.
Variable expired : Config -> jsval.
Hypothesis Hexp : forall c, ~ auth_endpoint c ->
  serve false c = (false, Reply 401 (expired c)) /\ is_token_error (get (expired c) "errorCode") = true.
Hypothesis Hvalid : forall c, ~ auth_endpoint c ->
  exists st b, serve true c = (true, Reply st b) /\ validateStatus st = true.
Hypothesis Hrefresh : forall s, exists st b, serve s refresh_cfg = (true, Reply st b) /\
  validateStatus st = true /\ truthy (get b "success") = true /\ truthy (get b "data") = true.

Abbreviation W := (World bool E).

Lemma not_auth_retry c : ~ auth_endpoint c -> ~ auth_endpoint (set_retry c).
Proof. done. Qed.

(** Sent while the token is expired, a request is answered 401 and the
    interceptor takes over. *)
Lemma call_expired c (w : W) :
  server w = false -> fresh c ->
  steps serve true 2 (call c) w = Some (refreshing c (expired c), after_send w c false).
Proof.
  intros Hw [Hc _]. destruct (Hexp c Hc) as [Hs _].
  cbn [steps step call abind pipeline]. rewrite Hw, Hs. reflexivity.
Qed.

(** The interceptor refreshes, then replays the request, which succeeds. *)
Lemma refreshing_replays c (w : W) :
  fresh c ->
  exists r, steps serve true 4 (refreshing c (expired c)) w =
    Some (Done (inl r), after_send (after_send w refresh_cfg true) (set_retry c) true).
Proof.
  intros [Hc Hr]. destruct (Hexp c Hc) as [_ Ht].
  destruct (Hrefresh (server w)) as (st & b & Hs & Hv & Hsu & Hd).
  destruct (Hvalid (set_retry c)) as (st' & b' & Hs' & Hv'); [by apply not_auth_retry|].
  unfold refreshing. rewrite onRejected_token; [|exact Ht|done]. cbv zeta. cbn [config]. rewrite Hr.
  cbn [steps step abind AuthService.refreshToken post].
  rewrite (step_pipeline_ok serve true _ _ _ _ _ _ Hs Hv). cbn [steps response_data data].
  rewrite Hsu, Hd. cbn [steps step negb orb abind].
  erewrite (step_pipeline_ok serve true); [by eexists|exact Hs'|exact Hv'].
Qed.

(** Sent while the token is valid, a request succeeds at once. *)
Lemma call_valid c (w : W) :
  server w = true -> ~ auth_endpoint c ->
  exists r, steps serve true 2 (call c) w = Some (Done (inl r), after_send w c true).
Proof.
  intros Hw Hc. destruct (Hvalid c Hc) as (st & b & Hs & Hv). cbn [steps step call].
  rewrite (step_pipeline_ok serve true c Done w true st b); [by eexists| |done].
  by rewrite Hw.
Qed.

(** Alone, a request sent with an expired token is answered after a
    refresh and a replay. *)
Lemma call_expired_settles c (w : W) :
  server w = false -> fresh c ->
  exists r, steps serve true 6 (call c) w =
    Some (Done (inl r), after_send (after_send (after_send w c false) refresh_cfg true) (set_retry c) true).
Proof.
  intros Hw Hc. destruct (refreshing_replays c (after_send w c false) Hc) as [r Hr].
  exists r. change 6 with (2 + 4). rewrite (steps_trans _ _ 2 4 _ _ _ _ (call_expired c w Hw Hc)). exact Hr.
Qed.

(** C10: refreshes are not coalesced.  Let requests [c0 :: cs] (none
    an auth endpoint, none a replay) be started together while the
    access token is expired.  If the event loop sends all of them
    before any answer comes back (each call takes two steps, then each
    takes its four), every call is answered 401 and runs its own
    refresh: one refresh call per request goes out, each followed by
    that request's replay, and every call resolves.  If the calls run
    one after the other instead, a single refresh is sent and the
    other requests succeed at once. *)
Theorem concurrent_refresh_not_coalesced c0 cs (w : W) :
  Forall fresh (c0 :: cs) -> server w = false ->
  (exists ps w', run_schedule serve true
       (round 2 0 (List.length (c0 :: cs)) ++ round 4 0 (List.length (c0 :: cs)))
       (map call (c0 :: cs)) w = Some (ps, w') /\
     Forall settled_ok ps /\
     sent w' = sent w ++ (c0 :: cs) ++ List.concat (map (fun c => [refresh_cfg; set_retry c]) (c0 :: cs))) /\
  (exists ps w', run_schedule serve true (replicate 6 0 ++ round 2 1 (List.length cs))
       (map call (c0 :: cs)) w = Some (ps, w') /\
     Forall settled_ok ps /\
     sent w' = sent w ++ [c0; refresh_cfg; set_retry c0] ++ cs).
Proof.
  intros Hf Hw. rewrite List.Forall_forall in Hf. split.
  - destruct (run_round serve true (fun w : W => server w = false) call
      (fun c t => t = refreshing c (expired c)) (fun c => [c]) 2 [] (c0 :: cs) w)
      as (ts & w1 & Hr1 & HF1 & _ & Hs1); [|done|].
    { intros c wc Hc Hwc. eexists _, _. split; [apply call_expired; [exact Hwc|exact (Hf c Hc)]|]. by repeat split. }
    apply Forall2_eq_map in HF1. subst ts.
    destruct (run_round serve true (fun _ : W => True) (fun c => refreshing c (expired c))
      (fun _ t => settled_ok t) (fun c => [refresh_cfg; set_retry c]) 4 [] (c0 :: cs) w1)
      as (ts & w2 & Hr2 & HF2 & _ & Hs2); [|done|].
    { intros c wc Hc _. destruct (refreshing_replays c wc (Hf c Hc)) as [r Hr].
      eexists _, _. split; [exact Hr|]. split; [by eexists|]. split; [done|]. cbn [sent after_send]. by rewrite <-app_assoc. }
    exists ts, w2. rewrite run_schedule_app. cbn [List.length] in *. rewrite !app_nil_l in Hr1, Hr2. rewrite Hr1.
    split; [exact Hr2|]. split; [exact (Forall2_Forall_r settled_ok _ _ HF2)|].
    rewrite Hs2, Hs1, concat_singletons, <-app_assoc. reflexivity.
  - destruct (call_expired_settles c0 w Hw) as [r0 H0]; [by apply Hf; left|].
    set (w0 := after_send (after_send (after_send w c0 false) refresh_cfg true) (set_retry c0) true) in H0.
    destruct (run_round serve true (fun w : W => server w = true) call
      (fun _ t => settled_ok t) (fun c => [c]) 2 [Done (inl r0)] cs w0)
      as (ts & w1 & Hr1 & HF1 & _ & Hs1); [|done|].
    { intros c wc Hc Hwc. destruct (call_valid c wc Hwc) as [r Hr]; [by apply Hf; right|].
      eexists _, _. split; [exact Hr|]. split; [by eexists|]. done. }
    exists (Done (inl r0) :: ts), w1. rewrite run_schedule_app.
    rewrite (run_schedule_replicate serve true 6 0 (map call (c0 :: cs)) w (call c0) _ _ eq_refl H0).
    split; [exact Hr1|]. split; [constructor; [by eexists|exact (Forall2_Forall_r settled_ok _ _ HF1)]|].
    rewrite Hs1, concat_singletons. unfold w0. cbn [sent after_send]. by rewrite <-!app_assoc.
Qed.

End TokenExpiry.

End Concurrent.

Module ConcurrencyWitnesses.
Import Concurrent.
Local Open Scope list_scope.

Definition expired_body (_ : Config) : jsval := JObj [("errorCode", JStr "TOKEN_EXPIRED")].

(** A backend whose access token has expired: refresh succeeds and
    validates it; other requests get 401 until then. *)
Definition demo_serve (valid : bool) (c : Config) : bool * Answer :=
  if String.eqb (url c) AuthService.refresh_url
  then (true, Reply 200 (JObj [("success", JBool true); ("data", JObj [])]))
  else if valid then (true, Reply 200 (JObj [])) else (false, Reply 401 (expired_body c)).

Lemma demo_expired c : ~ auth_endpoint c ->
  demo_serve false c = (false, Reply 401 (expired_body c)) /\
  is_token_error (get (expired_body c) "errorCode") = true.
Proof.
  intros Hc. unfold demo_serve. destruct (String.eqb_spec (url c) AuthService.refresh_url); [|done].
  destruct Hc. by left.
Qed.

Lemma demo_valid c : ~ auth_endpoint c ->
  exists st b, demo_serve true c = (true, Reply st b) /\ validateStatus st = true.
Proof.
  intros Hc. unfold demo_serve. destruct (String.eqb_spec (url c) AuthService.refresh_url).
  - destruct Hc. by left.
  - by eexists _, _.
Qed.

Lemma demo_refresh s : exists st b, demo_serve s refresh_cfg = (true, Reply st b) /\
  validateStatus st = true /\ truthy (get b "success") = true /\ truthy (get b "data") = true.
Proof. by eexists _, _. Qed.

Definition me_cfg : Config := {| method := GET; url := "/api/v1/user/me"; body := JUndef; _retry := false |}.
Definition profile_cfg : Config :=
  {| method := PUT; url := "/api/v1/user/profile"; body := JObj []; _retry := false |}.
Definition w_expired : World bool unit := {| server := false; sent := []; href := None; app := tt |}.

Lemma fresh_demo : Forall fresh [me_cfg; profile_cfg].
Proof.
  repeat constructor; unfold auth_endpoint; cbn; intros [H|H]; discriminate.
Qed.

(** The profile query and a profile update started together: two refresh calls. *)
Lemma concurrent_refresh_not_coalesced_witness :
  Forall fresh [me_cfg; profile_cfg] /\ server w_expired = false /\
  exists ps w', run_schedule demo_serve true (round 2 0 2 ++ round 4 0 2)
      (map call [me_cfg; profile_cfg]) w_expired = Some (ps, w') /\
    Forall settled_ok ps /\
    sent w' = [me_cfg; profile_cfg; refresh_cfg; set_retry me_cfg; refresh_cfg; set_retry profile_cfg].
Proof.
  split; [exact fresh_demo|]. split; [reflexivity|].
  apply (concurrent_refresh_not_coalesced demo_serve expired_body demo_expired demo_valid demo_refresh
           me_cfg [profile_cfg] w_expired fresh_demo eq_refl).
Defined.

End ConcurrencyWitnesses.
