(* ===== verification/AuthStore.v ===== *)
(** * The session store: [src/src/stores/useAuthStore.ts]

    The zustand store built with the immer middleware: its state is the
    current user ([User | null], an object of the JavaScript model) and
    the [isAuthenticated] flag; its four mutators are the immer recipes
    [login], [logout], [setUser] (object spread [{...state.user,
    ...userData}]) and [setRole].  [src/src/context/AuthContext.tsx]:
    the provider's effect that copies the fetched profile into the store
    is [syncProfile] ([provider_effect] on the query's result), its
    memoised value [contextValue], and [useAuthContext] the hook that
    throws outside a provider.

    The operations are collected in the class [SessionStore], which the
    mutations are proved against; [store_step] is the transition relation
    of the store and [reachable] its reachable states. *)

From S2P Require Import Prelude JsValue.

Module AuthStore.

(** [setRole: (role: 'brand_owner' | 'admin') => void] *)
Inductive Role := brand_owner | admin.

Definition role_name (r : Role) : string :=
  match r with brand_owner => "brand_owner" | admin => "admin" end.

Record AuthState := {
  user : option props;            (** [null] is [None] *)
  isAuthenticated : bool
}.

Definition initial : AuthState := {| user := None; isAuthenticated := false |}.

(** The value [state.user] denotes. *)
Definition user_val (s : AuthState) : jsval :=
  match user s with Some ps => JObj ps | None => JNull end.

Definition login (userData : props) (s : AuthState) : AuthState :=
  {| user := Some userData; isAuthenticated := true |}.

Definition logout (s : AuthState) : AuthState :=
  {| user := None; isAuthenticated := false |}.

(** [state.user = { ...state.user, ...userData }] *)
Definition setUser (userData : props) (s : AuthState) : AuthState :=
  {| user := Some (spread (spread [] (user_val s)) (JObj userData));
     isAuthenticated := isAuthenticated s |}.

(** [if (state.user) state.user.role = role] *)
Definition setRole (role : Role) (s : AuthState) : AuthState :=
  match user s with
  | Some ps => {| user := Some (set_prop "role" (JStr (role_name role)) ps);
                  isAuthenticated := isAuthenticated s |}
  | None => s
  end.

(** [AuthProvider]'s effect: when the profile query succeeded with a
    user, copy its fields into the store (the token fields are not
    part of the payload). *)
Definition profile_payload (u : jsval) : props :=
  [("id", get u "_id"); ("name", get u "name"); ("email", get u "email");
   ("role", get u "role"); ("picture", get u "picture");
   ("companyName", get u "companyName")].

Definition syncProfile (isSuccess : bool) (u : jsval) (s : AuthState) : AuthState :=
  if isSuccess && truthy u then setUser (profile_payload u) s else s.

(** [AuthContext]: what [useProfileQuery()] returns to the provider
    ([refetch], a function, is left out). *)
Record ProfileQuery := {
  q_data : jsval;
  q_error : jsval;
  q_isLoading : bool;
  q_isFetching : bool;
  q_isSuccess : bool
}.

(** The memoised [contextValue]: [user] is [data?.data]. *)
Record AuthContextValue := {
  ctx_user : jsval;
  ctx_error : jsval;
  ctx_isLoading : bool;
  ctx_isFetching : bool
}.

Definition contextValue (q : ProfileQuery) : AuthContextValue :=
  {| ctx_user := get (q_data q) "data"; ctx_error := q_error q;
     ctx_isLoading := q_isLoading q; ctx_isFetching := q_isFetching q |}.

(** The provider's effect: [if (isSuccess && user) setUser({...})]. *)
Definition provider_effect (q : ProfileQuery) (s : AuthState) : AuthState :=
  syncProfile (q_isSuccess q) (get (q_data q) "data") s.

(** [useAuthContext()]: outside a provider the context is [undefined]
    and the hook throws. *)
Definition useAuthContext (ctx : option AuthContextValue) : AuthContextValue + jsval :=
  match ctx with
  | Some c => inl c
  | None => inr (JObj [("message", JStr "useAuthContext must be used within an AuthProvider")])
  end.

(** ** The store as a transition system *)

Inductive StoreOp :=
| OpLogin (userData : props)
| OpLogout
| OpSetUser (userData : props)
| OpSetRole (role : Role).

Definition apply_op (op : StoreOp) (s : AuthState) : AuthState :=
  match op with
  | OpLogin u => login u s
  | OpLogout => logout s
  | OpSetUser u => setUser u s
  | OpSetRole r => setRole r s
  end.

Inductive store_step : AuthState -> AuthState -> Prop :=
| step_op op s : store_step s (apply_op op s).

Inductive reachable : AuthState -> Prop :=
| reach_init : reachable initial
| reach_step s s' : reachable s -> store_step s s' -> reachable s'.

(** The invariant: an authenticated store holds a user. *)
Definition store_inv (s : AuthState) : Prop :=
  isAuthenticated s = true -> user s <> None.

(** ** The interface the mutations use *)

Class SessionStore (St : Type) := {
  ss_login : props -> St -> St;
  ss_logout : St -> St;
  ss_authenticated : St -> bool;
  ss_user : St -> option props
}.

Class SessionStoreLaws (St : Type) `{SessionStore St} := {
  ss_login_user u s : ss_user (ss_login u s) = Some u;
  ss_login_auth u s : ss_authenticated (ss_login u s) = true;
  ss_logout_user s : ss_user (ss_logout s) = None;
  ss_logout_auth s : ss_authenticated (ss_logout s) = false
}.

#[export] Instance auth_store : SessionStore AuthState := {|
  ss_login := login;
  ss_logout := logout;
  ss_authenticated := isAuthenticated;
  ss_user := user
|}.

#[export] Instance auth_store_laws : SessionStoreLaws AuthState.
Proof. by split. Qed.

(** ** Lemmas *)

Lemma apply_op_inv op s : store_inv s -> store_inv (apply_op op s).
Proof.
  unfold store_inv. destruct op as [u| |u|r]; simpl; try done.
  unfold setRole. destruct (user s) eqn:Hu; simpl; [done|]. by rewrite Hu.
Qed.

Lemma spread_empty_lookup k ps :
  keys_nodup ps -> lookup_prop k (spread [] (JObj ps)) = lookup_prop k ps.
Proof. intros Hnd. rewrite lookup_spread by done. by destruct (lookup_prop k ps). Qed.

Definition user_props (s : AuthState) : props :=
  match user s with Some ps => ps | None => [] end.

Lemma profile_payload_nodup u : keys_nodup (profile_payload u).
Proof. unfold keys_nodup. simpl. apply (bool_decide_unpack _). by vm_compute. Qed.

(** C16: every reachable state of the store satisfies the invariant:
    [isAuthenticated] implies that a user is stored. *)
Theorem reachable_inv s : reachable s -> store_inv s.
Proof.
  induction 1 as [|s s' _ IH Hstep]; [by unfold store_inv|].
  inv Hstep. by apply apply_op_inv.
Qed.

(** [setUser] merges: a key of [userData] takes its value, even an
    explicit [undefined]; any other key keeps the stored value; the
    authentication flag is unchanged. *)
Lemma setUser_lookup_eq userData s k :
  keys_nodup userData -> keys_nodup (user_props s) ->
  isAuthenticated (setUser userData s) = isAuthenticated s /\
  lookup_prop k (user_props (setUser userData s)) =
    match lookup_prop k userData with
    | Some x => Some x
    | None => lookup_prop k (user_props s)
    end.
Proof.
  intros Hud Hs. split; [done|].
  change (user_props (setUser userData s)) with (spread (spread [] (user_val s)) (JObj userData)).
  rewrite lookup_spread by done. destruct (lookup_prop k userData); [done|].
  unfold user_props, user_val in *. destruct (user s); [by apply spread_empty_lookup|done].
Qed.

(** C17: the [AuthProvider] sync merges the fetched profile into the
    stored user with [setUser]: the state stays reachable and holds a
    user, the tokens stored at login are kept, [picture] takes the
    profile's value ([undefined] included), and [isAuthenticated] is
    left as it was, so on a fresh page load the store has a user but is
    not authenticated. *)
Theorem syncProfile_spec u s :
  truthy u = true -> keys_nodup (user_props s) -> reachable s ->
  reachable (syncProfile true u s) /\ user (syncProfile true u s) <> None /\
  isAuthenticated (syncProfile true u s) = isAuthenticated s /\
  lookup_prop "accessToken" (user_props (syncProfile true u s)) =
    lookup_prop "accessToken" (user_props s) /\
  lookup_prop "refreshToken" (user_props (syncProfile true u s)) =
    lookup_prop "refreshToken" (user_props s) /\
  lookup_prop "picture" (user_props (syncProfile true u s)) = Some (get u "picture").
Proof.
  intros Hu Hs Hr. unfold syncProfile. rewrite Hu. simpl.
  pose proof (profile_payload_nodup u) as Hnd.
  split; [eapply reach_step; [exact Hr|apply (step_op (OpSetUser (profile_payload u)))]|].
  split; [done|]. split; [done|].
  split; [|split]; rewrite (proj2 (setUser_lookup_eq _ s _ Hnd Hs)); done.
Qed.

(** [setRole] does nothing without a session, and with one it
    changes the [role] field only. *)
Theorem setRole_spec r s :
  (user s = None -> setRole r s = s) /\
  (forall ps k, user s = Some ps ->
     isAuthenticated (setRole r s) = isAuthenticated s /\
     lookup_prop k (user_props (setRole r s)) =
       if String.eqb k "role" then Some (JStr (role_name r)) else lookup_prop k ps).
Proof.
  split.
  - unfold setRole. by intros ->.
  - intros ps k Hu. unfold setRole, user_props. rewrite Hu. simpl.
    split; [done|]. apply lookup_set_prop.
Qed.

End AuthStore.

(** ** Concrete stores *)

Module AuthStoreWitnesses.
Import AuthStore.

Definition alice : props :=
  [("id", JStr "u1"); ("name", JStr "Alice"); ("role", JStr "admin");
   ("picture", JStr "a.png"); ("accessToken", JStr "t1"); ("refreshToken", JStr "r1")].

Definition profile : jsval :=
  JObj [("_id", JStr "u1"); ("name", JStr "Alice B."); ("email", JStr "a@x.io");
        ("role", JStr "admin")].

Lemma reachable_inv_witness : store_inv (login alice initial).
Proof.
  apply reachable_inv. eapply reach_step; [apply reach_init|apply (step_op (OpLogin alice))].
Defined.

(** On a fresh page load. *)
Lemma syncProfile_spec_witness :
  reachable (syncProfile true profile initial) /\ user (syncProfile true profile initial) <> None /\
  isAuthenticated (syncProfile true profile initial) = isAuthenticated initial /\
  lookup_prop "accessToken" (user_props (syncProfile true profile initial)) =
    lookup_prop "accessToken" (user_props initial) /\
  lookup_prop "refreshToken" (user_props (syncProfile true profile initial)) =
    lookup_prop "refreshToken" (user_props initial) /\
  lookup_prop "picture" (user_props (syncProfile true profile initial)) = Some (get profile "picture").
Proof.
  apply syncProfile_spec; [reflexivity | apply (bool_decide_unpack _); reflexivity | apply reach_init].
Defined.

End AuthStoreWitnesses.
