(* ===== verification/Mutations.v ===== *)
(** * Mutations, the loader store and the login form

    [src/src/stores/useLoaderStore.ts] is Module [LoaderStore].  The
    react-query mutations of [src/src/lib/api/mutations/auth.ts] are
    programs of [prog] over the world of [HttpClient] whose application
    part [App] holds the session store, the loader store, the toasts
    shown, the routes pushed, [localStorage] and the state of the login
    form.  A mutation function brackets its service call with
    [showLoader]/[hideLoader] ([with_loader]).  [execute] is react-query's
    [Mutation.execute]: the function, then the hook's [onSuccess], which
    may throw (a property read without [?.], [JsValue.dot]); what the
    function or [onSuccess] throws goes to the hook's [onError].
    [run_mutation] is [mutate(values, {onSuccess, onError})]: the
    execution, then the call's callback for its outcome.  [handleSubmit_with] is the submit
    handler of [src/src/components/screens/auth/LoginForm.tsx] given the
    [mutate] of the hook it renders with; [handleSubmit] gives it the
    login hook's ([login_mutate]).

    Thrown errors are JavaScript objects with their own properties: an
    [ApiError] has [message], [name], [success], [status] and [cause]; an
    [Error] built by [new Error(m)] has [message] only, and reading
    [res.message] of a missing body throws a [TypeError] first.  The
    clock ([now]) and [Date.prototype.toISOString] that the lockout uses
    are parameters of the section. *)

From S2P Require Import Prelude JsValue Json Types HttpClient AuthStore.
Import Http AuthStore.

Module LoaderStore.
Record LoaderState := {
  isLoading : bool;
  loader_message : option string
}.

Definition init : LoaderState := {| isLoading := false; loader_message := None |}.

Definition showLoader (message : option string) (_ : LoaderState) : LoaderState :=
  {| isLoading := true; loader_message := message |}.

Definition hideLoader (_ : LoaderState) : LoaderState :=
  {| isLoading := false; loader_message := None |}.
End LoaderStore.

Module Mutations.
Import LoaderStore.
Local Open Scope list_scope.

Inductive Toast :=
| ToastSuccess (m : jsval)
| ToastError (m : jsval)
(** [toast({title, description, variant})] of [components/ui/use-toast] *)
| ToastUI (title : string) (description : jsval) (destructive : bool).

(** The [useState] cells of [LoginPage] that the lockout uses; a [Date]
    is its time in milliseconds. *)
Record LoginFormState := {
  failedAttempts : nat;
  isLocked : bool;
  localError : option jsval;
  lockoutEndTime : option Z
}.

Record App := {
  store : AuthState;
  loader : LoaderState;
  toasts : list Toast;
  pushed : list string;
  storage : gmap string string;
  form : LoginFormState;
  invalidated : list (list string)      (** query keys invalidated *)
}.

Definition with_store (f : AuthState -> AuthState) (a : App) : App :=
  {| store := f (store a); loader := loader a; toasts := toasts a; pushed := pushed a;
     storage := storage a; form := form a; invalidated := invalidated a |}.
Definition with_loader_state (f : LoaderState -> LoaderState) (a : App) : App :=
  {| store := store a; loader := f (loader a); toasts := toasts a; pushed := pushed a;
     storage := storage a; form := form a; invalidated := invalidated a |}.
Definition add_toast (t : Toast) (a : App) : App :=
  {| store := store a; loader := loader a; toasts := toasts a ++ [t]; pushed := pushed a;
     storage := storage a; form := form a; invalidated := invalidated a |}.
Definition push_route (r : string) (a : App) : App :=
  {| store := store a; loader := loader a; toasts := toasts a; pushed := pushed a ++ [r];
     storage := storage a; form := form a; invalidated := invalidated a |}.
Definition with_storage (f : gmap string string -> gmap string string) (a : App) : App :=
  {| store := store a; loader := loader a; toasts := toasts a; pushed := pushed a;
     storage := f (storage a); form := form a; invalidated := invalidated a |}.
Definition with_form (f : LoginFormState -> LoginFormState) (a : App) : App :=
  {| store := store a; loader := loader a; toasts := toasts a; pushed := pushed a;
     storage := storage a; form := f (form a); invalidated := invalidated a |}.

(** [queryClient.invalidateQueries({queryKey})] *)
Definition invalidate (key : list string) (a : App) : App :=
  {| store := store a; loader := loader a; toasts := toasts a; pushed := pushed a;
     storage := storage a; form := form a; invalidated := invalidated a ++ [key] |}.

Definition set_localError (e : option jsval) (f : LoginFormState) : LoginFormState :=
  {| failedAttempts := failedAttempts f; isLocked := isLocked f; localError := e;
     lockoutEndTime := lockoutEndTime f |}.
Definition set_failedAttempts (n : nat) (f : LoginFormState) : LoginFormState :=
  {| failedAttempts := n; isLocked := isLocked f; localError := localError f;
     lockoutEndTime := lockoutEndTime f |}.
(** [setIsLocked(b); setLockoutEndTime(t)] *)
Definition set_lock (b : bool) (t : option Z) (f : LoginFormState) : LoginFormState :=
  {| failedAttempts := failedAttempts f; isLocked := b; localError := localError f;
     lockoutEndTime := t |}.

(** [JSON.stringify({ lockoutEndTime: iso })], as [setItem] stores it
    (its [String(value)]). *)
Definition lockout_json (iso : string) : string :=
  js_string (Json.JSON_stringify (JObj [("lockoutEndTime", JStr iso)])).

(** [new ApiError(...)] as the object the callbacks receive: [super(message)]
    stores [String(message)]. *)
Definition api_error_obj (e : ApiError) : jsval :=
  JObj [("message", JStr match message e with JUndef => "" | m => js_string m end);
        ("name", JStr "ApiError"); ("success", JBool false);
        ("status", JNum (ae_status e)); ("cause", cause e)].

(** [new Error(m)]: [message] is [String(m)], [""] for [undefined]. *)
Definition error_obj (m : jsval) : jsval :=
  JObj [("message", JStr match m with JUndef => "" | _ => js_string m end)].

(** [throw new Error(f(res.message))]: reading [res.message] throws a
    [TypeError] first when [res] is [null] or [undefined]. *)
Definition thrown_by (res : jsval) (f : jsval -> jsval) : jsval :=
  match res with
  | JUndef | JNull => type_error "message" res
  | _ => error_obj (f (get res "message"))
  end.

(** ** Callbacks that may throw *)

(** A hook's [onSuccess] returns ([inl tt]) or throws a value ([inr e]). *)
Definition returning {W} (p : prog W unit) : prog W (unit + jsval) :=
  let! _ := p in pret (inl tt).

(** [f(v.k)]: reading [v.k] may throw before [f] runs. *)
Definition with_prop {W} (v : jsval) (k : string) (f : jsval -> prog W unit) : prog W (unit + jsval) :=
  match dot v k with
  | inl x => returning (f x)
  | inr e => pret (inr e)
  end.

(** [Mutation.execute] of react-query: the mutation function, then the
    hook's [onSuccess]; what either throws is the mutation's error and
    is passed to the hook's [onError].  The outcome is what
    [mutateAsync] settles with. *)
Definition execute {W} (fn : prog W (jsval + jsval)) (onSuccess : jsval -> prog W (unit + jsval))
    (onError : jsval -> prog W unit) : prog W (jsval + jsval) :=
  let! r := fn in
  let! r := match r with
            | inl d =>
                let! o := onSuccess d in
                pret (match o with inl _ => inl d | inr e => inr e end)
            | inr e => pret (inr e)
            end in
  match r with
  | inl d => pret (inl d)
  | inr e => let! _ := onError e in pret (inr e)
  end.

(** [mutate(values, {onSuccess, onError})]: the execution, then the
    call's callback for its outcome. *)
Definition run_mutation {W} (fn : prog W (jsval + jsval)) (onSuccess : jsval -> prog W (unit + jsval))
    (onError callSuccess callError : jsval -> prog W unit) : prog W unit :=
  let! r := execute fn onSuccess onError in
  match r with
  | inl d => callSuccess d
  | inr e => callError e
  end.

Section Execute.
Context {W : Type}.
Implicit Types (fn : prog W (jsval + jsval)) (onS : jsval -> prog W (unit + jsval))
  (onE : jsval -> prog W unit).

Lemma execute_ok fn onS onE w d w1 w2 :
  fn w = (Some (inl d), w1) -> onS d w1 = (Some (inl tt), w2) ->
  execute fn onS onE w = (Some (inl d), w2).
Proof. intros H1 H2. unfold execute, pbind. by rewrite H1, H2. Qed.

(** What [onSuccess] throws goes to [onError]. *)
Lemma execute_throws fn onS onE w d w1 e w2 :
  fn w = (Some (inl d), w1) -> onS d w1 = (Some (inr e), w2) ->
  execute fn onS onE w = (let! _ := onE e in pret (inr e)) w2.
Proof. intros H1 H2. unfold execute, pbind at 1 2 3 4. by rewrite H1, H2. Qed.

Lemma execute_rejects fn onS onE w e w1 :
  fn w = (Some (inr e), w1) -> execute fn onS onE w = (let! _ := onE e in pret (inr e)) w1.
Proof. intros H1. unfold execute, pbind at 1 2 3. by rewrite H1. Qed.

(** The three ways an execution settles. *)
Lemma execute_cases fn onS onE w r w' :
  execute fn onS onE w = (Some r, w') ->
  (exists d w1, fn w = (Some (inl d), w1) /\ onS d w1 = (Some (inl tt), w') /\ r = inl d) \/
  (exists d w1 e w2, fn w = (Some (inl d), w1) /\ onS d w1 = (Some (inr e), w2) /\
     onE e w2 = (Some tt, w') /\ r = inr e) \/
  (exists e w1, fn w = (Some (inr e), w1) /\ onE e w1 = (Some tt, w') /\ r = inr e).
Proof.
  unfold execute, pbind, pret. intros H.
  destruct (fn w) as [[[d|e]|] w1] eqn:E1; [| |discriminate].
  - destruct (onS d w1) as [[[[]|e]|] w2] eqn:E2; [| |discriminate].
    + left. injection H as <- <-. eauto.
    + right; left. destruct (onE e w2) as [[[]|] w3] eqn:E3; [|discriminate].
      injection H as <- <-. eauto 10.
  - right; right. destruct (onE e w1) as [[[]|] w3] eqn:E3; [|discriminate].
    injection H as <- <-. eauto.
Qed.

(** An execution that rejects did so through [onError]. *)
Lemma execute_inr fn onS onE w e w' :
  execute fn onS onE w = (Some (inr e), w') ->
  exists w1, onE e w1 = (Some tt, w') /\
    (fn w = (Some (inr e), w1) \/ exists d w0, fn w = (Some (inl d), w0) /\ onS d w0 = (Some (inr e), w1)).
Proof.
  intros [(d & w1 & _ & _ & [=])|[(d & w1 & e' & w2 & H1 & H2 & H3 & [= <-])|(e' & w1 & H1 & H3 & [= <-])]]%execute_cases;
    eauto 10.
Qed.

End Execute.

(** The requests an execution sends are those of its function when the
    callbacks send none. *)
Lemma execute_sent {Srv A} (fn : prog (World Srv A) (jsval + jsval)) onS onE w r w' :
  (forall d w1 o w2, onS d w1 = (Some o, w2) -> sent w2 = sent w1) ->
  (forall e w1 u w2, onE e w1 = (Some u, w2) -> sent w2 = sent w1) ->
  execute fn onS onE w = (Some r, w') -> exists r1 w1, fn w = (Some r1, w1) /\ sent w' = sent w1.
Proof.
  intros HS HE [(d & w1 & H1 & H2 & _)|[(d & w1 & e & w2 & H1 & H2 & H3 & _)|(e & w1 & H1 & H3 & _)]]%execute_cases;
    do 2 eexists; (split; [exact H1|]).
  - by apply (HS d w1 (inl tt)).
  - rewrite (HE _ _ _ _ H3). by apply (HS d w1 (inr e)).
  - by apply (HE e w1 tt).
Qed.

(** [with_prop] sends nothing when its body sends nothing. *)
Lemma with_prop_sent {Srv A} v k (f : jsval -> prog (World Srv A) unit) w o w' :
  (forall x w1 u w2, f x w1 = (Some u, w2) -> sent w2 = sent w1) ->
  with_prop v k f w = (Some o, w') -> sent w' = sent w.
Proof.
  intros Hf. unfold with_prop, returning, pbind.
  destruct (dot v k) as [x|e]; [|by intros [= _ <-]].
  destruct (f x w) as [[u|] w1] eqn:E; [|done]. intros [= _ <-]. by apply (Hf x w u).
Qed.

(** [String(v)] of a truthy value is not empty. *)
Lemma js_string_truthy v : truthy v = true -> String.eqb (js_string v) "" = false.
Proof.
  destruct v as [| |[]|[|p|p]|s|ps]; try done; cbn [js_string truthy].
  - intros _. change (pretty (Zpos p)) with (pretty (Npos p)).
    by destruct (Json.pretty_N_head (Npos p)) as (c & t & -> & _).
  - by intros ->%negb_true_iff.
Qed.

(** The body of an answer: [error.response?.data], [undefined] when there is no response. *)
Definition answer_body (a : Answer) : jsval :=
  match a with
  | Reply _ b => b
  | NetworkError => JUndef
  end.

Section Run.
Context {Srv : Type}.
Variable serve : Srv -> Config -> Srv * Answer.
Variable in_browser : bool.
(** The nesting depth granted to the HTTP client. *)
Variable fuel : nat.
(** [Date.now()] when the callback runs, and [Date.prototype.toISOString]. *)
Variable now : Z.
Variable toISOString : Z -> string.

Abbreviation W := (World Srv App).

Definition modify_app (f : App -> App) : prog W unit :=
  fun w => (Some tt, {| server := server w; sent := sent w; href := href w; app := f (app w) |}).

Definition call {A} (t : Async A) : prog W A := interp serve in_browser fuel t.

(** [showLoader(msg); try { body } finally { hideLoader(); }] *)
Definition with_loader {A} (msg : string) (body : prog W A) : prog W A :=
  let! _ := modify_app (with_loader_state (showLoader (Some msg))) in
  let! r := body in
  let! _ := modify_app (with_loader_state hideLoader) in
  pret r.

(** ** [useLoginMutation] *)

Definition login_credentials (values : jsval) : jsval :=
  JObj [("email", get values "email"); ("password", get values "password");
        ("rememberMe", js_or (get values "rememberMe") (JBool false))].

Definition loginFn (values : jsval) : prog W (jsval + jsval) :=
  with_loader "Signing in..."
    (let! res := call (AuthService.login (login_credentials values)) in
     pret (match res with
           | inl r =>
               if truthy (get r "success") && truthy (get r "data")
               then inl (get r "data") else inr (thrown_by r id)
           | inr e => inr (api_error_obj e)
           end)).

(** [{ id: data.user._id, email: data.user.email, role: data.user.role,
    name: data.user.name, accessToken: data.accessToken, refreshToken:
    data.refreshToken }] once [data.user] has been read. *)
Definition login_payload (data user : jsval) : props :=
  [("id", get user "_id"); ("email", get user "email");
   ("role", get user "role"); ("name", get user "name");
   ("accessToken", get data "accessToken"); ("refreshToken", get data "refreshToken")].

(** The literal is built before [login] runs: reading [data.user._id]
    throws a [TypeError] when the response has no [user]. *)
Definition login_user (data : jsval) : props + jsval :=
  match dot data "user" with
  | inr e => inr e
  | inl user =>
      match dot user "_id" with
      | inr e => inr e
      | inl _ => inl (login_payload data user)
      end
  end.

Definition loginOnSuccess (data : jsval) : prog W (unit + jsval) :=
  match login_user data with
  | inr e => pret (inr e)
  | inl u =>
      returning (let! _ := modify_app (with_store (login u)) in
                 let! _ := modify_app (add_toast (ToastSuccess (JStr "Login successful!"))) in
                 modify_app (push_route "/dashboard"))
  end.

Definition loginOnError (error : jsval) : prog W unit :=
  modify_app (add_toast (ToastError
    (js_or (get error "message") (JStr "Login failed. Please try again.")))).

(** ** [useLogout] *)

Definition logoutFn : prog W (jsval + jsval) :=
  with_loader "Signing out..."
    (let! res := call AuthService.logout in
     pret (match res with
           | inl r =>
               if negb (truthy (get r "success"))
               then inr (thrown_by r (fun m => js_or m (JStr "Logout failed")))
               else inl r
           | inr e => inr (api_error_obj e)
           end)).

Definition logoutOnSuccess (_ : jsval) : prog W (unit + jsval) :=
  returning (let! _ := modify_app (with_store logout) in
             let! _ := modify_app (add_toast (ToastSuccess (JStr "Logged out successfully"))) in
             modify_app (push_route "/login")).

Definition logoutOnError (error : jsval) : prog W unit :=
  modify_app (add_toast (ToastError
    (js_or (get error "message") (JStr "Logout failed. Please try again.")))).

Definition noop (_ : jsval) : prog W unit := pret tt.

Definition useLogout_mutate : prog W unit :=
  run_mutation logoutFn logoutOnSuccess logoutOnError noop noop.

(** ** [LoginPage.handleSubmit] *)

Definition set_error (m : string) : prog W unit :=
  modify_app (with_form (set_localError (Some (JStr m)))).

Definition formOnSuccess (_ : jsval) : prog W unit :=
  let! _ := modify_app (with_storage (delete "failed_login_attempts")) in
  modify_app (with_form (set_failedAttempts 0)).

(** The call's [onError]; [failedAttempts] is the value the closure
    captured at render time. *)
Definition formOnError (failed : nat) (err : jsval) : prog W unit :=
  let code := get err "code" in
  if is_str code "EMAIL_NOT_VERIFIED" then
    set_error "Your email is not verified. Please check your inbox."
  else if is_str code "ACCOUNT_INACTIVE" then
    set_error "Your account is inactive. Please contact support."
  else if is_str code "INVALID_EMAIL_PASSWORD" then
    let newAttempts := S failed in
    let! _ := modify_app (with_form (set_failedAttempts newAttempts)) in
    let! _ := modify_app (with_storage (<["failed_login_attempts" := pretty newAttempts]>)) in
    if Nat.leb 5 newAttempts then
      let lockoutEnd := (now + 15 * 60 * 1000)%Z in
      let! _ := modify_app (with_form (set_lock true (Some lockoutEnd))) in
      let! _ := modify_app (with_storage
                  (<["account_lockout" := lockout_json (toISOString lockoutEnd)]>)) in
      set_error "Too many login attempts. Please try again later."
    else set_error "Invalid email or password."
  else
    modify_app (with_form (set_localError
      (Some (js_or (get err "message") (JStr "Login failed. Please try again."))))).

(** The form's submit handler, given the [mutate] of the login hook it
    renders with: [mutate(credentials, { onSuccess, onError })]. *)
Definition handleSubmit_with
    (mutate : jsval -> (jsval -> prog W unit) -> (jsval -> prog W unit) -> prog W unit)
    (email password : string) (rememberMe : bool) : prog W unit :=
  let! _ := modify_app (with_form (set_localError None)) in
  let! f := pgets (fun w => form (app w)) in
  if isLocked f then set_error "Too many login attempts. Please try again later."
  else if String.eqb email "" || String.eqb password "" then
    set_error "Please enter both email and password"
  else
    mutate (JObj [("email", JStr email); ("password", JStr password); ("rememberMe", JBool rememberMe)])
      formOnSuccess (formOnError (failedAttempts f)).

(** [useLoginMutation()]'s [mutate]: the hook's callbacks, then the call's. *)
Definition login_mutate (creds : jsval) (callSuccess callError : jsval -> prog W unit) : prog W unit :=
  run_mutation (loginFn creds) loginOnSuccess loginOnError callSuccess callError.

Definition handleSubmit : string -> string -> bool -> prog W unit := handleSubmit_with login_mutate.

(** A sequence of submissions of the form. *)
Fixpoint submit_all (inputs : list (string * string * bool)) : prog W unit :=
  match inputs with
  | [] => pret tt
  | (e, p, r) :: rest => let! _ := handleSubmit e p r in submit_all rest
  end.

(** ** Lemmas *)

Definition lock_view (w : W) : bool * nat :=
  (isLocked (form (app w)), failedAttempts (form (app w))).

Lemma with_loader_some {A} m (body : prog W A) w r w' :
  with_loader m body w = (Some r, w') ->
  exists w2, body (snd (modify_app (with_loader_state (showLoader (Some m))) w)) = (Some r, w2) /\
    w' = snd (modify_app (with_loader_state hideLoader) w2).
Proof.
  unfold with_loader. intros H. pbind_inv H. injection E as <- <-.
  pbind_inv H. pbind_inv H. injection E0 as <- <-. injection H as <- <-. by exists w0.
Qed.

Lemma call_app {A} (t : Async A) w : app (snd (call t w)) = app w.
Proof. apply interp_app. Qed.

Lemma thrown_by_nocode res f :
  get (thrown_by res f) "code" = JUndef /\ get (thrown_by res f) "errorCode" = JUndef.
Proof. by destruct res. Qed.

(** The login function settles with the loader hidden and the rest of
    the application untouched; what it throws has no [code] and no
    [errorCode] property. *)
(** The user [onSuccess] stores is a [User] of the store's type when the
    response's user has string [_id], [email], [role] and [name] and the
    tokens are strings; [LoginResponse] types that user as [IUser],
    which is [any] here, so nothing checks it. *)
Lemma login_user_typed data :
  TsTypes.conforms (TsTypes.TsObject [("_id", false, TsTypes.TsString); ("email", false, TsTypes.TsString);
                                      ("role", false, TsTypes.TsString); ("name", false, TsTypes.TsString)])
    (get data "user") = true ->
  TsTypes.conforms TsTypes.TsString (get data "accessToken") = true ->
  TsTypes.conforms TsTypes.TsString (get data "refreshToken") = true ->
  TsTypes.conforms TsTypes.User (JObj (login_payload data (get data "user"))) = true.
Proof.
  intros Hu Ha Hr. destruct (get data "user") as [| | | | |ps] eqn:Hd; try discriminate.
  pose proof (TsTypes.conforms_field _ _ "_id" TsTypes.TsString Hu ltac:(simpl; tauto)) as H1.
  pose proof (TsTypes.conforms_field _ _ "email" TsTypes.TsString Hu ltac:(simpl; tauto)) as H2.
  pose proof (TsTypes.conforms_field _ _ "role" TsTypes.TsString Hu ltac:(simpl; tauto)) as H3.
  pose proof (TsTypes.conforms_field _ _ "name" TsTypes.TsString Hu ltac:(simpl; tauto)) as H4.
  unfold login_payload.
  destruct (get (JObj ps) "_id"), (get (JObj ps) "email"), (get (JObj ps) "role"), (get (JObj ps) "name");
    try discriminate.
  destruct (get data "accessToken"), (get data "refreshToken"); try discriminate. reflexivity.
Qed.

Lemma loginFn_some values w r w' :
  loginFn values w = (Some r, w') ->
  app w' = with_loader_state hideLoader
             (with_loader_state (showLoader (Some "Signing in...")) (app w)) /\
  (forall e, r = inr e -> get e "code" = JUndef /\ get e "errorCode" = JUndef).
Proof.
  unfold loginFn. intros (w2 & H & ->)%with_loader_some.
  pbind_inv H. pose proof (call_app (AuthService.login (login_credentials values))
    (snd (modify_app (with_loader_state (showLoader (Some "Signing in..."))) w))) as Happ.
  rewrite E in Happ. simpl in Happ. injection H as <- <-.
  split; [simpl; by rewrite Happ|].
  intros e He. destruct a as [res|err].
  - destruct (truthy (get res "success") && truthy (get res "data")); [done|].
    injection He as <-. apply thrown_by_nocode.
  - by injection He as <-.
Qed.

Lemma set_error_lock m w u w' : set_error m w = (Some u, w') -> lock_view w' = lock_view w.
Proof. unfold set_error, modify_app. by intros [= _ <-]. Qed.

Lemma loginOnSuccess_form d w u w' :
  loginOnSuccess d w = (Some u, w') -> form (app w') = form (app w).
Proof. unfold loginOnSuccess. destruct (login_user d); simpl; by intros [= _ <-]. Qed.

(** What reading the login response throws is a [TypeError]: it has no [code]. *)
Lemma login_user_inr d e : login_user d = inr e -> get e "code" = JUndef.
Proof.
  unfold login_user, dot. destruct (nullish d); [by intros [= <-]|].
  destruct (nullish (get d "user")); by intros [= <-].
Qed.

Lemma loginOnSuccess_some d w o w' :
  loginOnSuccess d w = (Some o, w') ->
  form (app w') = form (app w) /\ (forall e, o = inr e -> get e "code" = JUndef).
Proof.
  unfold loginOnSuccess. destruct (login_user d) as [u|e] eqn:Hu.
  - simpl. intros [= <- <-]. by split.
  - intros [= <- <-]. split; [done|]. intros ? [= <-]. by apply (login_user_inr d).
Qed.

Lemma loginOnError_form e w u w' :
  loginOnError e w = (Some u, w') -> form (app w') = form (app w).
Proof. unfold loginOnError, modify_app. by intros [= _ <-]. Qed.

Lemma formOnSuccess_lock d w u w' :
  formOnSuccess d w = (Some u, w') ->
  isLocked (form (app w')) = isLocked (form (app w)) /\ failedAttempts (form (app w')) = 0.
Proof. unfold formOnSuccess. simpl. by intros [= _ <-]. Qed.

Lemma formOnError_nocode n e w u w' :
  get e "code" = JUndef -> formOnError n e w = (Some u, w') -> lock_view w' = lock_view w.
Proof. intros Hc. unfold formOnError. rewrite Hc. simpl. by intros [= _ <-]. Qed.

(** The login hook's execution leaves the form as it was, and what it
    rejects with has no [code]. *)
Lemma login_execute_form values w r w' :
  execute (loginFn values) loginOnSuccess loginOnError w = (Some r, w') ->
  form (app w') = form (app w) /\ (forall e, r = inr e -> get e "code" = JUndef).
Proof.
  intros [(d & w1 & H1 & H2 & ->)|[(d & w1 & e & w2 & H1 & H2 & H3 & ->)|(e & w1 & H1 & H3 & ->)]]%execute_cases.
  - apply loginFn_some in H1 as [Happ _]. apply loginOnSuccess_some in H2 as [Hf _].
    split; [by rewrite Hf, Happ|done].
  - apply loginFn_some in H1 as [Happ _]. apply loginOnSuccess_some in H2 as [Hf Hc].
    apply loginOnError_form in H3. split; [by rewrite H3, Hf, Happ|].
    intros ? [= <-]. by apply Hc.
  - apply loginFn_some in H1 as [Happ Herr]. apply loginOnError_form in H3.
    split; [by rewrite H3, Happ|]. intros ? [= <-]. by apply (proj1 (Herr e eq_refl)).
Qed.

(** One submission never locks the form and never raises the count. *)
Lemma handleSubmit_lock e p rm w w' :
  handleSubmit e p rm w = (Some tt, w') ->
  isLocked (form (app w')) = isLocked (form (app w)) /\
  failedAttempts (form (app w')) <= failedAttempts (form (app w)).
Proof.
  unfold handleSubmit, handleSubmit_with. intros H. pbind_inv H. injection E as <- <-.
  pbind_inv H. injection E as <- <-.
  cbn [app form isLocked with_form set_localError failedAttempts] in H.
  destruct (isLocked (form (app w))) eqn:Hl.
  { apply set_error_lock in H. revert H. unfold lock_view. simpl.
    intros [= -> ->]. split; [done|lia]. }
  destruct (String.eqb e "" || String.eqb p "").
  { apply set_error_lock in H. revert H. unfold lock_view. simpl.
    intros [= -> ->]. split; [done|lia]. }
  unfold login_mutate, run_mutation in H. pbind_inv H. apply login_execute_form in E as [Hf Herr].
  destruct a as [d|err].
  - apply formOnSuccess_lock in H as [H1 H2]. rewrite H1, Hf, H2. simpl. split; [done|lia].
  - apply formOnError_nocode in H; [|by apply Herr].
    unfold lock_view in H. injection H as H1 H2. rewrite H1, H2, Hf. simpl. split; [done|lia].
Qed.

(** What the login call rejects with has no [code] and no
    [errorCode] property: [ApiError] keeps the server's error code in
    [cause], and [new Error(message)] has none.  [LoginForm] tests
    [err.code] and [verify-email] tests [err.errorCode]. *)
Lemma login_error_has_no_code values w e w' :
  loginFn values w = (Some (inr e), w') ->
  get e "code" = JUndef /\ get e "errorCode" = JUndef.
Proof. intros [_ Herr]%loginFn_some. by apply Herr. Qed.

(** C22: the lockout of [LoginForm] never engages: from an unlocked
    form, whatever the server answers and however many submissions
    fail with [INVALID_EMAIL_PASSWORD], the form stays unlocked and
    the failure count never grows. *)
Theorem lockout_never_engages inputs w w' :
  submit_all inputs w = (Some tt, w') ->
  isLocked (form (app w)) = false ->
  isLocked (form (app w')) = false /\
  failedAttempts (form (app w')) <= failedAttempts (form (app w)).
Proof.
  revert w. induction inputs as [|[[e p] rm] rest IH]; intros w H Hl; simpl in H.
  - injection H as <-. split; [done|lia].
  - pbind_inv H. destruct a. apply handleSubmit_lock in E as [E1 E2].
    destruct (IH _ H) as [H1 H2]; [by rewrite E1|]. split; [done|lia].
Qed.

Definition login_cfg (values : jsval) : Config :=
  {| method := POST; url := "/api/v1/auth/login/"; body := login_credentials values;
     _retry := false |}.

Lemma loginFn_success n values w s' st b :
  fuel = S n ->
  serve (server w) (login_cfg values) = (s', Reply st b) -> validateStatus st = true ->
  truthy (get b "success") = true -> truthy (get b "data") = true ->
  loginFn values w =
    (Some (inl (get b "data")),
     snd (modify_app (with_loader_state hideLoader)
       (after_send (snd (modify_app (with_loader_state (showLoader (Some "Signing in..."))) w))
          (login_cfg values) s'))).
Proof.
  intros Hf Hs Hv Hsu Hda. unfold loginFn, with_loader, call, AuthService.login, post.
  rewrite Hf. unfold pbind at 1. cbn [fst snd modify_app].
  unfold pbind at 1. fold (login_cfg values). unfold pbind at 1.
  rewrite (interp_axios_plain serve in_browser n _ _
    {| server := server w; sent := sent w; href := href w;
       app := with_loader_state (showLoader (Some "Signing in...")) (app w) |} _ _ Hs)
    by (by apply ok_not_token).
  unfold plain_outcome. simpl. rewrite Hv. simpl. by rewrite Hsu, Hda.
Qed.

(** The login hook alone: when the server accepts the credentials with a
    response that has a [user], the store holds the returned user and
    tokens and is authenticated, the toast "Login successful!" is shown,
    the router goes to [/dashboard] and the loader is hidden; one
    request is sent. *)
Theorem login_mutation_success n values w s' st b :
  fuel = S n ->
  serve (server w) (login_cfg values) = (s', Reply st b) -> validateStatus st = true ->
  truthy (get b "success") = true -> truthy (get b "data") = true ->
  nullish (get (get b "data") "user") = false ->
  exists w', run_mutation (loginFn values) loginOnSuccess loginOnError noop noop w = (Some tt, w') /\
    store (app w') = login (login_payload (get b "data") (get (get b "data") "user")) (store (app w)) /\
    isAuthenticated (store (app w')) = true /\
    toasts (app w') = toasts (app w) ++ [ToastSuccess (JStr "Login successful!")] /\
    pushed (app w') = pushed (app w) ++ ["/dashboard"] /\
    isLoading (loader (app w')) = false /\
    sent w' = sent w ++ [login_cfg values].
Proof.
  intros Hf Hs Hv Hsu Hda Hu. unfold run_mutation, execute.
  rewrite !pbind_assoc, (pbind_some _ _ _ _ _ (loginFn_success n values w s' st b Hf Hs Hv Hsu Hda)).
  cbv beta. unfold loginOnSuccess, login_user, dot.
  rewrite (truthy_not_nullish _ Hda), Hu.
  eexists. split; [reflexivity|]. done.
Qed.

(** C24: the login scenario of the spec, from the form.  Submitting an
    unlocked login form with an e-mail and a password that the server
    accepts sends one request and hides the loader.  When the response
    has a [user], the session stores the returned user and tokens and
    is authenticated, "Login successful!" is shown, the router goes to
    [/dashboard], and the form's own [onSuccess] removes the stored
    failure count and resets it to 0, with no error shown.  When it has
    none, reading [data.user._id] throws: nothing is stored, there is no
    navigation and no count reset, and the [TypeError]'s message is
    shown as an error toast and as the form's error. *)
Theorem login_submit_success n email password rm w s' st b :
  fuel = S n -> isLocked (form (app w)) = false -> email <> "" -> password <> "" ->
  let values := JObj [("email", JStr email); ("password", JStr password); ("rememberMe", JBool rm)] in
  serve (server w) (login_cfg values) = (s', Reply st b) -> validateStatus st = true ->
  truthy (get b "success") = true -> truthy (get b "data") = true ->
  let user := get (get b "data") "user" in
  exists w', handleSubmit email password rm w = (Some tt, w') /\
    isLoading (loader (app w')) = false /\ sent w' = sent w ++ [login_cfg values] /\
    if nullish user then
      store (app w') = store (app w) /\ pushed (app w') = pushed (app w) /\
      toasts (app w') = toasts (app w) ++ [ToastError (get (type_error "_id" user) "message")] /\
      localError (form (app w')) = Some (get (type_error "_id" user) "message") /\
      storage (app w') = storage (app w) /\
      failedAttempts (form (app w')) = failedAttempts (form (app w))
    else
      store (app w') = login (login_payload (get b "data") user) (store (app w)) /\
      isAuthenticated (store (app w')) = true /\
      toasts (app w') = toasts (app w) ++ [ToastSuccess (JStr "Login successful!")] /\
      pushed (app w') = pushed (app w) ++ ["/dashboard"] /\
      storage (app w') = delete "failed_login_attempts" (storage (app w)) /\
      failedAttempts (form (app w')) = 0 /\ localError (form (app w')) = None.
Proof.
  intros Hf Hl He Hp values Hs Hv Hsu Hda user. subst values user.
  unfold handleSubmit, handleSubmit_with, login_mutate, run_mutation.
  unfold pbind at 1. cbn [modify_app fst snd].
  unfold pbind at 1. cbn [pgets fst snd app with_form form set_localError isLocked].
  rewrite Hl. apply String.eqb_neq in He, Hp. rewrite He, Hp. cbn [orb].
  unfold execute. rewrite !pbind_assoc, (pbind_some _ _ _ _ _ (loginFn_success n _
    {| server := server w; sent := sent w; href := href w; app := with_form (set_localError None) (app w) |}
    s' st b Hf Hs Hv Hsu Hda)).
  cbv beta. unfold loginOnSuccess, login_user, dot. rewrite (truthy_not_nullish _ Hda).
  destruct (nullish (get (get b "data") "user")) eqn:Hu;
    eexists; (split; [reflexivity|]); cbn; rewrite ?Hu; repeat split.
Qed.

Lemma logoutFn_answer n w s' a :
  fuel = S n -> serve (server w) logout_cfg = (s', a) -> token_reply a && in_browser = false ->
  logoutFn w =
    (Some (match response_data (plain_outcome logout_cfg a) with
           | inl r => if negb (truthy (get r "success"))
                      then inr (thrown_by r (fun m => js_or m (JStr "Logout failed"))) else inl r
           | inr e => inr (api_error_obj e)
           end),
     snd (modify_app (with_loader_state hideLoader)
       (after_send (snd (modify_app (with_loader_state (showLoader (Some "Signing out..."))) w))
          logout_cfg s'))).
Proof.
  intros Hf Hs Hc. unfold logoutFn, with_loader, call, AuthService.logout, post.
  rewrite Hf. unfold pbind at 1. cbn [fst snd modify_app].
  unfold pbind at 1. fold logout_cfg. unfold pbind at 1.
  rewrite (interp_axios_plain serve in_browser n _ _
    {| server := server w; sent := sent w; href := href w;
       app := with_loader_state (showLoader (Some "Signing out...")) (app w) |} _ _ Hs Hc).
  by rewrite interp_done.
Qed.

(** [m || fallback] for a non-empty [fallback] is defined and its
    [String] is not empty. *)
Lemma js_or_fallback m fallback :
  fallback <> "" ->
  js_or m (JStr fallback) <> JUndef /\ String.eqb (js_string (js_or m (JStr fallback))) "" = false.
Proof.
  intros Hfb. unfold js_or. destruct (truthy m) eqn:Hm.
  - split; [by destruct m|by apply js_string_truthy].
  - split; [done|by apply String.eqb_neq].
Qed.

(** [error.message || f] on [new Error(x)] for a value [x] that is not
    [undefined] and whose [String] is not empty. *)
Lemma js_or_error_message x f :
  x <> JUndef -> String.eqb (js_string x) "" = false ->
  js_or (JStr match x with JUndef => "" | _ => js_string x end) f = JStr (js_string x).
Proof. intros H1 H2. destruct x; try done; unfold js_or; cbn [truthy]; by rewrite H2. Qed.

(** The message of the error a refused call throws is [String] of the
    server's [message], or of the fallback when that is falsy. *)
Lemma error_message_text (m : jsval) (fallback : string) f :
  fallback <> "" ->
  js_or (JStr match js_or m (JStr fallback) with
               | JUndef => ""
               | _ => js_string (js_or m (JStr fallback))
               end) f =
  JStr (js_string (js_or m (JStr fallback))).
Proof. intros [H1 H2]%(js_or_fallback m). by apply js_or_error_message. Qed.

(** The same for the message [ApiError] stores. *)
Lemma api_message_text (m : jsval) (fallback : string) f :
  fallback <> "" ->
  js_or (JStr match js_or m (JStr fallback) with JUndef => "" | v => js_string v end) f =
  JStr (js_string (js_or m (JStr fallback))).
Proof.
  intros H. rewrite <-(error_message_text m fallback f H). by destruct (js_or m (JStr fallback)).
Qed.

(** C25: a logout the server refuses keeps the local session.  When
    the logout call is answered (outside the refresh path) with an
    error status, with no response, or with a 2xx envelope whose
    [success] is falsy, [useLogout]'s [mutate] sends that one request,
    leaves the store and the route as they were, hides the loader and
    shows one error toast: the server's [message], or "Something went
    wrong" for a rejection and "Logout failed" for a refused envelope. *)
Theorem logout_failure_keeps_session n w s' a :
  fuel = S n ->
  serve (server w) logout_cfg = (s', a) -> token_reply a && in_browser = false ->
  let b := answer_body a in
  answer_ok a = false \/ (truthy (get b "success") = false /\ nullish b = false) ->
  exists w', useLogout_mutate w = (Some tt, w') /\
    store (app w') = store (app w) /\ pushed (app w') = pushed (app w) /\
    isLoading (loader (app w')) = false /\ sent w' = sent w ++ [logout_cfg] /\
    toasts (app w') = toasts (app w) ++
      [ToastError (JStr (js_string (js_or (get b "message")
         (JStr (if answer_ok a then "Logout failed" else "Something went wrong")))))].
Proof.
  intros Hf Hs Hc b Hfail. subst b.
  unfold useLogout_mutate, run_mutation, execute. rewrite !pbind_assoc.
  rewrite (pbind_some _ _ _ _ _ (logoutFn_answer n w s' a Hf Hs Hc)). cbv beta.
  destruct a as [st b|]; cbn [answer_ok answer_body] in *.
  - unfold plain_outcome, settle. destruct (validateStatus st) eqn:Hv; cbn [response_data data].
    + destruct Hfail as [[=]|[Hsu Hnb]]. rewrite Hsu. cbn [negb].
      destruct b as [| | | | |ps]; try discriminate; cbn -[js_or js_string];
        eexists; (split; [reflexivity|]); cbn -[js_or js_string]; (repeat split);
        by rewrite error_message_text.
    + cbn -[js_or js_string]. eexists. split; [reflexivity|]. cbn -[js_or js_string].
      repeat split. by rewrite api_message_text.
  - cbn. eexists. split; [reflexivity|]. done.
Qed.

End Run.

End Mutations.

(** ** Concrete sessions *)

Module MutationWitnesses.
Import LoaderStore Mutations.
Local Open Scope list_scope.

Definition bad_body : jsval :=
  JObj [("success", JBool false); ("message", JStr "Invalid email or password");
        ("errorCode", JStr "INVALID_EMAIL_PASSWORD")].

Definition login_body : jsval :=
  JObj [("success", JBool true);
        ("data", JObj [("user", JObj [("_id", JStr "u1"); ("email", JStr "a@x.io");
                                       ("role", JStr "brand_owner"); ("name", JStr "Ann")]);
                       ("accessToken", JStr "t1"); ("refreshToken", JStr "r1")])].

(** Accepts the password ["Secret1!"] only; logout is refused. *)
Definition auth_server (s : nat) (c : Config) : nat * Answer :=
  if String.eqb (url c) "/api/v1/auth/login/" then
    if is_str (get (body c) "password") "Secret1!" then (S s, Reply 200 login_body)
    else (S s, Reply 401 bad_body)
  else (S s, Reply 200 (JObj [("success", JBool false)])).

Definition app0 : App :=
  {| store := initial; loader := LoaderStore.init; toasts := []; pushed := []; storage := ∅;
     form := {| failedAttempts := 0; isLocked := false; localError := None;
            lockoutEndTime := None |};
     invalidated := [] |}.

Definition wm0 : World nat App := {| server := 0; sent := []; href := None; app := app0 |}.

Definition wrong : string * string * bool := ("a@x.io", "Wrong1!x", false).

Definition bad_values : jsval :=
  JObj [("email", JStr "a@x.io"); ("password", JStr "Wrong1!x"); ("rememberMe", JBool false)].

Lemma lockout_never_engages_witness :
  isLocked (form (app (snd (submit_all auth_server true 3 0%Z (fun _ => "") [wrong; wrong; wrong; wrong; wrong; wrong] wm0))))
    = false /\
  failedAttempts (form (app (snd (submit_all auth_server true 3 0%Z (fun _ => "") [wrong; wrong; wrong; wrong; wrong; wrong] wm0))))
    <= failedAttempts (form (app wm0)).
Proof.
  apply (lockout_never_engages auth_server true 3 0%Z (fun _ => "") [wrong; wrong; wrong; wrong; wrong; wrong] wm0); [vm_compute; reflexivity|reflexivity].
Defined.

Definition good_values : jsval :=
  JObj [("email", JStr "a@x.io"); ("password", JStr "Secret1!")].

Definition wm_typed : World nat App :=
  {| server := 0; sent := []; href := None;
     app := with_storage (<["failed_login_attempts" := "2"]>) (with_form (set_failedAttempts 2) app0) |}.

(** Accepts every password, with a response that has no [user]. *)
Definition nouser_server (s : nat) (c : Config) : nat * Answer :=
  (S s, Reply 200 (JObj [("success", JBool true); ("data", JObj [("accessToken", JStr "t1")])])).

Definition submitted : jsval :=
  JObj [("email", JStr "a@x.io"); ("password", JStr "Secret1!"); ("rememberMe", JBool false)].

(** Two failures are stored; the third try succeeds, with and without
    a [user] in the response. *)
Lemma login_submit_success_witness :
  (exists w', handleSubmit auth_server true 3 0%Z (fun _ => "") "a@x.io" "Secret1!" false wm_typed = (Some tt, w') /\
    isLoading (loader (app w')) = false /\ sent w' = sent wm_typed ++ [login_cfg submitted] /\
    store (app w') = login (login_payload (get login_body "data") (get (get login_body "data") "user"))
                       (store (app wm_typed)) /\
    isAuthenticated (store (app w')) = true /\
    toasts (app w') = toasts (app wm_typed) ++ [ToastSuccess (JStr "Login successful!")] /\
    pushed (app w') = pushed (app wm_typed) ++ ["/dashboard"] /\
    storage (app w') = delete "failed_login_attempts" (storage (app wm_typed)) /\
    failedAttempts (form (app w')) = 0 /\ localError (form (app w')) = None) /\
  (exists w', handleSubmit nouser_server true 3 0%Z (fun _ => "") "a@x.io" "Secret1!" false wm_typed = (Some tt, w') /\
    isLoading (loader (app w')) = false /\ sent w' = sent wm_typed ++ [login_cfg submitted] /\
    store (app w') = store (app wm_typed) /\ pushed (app w') = pushed (app wm_typed) /\
    toasts (app w') = toasts (app wm_typed) ++
      [ToastError (JStr "Cannot read properties of undefined (reading '_id')")] /\
    localError (form (app w')) = Some (JStr "Cannot read properties of undefined (reading '_id')") /\
    storage (app w') = storage (app wm_typed) /\
    failedAttempts (form (app w')) = failedAttempts (form (app wm_typed))).
Proof.
  split.
  - apply (login_submit_success auth_server true 3 0%Z (fun _ => "") 2 "a@x.io" "Secret1!" false wm_typed 1 200
             login_body); (reflexivity || discriminate).
  - apply (login_submit_success nouser_server true 3 0%Z (fun _ => "") 2 "a@x.io" "Secret1!" false wm_typed 1 200
             (JObj [("success", JBool true); ("data", JObj [("accessToken", JStr "t1")])]));
      (reflexivity || discriminate).
Defined.

(** The logout endpoint of [auth_server] refuses with a falsy [success]. *)
Lemma logout_failure_keeps_session_witness :
  let w := snd (loginFn auth_server true 3 good_values wm0) in
  exists w', useLogout_mutate auth_server true 3 w = (Some tt, w') /\
    store (app w') = store (app w) /\ pushed (app w') = pushed (app w) /\
    isLoading (loader (app w')) = false /\ sent w' = sent w ++ [logout_cfg] /\
    toasts (app w') = toasts (app w) ++ [ToastError (JStr "Logout failed")].
Proof.
  cbv zeta.
  apply (logout_failure_keeps_session auth_server true 3 2 _ 2 (Reply 200 (JObj [("success", JBool false)])));
    [reflexivity|vm_compute; reflexivity|reflexivity|right; split; reflexivity].
Defined.

End MutationWitnesses.
