(* ===== verification/AuthFlows.v ===== *)
(** * The other mutations and the profile query

    [useSignupMutation], [useForgotPasswordMutation],
    [useResetPasswordMutation] and [useVerifyEmailMutation] of
    [src/src/lib/api/mutations/auth.ts]; [useUpdateProfileMutation] and
    [useChangePasswordMutation] of [src/src/lib/api/mutations/user.ts];
    the query function of [useProfileQuery]
    ([src/src/lib/api/queries/user.ts]) with its [retry: 1].

    The four auth mutations share one shape, [envelope_fn]: bracket the
    service call with the loader, resolve with the envelope when
    [res?.success] is truthy and throw [new Error(f(res.message))]
    otherwise.  The user mutations resolve with the envelope whatever
    its [success] says.  Their callbacks show toasts, the profile update
    also invalidates the [['profile']] query; an [onSuccess] that reads
    [data.message] without [?.] throws on a [null] or [undefined] body
    ([with_prop]), which react-query hands to [onError].  Each hook is the record
    of options it passes to [useMutation] ([MutationOptions]), the login
    and logout hooks of [Mutations] included; [mutate] runs one. *)

From S2P Require Import Prelude JsValue HttpClient AuthStore Mutations.
Import Http LoaderStore Mutations.

Module AuthFlows.
Local Open Scope list_scope.

Section Flows.
Context {Srv : Type}.
Variable serve : Srv -> Config -> Srv * Answer.
Variable in_browser : bool.
Variable fuel : nat.

Abbreviation W := (World Srv App).

Definition svc_call {A} (t : Async A) : prog W A := call serve in_browser fuel t.

(** [showLoader(msg); try { const res = await svc; if (res?.success)
    return res; throw new Error(f(res.message)); } finally { hideLoader(); }] *)
Definition envelope_fn (msg : string) (svc : Async (jsval + ApiError)) (f : jsval -> jsval)
    : prog W (jsval + jsval) :=
  with_loader msg
    (let! res := svc_call svc in
     pret (match res with
           | inl r => if truthy (get r "success") then inl r else inr (thrown_by r f)
           | inr e => inr (api_error_obj e)
           end)).

(** [showLoader(msg); try { return await svc; } finally { hideLoader(); }] *)
Definition plain_fn (msg : string) (svc : Async (jsval + ApiError)) : prog W (jsval + jsval) :=
  with_loader msg
    (let! res := svc_call svc in
     pret (match res with inl r => inl r | inr e => inr (api_error_obj e) end)).

Definition toast_success (m : jsval) : prog W unit := modify_app (add_toast (ToastSuccess m)).
Definition toast_error (m : jsval) : prog W unit := modify_app (add_toast (ToastError m)).

(** ** [useSignupMutation] *)

Definition signup_payload (values : jsval) : jsval :=
  JObj [("name", get values "name"); ("email", get values "email");
        ("password", get values "password"); ("companyName", get values "companyName")].

Definition signupFn (values : jsval) : prog W (jsval + jsval) :=
  envelope_fn "Signing up..." (AuthService.signUp (signup_payload values)) id.

Definition signupOnSuccess (data : jsval) : prog W (unit + jsval) := with_prop data "message" toast_success.

Definition signupOnError (error : jsval) : prog W unit :=
  toast_error (js_or (get error "message") (JStr "Signup failed. Please try again.")).

(** ** [useForgotPasswordMutation] *)

Definition forgotPasswordFn (values : jsval) : prog W (jsval + jsval) :=
  envelope_fn "Sending Email..." (AuthService.forgotPassword (JObj [("email", get values "email")])) id.

Definition forgotPasswordOnSuccess (data : jsval) : prog W (unit + jsval) :=
  with_prop data "message" toast_success.

Definition forgotPasswordOnError (error : jsval) : prog W unit :=
  toast_error (js_or (get error "message") (JStr "Failed. Please try again.")).

(** ** [useResetPasswordMutation] *)

Definition reset_payload (values : jsval) : jsval :=
  JObj [("token", get values "token"); ("newPassword", get values "newPassword")].

Definition resetPasswordFn (values : jsval) : prog W (jsval + jsval) :=
  envelope_fn "Resetting..." (AuthService.resetPassword (reset_payload values)) id.

Definition resetPasswordOnSuccess (data : jsval) : prog W (unit + jsval) :=
  with_prop data "message" toast_success.

Definition resetPasswordOnError (error : jsval) : prog W unit :=
  toast_error (js_or (get error "message") (JStr "Failed. Please try again.")).

(** ** [useVerifyEmailMutation] *)

Definition verifyEmailFn (token : jsval) : prog W (jsval + jsval) :=
  envelope_fn "Verifying email..." (AuthService.verifyEmail (JObj [("token", token)]))
    (fun m => js_or m (JStr "Email verification failed")).

Definition verifyEmailOnSuccess (data : jsval) : prog W (unit + jsval) :=
  with_prop data "message" (fun m => toast_success (js_or m (JStr "Email verified successfully"))).

Definition verifyEmailOnError (error : jsval) : prog W unit :=
  toast_error (js_or (get error "message") (JStr "Verification failed. Please try again.")).

(** ** [useUpdateProfileMutation] and [useChangePasswordMutation] *)

Definition updateProfileFn (data : jsval) : prog W (jsval + jsval) :=
  plain_fn "Updating your profile..." (UserService.updateProfile data).

Definition updateProfileOnSuccess (data : jsval) : prog W (unit + jsval) :=
  with_prop data "message" (fun m =>
    let! _ := modify_app (add_toast (ToastUI "Success"
                (js_or m (JStr "Profile updated successfully.")) false)) in
    modify_app (invalidate ["profile"])).

Definition updateProfileOnError (error : jsval) : prog W unit :=
  modify_app (add_toast (ToastUI "Error"
    (js_or (get error "message") (JStr "Failed to update profile. Please try again.")) true)).

Definition changePasswordFn (data : jsval) : prog W (jsval + jsval) :=
  plain_fn "Updating your password..." (UserService.changePassword data).

Definition changePasswordOnSuccess (data : jsval) : prog W (unit + jsval) :=
  returning (modify_app (add_toast (ToastUI "Success"
    (js_or (get data "message") (JStr "Password changed successfully.")) false))).

Definition changePasswordOnError (error : jsval) : prog W unit :=
  modify_app (add_toast (ToastUI "Error"
    (js_or (get error "message") (JStr "Failed to change password. Please try again.")) true)).

(** ** [useProfileQuery] *)

Definition profileQueryFn : prog W (jsval + jsval) :=
  plain_fn "Loading your profile..." UserService.me.

(** [retry: 1]: a failed fetch is tried once more. *)
Definition profileQuery : prog W (jsval + jsval) :=
  let! r := profileQueryFn in
  match r with
  | inl d => pret (inl d)
  | inr _ => profileQueryFn
  end.

(** ** The hooks *)

(** The options a hook passes to [useMutation]; [mutate] gives
    [mutationFn] its one argument ([undefined] when it is called without
    one). *)
Record MutationOptions := {
  mutationKey : option (list string);
  mutationFn : jsval -> prog W (jsval + jsval);
  onSuccess : jsval -> prog W (unit + jsval);
  onError : jsval -> prog W unit
}.

Definition useLoginMutation : MutationOptions :=
  {| mutationKey := None; mutationFn := loginFn serve in_browser fuel;
     onSuccess := loginOnSuccess; onError := loginOnError |}.

Definition useSignupMutation : MutationOptions :=
  {| mutationKey := None; mutationFn := signupFn; onSuccess := signupOnSuccess; onError := signupOnError |}.

Definition useForgotPasswordMutation : MutationOptions :=
  {| mutationKey := None; mutationFn := forgotPasswordFn;
     onSuccess := forgotPasswordOnSuccess; onError := forgotPasswordOnError |}.

Definition useResetPasswordMutation : MutationOptions :=
  {| mutationKey := None; mutationFn := resetPasswordFn;
     onSuccess := resetPasswordOnSuccess; onError := resetPasswordOnError |}.

Definition useLogout : MutationOptions :=
  {| mutationKey := Some ["logout"]; mutationFn := fun _ => logoutFn serve in_browser fuel;
     onSuccess := logoutOnSuccess; onError := logoutOnError |}.

Definition useVerifyEmailMutation : MutationOptions :=
  {| mutationKey := Some ["verifyEmail"]; mutationFn := verifyEmailFn;
     onSuccess := verifyEmailOnSuccess; onError := verifyEmailOnError |}.

Definition useUpdateProfileMutation : MutationOptions :=
  {| mutationKey := None; mutationFn := updateProfileFn;
     onSuccess := updateProfileOnSuccess; onError := updateProfileOnError |}.

Definition useChangePasswordMutation : MutationOptions :=
  {| mutationKey := None; mutationFn := changePasswordFn;
     onSuccess := changePasswordOnSuccess; onError := changePasswordOnError |}.

(** [const { mutate } = useX(); mutate(v, { onSuccess, onError })]: the
    hook's callbacks, then the call's. *)
Definition mutate (h : MutationOptions) (v : jsval) (callSuccess callError : jsval -> prog W unit)
    : prog W unit :=
  run_mutation (mutationFn h v) (onSuccess h) (onError h) callSuccess callError.

(** ** Lemmas *)

Lemma svc_app {A} (t : Async A) w : app (snd (svc_call t w)) = app w.
Proof. apply call_app. Qed.

(** A service call answered with a 2xx resolves with the body. *)
Lemma svc_ok n m u b0 w s' st b :
  fuel = S n ->
  serve (server w) {| method := m; url := u; body := b0; _retry := false |} = (s', Reply st b) ->
  validateStatus st = true ->
  svc_call (Axios {| method := m; url := u; body := b0; _retry := false |}
                  (fun r => Done (response_data r))) w =
    (Some (inl b), after_send w {| method := m; url := u; body := b0; _retry := false |} s').
Proof.
  intros Hf Hs Hv. unfold svc_call, call. rewrite Hf.
  rewrite (interp_axios_plain serve in_browser n _ _ w _ _ Hs) by (by apply ok_not_token).
  unfold plain_outcome, settle. rewrite Hv. apply interp_done.
Qed.

(** An envelope function whose call is answered with a 2xx and a truthy
    [success] resolves with the body, the loader shown and hidden again. *)
Lemma envelope_fn_ok n msg m u b0 f w s' st b :
  fuel = S n ->
  serve (server w) {| method := m; url := u; body := b0; _retry := false |} = (s', Reply st b) ->
  validateStatus st = true -> truthy (get b "success") = true ->
  envelope_fn msg (Axios {| method := m; url := u; body := b0; _retry := false |}
                     (fun r => Done (response_data r))) f w =
    (Some (inl b),
     snd (modify_app (with_loader_state hideLoader)
       (after_send (snd (modify_app (with_loader_state (showLoader (Some msg))) w))
          {| method := m; url := u; body := b0; _retry := false |} s'))).
Proof.
  intros Hf Hs Hv Hsu. unfold envelope_fn, with_loader.
  unfold pbind at 1. cbn [fst snd modify_app]. unfold pbind at 1 2.
  rewrite (svc_ok n m u b0
    {| server := server w; sent := sent w; href := href w;
       app := with_loader_state (showLoader (Some msg)) (app w) |} s' st b Hf Hs Hv).
  cbn. by rewrite Hsu.
Qed.

(** An envelope function whose call is refused with an error status,
    outside the refresh path, rejects with the normalised [ApiError]. *)
Lemma envelope_fn_rejected n msg cfg f w s' st b :
  fuel = S n -> serve (server w) cfg = (s', Reply st b) -> validateStatus st = false ->
  token_reply (Reply st b) && in_browser = false ->
  envelope_fn msg (Axios cfg (fun r => Done (response_data r))) f w =
    (Some (inr (api_error_obj {| message := js_or (get b "message") (JStr "Something went wrong");
                                 ae_status := if Z.eqb st 0 then 500 else st;
                                 cause := js_or b (JObj []) |})),
     snd (modify_app (with_loader_state hideLoader)
       (after_send (snd (modify_app (with_loader_state (showLoader (Some msg))) w)) cfg s'))).
Proof.
  intros Hf Hs Hv Hc. unfold envelope_fn, with_loader.
  unfold pbind at 1. cbn [fst snd modify_app]. unfold pbind at 1 2.
  unfold svc_call, call. rewrite Hf.
  rewrite (interp_axios_plain serve in_browser n _ _
    {| server := server w; sent := sent w; href := href w;
       app := with_loader_state (showLoader (Some msg)) (app w) |} _ _ Hs Hc).
  unfold plain_outcome, settle. rewrite Hv, interp_done. reflexivity.
Qed.

Lemma envelope_fn_some msg svc f w r w' :
  envelope_fn msg svc f w = (Some r, w') ->
  app w' = with_loader_state hideLoader (with_loader_state (showLoader (Some msg)) (app w)) /\
  (forall e, r = inr e -> get e "code" = JUndef /\ get e "errorCode" = JUndef).
Proof.
  unfold envelope_fn. intros (w2 & H & ->)%with_loader_some.
  pbind_inv H. pose proof (svc_app svc
    (snd (modify_app (with_loader_state (showLoader (Some msg))) w))) as Happ.
  rewrite E in Happ. simpl in Happ. injection H as <- <-.
  split; [simpl; by rewrite Happ|].
  intros e He. destruct a as [res|err].
  - destruct (truthy (get res "success")); [done|]. injection He as <-. apply thrown_by_nocode.
  - by injection He as <-.
Qed.

Lemma plain_fn_some msg svc w r w' :
  plain_fn msg svc w = (Some r, w') ->
  app w' = with_loader_state hideLoader (with_loader_state (showLoader (Some msg)) (app w)).
Proof.
  unfold plain_fn. intros (w2 & H & ->)%with_loader_some.
  pbind_inv H. pose proof (svc_app svc
    (snd (modify_app (with_loader_state (showLoader (Some msg))) w))) as Happ.
  rewrite E in Happ. simpl in Happ. injection H as <- <-. simpl. by rewrite Happ.
Qed.

(** The requests an envelope function sends are those of its call. *)
Lemma envelope_fn_sent msg svc f w :
  sent (snd (envelope_fn msg svc f w)) =
  sent (snd (svc_call svc (snd (modify_app (with_loader_state (showLoader (Some msg))) w)))).
Proof.
  unfold envelope_fn, with_loader, pbind, modify_app. simpl.
  destruct (svc_call svc _) as [[r|] w1]; reflexivity.
Qed.

(** With fuel, the first request an envelope function sends is its own. *)
Lemma envelope_fn_first n msg cfg k f w :
  fuel = S n ->
  exists rest, sent (snd (envelope_fn msg (Axios cfg k) f w)) = sent w ++ cfg :: rest.
Proof.
  intros Hf. rewrite envelope_fn_sent. unfold svc_call, call. rewrite Hf.
  destruct (interp_axios_sent serve in_browser n cfg k
    (snd (modify_app (with_loader_state (showLoader (Some msg))) w))) as [r H].
  by exists r.
Qed.

Lemma plain_fn_sent msg svc w :
  sent (snd (plain_fn msg svc w)) =
  sent (snd (svc_call svc (snd (modify_app (with_loader_state (showLoader (Some msg))) w)))).
Proof.
  unfold plain_fn, with_loader, pbind, modify_app. simpl.
  destruct (svc_call svc _) as [[r|] w1]; reflexivity.
Qed.

Lemma plain_fn_first n msg cfg k w :
  fuel = S n -> exists rest, sent (snd (plain_fn msg (Axios cfg k) w)) = sent w ++ cfg :: rest.
Proof.
  intros Hf. rewrite plain_fn_sent. unfold svc_call, call. rewrite Hf.
  destruct (interp_axios_sent serve in_browser n cfg k
    (snd (modify_app (with_loader_state (showLoader (Some msg))) w))) as [r H].
  by exists r.
Qed.

(** What a mutation function leaves of the application when it settles. *)
Definition bracketed (w w' : W) : Prop :=
  isLoading (loader (app w')) = false /\ store (app w') = store (app w) /\
  toasts (app w') = toasts (app w) /\ form (app w') = form (app w) /\
  pushed (app w') = pushed (app w).

Lemma envelope_bracketed msg svc f w r w' :
  envelope_fn msg svc f w = (Some r, w') -> bracketed w w'.
Proof. intros [Happ _]%envelope_fn_some. unfold bracketed. by rewrite Happ. Qed.

Lemma plain_bracketed msg svc w r w' :
  plain_fn msg svc w = (Some r, w') -> bracketed w w'.
Proof. intros Happ%plain_fn_some. unfold bracketed. by rewrite Happ. Qed.

(** The shape of [loginFn] and [logoutFn]: one call between the loader's
    show and hide, its outcome mapped. *)
Lemma call_bracketed {A B} msg (t : Async A) (g : A -> B) w r w' :
  with_loader msg (let! res := svc_call t in pret (g res)) w = (Some r, w') -> bracketed w w'.
Proof.
  intros (w2 & H & ->)%with_loader_some. pbind_inv H.
  pose proof (svc_app t (snd (modify_app (with_loader_state (showLoader (Some msg))) w))) as Happ.
  rewrite E in Happ. injection H as _ <-. unfold bracketed. simpl in *. by rewrite Happ.
Qed.

Lemma loginFn_bracketed values w r w' :
  loginFn serve in_browser fuel values w = (Some r, w') -> bracketed w w'.
Proof. apply call_bracketed. Qed.

Lemma logoutFn_bracketed w r w' : logoutFn serve in_browser fuel w = (Some r, w') -> bracketed w w'.
Proof. apply call_bracketed. Qed.

#[local] Hint Resolve envelope_bracketed plain_bracketed loginFn_bracketed logoutFn_bracketed : web.

(** C26: the function of every mutation hook, on any argument, and the
    profile query hide the loader when they settle, resolved or
    rejected, and change nothing else of the application: no toast, no
    store update, no change of the login form, no navigation; what the
    user sees comes from the hooks' callbacks only. *)
Theorem mutation_fns_hide_loader v fn w r w' :
  In fn (profileQueryFn :: map (fun h => mutationFn h v)
           [useLoginMutation; useLogout; useSignupMutation; useForgotPasswordMutation;
            useResetPasswordMutation; useVerifyEmailMutation; useUpdateProfileMutation;
            useChangePasswordMutation]) ->
  fn w = (Some r, w') -> bracketed w w'.
Proof.
  intros Hin H. cbn [map In] in Hin.
  repeat destruct Hin as [<-|Hin]; try done;
    cbn [mutationFn useLoginMutation useLogout useSignupMutation useForgotPasswordMutation
         useResetPasswordMutation useVerifyEmailMutation useUpdateProfileMutation
         useChangePasswordMutation] in H; eauto with web.
Qed.

Definition profile_cfg (data : jsval) : Config :=
  {| method := PUT; url := "/api/v1/user/profile"; body := data; _retry := false |}.

(** A plain function whose call is answered with a 2xx resolves with
    the body, the loader shown and hidden again. *)
Lemma plain_fn_ok n msg cfg w s' st b :
  fuel = S n -> serve (server w) cfg = (s', Reply st b) -> validateStatus st = true ->
  plain_fn msg (Axios cfg (fun r => Done (response_data r))) w =
    (Some (inl b),
     snd (modify_app (with_loader_state hideLoader)
       (after_send (snd (modify_app (with_loader_state (showLoader (Some msg))) w)) cfg s'))).
Proof.
  intros Hf Hs Hv. destruct cfg as [m u b0 r]. unfold plain_fn, with_loader.
  unfold pbind at 1. cbn [fst snd modify_app]. unfold pbind at 1 2.
  unfold svc_call, call. rewrite Hf.
  rewrite (interp_axios_plain serve in_browser n _ _
    {| server := server w; sent := sent w; href := href w;
       app := with_loader_state (showLoader (Some msg)) (app w) |} _ _ Hs)
    by (by apply ok_not_token).
  unfold plain_outcome, settle. rewrite Hv, interp_done. reflexivity.
Qed.

(** C27: a profile update answered with a 2xx hides the loader, sends
    one request and leaves the session as it was.  When the body is an
    envelope (not [null] or [undefined]) a toast titled "Success" shows
    its message, whatever its [success] field says, and the [['profile']]
    query is invalidated.  For a [null] body, [data.message] throws in
    [onSuccess]: the toast is the "Error" one with the [TypeError]'s
    message and nothing is invalidated. *)
Theorem updateProfile_success n data w s' st b :
  fuel = S n ->
  serve (server w) (profile_cfg data) = (s', Reply st b) -> validateStatus st = true ->
  exists w', run_mutation (updateProfileFn data) updateProfileOnSuccess updateProfileOnError
               noop noop w = (Some tt, w') /\
    isLoading (loader (app w')) = false /\ store (app w') = store (app w) /\
    sent w' = sent w ++ [profile_cfg data] /\
    if nullish b then
      toasts (app w') = toasts (app w) ++ [ToastUI "Error" (get (type_error "message" b) "message") true] /\
      invalidated (app w') = invalidated (app w)
    else
      toasts (app w') = toasts (app w) ++
        [ToastUI "Success" (js_or (get b "message") (JStr "Profile updated successfully.")) false] /\
      invalidated (app w') = invalidated (app w) ++ [["profile"]].
Proof.
  intros Hf Hs Hv. unfold run_mutation, execute, updateProfileFn, UserService.updateProfile, put.
  rewrite !pbind_assoc, (pbind_some _ _ _ _ _ (plain_fn_ok n _ _ w s' st b Hf Hs Hv)). cbv beta.
  unfold updateProfileOnSuccess, with_prop, dot.
  destruct (nullish b) eqn:Hb; eexists; (split; [reflexivity|]); cbn; rewrite ?Hb; repeat split.
Qed.

End Flows.

End AuthFlows.

(** ** Concrete calls *)

Module AuthFlowsWitnesses.
Import LoaderStore Mutations MutationWitnesses AuthFlows.
Local Open Scope list_scope.

Definition ok_envelope : jsval := JObj [("success", JBool true); ("message", JStr "Saved")].

(** Answers every request with a 200 and [ok_envelope]. *)
Definition ok_server (s : nat) (_ : Config) : nat * Answer := (S s, Reply 200 ok_envelope).

Definition signup_values : jsval :=
  JObj [("name", JStr "Ann"); ("email", JStr "a@x.io"); ("password", JStr "Secret1!");
        ("companyName", JStr "Acme")].

Lemma mutation_fns_hide_loader_witness :
  bracketed wm0 (snd (signupFn ok_server true 3 signup_values wm0)).
Proof.
  apply (mutation_fns_hide_loader ok_server true 3 signup_values
           (signupFn ok_server true 3 signup_values) wm0 (inl ok_envelope));
    [right; right; right; left; reflexivity | vm_compute; reflexivity].
Defined.

(** Answers every request with a 200 and an empty body. *)
Definition null_server (s : nat) (_ : Config) : nat * Answer := (S s, Reply 200 JNull).

Lemma updateProfile_success_witness :
  let d := JObj [("name", JStr "Bo")] in
  (exists w', run_mutation (updateProfileFn ok_server true 3 d)
               updateProfileOnSuccess updateProfileOnError noop noop wm0 = (Some tt, w') /\
    isLoading (loader (app w')) = false /\ store (app w') = store (app wm0) /\
    sent w' = sent wm0 ++ [profile_cfg d] /\
    toasts (app w') = toasts (app wm0) ++ [ToastUI "Success" (JStr "Saved") false] /\
    invalidated (app w') = invalidated (app wm0) ++ [["profile"]]) /\
  (exists w', run_mutation (updateProfileFn null_server true 3 d)
               updateProfileOnSuccess updateProfileOnError noop noop wm0 = (Some tt, w') /\
    isLoading (loader (app w')) = false /\ store (app w') = store (app wm0) /\
    sent w' = sent wm0 ++ [profile_cfg d] /\
    toasts (app w') = toasts (app wm0) ++
      [ToastUI "Error" (JStr "Cannot read properties of null (reading 'message')") true] /\
    invalidated (app w') = invalidated (app wm0)).
Proof.
  cbv zeta. split.
  - apply (updateProfile_success ok_server true 3 2 _ _ 1 200 ok_envelope); reflexivity.
  - apply (updateProfile_success null_server true 3 2 _ _ 1 200 JNull); reflexivity.
Defined.

End AuthFlowsWitnesses.
