(* ===== verification/Profile.v ===== *)
(** * The profile page

    [src/src/app/(root)/profile/page.tsx]: the page reads [state.user]
    from the session store and renders [Profile {JSON.stringify(user)}]
    and two links.  Its view is the text the page shows and the links'
    targets.  After a login the stored user holds the access and refresh
    tokens of the login response ([Mutations.login_user]), so the page
    shows both tokens in its text. *)

From S2P Require Import Prelude JsValue Json HttpClient AuthStore Mutations.
Import Http AuthStore Mutations.

Module ProfilePage.
Local Open Scope list_scope.

(** What [ProfilePage] renders: its text and the targets of its links. *)
Record ProfileView := {
  pv_text : string;
  pv_links : list string
}.

(** [Profile {JSON.stringify(user)}], then the links [ dashboard] and
    [ home]; React renders nothing for an [undefined] child. *)
Definition view (s : AuthState) : ProfileView :=
  {| pv_text := "Profile " +:+ default "" (Json.stringify (user_val s)) +:+ " dashboard" +:+ " home";
     pv_links := ["/dashboard/admin"; "/"] |}.

(** ** Lemmas *)

Lemma infix_view s m t :
  Json.stringify (user_val s) = Some t -> Json.infix m t -> Json.infix m (pv_text (view s)).
Proof.
  intros Ht (pre & post & Heq). unfold view. cbn [pv_text]. rewrite Ht. cbn [default from_option id].
  exists ("Profile " +:+ pre), (post +:+ " dashboard" +:+ " home").
  rewrite Heq, !Json.append_assoc_str. reflexivity.
Qed.

(** The page shows ["key":text] for a property of the stored user. *)
Lemma view_shows_property s ps k x t :
  user s = Some ps -> In (k, x) ps -> Json.stringify x = Some t ->
  Json.infix (Json.quote k +:+ ":" +:+ t) (pv_text (view s)).
Proof.
  intros Hu Hin Ht. destruct (Json.stringify_member ps k x t Hin Ht) as (o & Ho & Hinf).
  apply (infix_view s _ o); [|done]. unfold user_val. by rewrite Hu.
Qed.

(** C18: the profile page shows the session's tokens.  Once the login
    mutation's [onSuccess] has stored the user of a login response
    whose [accessToken] and [refreshToken] are strings, the text of the
    profile page contains ["accessToken":"<token>"] and
    ["refreshToken":"<token>"]: both credentials are in the page. *)
Theorem profile_shows_tokens {Srv} (data : jsval) tok rtok (w w' : World Srv App) :
  get data "accessToken" = JStr tok -> get data "refreshToken" = JStr rtok ->
  loginOnSuccess data w = (Some (inl tt), w') ->
  Json.infix (Json.quote "accessToken" +:+ ":" +:+ Json.quote tok) (pv_text (view (store (app w')))) /\
  Json.infix (Json.quote "refreshToken" +:+ ":" +:+ Json.quote rtok) (pv_text (view (store (app w')))).
Proof.
  intros Ha Hr Hrun. unfold loginOnSuccess, login_user, dot in Hrun.
  destruct (nullish data), (nullish (get data "user")); try discriminate.
  cbn in Hrun. injection Hrun as <-.
  split; eapply view_shows_property; try reflexivity; cbn [login_payload In]; rewrite ?Ha, ?Hr; tauto.
Qed.

End ProfilePage.

Module ProfileWitnesses.
Import ProfilePage.

(** The login response of the test server: tokens [t1] and [r1]. *)
Lemma profile_shows_tokens_witness :
  let data := get MutationWitnesses.login_body "data" in
  let w' := (loginOnSuccess data MutationWitnesses.wm0).2 in
  get data "accessToken" = JStr "t1" /\ get data "refreshToken" = JStr "r1" /\
  loginOnSuccess data MutationWitnesses.wm0 = (Some (inl tt), w') /\
  Json.infix (Json.quote "accessToken" +:+ ":" +:+ Json.quote "t1") (pv_text (view (store (app w')))) /\
  Json.infix (Json.quote "refreshToken" +:+ ":" +:+ Json.quote "r1") (pv_text (view (store (app w')))).
Proof.
  cbv zeta. split; [reflexivity|]. split; [reflexivity|]. split; [reflexivity|].
  apply (profile_shows_tokens (get MutationWitnesses.login_body "data") "t1" "r1" MutationWitnesses.wm0); reflexivity.
Defined.

End ProfileWitnesses.
