(* ===== verification/UiKit.v ===== *)
(** * The UI kit and the browser helpers

    [src/src/lib/index.ts]: [cn], which is [clsx] on its arguments, and
    [removeAllCookies] over the [js-cookie] API.  Module [Button] is
    [src/src/components/ui/Button.tsx], Module [Typography]
    [src/src/components/ui/Typography.tsx] (its classes and what it
    renders), Module [Loader]
    [src/src/components/shared/Loader.tsx] (the overlay that shows the
    loader store).  A rendered element is described by the attributes
    the code computes: its class list, its [disabled] flag, what it
    shows.

    [clsx] keeps the strings that are not empty and the keys of an
    object whose value is true, in order, through nested arrays, joined
    by single spaces.  A cookie of the jar is its name, value and path,
    and whether it is [HttpOnly] (then [js-cookie] does not see it). *)

From S2P Require Import Prelude HttpClient Mutations.

Module Clsx.
Local Open Scope list_scope.

(** The arguments [clsx] takes: strings, objects of flags, arrays. *)
Inductive ClassValue :=
| CStr (s : string)
| CMap (m : list (string * bool))
| CArr (l : list ClassValue).

Fixpoint class_names (v : ClassValue) : list string :=
  match v with
  | CStr s => if String.eqb s "" then [] else [s]
  | CMap m => map fst (List.filter (fun kv : string * bool => kv.2) m)
  | CArr l => (fix go (l : list ClassValue) : list string :=
                 match l with [] => [] | x :: l' => class_names x ++ go l' end) l
  end.

Definition clsx (args : list ClassValue) : string := String.concat " " (class_names (CArr args)).

(** [export const cn = (...classes: any[]) => clsx(classes)] *)
Definition cn (classes : list ClassValue) : string := clsx [CArr classes].

End Clsx.

Module Button.
Import Clsx.
Local Open Scope list_scope.

Inductive ButtonVariant := Primary | Secondary | Danger | Outline | Transparent.
Inductive ButtonSize := Sm | Md | Lg.

#[export] Instance ButtonVariant_eq_dec : EqDecision ButtonVariant.
Proof. solve_decision. Defined.
#[export] Instance ButtonSize_eq_dec : EqDecision ButtonSize.
Proof. solve_decision. Defined.

(** [ButtonProps]; an omitted prop is [None] and takes its default. *)
Record ButtonProps := {
  variant : option ButtonVariant;
  size : option ButtonSize;
  isLoading : option bool;
  disabled : option bool;
  className : option string;
  type : option string
}.

(** What [<button>] gets: [disabled], [className], the spinner shown
    before the children, and the [type] ([submit] when the props do not
    set it, as for any HTML button). *)
Record ButtonView := {
  b_disabled : bool;
  b_class : string;
  b_spinner : bool;
  b_type : string
}.

Definition buttonClasses (variant : ButtonVariant) (size : ButtonSize) (disabled isLoading : bool)
    (className : string) : string :=
  cn [CStr "rounded-[8px] font-medium transition-colors focus:ring-2 focus:ring-offset-2";
      CMap [("bg-[#5A49F8] text-primary hover:bg-[#4A3FCF] focus:ring-[#5A49F8] dark:bg-[#6B5BFF] dark:hover:bg-[#5A49F8] dark:focus:ring-[#6B5BFF]",
               bool_decide (variant = Primary));
            ("bg-gray-500 text-white hover:bg-gray-600 focus:ring-gray-500 dark:bg-gray-600 dark:hover:bg-gray-700 dark:focus:ring-gray-600",
               bool_decide (variant = Secondary));
            ("bg-red-500 text-white hover:bg-red-600 focus:ring-red-500 dark:bg-red-600 dark:hover:bg-red-700 dark:focus:ring-red-600",
               bool_decide (variant = Danger));
            ("border border-gray-300 text-gray-700 hover:bg-gray-50 focus:ring-gray-500 dark:border-gray-600 dark:text-gray-300 dark:hover:bg-gray-800 dark:focus:ring-gray-600",
               bool_decide (variant = Outline));
            ("bg-transparent text-gray-700 hover:bg-gray-100 dark:text-gray-300 dark:hover:bg-gray-800",
               bool_decide (variant = Transparent));
            ("px-2 py-1 text-sm", bool_decide (size = Sm));
            ("px-4 py-2 text-base", bool_decide (size = Md));
            ("px-6 py-3 text-lg", bool_decide (size = Lg));
            ("opacity-50 cursor-not-allowed", disabled || isLoading)];
      CStr className].

Definition render (p : ButtonProps) : ButtonView :=
  let variant := default Primary (variant p) in
  let size := default Md (size p) in
  let isLoading := default false (isLoading p) in
  let disabled := default false (disabled p) in
  let className := default "" (className p) in
  {| b_disabled := disabled || isLoading;
     b_class := buttonClasses variant size disabled isLoading className;
     b_spinner := isLoading;
     b_type := default "submit" (type p) |}.

End Button.

Module Typography.
Import Clsx.
Local Open Scope list_scope.

(** [sizeClasses[size]]: [undefined] for a size not in the record. *)
Definition sizeClasses (size : Z) : option string :=
  if existsb (Z.eqb size) [12; 14; 16; 18; 20; 24; 26; 28; 30; 32; 36]%Z
  then Some ("text-[" +:+ pretty size +:+ "px]") else None.

Definition weightClasses (weight : string) : option string :=
  if String.eqb weight "normal" then Some "font-normal"
  else if String.eqb weight "medium" then Some "font-medium"
  else if String.eqb weight "semibold" then Some "font-semibold"
  else if String.eqb weight "bold" then Some "font-bold"
  else None.

(** The classes of the text element, with the defaults [size = 16],
    [weight = 'normal'], [color = 'text-blue']. *)
Definition text_classes (size : option Z) (weight color : option string) : string :=
  cn [CStr (default "" (sizeClasses (default 16%Z size)));
      CStr (default "" (weightClasses (default "normal" weight)));
      CStr (default "text-blue" color)].

(** The element: [as], [p] by default. *)
Definition tag (as_ : option string) : string := default "p" as_.

Definition wrapper_classes (className : option string) : string :=
  cn [CStr "flex items-center gap-2"; CStr (default "" className)].

(** [TypographyProps] without [children]; an icon is given when the prop
    is a truthy node. *)
Record TypographyProps := {
  as_ : option string;
  size : option Z;
  weight : option string;
  color : option string;
  className : option string;
  leftIcon : bool;
  rightIcon : bool
}.

(** What [Typography] renders: the wrapper's classes, the left icon's
    span, the element and its classes, the right icon's span. *)
Record TypographyView := {
  t_wrapper : string;
  t_left : bool;
  t_tag : string;
  t_class : string;
  t_right : bool
}.

Definition render (p : TypographyProps) : TypographyView :=
  {| t_wrapper := wrapper_classes (className p); t_left := leftIcon p; t_tag := tag (as_ p);
     t_class := text_classes (size p) (weight p) (color p); t_right := rightIcon p |}.

End Typography.

Module Loader.
Import LoaderStore.

(** [Loader]: nothing unless the store is loading; then the overlay
    with the message, if there is one. *)
Definition view (s : LoaderState) : option (option string) :=
  if isLoading s then Some (loader_message s) else None.

(** Once the login call settles, resolved or rejected, the overlay is
    gone. *)
Lemma loader_hidden_after_login {Srv} (serve : Srv -> Http.Config -> Srv * Http.Answer)
    in_browser fuel values w r w' :
  Mutations.loginFn serve in_browser fuel values w = (Some r, w') ->
  view (Mutations.loader (Http.app w')) = None.
Proof. intros [Happ _]%Mutations.loginFn_some. by rewrite Happ. Qed.

End Loader.

Module BrowserCookies.
Local Open Scope list_scope.

Record Cookie := { c_name : string; c_value : string; c_path : string; httpOnly : bool }.

(** [Cookies.get()] on a page at [location]: the names of the cookies a
    script sees there. *)
Definition visible (location : string) (c : Cookie) : bool :=
  negb (httpOnly c) && String.prefix (c_path c) location.

(** [Cookies.remove(name, { path: '/' })]: only the cookie of that name
    with path [/] goes. *)
Definition remove (name : string) (jar : list Cookie) : list Cookie :=
  List.filter (fun c => negb (String.eqb (c_name c) name && String.eqb (c_path c) "/")) jar.

(** [removeAllCookies()] *)
Definition removeAllCookies (location : string) (jar : list Cookie) : list Cookie :=
  fold_left (fun j n => remove n j) (map c_name (List.filter (visible location) jar)) jar.

(** ** Lemmas *)

Lemma remove_In n jar c :
  In c (remove n jar) <-> In c jar /\ ~ (c_name c = n /\ c_path c = "/").
Proof.
  unfold remove. rewrite filter_In, negb_true_iff, andb_false_iff, !String.eqb_neq.
  destruct (String.eqb_spec (c_name c) n), (String.eqb_spec (c_path c) "/"); tauto.
Qed.

Lemma fold_remove_In ns jar c :
  In c (fold_left (fun j n => remove n j) ns jar) <->
  In c jar /\ ~ (c_path c = "/" /\ In (c_name c) ns).
Proof.
  revert jar. induction ns as [|n ns IH]; intros jar; simpl; [tauto|].
  rewrite IH, remove_In. split.
  - intros [[Hin Hn] Hns]. split; [done|]. intros [Hp [Heq|Hq]].
    + apply Hn. by split.
    + apply Hns. by split.
  - intros [Hin Hn]. split; [split; [done|]|]; intros [H1 H2]; apply Hn.
    + split; [done|]. by left.
    + split; [done|]. by right.
Qed.

(** [removeAllCookies] keeps exactly the cookies that are not at path
    [/] under the name of a cookie the script sees: [HttpOnly] cookies
    and cookies of other paths stay. *)
Lemma removeAllCookies_spec loc jar c :
  In c (removeAllCookies loc jar) <->
  In c jar /\ ~ (c_path c = "/" /\ In (c_name c) (map c_name (List.filter (visible loc) jar))).
Proof. apply fold_remove_In. Qed.

End BrowserCookies.
