(* ===== verification/Screen.v ===== *)
(** * Screens: components with state of their own

    A screen's [useState] cells are a record [P] kept beside the
    application state, so its programs run in [World Srv (App * P)].
    [zoom] runs a program of the application (a mutation's [execute])
    there.  [mutate] is a screen's [mutate(values, {onSuccess,
    onError})]: the execution (the mutation function, then the hook's
    callbacks), then the call's callback, which sees the screen; the
    hook's [error] field is reset when the call starts and set when it
    fails.  [mutateAsync] is [await mutateAsync(values)]: the hook's
    callbacks run before the promise settles, and what the hook's
    [onSuccess] throws rejects it.

    What a screen renders is a [Panel]: its heading, its texts and
    alerts, the routes its links and buttons lead to, and whether its
    submit button, if it has one, is disabled. *)

From S2P Require Import Prelude JsValue HttpClient Mutations.
Import Http Mutations.

Module Screen.
Local Open Scope list_scope.

Record Panel := {
  heading : string;
  texts : list jsval;
  alerts : list jsval;
  links : list string;
  submit_disabled : option bool      (** [None]: no submit button *)
}.

(** The value of a [useState<T | null>] cell: [null] when empty. *)
Definition opt_val (o : option jsval) : jsval := match o with Some v => v | None => JNull end.

Section Zoom.
Context {Srv P : Type}.

Abbreviation SW := (World Srv (App * P)).

Definition unzoom (w : SW) : World Srv App :=
  {| server := server w; sent := sent w; href := href w; app := fst (app w) |}.

Definition rezoom (w : SW) (w1 : World Srv App) : SW :=
  {| server := server w1; sent := sent w1; href := href w1; app := (app w1, snd (app w)) |}.

Definition zoom {A} (m : prog (World Srv App) A) : prog SW A :=
  fun w => let '(r, w1) := m (unzoom w) in (r, rezoom w w1).

Definition page : prog SW P := fun w => (Some (snd (app w)), w).

Definition modify_page (f : P -> P) : prog SW unit :=
  fun w => (Some tt, {| server := server w; sent := sent w; href := href w;
                        app := (fst (app w), f (snd (app w))) |}).

(** [mutate(values, {onSuccess, onError})] of a screen: the hook's
    [error] is reset when the call starts; the execution runs in the
    application; when it rejects, the hook's [error] is set before the
    call's [onError] runs. *)
Definition mutate (set_error : option jsval -> P -> P) (fn : prog (World Srv App) (jsval + jsval))
    (hookOk : jsval -> prog (World Srv App) (unit + jsval)) (hookErr : jsval -> prog (World Srv App) unit)
    (callOk callErr : jsval -> prog SW unit) : prog SW unit :=
  let! _ := modify_page (set_error None) in
  let! r := zoom (execute fn hookOk hookErr) in
  match r with
  | inl d => callOk d
  | inr e => let! _ := modify_page (set_error (Some e)) in callErr e
  end.

(** [await mutateAsync(values)]: the execution's outcome. *)
Definition mutateAsync (fn : prog (World Srv App) (jsval + jsval))
    (hookOk : jsval -> prog (World Srv App) (unit + jsval)) (hookErr : jsval -> prog (World Srv App) unit)
    : prog SW (jsval + jsval) :=
  zoom (execute fn hookOk hookErr).

(** ** Lemmas *)

Lemma zoom_some {A} (m : prog (World Srv App) A) w r w' :
  zoom m w = (Some r, w') -> exists w1, m (unzoom w) = (Some r, w1) /\ w' = rezoom w w1.
Proof. unfold zoom. destruct (m (unzoom w)) as [r1 w1]. intros [= -> <-]. by exists w1. Qed.

Lemma zoom_page {A} (m : prog (World Srv App) A) w :
  snd (app (snd (zoom m w))) = snd (app w).
Proof. unfold zoom. by destruct (m (unzoom w)). Qed.

(** The screen state after a step, read off its equation. *)
Lemma page_of_eq {A} (m : prog SW A) w r w' : m w = (r, w') -> snd (app (snd (m w))) = snd (app w').
Proof. by intros ->. Qed.

Lemma zoom_sent {A} (m : prog (World Srv App) A) w :
  sent (snd (zoom m w)) = sent (snd (m (unzoom w))).
Proof. unfold zoom. by destruct (m (unzoom w)). Qed.

(** A step's effect on the request log, read off its equation. *)
Lemma sent_of_eq {A} (m : prog SW A) w r w' : m w = (r, w') -> sent (snd (m w)) = sent w'.
Proof. by intros ->. Qed.

(** A program whose first request is [c] keeps it first under [zoom]. *)
Lemma zoom_first {A} (m : prog (World Srv App) A) c w r w1 :
  (exists rest, sent (snd (m (unzoom w))) = sent w ++ c :: rest) ->
  zoom m w = (r, w1) -> exists rest, sent w1 = sent w ++ c :: rest.
Proof. intros [rest Hr] H%sent_of_eq. rewrite zoom_sent in H. rewrite <-H. by exists rest. Qed.

Lemma zoom_modify_app_sent f w r w1 : zoom (modify_app f) w = (r, w1) -> sent w1 = sent w.
Proof. by intros [= _ <-]. Qed.

Lemma page_modify f w : snd (app (snd (modify_page f w))) = f (snd (app w)).
Proof. done. Qed.

Lemma sent_modify_page f w : sent (snd (modify_page f w)) = sent w.
Proof. done. Qed.

Lemma mutateAsync_page fn hookOk hookErr w :
  snd (app (snd (mutateAsync fn hookOk hookErr w))) = snd (app w).
Proof. apply zoom_page. Qed.

(** A rejection of [mutateAsync] is a rejection of the execution. *)
Lemma mutateAsync_inr fn hookOk hookErr w e w' :
  mutateAsync fn hookOk hookErr w = (Some (inr e), w') ->
  exists w1, execute fn hookOk hookErr (unzoom w) = (Some (inr e), w1).
Proof. intros (w1 & H & _)%zoom_some. by exists w1. Qed.

(** The two ways a [mutate] call settles. *)
Lemma mutate_cases set_err fn hookOk hookErr callOk callErr w w' :
  mutate set_err fn hookOk hookErr callOk callErr w = (Some tt, w') ->
  (exists d w1, zoom (execute fn hookOk hookErr) (snd (modify_page (set_err None) w)) = (Some (inl d), w1) /\
     callOk d w1 = (Some tt, w')) \/
  (exists e w1, zoom (execute fn hookOk hookErr) (snd (modify_page (set_err None) w)) = (Some (inr e), w1) /\
     callErr e (snd (modify_page (set_err (Some e)) w1)) = (Some tt, w')).
Proof.
  unfold mutate. intros H. pbind_inv H. injection E as _ <-. pbind_inv H.
  match type of E with _ = (Some ?r, _) => destruct r as [d|e] end.
  - left. eauto.
  - right. pbind_inv H. injection E0 as _ <-. eauto.
Qed.

(** A [zoom]ed step leaves the screen state as it was. *)
Lemma zoom_page_eq {A} (m : prog (World Srv App) A) w r w1 :
  zoom m w = (r, w1) -> snd (app w1) = snd (app w).
Proof. intros H. rewrite <-(zoom_page m w), H. done. Qed.

(** An invariant of the screen state that [set_err] and the call's
    callbacks keep is kept by [mutate], whatever the outcome, the
    mutation running out of fuel included. *)
Lemma mutate_preserves (I : P -> Prop) set_err fn hookOk hookErr callOk callErr w r w' :
  (forall e p, I p -> I (set_err e p)) ->
  (forall d w1 r w2, I (snd (app w1)) -> callOk d w1 = (r, w2) -> I (snd (app w2))) ->
  (forall e w1 r w2, I (snd (app w1)) -> callErr e w1 = (r, w2) -> I (snd (app w2))) ->
  I (snd (app w)) -> mutate set_err fn hookOk hookErr callOk callErr w = (r, w') -> I (snd (app w')).
Proof.
  intros Hset Hok Herr Hw H. unfold mutate, pbind in H. cbn -[zoom] in H.
  set (w0 := {| server := _; sent := _; href := _; app := _ |}) in H.
  assert (H0 : I (snd (app w0))) by (apply Hset, Hw).
  destruct (zoom (execute fn hookOk hookErr) w0) as [[[d|e]|] w1] eqn:Hz; apply zoom_page_eq in Hz.
  - eapply Hok; [|exact H]. by rewrite Hz.
  - eapply Herr; [|exact H]. simpl. apply Hset. by rewrite Hz.
  - injection H as _ <-. by rewrite Hz.
Qed.

End Zoom.

End Screen.
