(* ===== verification/VerifyEmail.v ===== *)
(** * The e-mail verification screen

    [src/src/components/screens/auth/verify-email.tsx] and the route
    [src/src/app/(auth)/verify-email/page.tsx] that passes it
    [searchParams.token ?? ''].

    The screen's state is [status], [errorMsg] and the ref [hasRun].
    [verify_effect] is the first [useEffect]: it runs once thanks to
    [hasRun], fails at once without a token, and otherwise awaits
    [useVerifyEmailMutation]'s [mutateAsync] and sets the status; the
    [verifyToken] promise it starts is run to completion here.
    [redirect_timer] is the second effect, the [setTimeout] that sends a
    verified user to [/login]; [verify_view] is what the screen renders
    in each status. *)

From S2P Require Import Prelude JsValue HttpClient Mutations AuthFlows Screen.
Import Http Mutations AuthFlows Screen.

Module VerifyEmail.
Local Open Scope list_scope.

Inductive VStatus := VLoading | VSuccess | VError.

#[export] Instance VStatus_eq_dec : EqDecision VStatus.
Proof. solve_decision. Defined.

Record VerifyState := {
  status : VStatus;
  errorMsg : jsval;
  hasRun : bool
}.

Definition initial : VerifyState := {| status := VLoading; errorMsg := JStr ""; hasRun := false |}.

Definition set_status (s : VStatus) (v : VerifyState) : VerifyState :=
  {| status := s; errorMsg := errorMsg v; hasRun := hasRun v |}.
Definition set_errorMsg (m : jsval) (v : VerifyState) : VerifyState :=
  {| status := status v; errorMsg := m; hasRun := hasRun v |}.
Definition set_hasRun (v : VerifyState) : VerifyState :=
  {| status := status v; errorMsg := errorMsg v; hasRun := true |}.

(** [searchParams.token ?? ''] *)
Definition page_token (token : option string) : string := default "" token.

(** The [catch] of [verifyToken]. *)
Definition verify_error_message (err : jsval) : jsval :=
  if is_str (get err "errorCode") "EXPIRED_TOKEN" then
    JStr "This link has expired. Please request a new verification email."
  else if is_str (get err "errorCode") "INVALID_TOKEN" then
    JStr "Invalid verification token. Please check your email for the correct link."
  else if is_str (get err "errorCode") "ALREADY_VERIFIED" then
    JStr "Your email is already verified. You can login to your account."
  else if truthy (get err "message") then get err "message"
  else JStr "Verification failed. Please try again.".

Section Effects.
Context {Srv : Type}.
Variable serve : Srv -> Config -> Srv * Answer.
Variable in_browser : bool.
Variable fuel : nat.

Abbreviation SW := (World Srv (App * VerifyState)).

Definition verify_effect (emailToken : string) : prog SW unit :=
  let! st := page in
  if hasRun st then pret tt else
  let! _ := modify_page set_hasRun in
  if String.eqb emailToken "" then
    let! _ := modify_page (set_errorMsg (JStr "No verification token provided.")) in
    modify_page (set_status VError)
  else
    let! r := mutateAsync (verifyEmailFn serve in_browser fuel (JStr emailToken))
                verifyEmailOnSuccess verifyEmailOnError in
    match r with
    | inl _ => modify_page (set_status VSuccess)
    | inr err =>
        let! _ := modify_page (set_errorMsg (verify_error_message err)) in
        modify_page (set_status VError)
    end.

(** React runs the effect again whenever [mutation] changes, and twice
    on mount in strict mode. *)
Fixpoint effect_runs (n : nat) (emailToken : string) : prog SW unit :=
  match n with
  | O => pret tt
  | S k => let! _ := verify_effect emailToken in effect_runs k emailToken
  end.

(** ** Lemmas *)

Lemma verify_effect_done t w : hasRun (snd (app w)) = true -> verify_effect t w = (Some tt, w).
Proof. intros H. unfold verify_effect, pbind, page. simpl. by rewrite H. Qed.

Lemma verify_effect_hasRun t w u w' :
  verify_effect t w = (Some u, w') -> hasRun (snd (app w')) = true.
Proof.
  unfold verify_effect. intros H. pbind_inv H. injection E as <- <-.
  destruct (hasRun (snd (app w))) eqn:Hr; [by injection H as _ <-|].
  pbind_inv H. injection E as _ <-.
  destruct (String.eqb t "").
  - pbind_inv H. injection E as _ <-. by injection H as _ <-.
  - pbind_inv H. pose proof (f_equal (fun p => snd (app (snd p))) E) as Hp.
    cbv beta in Hp. rewrite mutateAsync_page in Hp. simpl in Hp.
    match type of E with _ = (Some ?r, _) => destruct r as [d|e] end;
      [|pbind_inv H; injection E0 as _ <-]; injection H as _ <-; simpl; by rewrite <-Hp.
Qed.

(** C28: the effect verifies at most once: however many times React runs
    it, the result is that of one run, so one verification request. *)
Theorem verify_effect_runs_once n t w :
  effect_runs (S n) t w = verify_effect t w.
Proof.
  cbn [effect_runs]. unfold pbind at 1.
  destruct (verify_effect t w) as [[[]|] w1] eqn:E; [|done].
  apply verify_effect_hasRun in E. clear w. induction n as [|n IH]; [done|].
  cbn [effect_runs]. unfold pbind at 1. by rewrite verify_effect_done.
Qed.

Definition verify_cfg (t : string) : Config :=
  {| method := POST; url := "/api/v1/auth/verify-email/"; body := JObj [("token", JStr t)];
     _retry := false |}.

(** C29: the screen's specific messages are never shown for an API
    error.  When the verification request is refused with an error
    status (outside the refresh path), whatever [errorCode] the body
    carries ([EXPIRED_TOKEN], [INVALID_TOKEN], [ALREADY_VERIFIED]
    included), the effect settles in the error state showing the
    server's [message], or "Something went wrong" when it is falsy:
    the rejection is an [ApiError], which keeps the body in [cause],
    while the screen tests [err.errorCode]. *)
Theorem verify_error_ignores_code n t w s' st b :
  fuel = S n -> hasRun (snd (app w)) = false -> t <> "" ->
  serve (server w) (verify_cfg t) = (s', Reply st b) -> validateStatus st = false ->
  token_reply (Reply st b) && in_browser = false ->
  exists w', verify_effect t w = (Some tt, w') /\
    status (snd (app w')) = VError /\
    errorMsg (snd (app w')) = JStr (js_string (js_or (get b "message") (JStr "Something went wrong"))).
Proof.
  intros Hf Hr Ht Hs Hv Hc.
  unfold verify_effect. unfold pbind at 1. cbn [page fst snd]. rewrite Hr.
  unfold pbind at 1. cbn [modify_page fst snd]. apply String.eqb_neq in Ht. rewrite Ht.
  unfold pbind at 1. unfold mutateAsync, zoom, verifyEmailFn, AuthService.verifyEmail, post.
  match goal with |- context [execute ?fn ?onS ?onE ?w0] =>
    rewrite (execute_rejects fn onS onE w0 _ _ (envelope_fn_rejected serve in_browser fuel n _ _ _ w0 s' st b Hf Hs Hv Hc))
  end.
  cbn -[js_or js_string]. eexists. split; [reflexivity|]. cbn -[js_or js_string].
  split; [done|]. destruct (js_or_fallback (get b "message") "Something went wrong") as [H1 H2]; [done|].
  revert H1 H2. generalize (js_or (get b "message") (JStr "Something went wrong")).
  intros x H1 H2. destruct x; try done; cbv beta iota; by rewrite H2.
Qed.

End Effects.

(** [if (status !== 'success') return; setTimeout(() => router.push('/login'), 10000)] *)
Definition redirect_timer (s : VStatus) : option (Z * string) :=
  if decide (s = VSuccess) then Some (10000%Z, "/login") else None.

Definition verify_view (v : VerifyState) : Panel :=
  match status v with
  | VLoading =>
      {| heading := "Verifying your email…"; texts := []; alerts := []; links := [];
         submit_disabled := None |}
  | VSuccess =>
      {| heading := "Email Verified!";
         texts := [JStr "Your email has been successfully verified."; JStr "Redirecting to login…"];
         alerts := []; links := ["/login"]; submit_disabled := None |}
  | VError =>
      {| heading := "Verification Failed";
         texts := [JStr "The link may be expired or invalid."];
         alerts := [errorMsg v]; links := ["/signup"; "/login"]; submit_disabled := None |}
  end.

End VerifyEmail.

(** ** A link that has expired *)

Module VerifyEmailWitnesses.
Import MutationWitnesses VerifyEmail.

(** Refuses every token, as the API does for an expired link. *)
Definition expired_link_server (s : nat) (_ : Config) : nat * Answer :=
  (S s, Reply 400 (JObj [("success", JBool false); ("message", JStr "Token expired");
                         ("errorCode", JStr "EXPIRED_TOKEN")])).

Definition wv0 : World nat (App * VerifyState) :=
  {| server := 0; sent := []; href := None; app := (app0, initial) |}.

(** An expired link: the screen shows the server's "Token expired",
    not "This link has expired. ...". *)
Lemma verify_error_ignores_code_witness :
  exists w', verify_effect expired_link_server true 3 "tok" wv0 = (Some tt, w') /\
    status (snd (app w')) = VError /\ errorMsg (snd (app w')) = JStr "Token expired".
Proof.
  apply (verify_error_ignores_code expired_link_server true 3 2 "tok" wv0 1 400
           (JObj [("success", JBool false); ("message", JStr "Token expired");
                  ("errorCode", JStr "EXPIRED_TOKEN")]));
    [reflexivity | reflexivity | discriminate | reflexivity | reflexivity | reflexivity].
Defined.

End VerifyEmailWitnesses.
