(* ===== verification/ResetPassword.v ===== *)
(** * The two password-reset screens

    Module [ResetForm] is [src/src/components/screens/auth/ResetPasswordForm.tsx]:
    a Formik form validated by the yup [resetPasswordSchema], whose
    [handleSubmit] refuses a missing token and otherwise calls
    [useResetPasswordMutation].  Module [ResetPage] is
    [src/src/app/(auth)/reset-password/page.tsx]: a react-hook-form form
    validated by its own zod schema, whose [onSubmit] records a failure
    as [{code: err.errorCode, message: err.message}] and shows
    [friendlyErrorMessages[code] ?? message]; after a success it shows a
    confirmation and schedules the move to [/login].

    [form_submit] and [page_submit] are the submit events: the library
    validates first and calls the handler only on valid values.
    [page_submit_with] takes the [mutate] of the hook the page renders
    with; [page_submit] gives it the reset hook's ([reset_mutate]).  The
    views are [Panel]s. *)

From S2P Require Import Prelude JsValue Validation HttpClient Mutations AuthFlows Screen.
Import Http Mutations AuthFlows Screen Validation.

(** [searchParams.get('token') ?? ''] *)
Definition search_token (t : option string) : string := default "" t.

Module ResetForm.
Local Open Scope list_scope.

Record FormState := {
  localError : option jsval;
  error : option jsval          (** the hook's [error] *)
}.

Definition set_localError (e : option jsval) (s : FormState) : FormState :=
  {| localError := e; error := error s |}.
Definition set_error (e : option jsval) (s : FormState) : FormState :=
  {| localError := localError s; error := e |}.

Section Handlers.
Context {Srv : Type}.
Variable serve : Srv -> Config -> Srv * Answer.
Variable in_browser : bool.
Variable fuel : nat.

Abbreviation SW := (World Srv (App * FormState)).

Definition handleSubmit (token newPassword : string) : prog SW unit :=
  let! _ := modify_page (set_localError None) in
  if String.eqb token "" then
    modify_page (set_localError (Some (JStr "Invalid or missing reset token")))
  else
    mutate set_error
      (resetPasswordFn serve in_browser fuel
         (JObj [("token", JStr token); ("newPassword", JStr newPassword)]))
      resetPasswordOnSuccess resetPasswordOnError
      (fun _ => pret tt)
      (fun err => modify_page (set_localError
                    (Some (js_or (get err "message") (JStr "Reset failed"))))).

(** Formik calls [onSubmit] only when [resetPasswordSchema] accepts. *)
Definition form_submit (token newPassword confirmPassword : string) : prog SW unit :=
  if valid (resetPasswordSchema newPassword confirmPassword) then handleSubmit token newPassword
  else pret tt.

End Handlers.

(** [disabled={isPending ?? !token}] *)
Definition fields_disabled (isPending : bool) (token : string) : bool :=
  truthy (js_coalesce (JBool isPending) (JBool (String.eqb token ""))).

Definition view (token : string) (isPending : bool) (s : FormState) : Panel :=
  {| heading := "Reset Your Password";
     texts := [JStr "Enter your new password below"];
     alerts :=
       (if truthy (js_coalesce (opt_val (error s)) (opt_val (localError s)))
        then [js_coalesce (opt_val (localError s)) (get (opt_val (error s)) "message")] else []) ++
       (if String.eqb token "" then [JStr "Missing reset token. Please use the link emailed to you."]
        else []);
     links := ["/login"];
     submit_disabled := Some (fields_disabled isPending token) |}.

(** C34: without a token the form component shows its missing-token
    alert but leaves its fields and button enabled unless a call is
    pending ([isPending ?? !token] never reaches [!token]); a valid
    submission then sends no request and shows "Invalid or missing reset
    token". *)
Theorem reset_form_missing_token {Srv} (serve : Srv -> Config -> Srv * Answer) in_browser fuel
    pending s np cp w w' :
  form_submit serve in_browser fuel "" np cp w = (Some tt, w') ->
  submit_disabled (view "" pending s) = Some pending /\
  In (JStr "Missing reset token. Please use the link emailed to you.") (alerts (view "" pending s)) /\
  sent w' = sent w /\
  (valid (resetPasswordSchema np cp) = true ->
   localError (snd (app w')) = Some (JStr "Invalid or missing reset token")).
Proof.
  intros H. split; [by destruct pending|]. split; [apply in_or_app; right; by left|].
  unfold form_submit, handleSubmit in H. destruct (valid (resetPasswordSchema np cp)).
  - pbind_inv H. injection E as _ <-. injection H as <-. by split.
  - injection H as <-. by split.
Qed.

End ResetForm.

Module ResetPage.
Local Open Scope list_scope.

Record PageState := {
  submitted : bool;
  apiError : option (jsval * jsval)       (** [{code, message}] *)
}.

Definition set_submitted (b : bool) (s : PageState) : PageState :=
  {| submitted := b; apiError := apiError s |}.
Definition set_apiError (e : option (jsval * jsval)) (s : PageState) : PageState :=
  {| submitted := submitted s; apiError := e |}.

(** The hook's [error] is not read by this page. *)
Definition keep_error (_ : option jsval) (s : PageState) : PageState := s.

(** [friendlyErrorMessages[code]]: the key is [String(code)]. *)
Definition friendlyErrorMessages (code : jsval) : jsval :=
  if String.eqb (js_string code) "INVALID_RESET_TOKEN" then
    JStr "Your reset link is invalid or expired. Please request a new password link."
  else JUndef.

Definition form_alerts (s : PageState) : list jsval :=
  match apiError s with
  | Some (code, message) => [js_coalesce (friendlyErrorMessages code) message]
  | None => []
  end.

Section Handlers.
Context {Srv : Type}.
Variable serve : Srv -> Config -> Srv * Answer.
Variable in_browser : bool.
Variable fuel : nat.

Abbreviation SW := (World Srv (App * PageState)).

(** [onSubmit], given the [mutate] of the hook the page renders with:
    [resetMutation.mutate({ token, newPassword }, { onSuccess, onError })]. *)
Definition onSubmit_with
    (mutate_call : jsval -> (jsval -> prog SW unit) -> (jsval -> prog SW unit) -> prog SW unit)
    (token password : string) : prog SW unit :=
  if String.eqb token "" then pret tt else
  let! _ := modify_page (set_apiError None) in
  mutate_call (JObj [("token", JStr token); ("newPassword", JStr password)])
    (fun _ => modify_page (set_submitted true))
    (fun err => modify_page (set_apiError (Some (get err "errorCode", get err "message")))).

(** [useResetPasswordMutation()]'s [mutate]; the page does not read the
    hook's [error]. *)
Definition reset_mutate (payload : jsval) (callSuccess callError : jsval -> prog SW unit) : prog SW unit :=
  mutate keep_error (resetPasswordFn serve in_browser fuel payload)
    resetPasswordOnSuccess resetPasswordOnError callSuccess callError.

Definition onSubmit : string -> string -> prog SW unit := onSubmit_with reset_mutate.

(** [handleSubmit(onSubmit)]: the zod resolver validates first. *)
Definition page_submit_with
    (mutate_call : jsval -> (jsval -> prog SW unit) -> (jsval -> prog SW unit) -> prog SW unit)
    (token password confirmPassword : string) : prog SW unit :=
  if valid (zodResetSchema password confirmPassword) then onSubmit_with mutate_call token password
  else pret tt.

Definition page_submit : string -> string -> string -> prog SW unit := page_submit_with reset_mutate.

(** The request a submission sends: [{ token, newPassword }]. *)
Definition reset_cfg (token password : string) : Config :=
  {| method := POST; url := "/api/v1/auth/reset-password/";
     body := reset_payload (JObj [("token", JStr token); ("newPassword", JStr password)]); _retry := false |}.

(** A valid submission with a token, answered with a 2xx and a truthy
    [success], sends one request and ends with [submitted] set and no
    error stored. *)
Lemma page_submit_ok n t p c w s' st b :
  fuel = S n -> valid (zodResetSchema p c) = true -> t <> "" ->
  serve (server w) (reset_cfg t p) = (s', Reply st b) -> validateStatus st = true ->
  truthy (get b "success") = true ->
  exists w', page_submit t p c w = (Some tt, w') /\ submitted (snd (app w')) = true /\
    apiError (snd (app w')) = None /\ sent w' = sent w ++ [reset_cfg t p].
Proof.
  intros Hf Hz Ht Hs Hv Hsu. unfold page_submit, page_submit_with, onSubmit_with, reset_mutate, mutate.
  rewrite Hz. apply String.eqb_neq in Ht. rewrite Ht.
  unfold pbind at 1. cbn [modify_page fst snd].
  unfold pbind at 1. cbn [modify_page fst snd].
  unfold pbind at 1. unfold zoom at 1. unfold execute, resetPasswordFn, AuthService.resetPassword, post.
  unfold unzoom. cbn [server sent href app fst snd keep_error].
  rewrite (pbind_some _ _ _ _ _
    (envelope_fn_ok serve in_browser fuel n "Resetting..." POST "/api/v1/auth/reset-password/"
       _ id {| server := server w; sent := sent w; href := href w; app := fst (app w) |}
       s' st b Hf Hs Hv Hsu)).
  cbv beta. unfold resetPasswordOnSuccess, with_prop. rewrite (dot_get _ _ (get_truthy_not_nullish _ _ Hsu)).
  cbn. eexists. split; [reflexivity|]. cbn. repeat split.
Qed.

(** What the reset hook's execution rejects with has no [errorCode]:
    an [ApiError], an [Error], or the [TypeError] of [data.message]. *)
Lemma reset_execute_nocode payload w e w' :
  execute (resetPasswordFn serve in_browser fuel payload) resetPasswordOnSuccess resetPasswordOnError w =
    (Some (inr e), w') -> get e "errorCode" = JUndef.
Proof.
  intros (w1 & _ & [Hf|(d & w0 & _ & Ho)])%execute_inr.
  - apply envelope_fn_some in Hf as [_ Hno]. by destruct (Hno e eq_refl).
  - revert Ho. unfold resetPasswordOnSuccess, with_prop, dot.
    destruct (nullish d); [by intros [= <- _]|]. cbn. by intros [=].
Qed.

(** The stored error never carries a code. *)
Definition code_free (s : PageState) : Prop := forall c m, apiError s = Some (c, m) -> c = JUndef.

Lemma code_free_alerts s c m : code_free s -> apiError s = Some (c, m) -> form_alerts s = [m].
Proof. intros Hc Ha. unfold form_alerts. rewrite Ha. by rewrite (Hc c m Ha). Qed.

(** C33: the friendly message of the reset page is unreachable: a
    submission keeps the stored error free of a code (the rejection of
    the mutation has no [errorCode]), so a failure always shows the
    error's [message], never the text for [INVALID_RESET_TOKEN]. *)
Theorem reset_page_never_friendly t p c w w' :
  code_free (snd (app w)) -> page_submit t p c w = (Some tt, w') ->
  code_free (snd (app w')) /\
  (forall code m, apiError (snd (app w')) = Some (code, m) -> form_alerts (snd (app w')) = [m]).
Proof.
  intros Hinv H. enough (Hw' : code_free (snd (app w'))).
  { split; [done|]. intros code m. by apply code_free_alerts. }
  unfold page_submit, page_submit_with, onSubmit_with in H.
  destruct (valid (zodResetSchema p c)); [|by injection H as <-].
  destruct (String.eqb t ""); [by injection H as <-|].
  pbind_inv H. injection E as _ <-. unfold reset_mutate in H.
  apply mutate_cases in H as [(d & w1 & Hf & Hc)|(e & w1 & Hf & Hc)].
  - injection Hc as <-. apply page_of_eq in Hf. rewrite zoom_page in Hf.
    intros c' m. simpl in *. rewrite <-Hf. by simpl.
  - injection Hc as <-. apply zoom_some in Hf as (w3 & Hf & _).
    apply reset_execute_nocode in Hf.
    intros c' m. simpl. rewrite Hf. by intros [= <- _].
Qed.

End Handlers.

(** [isValid && !!token && !resetMutation.isPending] *)
Definition canSubmit (token password confirmPassword : string) (isPending : bool) : bool :=
  valid (zodResetSchema password confirmPassword) && negb (String.eqb token "") && negb isPending.

(** [type={showPwd ? 'text' : 'password'}], and the same for
    [showConfirm]; the eye buttons negate the flag. *)
Definition input_type (show : bool) : string := if show then "text" else "password".

(** [if (submitted) setTimeout(() => router.push('/login'), 10000)] *)
Definition redirect_timer (s : PageState) : option (Z * string) :=
  if submitted s then Some (10000%Z, "/login") else None.

Definition view (token password confirmPassword : string) (isPending : bool) (s : PageState) : Panel :=
  if String.eqb token "" then
    {| heading := "Reset Your Password"; texts := [];
       alerts := [JStr "Invalid or missing reset token."]; links := ["/forgot-password"];
       submit_disabled := None |}
  else if submitted s then
    {| heading := "Password Reset!";
       texts := [JStr "Your password has been updated successfully.";
                 JStr "Redirecting to login in 4 seconds..."];
       alerts := []; links := ["/login"]; submit_disabled := None |}
  else
    {| heading := "Reset Your Password";
       texts := [JStr "Enter a new password to secure your account"];
       alerts := form_alerts s; links := ["/login"];
       submit_disabled := Some (negb (canSubmit token password confirmPassword isPending)) |}.

End ResetPage.

(** ** Concrete submissions *)

Module ResetWitnesses.
Import MutationWitnesses.

(** Refuses every reset token. *)
Definition stale_token_server (s : nat) (_ : Config) : nat * Answer :=
  (S s, Reply 400 (JObj [("success", JBool false); ("message", JStr "Reset link expired");
                         ("errorCode", JStr "INVALID_RESET_TOKEN")])).

Definition wp0 : World nat (App * ResetPage.PageState) :=
  {| server := 0; sent := []; href := None;
     app := (app0, {| ResetPage.submitted := false; ResetPage.apiError := None |}) |}.

Definition wf0 : World nat (App * ResetForm.FormState) :=
  {| server := 0; sent := []; href := None;
     app := (app0, {| ResetForm.localError := None; ResetForm.error := None |}) |}.

Lemma reset_page_never_friendly_witness :
  let w' := snd (ResetPage.page_submit stale_token_server true 3 "tok" "Abcdefg1#" "Abcdefg1#" wp0) in
  ResetPage.code_free (snd (app w')) /\
  (forall code m, ResetPage.apiError (snd (app w')) = Some (code, m) ->
                  ResetPage.form_alerts (snd (app w')) = [m]).
Proof.
  apply (ResetPage.reset_page_never_friendly stale_token_server true 3 "tok" "Abcdefg1#" "Abcdefg1#" wp0);
    [intros c m H; simpl in H; discriminate | vm_compute; reflexivity].
Defined.

Lemma reset_form_missing_token_witness :
  let w' := snd (ResetForm.form_submit stale_token_server true 3 "" "Abcdef1!" "Abcdef1!" wf0) in
  submit_disabled (ResetForm.view "" false (snd (app wf0))) = Some false /\
  In (JStr "Missing reset token. Please use the link emailed to you.")
     (alerts (ResetForm.view "" false (snd (app wf0)))) /\
  sent w' = sent wf0 /\
  (valid (resetPasswordSchema "Abcdef1!" "Abcdef1!") = true ->
   ResetForm.localError (snd (app w')) = Some (JStr "Invalid or missing reset token")).
Proof.
  apply (ResetForm.reset_form_missing_token stale_token_server true 3 false (snd (app wf0))
           "Abcdef1!" "Abcdef1!" wf0); vm_compute; reflexivity.
Defined.

End ResetWitnesses.
