(* ===== verification/Timers.v ===== *)
(** * Effects that arm a timer

    Two screens redirect after a success with an effect of the shape
    [useEffect(() => { if (...) { const t = setTimeout(() => router.push(tg), d);
    return () => clearTimeout(t); } }, deps)]: the verify-email screen
    ([src/src/components/screens/auth/verify-email.tsx], deps
    [[status, router]]) and the reset-password page
    ([src/src/app/(auth)/reset-password/page.tsx], deps
    [[submitted, router]]).  Module [Timers] gives such an effect a
    timeline: a commit re-runs the effect when a dependency changed
    (first the previous run's cleanup), time passes and fires a due
    timer, an unmount runs the cleanup.  [router] is the same object on
    every render, so the dependencies are the screen's status.

    The theorems: after an unmount nothing is ever pushed (the spec's
    cancellation), and a timer armed by a commit fires exactly once,
    when its delay has passed, if the screen stays mounted and its
    dependencies do not change.  [reset_success_redirects] composes the
    reset page's submission ([ResetPage.page_submit]) with its redirect
    effect. *)

From S2P Require Import Prelude JsValue Validation HttpClient Mutations Screen VerifyEmail ResetPassword.

Module Timers.
Local Open Scope Z_scope.
Local Open Scope list_scope.

Section Timer.
Context {St D : Type} `{EqDecision D}.
(** The dependency list's value in a state, and what the effect does in
    it: [Some (delay, target)] when it arms [setTimeout]. *)
Variable deps : St -> D.
Variable effect : St -> option (Z * string).

Record TimerState := {
  now : Z;
  last_deps : option D;                (** [None] before the first commit *)
  pending : option (Z * string);       (** the armed timer: deadline, target *)
  pushed : list string;                (** [router.push] calls, in order *)
  mounted : bool
}.

Definition init (t : Z) : TimerState :=
  {| now := t; last_deps := None; pending := None; pushed := []; mounted := true |}.

Inductive Event :=
| Commit (s : St)          (** a render with state [s] is committed *)
| Elapse (ms : Z)          (** [ms] milliseconds pass *)
| Unmount.

(** [() => clearTimeout(t)] *)
Definition cleanup (ts : TimerState) : TimerState :=
  {| now := now ts; last_deps := last_deps ts; pending := None; pushed := pushed ts; mounted := mounted ts |}.

(** React re-runs the effect after a commit whose dependencies changed:
    the previous run's cleanup, then the body, which arms the timer. *)
Definition commit (s : St) (ts : TimerState) : TimerState :=
  if negb (mounted ts) then ts
  else if decide (last_deps ts = Some (deps s)) then ts
  else let ts' := cleanup ts in
    {| now := now ts'; last_deps := Some (deps s);
       pending := option_map (fun '(d, tg) => (now ts' + d, tg)) (effect s);
       pushed := pushed ts'; mounted := true |}.

(** Time passes; a due timer runs its callback [router.push(tg)]. *)
Definition elapse (ms : Z) (ts : TimerState) : TimerState :=
  let t' := now ts + ms in
  match pending ts with
  | Some (dl, tg) =>
      if dl <=? t'
      then {| now := t'; last_deps := last_deps ts; pending := None; pushed := pushed ts ++ [tg];
              mounted := mounted ts |}
      else {| now := t'; last_deps := last_deps ts; pending := pending ts; pushed := pushed ts;
              mounted := mounted ts |}
  | None => {| now := t'; last_deps := last_deps ts; pending := None; pushed := pushed ts;
               mounted := mounted ts |}
  end.

Definition unmount (ts : TimerState) : TimerState :=
  {| now := now ts; last_deps := last_deps ts; pending := None; pushed := pushed ts; mounted := false |}.

Definition step (ev : Event) (ts : TimerState) : TimerState :=
  match ev with
  | Commit s => commit s ts
  | Elapse ms => elapse ms ts
  | Unmount => unmount ts
  end.

Definition run (evs : list Event) (ts : TimerState) : TimerState :=
  fold_left (fun ts ev => step ev ts) evs ts.

(** The events under which an armed timer is left alone: time passing
    forward, and commits with the same dependencies. *)
Definition quiet (d : D) (ev : Event) : bool :=
  match ev with
  | Commit s => bool_decide (deps s = d)
  | Elapse ms => 0 <=? ms
  | Unmount => false
  end.

Fixpoint elapsed (evs : list Event) : Z :=
  match evs with
  | [] => 0
  | Elapse ms :: evs' => ms + elapsed evs'
  | _ :: evs' => elapsed evs'
  end.

(** ** Lemmas *)

Lemma run_cons ev evs ts : run (ev :: evs) ts = run evs (step ev ts).
Proof. reflexivity. Qed.

(** An unmounted screen with no timer stays so, and pushes nothing. *)
Lemma run_unmounted evs ts :
  mounted ts = false -> pending ts = None -> pushed (run evs ts) = pushed ts.
Proof.
  revert ts. induction evs as [|ev evs IH]; intros ts Hm Hp; [done|].
  rewrite run_cons. destruct ev as [s|ms|]; cbn [step].
  - unfold commit. rewrite Hm. by apply IH.
  - unfold elapse. rewrite Hp. by rewrite IH.
  - by rewrite IH.
Qed.

Lemma elapsed_quiet_nonneg d evs : forallb (quiet d) evs = true -> 0 <= elapsed evs.
Proof.
  induction evs as [|[s|ms|] evs IH]; cbn; [lia| | |done]; rewrite andb_true_iff.
  - intros [_ H]. by apply IH.
  - intros [Hm H]. apply Z.leb_le in Hm. specialize (IH H). lia.
Qed.

(** A mounted screen with no timer pushes nothing while quiet. *)
Lemma run_quiet_idle d evs ts :
  mounted ts = true -> last_deps ts = Some d -> pending ts = None ->
  forallb (quiet d) evs = true -> pushed (run evs ts) = pushed ts.
Proof.
  revert ts. induction evs as [|ev evs IH]; intros ts Hm Hl Hp Hq; [done|].
  cbn in Hq. apply andb_true_iff in Hq as [He Hq]. rewrite run_cons.
  destruct ev as [s|ms|]; [| |done]; cbn [step].
  - unfold commit. rewrite Hm, Hl. apply bool_decide_eq_true in He. subst d.
    rewrite decide_True by done. by apply IH.
  - unfold elapse. rewrite Hp. by rewrite IH.
Qed.

(** An armed timer that is not yet due fires once, when its deadline
    has passed, if the screen stays quiet. *)
Lemma run_quiet_armed d evs ts dl tg :
  mounted ts = true -> last_deps ts = Some d -> pending ts = Some (dl, tg) -> now ts < dl ->
  forallb (quiet d) evs = true ->
  pushed (run evs ts) = pushed ts ++ (if dl <=? now ts + elapsed evs then [tg] else []).
Proof.
  revert ts. induction evs as [|ev evs IH]; intros ts Hm Hl Hp Hn Hq.
  { cbn. destruct (Z.leb_spec dl (now ts + 0)); [lia|]. by rewrite app_nil_r. }
  cbn in Hq. apply andb_true_iff in Hq as [He Hq]. rewrite run_cons.
  destruct ev as [s|ms|]; [| |done]; cbn [step elapsed].
  - unfold commit. rewrite Hm, Hl. apply bool_decide_eq_true in He. subst d.
    rewrite decide_True by done. by apply IH.
  - apply Z.leb_le in He. pose proof (elapsed_quiet_nonneg d evs Hq).
    unfold elapse. rewrite Hp. destruct (Z.leb_spec dl (now ts + ms)).
    + rewrite (run_quiet_idle d) by done. cbn [pushed].
      destruct (Z.leb_spec dl (now ts + (ms + elapsed evs))); [done|lia].
    + rewrite IH by (cbn; done || lia). cbn [pushed now]. by rewrite Z.add_assoc.
Qed.

(** A commit that changes the dependencies and arms a timer of delay
    [dl > 0]: while the screen stays quiet, the target is pushed exactly
    once, as soon as [dl] milliseconds have passed, and not before. *)
Theorem timer_fires_once s ts evs dl tg :
  mounted ts = true -> last_deps ts <> Some (deps s) -> effect s = Some (dl, tg) -> 0 < dl ->
  forallb (quiet (deps s)) evs = true ->
  pushed (run evs (commit s ts)) = pushed ts ++ (if dl <=? elapsed evs then [tg] else []).
Proof.
  intros Hm Hl He Hd Hq. unfold commit. rewrite Hm, decide_False by done. cbn [negb].
  rewrite (run_quiet_armed (deps s) evs _ (now ts + dl) tg); cbn; rewrite ?He; try done; [|lia].
  destruct (Z.leb_spec (now ts + dl) (now ts + elapsed evs)), (Z.leb_spec dl (elapsed evs)); done || lia.
Qed.

(** The cleanup cancels: once the screen unmounts, nothing more is
    pushed, whatever happens next. *)
Theorem unmount_cancels evs ts : pushed (run evs (unmount ts)) = pushed ts.
Proof. by rewrite run_unmounted. Qed.

End Timer.

(** ** The two screens *)

#[local] Existing Instance VerifyEmail.VStatus_eq_dec.

(** [verify-email.tsx]: deps [[status, router]]; the effect arms
    [setTimeout(() => router.push('/login'), 10000)] on success. *)
Definition verify_deps (v : VerifyEmail.VerifyState) : VerifyEmail.VStatus := VerifyEmail.status v.
Definition verify_timer (v : VerifyEmail.VerifyState) : option (Z * string) :=
  VerifyEmail.redirect_timer (VerifyEmail.status v).

(** [reset-password/page.tsx]: deps [[submitted, router]]. *)
Definition reset_deps (s : ResetPage.PageState) : bool := ResetPage.submitted s.
Definition reset_timer (s : ResetPage.PageState) : option (Z * string) := ResetPage.redirect_timer s.

(** Once verified, the screen goes to [/login] exactly once, ten
    seconds later, unless it unmounts or its status changes first. *)
Corollary verify_redirects_once v ts evs :
  VerifyEmail.status v = VerifyEmail.VSuccess -> mounted ts = true ->
  last_deps ts <> Some VerifyEmail.VSuccess ->
  forallb (quiet verify_deps VerifyEmail.VSuccess) evs = true ->
  pushed (run verify_deps verify_timer evs (commit verify_deps verify_timer v ts)) =
    pushed ts ++ (if 10000 <=? elapsed evs then ["/login"] else []).
Proof.
  intros Hs Hm Hl Hq. unfold verify_deps in *. rewrite <-Hs in Hl, Hq.
  apply timer_fires_once; [done|done| |lia|done]. unfold verify_timer. by rewrite Hs.
Qed.

(** Once the new password is accepted, the page goes to [/login]
    exactly once, ten seconds later, unless it unmounts first. *)
Corollary reset_redirects_once s ts evs :
  ResetPage.submitted s = true -> mounted ts = true -> last_deps ts <> Some true ->
  forallb (quiet reset_deps true) evs = true ->
  pushed (run reset_deps reset_timer evs (commit reset_deps reset_timer s ts)) =
    pushed ts ++ (if 10000 <=? elapsed evs then ["/login"] else []).
Proof.
  intros Hs Hm Hl Hq. destruct s as [b e]. cbn in Hs. subst b.
  apply timer_fires_once; [exact Hm|exact Hl|reflexivity|lia|exact Hq].
Qed.

(** C37: the reset-password page end to end.  A valid new password
    with a token, which the server accepts, is sent once and moves the
    page to its success view; the redirect effect then sends the browser
    to [/login] exactly once, as soon as ten seconds have passed, while
    the page stays mounted; once it unmounts, nothing is ever pushed. *)
Theorem reset_success_redirects {Srv} (serve : Srv -> Http.Config -> Srv * Http.Answer) in_browser fuel n
    t p c (w : Http.World Srv (Mutations.App * ResetPage.PageState)) s' st b ts evs evs' :
  fuel = S n -> Validation.valid (Validation.zodResetSchema p c) = true -> t <> "" ->
  serve (Http.server w) (ResetPage.reset_cfg t p) = (s', Http.Reply st b) -> Http.validateStatus st = true ->
  truthy (get b "success") = true ->
  mounted ts = true -> last_deps ts <> Some true -> forallb (quiet reset_deps true) evs = true ->
  exists w', ResetPage.page_submit serve in_browser fuel t p c w = (Some tt, w') /\
    Http.sent w' = Http.sent w ++ [ResetPage.reset_cfg t p] /\
    Screen.heading (ResetPage.view t p c false (snd (Http.app w'))) = "Password Reset!" /\
    pushed (run reset_deps reset_timer evs (commit reset_deps reset_timer (snd (Http.app w')) ts)) =
      pushed ts ++ (if 10000 <=? elapsed evs then ["/login"] else []) /\
    pushed (run reset_deps reset_timer evs'
              (unmount (commit reset_deps reset_timer (snd (Http.app w')) ts))) = pushed ts.
Proof.
  intros Hf Hz Ht Hs Hv Hsu Hm Hl Hq.
  destruct (ResetPage.page_submit_ok serve in_browser fuel n t p c w s' st b Hf Hz Ht Hs Hv Hsu)
    as (w' & Hrun & Hsub & _ & Hsent).
  exists w'. split; [done|]. split; [done|]. split.
  { unfold ResetPage.view. apply String.eqb_neq in Ht. by rewrite Ht, Hsub. }
  split; [by apply reset_redirects_once|].
  rewrite unmount_cancels. unfold commit. rewrite Hm. cbn [negb].
  destruct (decide _); reflexivity.
Qed.

End Timers.

Module TimersWitnesses.
Import Timers.
Local Open Scope Z_scope.
Local Open Scope list_scope.

(** Accepts every request with a [success] envelope. *)
Definition ok_reset (s : nat) (_ : Http.Config) : nat * Http.Answer :=
  (S s, Http.Reply 200 (JObj [("success", JBool true); ("message", JStr "Password reset")])).

(** A new password accepted at time 0; ten seconds pass, then twenty
    more after an unmount. *)
Lemma reset_success_redirects_witness :
  exists w', ResetPage.page_submit ok_reset true 3%nat "tok" "Abcdef1!" "Abcdef1!" ResetWitnesses.wp0 = (Some tt, w') /\
    Http.sent w' = Http.sent ResetWitnesses.wp0 ++ [ResetPage.reset_cfg "tok" "Abcdef1!"] /\
    Screen.heading (ResetPage.view "tok" "Abcdef1!" "Abcdef1!" false (snd (Http.app w'))) = "Password Reset!" /\
    pushed (run reset_deps reset_timer [Elapse 10000]
              (commit reset_deps reset_timer (snd (Http.app w')) (init 0))) =
      pushed (init (D:=bool) 0) ++ (if 10000 <=? elapsed (St:=ResetPage.PageState) [Elapse 10000] then ["/login"] else []) /\
    pushed (run reset_deps reset_timer [Elapse 20000]
              (unmount (commit reset_deps reset_timer (snd (Http.app w')) (init 0)))) = pushed (init (D:=bool) 0).
Proof.
  apply (reset_success_redirects ok_reset true 3%nat 2%nat "tok" "Abcdef1!" "Abcdef1!" ResetWitnesses.wp0 1%nat 200
           (JObj [("success", JBool true); ("message", JStr "Password reset")]) (init 0) [Elapse 10000]
           [Elapse 20000]); (reflexivity || discriminate || (vm_compute; reflexivity)).
Defined.

End TimersWitnesses.
