(* ===== verification/SignUp.v ===== *)
(** * The sign-up and forgot-password screens

    Module [SignUpPage] is [src/src/components/screens/auth/SignUpForm.tsx]:
    the form data is a JavaScript object updated by [handleChange];
    [onSubmit] only checks the terms box and then calls
    [useSignupMutation] with the typed values, no schema is consulted;
    the browser's constraint validation of the form's [required] and
    [type="email"] inputs ([constraints_ok]) runs before [onSubmit]
    ([form_submit]); the view shows the chosen plan and the links of the
    form.  Module
    [ForgotPassword] is [src/src/components/screens/auth/ForgotPasswordForm.tsx].

    The hook's [error] and the screen's cells are the screen state; the
    [isPending] flag of the hook is a parameter of the views. *)

From S2P Require Import Prelude JsValue Validation Types HttpClient Mutations AuthFlows Screen.
Import TsTypes Http Mutations AuthFlows Screen.

Module SignUpPage.
Local Open Scope list_scope.

Record SignUpState := {
  formData : props;
  errorMsg : option jsval;
  success : bool;
  error : option jsval               (** the hook's [error] *)
}.

Definition set_formData (d : props) (s : SignUpState) : SignUpState :=
  {| formData := d; errorMsg := errorMsg s; success := success s; error := error s |}.
Definition set_errorMsg (e : option jsval) (s : SignUpState) : SignUpState :=
  {| formData := formData s; errorMsg := e; success := success s; error := error s |}.
Definition set_success (b : bool) (s : SignUpState) : SignUpState :=
  {| formData := formData s; errorMsg := errorMsg s; success := b; error := error s |}.
Definition set_error (e : option jsval) (s : SignUpState) : SignUpState :=
  {| formData := formData s; errorMsg := errorMsg s; success := success s; error := e |}.

(** The initial [useState]: [plan: planParam ?? ''], [billing] from
    [searchParams.get('billing') ?? 'monthly']. *)
Definition init (planParam billingParam : option string) : SignUpState :=
  {| formData := [("fullName", JStr ""); ("email", JStr ""); ("password", JStr "");
                  ("companyName", JStr ""); ("agreeToTerms", JBool false);
                  ("plan", JStr (default "" planParam));
                  ("billing", JStr (default "monthly" billingParam))];
     errorMsg := None; success := false; error := None |}.

(** [planNames[planParam]] *)
Definition planNames (key : string) : option string :=
  if String.eqb key "starter" then Some "Starter Plan"
  else if String.eqb key "growth" then Some "Growth Plan"
  else if String.eqb key "agency" then Some "Agency Plan"
  else None.

(** The [target] of an input's change event. *)
Record ChangeTarget := { name : string; value : string; type : string; checked : bool }.

(** [setFormData(prev => ({...prev, [name]: type === 'checkbox' ? checked : value}))] *)
Definition handleChange (t : ChangeTarget) (s : SignUpState) : SignUpState :=
  set_formData (set_prop (name t)
    (if String.eqb (type t) "checkbox" then JBool (checked t) else JStr (value t)) (formData s)) s.

Definition signup_values (d : props) : jsval :=
  JObj [("name", get (JObj d) "fullName"); ("email", get (JObj d) "email");
        ("password", get (JObj d) "password"); ("companyName", get (JObj d) "companyName")].

(** The inputs of the form, [name] and [type]: four [TextField]s and
    the terms checkbox. *)
Definition inputs : list (string * string) :=
  [("fullName", "text"); ("email", "email"); ("password", "password"); ("companyName", "text");
   ("agreeToTerms", "checkbox")].

(** The [target] of a change event of input [i]. *)
Definition input_event (i : string * string) (value : string) (checked : bool) : ChangeTarget :=
  {| name := fst i; value := value; type := snd i; checked := checked |}.

(** The type TypeScript gives [formData] from its initial value. *)
Definition FormDataType : tstype :=
  TsObject [("fullName", false, TsString); ("email", false, TsString); ("password", false, TsString);
            ("companyName", false, TsString); ("agreeToTerms", false, TsBoolean);
            ("plan", false, TsString); ("billing", false, TsString)].

(** [formData.k] as the string an input holds. *)
Definition field_value (d : props) (k : string) : string :=
  match get (JObj d) k with JStr v => v | _ => "" end.

(** The browser's constraint validation of the form (SignUpForm.tsx:
    [required] on the four [TextField]s, [type="email"] on the e-mail
    one): no required field is empty and the e-mail is a valid e-mail
    address, whose pattern in the HTML standard is yup's [rEmail]
    ([Validation.email_regex]). *)
Definition constraints_ok (d : props) : bool :=
  forallb (fun k => negb (String.eqb (field_value d k) "")) ["fullName"; "email"; "password"; "companyName"] &&
  Validation.email_regex (field_value d "email").

Section Handlers.
Context {Srv : Type}.
Variable serve : Srv -> Config -> Srv * Answer.
Variable in_browser : bool.
Variable fuel : nat.

Abbreviation SW := (World Srv (App * SignUpState)).

Definition onSubmit : prog SW unit :=
  let! _ := modify_page (set_errorMsg None) in
  let! s := page in
  if negb (truthy (get (JObj (formData s)) "agreeToTerms")) then
    modify_page (set_errorMsg (Some (JStr "You must agree to the terms & privacy policy.")))
  else
    mutate set_error (signupFn serve in_browser fuel (signup_values (formData s)))
      signupOnSuccess signupOnError
      (fun _ => modify_page (set_success true))
      (fun err => modify_page (set_errorMsg
                    (Some (js_coalesce (get err "message") (JStr "Signup failed. Please try again."))))).

Definition signup_cfg (d : props) : Config :=
  {| method := POST; url := "/api/v1/auth/signup/"; body := signup_payload (signup_values d);
     _retry := false |}.

(** Pressing the submit button: the browser runs its constraint
    validation first and fires [submit], hence [onSubmit], only when
    the form passes it. *)
Definition form_submit : prog SW unit :=
  let! s := page in
  if constraints_ok (formData s) then onSubmit else pret tt.

(** ** Lemmas *)

Lemma signup_hooks_sent :
  (forall d (w1 : World Srv App) o w2, signupOnSuccess d w1 = (Some o, w2) -> sent w2 = sent w1) /\
  (forall e (w1 : World Srv App) u w2, signupOnError e w1 = (Some u, w2) -> sent w2 = sent w1).
Proof.
  split.
  - intros d w1 o w2. apply with_prop_sent. by intros x w u w' [= _ <-].
  - by intros e w1 u w2 [= _ <-].
Qed.

(** With fuel, the first request of the sign-up function is its own. *)
Lemma signupFn_first n d w r w' :
  fuel = S n -> signupFn serve in_browser fuel (signup_values d) w = (Some r, w') ->
  exists rest, sent w' = sent w ++ signup_cfg d :: rest.
Proof.
  intros Hf H. destruct (envelope_fn_first serve in_browser fuel n "Signing up..." (signup_cfg d)
    (fun r => Done (response_data r)) id w Hf) as [rest Hr].
  exists rest. change (signupFn serve in_browser fuel (signup_values d) w) with
    (envelope_fn serve in_browser fuel "Signing up..." (Axios (signup_cfg d) (fun r => Done (response_data r))) id w) in H.
  by rewrite H in Hr.
Qed.

(** C30: only the browser's checks guard the sign-up request.  Pressing
    submit changes nothing when a required field is empty or the
    e-mail is not a valid address.  Once the fields pass those checks
    and the terms box is ticked, the first request sent is the sign-up
    request with the typed values, whatever [signupSchema] of
    [authSchema.ts] says of them: the form never consults it. *)
Theorem signup_sends_unvalidated n w w' :
  fuel = S n -> form_submit w = (Some tt, w') ->
  (constraints_ok (formData (snd (app w))) = false -> w' = w) /\
  (constraints_ok (formData (snd (app w))) = true ->
   truthy (get (JObj (formData (snd (app w)))) "agreeToTerms") = true ->
   exists rest, sent w' = sent w ++ signup_cfg (formData (snd (app w))) :: rest).
Proof.
  intros Hf H. unfold form_submit in H. pbind_inv H. injection E as <- <-.
  split; intros Hc; rewrite Hc in H; [by injection H as <-|]. intros Ht.
  unfold onSubmit in H. pbind_inv H. injection E as _ <-.
  pbind_inv H. injection E as <- <-. cbn [snd app formData set_errorMsg] in H.
  rewrite Ht in H. simpl in H.
  destruct signup_hooks_sent as [HS HE].
  apply mutate_cases in H as [(d & w1 & Hf1 & Hc')|(e & w1 & Hf1 & Hc')];
    pose proof Hf1 as Hz; apply zoom_some in Hz as (w2 & Hx & ->);
    apply (execute_sent _ _ _ _ _ _ HS HE) in Hx as (r1 & w3 & Hfn & Hs3);
    apply (signupFn_first n _ _ _ _ Hf) in Hfn as [rest Hr];
    exists rest; injection Hc' as <-; simpl in *; by rewrite Hs3, Hr.
Qed.

End Handlers.

(** [`${planNames[planParam]} (${billingParam === 'yearly' ? 'Yearly' : 'Monthly'})`] *)
Definition plan_chip (planParam : option string) (billingParam : string) : option string :=
  match planParam with
  | Some p =>
      if String.eqb p "" then None
      else option_map (fun n => n +:+ " (" +:+
             (if String.eqb billingParam "yearly" then "Yearly" else "Monthly") +:+ ")") (planNames p)
  | None => None
  end.

(** [footerContent]: the submit button, disabled while pending, and the
    "Sign in" link. *)
Definition footer_disabled (isPending : bool) : option bool := Some isPending.
Definition footer_links : list string := ["/login"].

(** The success screen: the address the link was sent to and the
    button that goes to [/login]. *)
Definition success_view (s : SignUpState) : Panel :=
  {| heading := "Verification Email Sent";
     texts := [JStr "A verification link has been sent to"; get (JObj (formData s)) "email";
               JStr "Please check your inbox to activate your account."];
     alerts := []; links := ["/login"]; submit_disabled := None |}.

(** The terms checkbox's label links the terms and the privacy policy. *)
Definition terms_links : list string := ["/terms"; "/privacy"].

Definition view (planParam : option string) (billingParam : string) (isPending : bool)
    (s : SignUpState) : Panel :=
  if success s then success_view s
  else
    {| heading := "Create an account";
       texts := JStr "Enter your information to get started" ::
                match plan_chip planParam billingParam with
                | Some c => [JStr "Selected Plan:"; JStr c]
                | None => []
                end;
       alerts :=
         if truthy (js_or (opt_val (errorMsg s)) (opt_val (error s)))
         then [js_coalesce (opt_val (errorMsg s)) (get (opt_val (error s)) "message")]
         else [];
       links := footer_links ++ (match plan_chip planParam billingParam with Some _ => ["/plan"] | None => [] end) ++
                terms_links;
       submit_disabled := footer_disabled isPending |}.

Lemma init_typed planParam billingParam :
  conforms FormDataType (JObj (formData (init planParam billingParam))) = true.
Proof. reflexivity. Qed.

(** A change event of one of the form's inputs keeps [formData] typed. *)
Lemma handleChange_typed i v c s :
  In i inputs -> conforms FormDataType (JObj (formData s)) = true ->
  conforms FormDataType (JObj (formData (handleChange (input_event i v c) s))) = true.
Proof.
  intros Hi Hs. apply conforms_set_prop; [done|].
  intros opt t Hin. simpl in Hi.
  repeat destruct Hi as [<-|Hi]; try done; simpl in Hin;
    repeat destruct Hin as [Hin|Hin]; by simplify_eq.
Qed.

(** Typed form data gives a [SignUpCredentials] body. *)
Lemma signup_payload_typed d :
  conforms FormDataType (JObj d) = true ->
  conforms SignUpCredentials (signup_payload (signup_values d)) = true.
Proof.
  intros H.
  pose proof (conforms_field _ _ "fullName" TsString H ltac:(simpl; tauto)) as H1.
  pose proof (conforms_field _ _ "email" TsString H ltac:(simpl; tauto)) as H2.
  pose proof (conforms_field _ _ "password" TsString H ltac:(simpl; tauto)) as H3.
  pose proof (conforms_field _ _ "companyName" TsString H ltac:(simpl; tauto)) as H4.
  simpl in *. by rewrite H1, H2, H3, H4.
Qed.

(** C32: the sign-up form keeps the type of its state: whatever the
    visitor types into its inputs or ticks, [formData] holds strings and
    a boolean [agreeToTerms], so the body of the sign-up request is a
    [SignUpCredentials]. *)
Theorem signup_form_typed planParam billingParam (evs : list (string * string * string * bool)) :
  Forall (fun e => In (fst (fst (fst e)), snd (fst (fst e))) inputs) evs ->
  let s := fold_left (fun s '(n, ty, v, c) => handleChange (input_event (n, ty) v c) s)
             evs (init planParam billingParam) in
  conforms FormDataType (JObj (formData s)) = true /\
  conforms SignUpCredentials (signup_payload (signup_values (formData s))) = true.
Proof.
  intros Hevs s.
  assert (Hs : conforms FormDataType (JObj (formData s)) = true).
  { unfold s. generalize (init planParam billingParam) (init_typed planParam billingParam).
    induction Hevs as [|[[[n ty] v] c] evs He _ IH]; intros s0 H0; [done|].
    apply IH. by apply handleChange_typed. }
  split; [done|]. by apply signup_payload_typed.
Qed.

End SignUpPage.

Module ForgotPassword.
Local Open Scope list_scope.

Record ForgotState := {
  email : string;
  isSubmitted : bool;
  error : option jsval               (** the hook's [error] *)
}.

Definition init : ForgotState := {| email := ""; isSubmitted := false; error := None |}.

Definition setEmail (e : string) (s : ForgotState) : ForgotState :=
  {| email := e; isSubmitted := isSubmitted s; error := error s |}.
Definition setIsSubmitted (b : bool) (s : ForgotState) : ForgotState :=
  {| email := email s; isSubmitted := b; error := error s |}.
Definition set_error (e : option jsval) (s : ForgotState) : ForgotState :=
  {| email := email s; isSubmitted := isSubmitted s; error := e |}.

(** [resetForm] *)
Definition resetForm (s : ForgotState) : ForgotState := setIsSubmitted false s.

Section Handlers.
Context {Srv : Type}.
Variable serve : Srv -> Config -> Srv * Answer.
Variable in_browser : bool.
Variable fuel : nat.

Abbreviation SW := (World Srv (App * ForgotState)).

Definition handleSubmit : prog SW unit :=
  let! s := page in
  mutate set_error (forgotPasswordFn serve in_browser fuel (JObj [("email", JStr (email s))]))
    forgotPasswordOnSuccess forgotPasswordOnError
    (fun _ => modify_page (setIsSubmitted true))
    (fun _ => pret tt).

End Handlers.

(** The submit button's label: [isPending ? "Sending..." : "Reset Password"]. *)
Definition submit_label (isPending : bool) : string := if isPending then "Sending..." else "Reset Password".

(** [error instanceof Error ? error.message : "User not found. ..."] *)
Definition error_text (e : jsval) : jsval :=
  match e with
  | JObj _ => get e "message"
  | _ => JStr "User not found. Please check your email and try again."
  end.

Definition view (isPending : bool) (s : ForgotState) : Panel :=
  let failed := truthy (opt_val (error s)) && negb (isSubmitted s) in
  {| heading := "Reset Your Password";
     texts :=
       JStr "Enter your email address and we'll send you a link to reset your password" ::
       (if isSubmitted s then
          [JStr "Password reset instructions have been sent to"; JStr (email s);
           JStr "The email may take a few minutes to arrive. Please check your spam folder if you don't see it in your inbox."]
        else []) ++
       (if failed then [JStr "Please verify your email address and try again."] else []);
     alerts := if failed then [error_text (opt_val (error s))] else [];
     links := ["/login"];
     submit_disabled :=
       if isSubmitted s then None else Some (isPending || String.eqb (email s) "") |}.

End ForgotPassword.

(** ** Concrete sign-ups *)

Module SignUpWitnesses.
Import MutationWitnesses AuthFlowsWitnesses SignUpPage.
Local Open Scope list_scope.

(** A one-letter name and password, terms ticked: the browser's checks
    pass, [signupSchema] fails. *)
Definition typed : SignUpState :=
  {| formData := [("fullName", JStr "A"); ("email", JStr "a@x.io"); ("password", JStr "a");
                  ("companyName", JStr "Acme"); ("agreeToTerms", JBool true); ("plan", JStr "");
                  ("billing", JStr "monthly")];
     errorMsg := None; success := false; error := None |}.

(** The same with an e-mail the browser refuses. *)
Definition typed_bad : SignUpState := set_formData (set_prop "email" (JStr "not-an-email") (formData typed)) typed.

Definition ws0 : World nat (App * SignUpState) :=
  {| server := 0; sent := []; href := None; app := (app0, typed) |}.

Definition ws_bad : World nat (App * SignUpState) :=
  {| server := 0; sent := []; href := None; app := (app0, typed_bad) |}.

Lemma signup_sends_unvalidated_witness :
  Validation.valid (Validation.signupSchema
    {| Validation.sv_email := "a@x.io"; Validation.sv_password := "a"; Validation.sv_confirmPassword := "a";
       Validation.sv_name := "A"; Validation.sv_companyName := "Acme"; Validation.sv_acceptTerms := true |})
    = false /\
  (exists rest, sent (snd (form_submit ok_server true 3 ws0)) = sent ws0 ++ signup_cfg (formData typed) :: rest) /\
  snd (form_submit ok_server true 3 ws_bad) = ws_bad.
Proof.
  split; [vm_compute; reflexivity|]. split.
  - refine (proj2 (signup_sends_unvalidated ok_server true 3 2 ws0 (snd (form_submit ok_server true 3 ws0))
                     eq_refl _) _ _); vm_compute; reflexivity.
  - refine (proj1 (signup_sends_unvalidated ok_server true 3 2 ws_bad (snd (form_submit ok_server true 3 ws_bad))
                     eq_refl _) _); vm_compute; reflexivity.
Defined.

(** A name typed, the terms ticked. *)
Lemma signup_form_typed_witness :
  let s := fold_left (fun s '(n, ty, v, c) => handleChange (input_event (n, ty) v c) s)
             [("fullName", "text", "Ada", false); ("agreeToTerms", "checkbox", "on", true)]
             (init (Some "growth") None) in
  conforms FormDataType (JObj (formData s)) = true /\
  conforms TsTypes.SignUpCredentials (signup_payload (signup_values (formData s))) = true.
Proof. apply signup_form_typed. repeat constructor; simpl; tauto. Defined.

End SignUpWitnesses.
