(* ===== verification/Settings.v ===== *)
(** * The account settings screen

    The handlers of [src/src/components/screens/accountSetting/page.tsx]:
    the effect that copies the fetched profile into the profile form,
    the two change handlers, the profile submission and the password
    submission with its two checks ([Validation.settings_password_check]),
    and the toast of the read-only e-mail field; the four tabs as they
    render (the account tab's avatar reads [profileForm.name]), the
    notification form's native submission and the hard-coded
    subscription card.  [SettingsEvent] lists what can happen on the
    screen and [run_events] runs a sequence of it.  The forms are
    JavaScript objects; [forms_typed] says they have the types
    TypeScript gives them, which holds as long as the fetched profiles
    have the properties the screen reads. *)

From S2P Require Import Prelude JsValue Types Validation HttpClient Mutations AuthFlows Screen.
Import TsTypes Http Mutations AuthFlows Screen Validation.

Module Settings.
Local Open Scope list_scope.

Record SettingsState := {
  activeTab : string;
  profileForm : props;
  passwordForm : props
}.

Definition empty_password_form : props :=
  [("currentPassword", JStr ""); ("newPassword", JStr ""); ("confirmPassword", JStr "")].

Definition init : SettingsState :=
  {| activeTab := "account";
     profileForm := [("name", JStr ""); ("email", JStr ""); ("company", JStr "")];
     passwordForm := empty_password_form |}.

Definition set_profileForm (f : props) (s : SettingsState) : SettingsState :=
  {| activeTab := activeTab s; profileForm := f; passwordForm := passwordForm s |}.
Definition set_passwordForm (f : props) (s : SettingsState) : SettingsState :=
  {| activeTab := activeTab s; profileForm := profileForm s; passwordForm := f |}.
Definition setActiveTab (t : string) (s : SettingsState) : SettingsState :=
  {| activeTab := t; profileForm := profileForm s; passwordForm := passwordForm s |}.

(** A string cell of a form. *)
Definition cell (f : props) (k : string) : string :=
  match get (JObj f) k with JStr v => v | _ => "" end.

(** [useEffect(() => { if (profileData?.data) setProfileForm({...}) }, [profileData])] *)
Definition load_profile (profileData : jsval) (s : SettingsState) : SettingsState :=
  let d := get profileData "data" in
  if truthy d then
    set_profileForm [("name", get d "name"); ("email", get d "email");
                     ("company", js_coalesce (get d "companyName") (JStr ""))] s
  else s.

Definition handleProfileChange (name value : string) (s : SettingsState) : SettingsState :=
  set_profileForm (set_prop name (JStr value) (profileForm s)) s.

Definition handlePasswordChange (name value : string) (s : SettingsState) : SettingsState :=
  set_passwordForm (set_prop name (JStr value) (passwordForm s)) s.

(** The hooks' [error] is not read by this screen. *)
Definition keep_error (_ : option jsval) (s : SettingsState) : SettingsState := s.

(** The types TypeScript gives the two forms from their initial values. *)
Definition ProfileFormType : tstype :=
  TsObject [("name", false, TsString); ("email", false, TsString); ("company", false, TsString)].

Definition PasswordFormType : tstype :=
  TsObject [("currentPassword", false, TsString); ("newPassword", false, TsString);
            ("confirmPassword", false, TsString)].

(** The properties of the fetched user ([IUser], whose file is not in the
    repository) that the screen reads, with the types its form needs. *)
Definition ProfileUser : tstype :=
  TsObject [("name", false, TsString); ("email", false, TsString);
            ("companyName", true, TsUnion TsString TsNull)].

(** Both forms hold values of their types. *)
Definition forms_typed (s : SettingsState) : Prop :=
  conforms ProfileFormType (JObj (profileForm s)) = true /\
  conforms PasswordFormType (JObj (passwordForm s)) = true.

(** [toUpperCase] on an ASCII character. *)
Definition to_upper (c : ascii) : ascii :=
  if is_lower c then ascii_of_nat (nat_of_ascii c - 32) else c.

(** [profileForm.name.substring(0, 2).toUpperCase()], the avatar's
    fallback; reading [substring] of [undefined] or [null] throws. *)
Definition avatar_fallback (name : jsval) : jsval + jsval :=
  match name with
  | JStr n => inl (JStr (string_of_list_ascii (map to_upper (chars (String.substring 0 2 n)))))
  | JUndef | JNull => inr (type_error "substring" name)
  | _ => inr (JObj [("message", JStr "profileForm.name.substring is not a function")])
  end.

(** [subscriptionInfo], hard-coded in the screen. *)
Definition subscriptionInfo : jsval :=
  JObj [("planName", JStr "Business Pro"); ("billingCycle", JStr "Monthly");
        ("nextPaymentDate", JStr "June 15, 2025"); ("paymentMethod", JStr "Visa ending in 4242")].

(** The notification tab's [<form>] has no [onSubmit]: its submit button
    makes the browser submit it, a [GET] of the page's own URL with an
    empty query, which loads the page again from [init]. *)
Definition notifications_submit (pathname : string) : string := pathname +:+ "?".

(** The content of a tab: its texts in order (titles, descriptions,
    labels, the values its text fields show, button captions) and
    whether its submit button is disabled ([None]: no submit button).
    A password field shows its value masked, so it is not a text. *)

(** The account tab; it throws when the avatar's fallback does. *)
Definition account_tab (profilePending : bool) (f : jsval) : (list jsval * option bool) + jsval :=
  match avatar_fallback (get f "name") with
  | inr e => inr e
  | inl a =>
      inl ([JStr "Account Settings"; JStr "Manage your account information and preferences"; a;
            JStr "Change Picture"; JStr "Name"; get f "name"; JStr "Email"; get f "email";
            JStr "Email cannot be changed"; JStr "Company"; get f "company";
            JStr (if profilePending then "Saving..." else "Save Changes")],
           Some profilePending)
  end.

Definition password_tab (passwordPending : bool) : list jsval * option bool :=
  ([JStr "Change Password"; JStr "Update your password to keep your account secure";
    JStr "Current Password"; JStr "New Password"; JStr "Confirm New Password";
    JStr (if passwordPending then "Updating..." else "Update Password")],
   Some passwordPending).

Definition notifications_tab : list jsval * option bool :=
  ([JStr "Notification Settings"; JStr "Manage how you receive notifications";
    JStr "Notification preferences will be available soon."; JStr "Save Preferences"],
   Some false).

Definition subscription_tab : list jsval * option bool :=
  ([JStr "Subscription Details"; JStr "Manage your subscription plan and billing";
    JStr "Current Plan"; get subscriptionInfo "planName";
    JStr "Billing Cycle"; get subscriptionInfo "billingCycle";
    JStr "Next Payment"; get subscriptionInfo "nextPaymentDate";
    JStr "Payment Method"; get subscriptionInfo "paymentMethod";
    JStr "Update Payment Method"; JStr "View Billing History"],
   None).

(** What the screen renders: the heading, the tab list and the content
    of the active tab only (an inactive [TabsContent] is not mounted). *)
Definition view (profilePending passwordPending : bool) (s : SettingsState) : Panel + jsval :=
  let panel (c : list jsval * option bool) :=
    {| heading := "Settings";
       texts := [JStr "Manage your account settings and preferences"; JStr "Account"; JStr "Password";
                 JStr "Notifications"; JStr "Subscription"] ++ c.1;
       alerts := []; links := []; submit_disabled := c.2 |} in
  if String.eqb (activeTab s) "account" then
    match account_tab profilePending (JObj (profileForm s)) with
    | inr e => inr e
    | inl c => inl (panel c)
    end
  else if String.eqb (activeTab s) "password" then inl (panel (password_tab passwordPending))
  else if String.eqb (activeTab s) "notifications" then inl (panel notifications_tab)
  else if String.eqb (activeTab s) "subscription" then inl (panel subscription_tab)
  else inl (panel ([], None)).

(** A profile without a [name] leaves [undefined] in the form, and the
    account tab then throws while rendering. *)
Lemma nameless_profile_crashes d s profilePending passwordPending :
  truthy (get d "data") = true -> get (get d "data") "name" = JUndef -> activeTab s = "account" ->
  exists e, view profilePending passwordPending (load_profile d s) = inr e.
Proof.
  intros Ht Hn Ha. unfold view, account_tab, load_profile. rewrite Ht. simpl. rewrite Ha. simpl.
  change (get (JObj [("name", get (get d "data") "name"); ("email", get (get d "data") "email");
                     ("company", js_coalesce (get (get d "data") "companyName") (JStr ""))]) "name")
    with (get (get d "data") "name").
  rewrite Hn. by eexists.
Qed.

Section Handlers.
Context {Srv : Type}.
Variable serve : Srv -> Config -> Srv * Answer.
Variable in_browser : bool.
Variable fuel : nat.

Abbreviation SW := (World Srv (App * SettingsState)).

(** [updateProfileMutation.mutate({ name, companyName: company })] *)
Definition update_profile_body (f : props) : jsval :=
  JObj [("name", get (JObj f) "name"); ("companyName", get (JObj f) "company")].

Definition handleProfileSubmit : prog SW unit :=
  let! s := page in
  mutate keep_error (updateProfileFn serve in_browser fuel (update_profile_body (profileForm s)))
    updateProfileOnSuccess updateProfileOnError (fun _ => pret tt) (fun _ => pret tt).

Definition change_password_body (f : props) : jsval :=
  JObj [("currentPassword", get (JObj f) "currentPassword");
        ("newPassword", get (JObj f) "newPassword");
        ("confirmPassword", get (JObj f) "confirmPassword")].

Definition handlePasswordSubmit : prog SW unit :=
  let! s := page in
  match settings_password_check (cell (passwordForm s) "newPassword")
                                (cell (passwordForm s) "confirmPassword") with
  | Some m => zoom (modify_app (add_toast (ToastUI "Error" (JStr m) true)))
  | None =>
      mutate keep_error (changePasswordFn serve in_browser fuel (change_password_body (passwordForm s)))
        changePasswordOnSuccess changePasswordOnError
        (fun _ => modify_page (set_passwordForm empty_password_form))
        (fun _ => pret tt)
  end.

(** The [onClick] of the read-only e-mail field. *)
Definition email_click : prog SW unit :=
  zoom (modify_app (add_toast (ToastUI "Email cannot be changed"
    (JStr "Email address is linked to your account and cannot be modified.") false))).

Definition change_cfg (f : props) : Config :=
  {| method := POST; url := "/api/v1/user/change-password"; body := change_password_body f;
     _retry := false |}.

(** With fuel, the first request of the password change is its own. *)
Lemma changePasswordFn_first n f w r w' :
  fuel = S n -> changePasswordFn serve in_browser fuel (change_password_body f) w = (Some r, w') ->
  exists rest, sent w' = sent w ++ change_cfg f :: rest.
Proof.
  intros Hf H. destruct (plain_fn_first serve in_browser fuel n "Updating your password..." (change_cfg f)
    (fun r => Done (response_data r)) w Hf) as [rest Hr].
  exists rest. change (changePasswordFn serve in_browser fuel (change_password_body f) w) with
    (plain_fn serve in_browser fuel "Updating your password..."
       (Axios (change_cfg f) (fun r => Done (response_data r))) w) in H.
  by rewrite H in Hr.
Qed.

(** C35: the password tab checks only that the two new passwords agree
    and have eight characters: when a check fails the screen shows its
    error toast and sends nothing; otherwise its first request is the
    password change with the three typed values, whatever the password
    schema says of the new password. *)
Theorem handlePasswordSubmit_spec n w w' :
  fuel = S n -> handlePasswordSubmit w = (Some tt, w') ->
  let f := passwordForm (snd (app w)) in
  match settings_password_check (cell f "newPassword") (cell f "confirmPassword") with
  | Some m => sent w' = sent w /\
              toasts (fst (app w')) = toasts (fst (app w)) ++ [ToastUI "Error" (JStr m) true]
  | None => exists rest, sent w' = sent w ++ change_cfg f :: rest
  end.
Proof.
  intros Hf H. unfold handlePasswordSubmit in H. pbind_inv H. injection E as <- <-. simpl.
  destruct (settings_password_check _ _) as [m|].
  - by injection H as <-.
  - assert (HS : forall d (w1 : World Srv App) o w2,
              changePasswordOnSuccess d w1 = (Some o, w2) -> sent w2 = sent w1) by by intros d w1 o w2 [= _ <-].
    assert (HE : forall e (w1 : World Srv App) u w2,
              changePasswordOnError e w1 = (Some u, w2) -> sent w2 = sent w1) by by intros e w1 u w2 [= _ <-].
    apply mutate_cases in H as [(d & w1 & Hf1 & Hc)|(e & w1 & Hf1 & Hc)];
      apply zoom_some in Hf1 as (w2 & Hx & ->);
      apply (execute_sent _ _ _ _ _ _ HS HE) in Hx as (r1 & w3 & Hfn & Hs3);
      apply (changePasswordFn_first n _ _ _ _ Hf) in Hfn as [rest Hr];
      exists rest; injection Hc as <-; simpl in *; by rewrite Hs3, Hr.
Qed.

(** What can happen on the screen: the profile query delivers, the user
    types into a field, switches tab, submits a form or clicks the
    e-mail field. *)
Inductive SettingsEvent :=
| EvLoad (profileData : jsval)
| EvProfileChange (name value : string)
| EvPasswordChange (name value : string)
| EvTab (tab : string)
| EvProfileSubmit
| EvPasswordSubmit
| EvEmailClick.

Definition run_event (e : SettingsEvent) : prog SW unit :=
  match e with
  | EvLoad d => modify_page (load_profile d)
  | EvProfileChange n v => modify_page (handleProfileChange n v)
  | EvPasswordChange n v => modify_page (handlePasswordChange n v)
  | EvTab t => modify_page (setActiveTab t)
  | EvProfileSubmit => handleProfileSubmit
  | EvPasswordSubmit => handlePasswordSubmit
  | EvEmailClick => email_click
  end.

Fixpoint run_events (evs : list SettingsEvent) : prog SW unit :=
  match evs with
  | [] => pret tt
  | e :: evs' => let! _ := run_event e in run_events evs'
  end.

(** Every profile the query delivers is an [ApiResponse] of such a user. *)
Definition event_ok (e : SettingsEvent) : Prop :=
  match e with EvLoad d => conforms (ApiResponse ProfileUser) d = true | _ => True end.

(** ** Typing *)

Lemma string_form_set_prop fs ps k v :
  Forall (fun f => f.2 = TsString) fs ->
  conforms (TsObject fs) (JObj ps) = true -> conforms (TsObject fs) (JObj (set_prop k (JStr v) ps)) = true.
Proof.
  intros Hs Hc. apply conforms_set_prop; [done|]. intros opt t Hin.
  rewrite Forall_forall in Hs. pose proof (Hs (k, opt, t) (proj2 (list_elem_of_In _ _) Hin)) as Ht.
  simpl in Ht. by subst.
Qed.

Lemma load_profile_typed d s :
  conforms (ApiResponse ProfileUser) d = true -> forms_typed s -> forms_typed (load_profile d s).
Proof.
  intros Hd [Hp Hw]. unfold load_profile.
  destruct (truthy (get d "data")) eqn:Ht; [|done]. split; [|done].
  destruct d as [| | | | |ps]; try discriminate.
  apply conforms_object in Hd. inversion Hd as [|? ? _ Hd1]; subst.
  inversion Hd1 as [|? ? Hdata _]; subst. cbn -[get conforms] in Hdata.
  destruct Hdata as [Hdata|[_ Hu]]; [|by rewrite Hu in Ht].
  destruct (get (JObj ps) "data") as [| | | | |u]; try discriminate.
  apply conforms_object in Hdata.
  inversion Hdata as [|? ? Hn Hdata1]; subst. inversion Hdata1 as [|? ? He Hdata2]; subst.
  inversion Hdata2 as [|? ? Hc _]; subst. cbn -[get conforms] in Hn, He, Hc.
  destruct Hn as [Hn|[? _]]; [|done]. destruct He as [He|[? _]]; [|done].
  unfold ProfileFormType. cbn [profileForm set_profileForm]. apply conforms_object.
  constructor; [left; exact Hn|]. constructor; [left; exact He|]. constructor; [left|constructor].
  change (conforms TsString (js_coalesce (get (JObj u) "companyName") (JStr "")) = true).
  destruct Hc as [Hc|[_ Hc]]; [|by rewrite Hc].
  destruct (get (JObj u) "companyName"); simpl in Hc |- *; done.
Qed.

Lemma password_submit_typed w r w' :
  forms_typed (snd (app w)) -> handlePasswordSubmit w = (r, w') -> forms_typed (snd (app w')).
Proof.
  intros Hw H. unfold handlePasswordSubmit, pbind, page in H. cbn beta iota in H.
  destruct (settings_password_check _ _).
  - apply zoom_page_eq in H. by rewrite H.
  - refine (mutate_preserves forms_typed _ _ _ _ _ _ _ _ _ _ _ _ Hw H); [by intros| |].
    + intros d w1 r' w2 Hw1 [= _ <-]. split; [apply Hw1|reflexivity].
    + by intros e w1 r' w2 Hw1 [= _ <-].
Qed.

Lemma run_event_typed e w r w' :
  event_ok e -> forms_typed (snd (app w)) -> run_event e w = (r, w') -> forms_typed (snd (app w')).
Proof.
  intros He Hw H. destruct e; simpl in He, H.
  - injection H as _ <-. by apply load_profile_typed.
  - injection H as _ <-. destruct Hw. split; [|done]. by apply string_form_set_prop; [repeat constructor|].
  - injection H as _ <-. destruct Hw. split; [done|]. by apply string_form_set_prop; [repeat constructor|].
  - by injection H as _ <-.
  - unfold handleProfileSubmit, pbind, page in H. cbn beta iota in H.
    refine (mutate_preserves forms_typed _ _ _ _ _ _ _ _ _ _ _ _ Hw H); [by intros| |];
      by intros ? w1 ? w2 ? [= _ <-].
  - by eapply password_submit_typed.
  - apply zoom_page_eq in H. by rewrite H.
Qed.

(** The screen's state stays typed under any sequence of events. *)
Lemma run_events_typed evs w r w' :
  forms_typed (snd (app w)) -> Forall event_ok evs -> run_events evs w = (r, w') ->
  forms_typed (snd (app w')).
Proof.
  intros Hw Hevs. revert w Hw. induction Hevs as [|e evs He _ IH]; intros w Hw H.
  - by injection H as _ <-.
  - simpl in H. unfold pbind in H.
    destruct (run_event e w) as [[[]|] w1] eqn:He1;
      pose proof (run_event_typed e w _ w1 He Hw He1) as Hw1; [by apply (IH w1)|].
    by injection H as _ <-.
Qed.

(** From typed forms: the avatar has its fallback text, and the bodies
    of the two requests have the types [UserService] declares. *)
Lemma forms_typed_sends s :
  forms_typed s ->
  (exists a, avatar_fallback (get (JObj (profileForm s)) "name") = inl a) /\
  conforms UpdateProfileRequest (update_profile_body (profileForm s)) = true /\
  conforms ChangePasswordRequest (change_password_body (passwordForm s)) = true.
Proof.
  intros [Hp Hq].
  pose proof (conforms_field _ _ "name" TsString Hp ltac:(simpl; tauto)) as Hn.
  pose proof (conforms_field _ _ "company" TsString Hp ltac:(simpl; tauto)) as Hc.
  pose proof (conforms_field _ _ "currentPassword" TsString Hq ltac:(simpl; tauto)) as H1.
  pose proof (conforms_field _ _ "newPassword" TsString Hq ltac:(simpl; tauto)) as H2.
  pose proof (conforms_field _ _ "confirmPassword" TsString Hq ltac:(simpl; tauto)) as H3.
  unfold update_profile_body, change_password_body.
  destruct (get (JObj (profileForm s)) "name"); try discriminate.
  destruct (get (JObj (profileForm s)) "company"); try discriminate.
  destruct (get (JObj (passwordForm s)) "currentPassword"); try discriminate.
  destruct (get (JObj (passwordForm s)) "newPassword"); try discriminate.
  destruct (get (JObj (passwordForm s)) "confirmPassword"); try discriminate.
  split; [by eexists|done].
Qed.

(** C36: the settings forms keep their TypeScript types: as long as
    every profile the query delivers has a string [name] and [email]
    (and a string, [null] or no [companyName]), every cell of both forms
    is a string after any sequence of events, whether the calls they
    start settle or not, so the avatar's
    [profileForm.name.substring(0, 2).toUpperCase()] never throws, and
    the bodies of the profile update and the password change are an
    [UpdateProfileRequest] and a [ChangePasswordRequest]. *)
Theorem settings_forms_typed evs w r w' :
  forms_typed (snd (app w)) -> Forall event_ok evs -> run_events evs w = (r, w') ->
  forms_typed (snd (app w')) /\
  (exists a, avatar_fallback (get (JObj (profileForm (snd (app w')))) "name") = inl a) /\
  conforms UpdateProfileRequest (update_profile_body (profileForm (snd (app w')))) = true /\
  conforms ChangePasswordRequest (change_password_body (passwordForm (snd (app w')))) = true.
Proof.
  intros Hw Hevs Hrun. pose proof (run_events_typed evs w r w' Hw Hevs Hrun) as Hw'.
  split; [done|]. by apply forms_typed_sends.
Qed.

End Handlers.

End Settings.

(** ** A weak new password *)

Module SettingsWitnesses.
Import MutationWitnesses AuthFlowsWitnesses Settings.
Local Open Scope list_scope.

Definition weak_form : props :=
  [("currentPassword", JStr "Secret1!"); ("newPassword", JStr "abcdefgh");
   ("confirmPassword", JStr "abcdefgh")].

Definition wset0 : World nat (App * SettingsState) :=
  {| server := 0; sent := []; href := None;
     app := (app0, set_passwordForm weak_form init) |}.

Lemma handlePasswordSubmit_spec_witness :
  valid (passwordSchema "abcdefgh") = false /\
  exists rest, sent (snd (handlePasswordSubmit ok_server true 3 wset0)) =
               sent wset0 ++ change_cfg weak_form :: rest.
Proof.
  split; [vm_compute; reflexivity|].
  refine (handlePasswordSubmit_spec ok_server true 3 2 wset0
            (snd (handlePasswordSubmit ok_server true 3 wset0)) eq_refl _).
  vm_compute. reflexivity.
Defined.

(** A profile that has the properties the screen reads. *)
Definition good_profile : jsval :=
  JObj [("success", JBool true); ("message", JStr "ok");
        ("data", JObj [("name", JStr "ada"); ("email", JStr "ada@example.com"); ("companyName", JNull)])].

Definition settings_events : list SettingsEvent :=
  [EvLoad good_profile; EvProfileChange "company" "Acme"; EvTab "password"; EvPasswordSubmit].

Lemma settings_forms_typed_witness :
  let w' := snd (run_events ok_server true 3 settings_events wset0) in
  forms_typed (snd (app w')) /\
  (exists a, avatar_fallback (get (JObj (profileForm (snd (app w')))) "name") = inl a) /\
  conforms UpdateProfileRequest (update_profile_body (profileForm (snd (app w')))) = true /\
  conforms ChangePasswordRequest (change_password_body (passwordForm (snd (app w')))) = true.
Proof.
  apply (settings_forms_typed ok_server true 3 settings_events wset0
           (fst (run_events ok_server true 3 settings_events wset0))).
  - split; vm_compute; reflexivity.
  - repeat constructor; vm_compute; reflexivity.
  - apply surjective_pairing.
Defined.

End SettingsWitnesses.
