(* ===== verification/LoginPage.v ===== *)
(** * The rest of the login screen

    [src/src/components/screens/auth/LoginForm.tsx] besides its submit
    handler (which is [Mutations.handleSubmit]): the mount effect that
    restores a lockout and the failure count from [localStorage], the
    interval that lifts the lockout, [getRemainingLockoutTime], the
    password visibility toggle and what the screen renders.

    Times are milliseconds; [now] is [Date.now()] when the code runs.
    The stored lockout is read with [Json.JSON_parse] and [new_Date];
    [date_parse] is [Date.parse] on a text, [None] for an invalid date,
    whose comparisons are all false.  [mount_effect] answers the state
    and the lockout end its interval watches, or the error the effect
    throws: the [SyntaxError] of a stored text that is not JSON, or the
    [TypeError] of a stored [null].  [parseInt10] reads the decimal
    digits that open the text after blanks; a text without digits gives
    [NaN], which the model does not store in the count. *)

From S2P Require Import Prelude JsValue Json Validation HttpClient Mutations Screen.
Import Http Mutations Screen.

Module LoginPage.
Local Open Scope list_scope.

(** [getRemainingLockoutTime()] *)
Definition getRemainingLockoutTime (lockoutEndTime : option Z) (now : Z) : string :=
  match lockoutEndTime with
  | None => ""
  | Some t =>
      let diffMs := (t - now)%Z in
      if (diffMs <=? 0)%Z then "" else
      let minutes := (diffMs / 60000)%Z in
      let seconds := ((diffMs mod 60000) / 1000)%Z in
      pretty minutes +:+ ":" +:+ (if (seconds <? 10)%Z then "0" else "") +:+ pretty seconds
  end.

(** [parseInt(s, 10)] on a text that starts with digits. *)
Fixpoint digits_go (acc : nat) (cs : list ascii) : nat :=
  match cs with
  | [] => acc
  | c :: rest =>
      if Validation.is_digit c then digits_go (acc * 10 + (nat_of_ascii c - 48)) rest else acc
  end.

Definition is_blank (c : ascii) : bool :=
  Ascii.eqb c " " || Ascii.eqb c (ascii_of_nat 9) || Ascii.eqb c (ascii_of_nat 10) ||
  Ascii.eqb c (ascii_of_nat 13).

Fixpoint skip_blanks (cs : list ascii) : list ascii :=
  match cs with
  | c :: rest => if is_blank c then skip_blanks rest else cs
  | [] => []
  end.

Definition parseInt10 (s : string) : option nat :=
  match skip_blanks (Validation.chars s) with
  | (c :: _) as cs => if Validation.is_digit c then Some (digits_go 0 cs) else None
  | [] => None
  end.

(** [if (storedAttempts) setFailedAttempts(parseInt(storedAttempts, 10))] *)
Definition read_attempts (a : App) : App :=
  match storage a !! "failed_login_attempts" with
  | Some v =>
      if String.eqb v "" then a
      else match parseInt10 v with
           | Some n => with_form (set_failedAttempts n) a
           | None => a
           end
  | None => a
  end.

(** The state a new [LoginForm] starts from: its [useState] values. *)
Definition initial_form : LoginFormState :=
  {| failedAttempts := 0; isLocked := false; localError := None; lockoutEndTime := None |}.

(** [new Date(v)]: its time value, [None] for an invalid date.  A text
    is parsed; another primitive is converted to a number ([undefined]
    to [NaN], [null] to 0, [true] to 1) and kept within the
    [8.64e15] ms of TimeClip; an object is parsed from its
    [String(v)]. *)
Definition new_Date (date_parse : string -> option Z) (v : jsval) : option Z :=
  let clip t := if (Z.abs t <=? 8640000000000000)%Z then Some t else None in
  match v with
  | JUndef => None
  | JNull => clip 0%Z
  | JBool b => clip (if b then 1 else 0)%Z
  | JNum n => clip n
  | JStr d => date_parse d
  | JObj _ => date_parse (js_string v)
  end.

(** The mount effect: the new state and the lockout end its interval
    watches ([inl]), or the error it throws ([inr]); [None] when the
    stored text is JSON [Json.JSON_parse] does not follow.  A lockout
    still running returns before the count is read. *)
Definition mount_effect (now : Z) (date_parse : string -> option Z) (a : App)
    : option ((App * option Z) + jsval) :=
  match storage a !! "account_lockout" with
  | Some d =>
      if String.eqb d "" then Some (inl (read_attempts a, None))
      else match Json.JSON_parse d with
           | None => None
           | Some (inr err) => Some (inr err)
           | Some (inl JNull) => Some (inr (type_error "lockoutEndTime" JNull))
           | Some (inl lockData) =>
               match new_Date date_parse (get lockData "lockoutEndTime") with
               | Some t =>
                   if (now <? t)%Z then Some (inl (with_form (set_lock true (Some t)) a, Some t))
                   else Some (inl (read_attempts (with_storage (delete "account_lockout") a), None))
               | None => Some (inl (read_attempts (with_storage (delete "account_lockout") a), None))
               end
           end
  | None => Some (inl (read_attempts a, None))
  end.

(** One tick of the interval: once the lockout is over it is lifted, its
    record removed and the interval cleared ([true]). *)
Definition interval_tick (lockoutEnd now : Z) (a : App) : App * bool :=
  if (lockoutEnd <=? now)%Z then
    (with_storage (delete "account_lockout") (with_form (set_lock false None) a), true)
  else (a, false).

(** [togglePasswordVisibility] *)
Definition togglePasswordVisibility (showPassword : bool) : bool := negb showPassword.

(** [type={showPassword ? "text" : "password"}] of the password input. *)
Definition password_type (showPassword : bool) : string := if showPassword then "text" else "password".

(** [disabled={isLocked}] of the two inputs, the eye button and the
    checkbox. *)
Definition fields_disabled (f : LoginFormState) : bool := isLocked f.

(** The checkbox's [onCheckedChange={(checked) => setRememberMe(checked === true)}]. *)
Definition onCheckedChange (checked : jsval) : bool :=
  match checked with JBool true => true | _ => false end.

(** The screen, given the hook's [isPending] and [error] and the clock. *)
Definition view (isPending : bool) (hookError : option jsval) (f : LoginFormState) (now : Z) : Panel :=
  {| heading := "Welcome back";
     texts := [JStr "Enter your credentials to access your account"];
     alerts :=
       if truthy (js_or (opt_val (localError f)) (opt_val hookError)) then
         js_coalesce (opt_val (localError f)) (get (opt_val hookError) "message") ::
         (if isLocked f && bool_decide (is_Some (lockoutEndTime f))
          then [JStr ("Try again in " +:+ getRemainingLockoutTime (lockoutEndTime f) now)] else [])
       else [];
     links := ["/forgot-password"; "/signup"];
     submit_disabled := Some (isPending || isLocked f) |}.

(** ** Lemmas *)

Lemma remaining_split d :
  (0 < d)%Z ->
  (0 <= d / 60000)%Z /\ (0 <= (d mod 60000) / 1000 < 60)%Z /\
  ((d / 60000) * 60000 + ((d mod 60000) / 1000) * 1000 <= d <
   (d / 60000) * 60000 + ((d mod 60000) / 1000) * 1000 + 1000)%Z.
Proof.
  intros Hd.
  pose proof (Z.div_mod d 60000 ltac:(lia)) as H1.
  pose proof (Z.mod_pos_bound d 60000 ltac:(lia)) as H2.
  pose proof (Z.div_mod (d mod 60000) 1000 ltac:(lia)) as H3.
  pose proof (Z.mod_pos_bound (d mod 60000) 1000 ltac:(lia)) as H4.
  assert (0 <= d / 60000)%Z by (apply Z.div_pos; lia).
  assert (0 <= (d mod 60000) / 1000)%Z by (apply Z.div_pos; lia).
  assert ((d mod 60000) / 1000 < 60)%Z by (apply Z.div_lt_upper_bound; lia).
  lia.
Qed.

(** [parseInt] reads what [Number.prototype.toString] writes. *)
Lemma digits_go_read acc s :
  N.of_nat (digits_go acc (Validation.chars s)) = (Json.read_digits (N.of_nat acc) s).1.
Proof.
  revert acc. induction s as [|c s IH]; intros acc; [done|].
  cbn [Validation.chars list_ascii_of_string digits_go Json.read_digits].
  unfold Validation.is_digit, Validation.in_range, Json.digit_value.
  destruct (Nat.leb 48 (nat_of_ascii c) && Nat.leb (nat_of_ascii c) 57); [|done].
  rewrite IH. do 2 f_equal. lia.
Qed.

Lemma digit_not_blank c : is_Some (Json.digit_value c) -> is_blank c = false /\ Validation.is_digit c = true.
Proof. destruct c as [[] [] [] [] [] [] [] []]; intros [? H]; try discriminate H; done. Qed.

Lemma parseInt10_digits u c t :
  u = String c t -> is_Some (Json.digit_value c) -> parseInt10 u = Some (digits_go 0 (Validation.chars u)).
Proof.
  intros -> Hc. unfold parseInt10. cbn [Validation.chars list_ascii_of_string skip_blanks].
  by destruct (digit_not_blank c Hc) as [-> ->].
Qed.

Lemma parseInt10_pretty (n : nat) : parseInt10 (pretty n) = Some n.
Proof.
  destruct (Json.pretty_N_head (N.of_nat n)) as (c & t & Ht & Hc).
  change (pretty n) with (pretty (N.of_nat n)).
  rewrite (parseInt10_digits _ c t Ht Hc). f_equal. apply (inj N.of_nat).
  rewrite digits_go_read. change (N.of_nat 0) with 0%N.
  unfold pretty, pretty_N. case_decide as H0; [by rewrite H0|].
  destruct (Json.read_digits_pretty (N.of_nat n) "" "" 0) as [k Hk].
  rewrite Json.append_empty_str in Hk. rewrite Hk. cbn. lia.
Qed.

Lemma pretty_nonempty (n : nat) : String.eqb (pretty n) "" = false.
Proof.
  unfold pretty, pretty_nat. destruct (Json.pretty_N_head (N.of_nat n)) as (c & t & -> & _). done.
Qed.

(** The stored lockout record parses back to the object the lock wrote. *)
Lemma lockout_json_parse iso :
  Json.JSON_parse (lockout_json iso) = Some (inl (JObj [("lockoutEndTime", JStr iso)])).
Proof.
  unfold lockout_json, Json.JSON_stringify.
  destruct (Json.stringify (JObj [("lockoutEndTime", JStr iso)])) as [t|] eqn:Ht; [|done].
  cbn [js_string]. by rewrite (Json.JSON_parse_stringify (JObj [("lockoutEndTime", JStr iso)]) t eq_refl Ht).
Qed.

Lemma lockout_json_nonempty iso : String.eqb (lockout_json iso) "" = false.
Proof. reflexivity. Qed.

Lemma is_str_eq v s : is_str v s = true -> v = JStr s.
Proof. destruct v; cbn; try done. by intros ->%String.eqb_eq. Qed.

(** The fifth failure with [INVALID_EMAIL_PASSWORD] stores the count
    and the lockout record. *)
Lemma formOnError_lock {Srv} now toISOString failed err (w w' : World Srv App) :
  is_str (get err "code") "INVALID_EMAIL_PASSWORD" = true -> 4 <= failed ->
  formOnError now toISOString failed err w = (Some tt, w') ->
  storage (app w') =
    <["account_lockout" := lockout_json (toISOString (now + 15 * 60 * 1000)%Z)]>
      (<["failed_login_attempts" := pretty (S failed)]> (storage (app w))).
Proof.
  intros Hc Hf. unfold formOnError. rewrite (is_str_eq _ _ Hc).
  do 4 (destruct failed as [|failed]; [lia|]). cbn -[pretty lockout_json]. by intros [= <-].
Qed.

(** A stored lockout that is not JSON, or is [null], makes the mount
    effect throw at every mount, whatever the clock: the effect never
    reaches the [removeItem] that would clear it, so the login screen
    keeps failing to mount until the storage is cleared by hand. *)
Lemma mount_effect_corrupt_record now date_parse a d :
  storage a !! "account_lockout" = Some d -> String.eqb d "" = false ->
  (forall err, Json.JSON_parse d = Some (inr err) -> mount_effect now date_parse a = Some (inr err)) /\
  (Json.JSON_parse d = Some (inl JNull) ->
     mount_effect now date_parse a = Some (inr (type_error "lockoutEndTime" JNull))).
Proof.
  intros Hs Hd. unfold mount_effect. rewrite Hs, Hd.
  split; [intros err ->|intros ->]; reflexivity.
Qed.

(** C23: the lockout survives a remount.  Once the fifth
    [INVALID_EMAIL_PASSWORD] failure has stored the lockout record, a
    new login form mounting before the lockout ends reads the record
    back through [JSON.parse] and [new Date] and is locked until the same
    instant; one mounting after it removes the record and restores the
    failure count.  The one assumption is the guarantee of ECMA-262 that
    [Date.parse] reads back what [toISOString] writes. *)
Theorem lockout_survives_remount {Srv} now toISOString date_parse failed err (w w' : World Srv App) now' :
  is_str (get err "code") "INVALID_EMAIL_PASSWORD" = true -> 4 <= failed ->
  date_parse (toISOString (now + 15 * 60 * 1000)%Z) = Some (now + 15 * 60 * 1000)%Z ->
  formOnError now toISOString failed err w = (Some tt, w') ->
  mount_effect now' date_parse (with_form (fun _ => initial_form) (app w')) =
    Some (inl (if (now' <? now + 15 * 60 * 1000)%Z
               then (with_form (set_lock true (Some (now + 15 * 60 * 1000)%Z))
                       (with_form (fun _ => initial_form) (app w')), Some (now + 15 * 60 * 1000)%Z)
               else (with_form (set_failedAttempts (S failed))
                       (with_storage (delete "account_lockout") (with_form (fun _ => initial_form) (app w'))),
                     None))).
Proof.
  intros Hc Hf Hd Hrun. pose proof (formOnError_lock now toISOString failed err w w' Hc Hf Hrun) as Hs.
  unfold mount_effect. cbn [storage with_form]. rewrite Hs, lookup_insert_eq.
  rewrite lockout_json_nonempty, lockout_json_parse.
  change (get (JObj [("lockoutEndTime", JStr ?x)]) "lockoutEndTime") with (JStr x).
  cbn [new_Date]. rewrite Hd. destruct (now' <? _)%Z; [reflexivity|].
  unfold read_attempts. cbn [storage with_storage with_form].
  rewrite lookup_delete_ne, Hs, lookup_insert_ne, lookup_insert_eq by done.
  by rewrite pretty_nonempty, parseInt10_pretty.
Qed.

(** C38: the bounds of the lockout countdown.  An ended lockout shows
    no time; a running one shows [m:ss], [m] whole minutes and [s] whole
    seconds with [0 <= s < 60], written with two digits, and [m] minutes
    [s] seconds is the time left rounded down to the second.  A lockout
    of at most fifteen minutes, as the fifth failure sets, never shows
    more than [15:00]. *)
Theorem lockout_countdown_bounds t now :
  ((t <= now)%Z -> getRemainingLockoutTime (Some t) now = "") /\
  ((now < t)%Z ->
   exists m s,
     getRemainingLockoutTime (Some t) now =
       pretty m +:+ ":" +:+ (if (s <? 10)%Z then "0" else "") +:+ pretty s /\
     (0 <= m)%Z /\ (0 <= s < 60)%Z /\
     (m * 60000 + s * 1000 <= t - now < m * 60000 + s * 1000 + 1000)%Z /\
     ((t - now <= 15 * 60 * 1000)%Z -> (m <= 15 /\ (m = 15 -> s = 0))%Z)).
Proof.
  unfold getRemainingLockoutTime. split; intros Ht.
  { destruct (Z.leb_spec (t - now) 0); [done|lia]. }
  exists ((t - now) / 60000)%Z, (((t - now) mod 60000) / 1000)%Z.
  destruct (Z.leb_spec (t - now) 0); [lia|].
  split; [done|]. pose proof (remaining_split (t - now) ltac:(lia)). lia.
Qed.

End LoginPage.

Module LoginPageWitnesses.
Import LoginPage.

(** A lockout set at time 0 shows [15:00] at once and [0:01] a second
    before its end. *)
Lemma lockout_countdown_bounds_witness :
  getRemainingLockoutTime (Some 900000%Z) 0 = "15:00" /\
  getRemainingLockoutTime (Some 900000%Z) 899000 = "0:01" /\
  ((900000 <= 900000)%Z -> getRemainingLockoutTime (Some 900000%Z) 900000 = "").
Proof.
  split; [vm_compute; reflexivity|]. split; [vm_compute; reflexivity|].
  exact (proj1 (lockout_countdown_bounds 900000 900000)).
Defined.

(** [toISOString] writes the time value's digits and [Date.parse]
    reads them back; the fifth failure at time 0 locks until 900000. *)
Definition digits_date (d : string) : option Z :=
  match Json.JSON_parse d with Some (inl (JNum n)) => Some n | _ => None end.

Definition bad_login : jsval := JObj [("code", JStr "INVALID_EMAIL_PASSWORD")].

Lemma lockout_survives_remount_witness :
  exists w',
    formOnError 0%Z (fun t => pretty t) 4 bad_login MutationWitnesses.wm0 = (Some tt, w') /\
    mount_effect 60000%Z digits_date (with_form (fun _ => initial_form) (app w')) =
      Some (inl (with_form (set_lock true (Some 900000%Z)) (with_form (fun _ => initial_form) (app w')),
                 Some 900000%Z)).
Proof.
  exists (formOnError 0%Z (fun t => pretty t) 4 bad_login MutationWitnesses.wm0).2.
  split; [reflexivity|].
  apply (lockout_survives_remount 0%Z (fun t => pretty t) digits_date 4 bad_login MutationWitnesses.wm0);
    [reflexivity|lia|vm_compute; reflexivity|reflexivity].
Defined.

End LoginPageWitnesses.
