(* ===== verification/Navigation.v ===== *)
(** * The pricing page, the sidebar, the layouts and the landing page

    Module [PlanPage] is [src/src/components/screens/plan/page.tsx]: the
    three plans as data, the billing toggle with its highlight timer,
    [handlePlanSelect] (the [router.push] of a plan's button), the
    price block of a card and the classes of the animated cards and
    sections.  Module [Sidebar] is
    [src/src/components/shared/sidebar.tsx] (its navigation items,
    [isActive], the analytics toggle, the user footer, the logout
    button, which is [Mutations.useLogout_mutate], and what it renders:
    its classes and entries) and Module [MainLayout]
    [src/src/components/layouts/main-layout.tsx] (the open/close state,
    the events that change it, the overlay and the header).  Module
    [RootLayout] is [src/src/app/(root)/layout.tsx]: [AuthProvider]'s
    profile sync, then the layout.  Modules [Landing] and [AuthLayout]
    are the links of the landing page and of the layout of the auth
    screens.

    Module [Url] reads a URL the way the browser does for a page:
    [pathname] is the text before [?], [searchParams.get(k)] the value
    of the first [k=...] pair of the query.  Percent and [+] decoding
    are not modelled: the URLs built here hold letters only.

    Prices are numbers of dollars with one decimal ([199 * 12 * 0.8]),
    kept as integers of tenths, so they are exact; [toFixed(0)] rounds
    half up.  The floating-point values of the code differ from them by
    less than [1e-9], far from a rounding boundary of the page's
    prices. *)

From S2P Require Import Prelude JsValue Validation RouteGuard HttpClient AuthStore Mutations UiKit Screen SignUp.
Import Http Mutations Screen.

Module Url.
Local Open Scope list_scope.

(** [new URL(u).pathname] and its query. *)
Definition split_url (u : string) : string * string :=
  match Validation.break_first "?" (Validation.chars u) with
  | Some (p, q) => (string_of_list_ascii p, string_of_list_ascii q)
  | None => (u, "")
  end.

(** One [name=value] pair; without [=] the value is empty. *)
Definition pair_of (cs : list ascii) : string * string :=
  match Validation.break_first "=" cs with
  | Some (n, v) => (string_of_list_ascii n, string_of_list_ascii v)
  | None => (string_of_list_ascii cs, "")
  end.

(** [searchParams.get(k)]: the first pair named [k]. *)
Definition search_get (k : string) (q : string) : option string :=
  snd <$> List.find (fun p => String.eqb (fst p) k)
            (map pair_of (List.filter (fun cs => match cs with [] => false | _ => true end)
                                (Validation.split_at "&" (Validation.chars q)))).

(** ** Lemmas *)

Lemma chars_app a b : Validation.chars (a +:+ b) = Validation.chars a ++ Validation.chars b.
Proof. induction a as [|c a IH]; [done|]. simpl. unfold Validation.chars in *. by rewrite IH. Qed.

Lemma break_first_app sep xs ys :
  sep ∉ xs -> Validation.break_first sep (xs ++ sep :: ys) = Some (xs, ys).
Proof.
  induction xs as [|c xs IH]; intros Hn; simpl; [by rewrite Ascii.eqb_refl|].
  apply not_elem_of_cons in Hn as [Hc Hn].
  destruct (Ascii.eqb_spec c sep); [congruence|]. by rewrite IH.
Qed.

Lemma split_at_notin sep xs : sep ∉ xs -> Validation.split_at sep xs = [xs].
Proof.
  induction xs as [|c xs IH]; intros Hn; [done|]. simpl.
  apply not_elem_of_cons in Hn as [Hc Hn].
  destruct (Ascii.eqb_spec c sep); [congruence|]. by rewrite IH.
Qed.

Lemma split_at_app sep xs ys :
  sep ∉ xs -> Validation.split_at sep (xs ++ sep :: ys) = xs :: Validation.split_at sep ys.
Proof.
  induction xs as [|c xs IH]; intros Hn; simpl; [by rewrite Ascii.eqb_refl|].
  apply not_elem_of_cons in Hn as [Hc Hn].
  destruct (Ascii.eqb_spec c sep); [congruence|]. by rewrite IH.
Qed.

(** A path without [?] followed by a query splits back into both. *)
Lemma split_url_app p q :
  "?"%char ∉ Validation.chars p -> split_url (p +:+ "?" +:+ q) = (p, q).
Proof.
  intros Hp. unfold split_url. rewrite !chars_app. simpl.
  rewrite break_first_app by done. by rewrite !string_of_list_ascii_of_string.
Qed.

End Url.

Module PlanPage.
Local Open Scope list_scope.

Inductive Billing := Monthly | Yearly.

#[export] Instance Billing_eq_dec : EqDecision Billing.
Proof. solve_decision. Defined.

Record Cta := { label : string; href : string }.

(** A plan; [monthly] and [yearly] in tenths of a dollar. *)
Record Plan := {
  key : string;
  title : string;
  description : string;
  monthly : option Z;
  yearly : option Z;
  features : list string;
  cta : Cta;
  featured : bool
}.

Definition starter : Plan :=
  {| key := "starter"; title := "Starter";
     description := "Perfect for new TikTok Shops generating under $10k monthly GMV.";
     monthly := Some (199 * 10)%Z; yearly := Some (199 * 12 * 8)%Z;
     features := ["Up to 10k messages per month"; "Basic CRM access";
                  "One free affiliate video"; "Discord customer support"];
     cta := {| label := "Start 7-Day Free Trial"; href := "/signup?plan=starter" |};
     featured := false |}.

Definition growth : Plan :=
  {| key := "growth"; title := "Growth";
     description := "Ideal for TikTok Shops surpassing $10k monthly GMV.";
     monthly := Some (479 * 10)%Z; yearly := Some (479 * 12 * 8)%Z;
     features := ["Unlimited messages, invites & emails"; "Premium CRM access";
                  "Automated Spark code collections"; "AI-powered creator search";
                  "Competitor creator outreach"; "Automated creative briefs";
                  "Social intelligence dashboard"; "AI video generation tools";
                  "Free strategy sessions"; "Advanced reporting"; "Email & WhatsApp support"];
     cta := {| label := "Choose Growth Plan"; href := "/signup?plan=growth" |};
     featured := true |}.

Definition agency : Plan :=
  {| key := "agency"; title := "Agency";
     description := "Scale across multiple TikTok Shops with dedicated support.";
     monthly := None; yearly := None;
     features := ["Unlimited platform access"; "Volume-based discounts";
                  "Dedicated account manager"; "VIP Slack support"];
     cta := {| label := "Contact Sales"; href := "/contact" |};
     featured := false |}.

Definition plans : list Plan := [starter; growth; agency].

Record PlanState := { billing : Billing; highlightYearly : bool }.

Definition init : PlanState := {| billing := Monthly; highlightYearly := false |}.

Definition setBilling (b : Billing) (s : PlanState) : PlanState :=
  {| billing := b; highlightYearly := highlightYearly s |}.
Definition setHighlightYearly (h : bool) (s : PlanState) : PlanState :=
  {| billing := billing s; highlightYearly := h |}.

(** The effect on [billing]: a yearly billing highlights the badge and
    schedules its end after 2000 ms (cleared when billing changes). *)
Definition billing_effect (s : PlanState) : PlanState * option Z :=
  match billing s with
  | Yearly => (setHighlightYearly true s, Some 2000%Z)
  | Monthly => (s, None)
  end.

Definition highlight_timeout (s : PlanState) : PlanState := setHighlightYearly false s.

(** [AnimatedCard] and [FadeInSection]: the mount effect's [setTimeout]
    shows the content once its delay has passed; [t] is the time since
    the page mounted, in milliseconds. *)
Definition visible_after (delay t : Z) : bool := (delay <=? t)%Z.

(** The [index * 200] of [AnimatedCard]. *)
Definition card_delay (index : nat) : Z := (Z.of_nat index * 200)%Z.

(** The [delay]s of the three [FadeInSection]s. *)
Definition fade_delays : list Z := [100%Z; 300%Z; 500%Z].

(** The classes of an [AnimatedCard]: it slides in once visible; the
    featured card has its green border (and an empty badge). *)
Definition card_classes (isVisible featured : bool) : string :=
  "relative overflow-hidden rounded-3xl transition-all duration-700 transform " +:+
  (if isVisible then "translate-y-0 opacity-100" else "translate-y-8 opacity-0") +:+ " " +:+
  (if featured then "shadow-2xl border-green-400 border-2" else "shadow-lg border border-gray-100 hover:shadow-xl").

(** The classes of a [FadeInSection]. *)
Definition fade_classes (isVisible : bool) : string :=
  "transition-all duration-1000 transform " +:+
  (if isVisible then "translate-y-0 opacity-100" else "translate-y-4 opacity-0").

(** Every section and every card is visible at time [t]. *)
Definition page_visible (t : Z) : bool :=
  forallb (fun d => visible_after d t) (fade_delays ++ map card_delay (seq 0 (List.length plans))).

(** [handlePlanSelect]: the route [router.push] goes to. *)
Definition handlePlanSelect (b : Billing) (plan : Plan) : string :=
  if String.eqb (key plan) "agency" then "/contact"
  else
    let billingParam := if bool_decide (b = Yearly) then "&billing=yearly" else "" in
    "/signup?plan=" +:+ key plan +:+ billingParam.

(** [plan[billing]] *)
Definition price (plan : Plan) (b : Billing) : option Z :=
  match b with Monthly => monthly plan | Yearly => yearly plan end.

(** [x.toFixed(0)] for [x] tenths, [x >= 0]. *)
Definition toFixed0 (tenths : Z) : string := pretty ((tenths + 5) / 10)%Z.

(** The pricing block of a card. *)
Definition price_view (b : Billing) (plan : Plan) : list string :=
  match price plan b with
  | Some t =>
      ("$" +:+ toFixed0 t) :: ("/" +:+ (if bool_decide (b = Monthly) then "mo" else "yr")) ::
      match b, monthly plan, yearly plan with
      | Yearly, Some m, Some y => ["Save $" +:+ toFixed0 (m * 12 - y) +:+ " with annual billing"]
      | _, _, _ => []
      end
  | None => ["Custom"]
  end.

Definition card_view (b : Billing) (plan : Plan) : list string :=
  title plan :: (if featured plan then ["Recommended Plan"] else []) ++ [description plan] ++
  price_view b plan ++ features plan ++ [label (cta plan)].

Definition view (s : PlanState) : Panel :=
  {| heading := "Simple & Transparent Pricing";
     texts := map JStr ("Scale your TikTok Shop business with our powerful affiliate management platform" ::
                        List.concat (map (card_view (billing s)) plans));
     alerts := [];
     links := map (handlePlanSelect (billing s)) plans;
     submit_disabled := None |}.

(** ** Lemmas *)

Ltac closed_notin := apply (bool_decide_unpack _); vm_compute; exact I.

(** The query of a plan's URL: [plan] gives the key back, [billing] is
    present only for a yearly billing. *)
Lemma plan_query b k :
  "&"%char ∉ Validation.chars k ->
  let q := "plan=" +:+ k +:+ (if bool_decide (b = Yearly) then "&billing=yearly" else "") in
  Url.search_get "plan" q = Some k /\
  Url.search_get "billing" q = if bool_decide (b = Yearly) then Some "yearly" else None.
Proof.
  intros Hk q. unfold q, Url.search_get. rewrite !Url.chars_app.
  assert (Hp : "&"%char ∉ Validation.chars "plan=" ++ Validation.chars k).
  { apply not_elem_of_app. split; [closed_notin|done]. }
  destruct (bool_decide (b = Yearly)).
  - change (Validation.chars "&billing=yearly") with ("&"%char :: Validation.chars "billing=yearly").
    rewrite app_assoc, Url.split_at_app, Url.split_at_notin by (done || closed_notin).
    simpl. by rewrite string_of_list_ascii_of_string.
  - change (Validation.chars "") with (@nil ascii).
    rewrite app_nil_r, Url.split_at_notin by done.
    simpl. by rewrite string_of_list_ascii_of_string.
Qed.

(** The route of a plan other than Agency, read back: path [/signup]
    and a query that gives the key and the billing period. *)
Lemma plan_select_url b p :
  key p <> "agency" -> "&"%char ∉ Validation.chars (key p) ->
  exists q, Url.split_url (handlePlanSelect b p) = ("/signup", q) /\
    Url.search_get "plan" q = Some (key p) /\
    Url.search_get "billing" q = if bool_decide (b = Yearly) then Some "yearly" else None.
Proof.
  intros Ha Hk. unfold handlePlanSelect.
  rewrite (proj2 (String.eqb_neq _ _) Ha). cbv zeta.
  eexists. split.
  - change ("/signup?plan=" +:+ ?x) with ("/signup" +:+ "?" +:+ ("plan=" +:+ x)).
    apply Url.split_url_app. closed_notin.
  - apply (plan_query b (key p) Hk).
Qed.

(** C20: choosing a plan other than Agency opens the sign-up form on
    that plan: the route pushed has the path [/signup], and the sign-up
    form that reads its query starts with the plan's key and the chosen
    billing period and shows the chip "<title> Plan (Monthly)" or
    "<title> Plan (Yearly)". *)
Theorem plan_select_signup b p :
  In p plans -> key p <> "agency" ->
  let '(path, q) := Url.split_url (handlePlanSelect b p) in
  let s := SignUpPage.init (Url.search_get "plan" q) (Url.search_get "billing" q) in
  path = "/signup" /\
  get (JObj (SignUpPage.formData s)) "plan" = JStr (key p) /\
  get (JObj (SignUpPage.formData s)) "billing" =
    JStr (if bool_decide (b = Yearly) then "yearly" else "monthly") /\
  SignUpPage.plan_chip (Url.search_get "plan" q) (default "monthly" (Url.search_get "billing" q)) =
    Some (title p +:+ " Plan (" +:+ (if bool_decide (b = Yearly) then "Yearly" else "Monthly") +:+ ")").
Proof.
  intros Hin Ha.
  assert (Hk : "&"%char ∉ Validation.chars (key p))
    by (repeat destruct Hin as [<-|Hin]; done || closed_notin).
  destruct (plan_select_url b p Ha Hk) as (q & -> & Hplan & Hbill).
  rewrite Hplan, Hbill. split; [done|].
  repeat destruct Hin as [<-|Hin]; try done; by destruct b.
Qed.

(** C21: what the route guard does with the plan buttons: Agency's
    "Contact Sales" goes to [/contact], a protected path, so a visitor
    without a session is sent to [/login]; the other plans go to
    [/signup], an auth-only path, so a signed-in user is sent to
    [/dashboard] and the chosen plan is dropped. *)
Theorem plan_select_guard b p h :
  In p plans ->
  let r := {| Middleware.pathname := fst (Url.split_url (handlePlanSelect b p));
              Middleware.cookie_header := h |} in
  Middleware.guard r =
    if String.eqb (key p) "agency" then
      (if Middleware.hasValidAuthToken r then Middleware.Next else Middleware.Redirect "/login")
    else (if Middleware.hasValidAuthToken r then Middleware.Redirect "/dashboard" else Middleware.Next).
Proof.
  intros Hin r. unfold r, Middleware.guard, Middleware.middleware.
  repeat destruct Hin as [<-|Hin]; try done; destruct b; cbn -[Middleware.hasValidAuthToken];
    by destruct (Middleware.hasValidAuthToken _).
Qed.

(** The whole page is visible exactly from 500 ms after mounting, when
    the last [FadeInSection] appears (the last card's delay is 400). *)
Lemma page_visible_iff t : page_visible t = true <-> (500 <= t)%Z.
Proof.
  unfold page_visible, visible_after, card_delay. simpl. rewrite !andb_true_iff, !Z.leb_le. lia.
Qed.

(** The "Save 20%" badge is exact, and the yearly price and the saving
    shown add up to twelve monthly payments. *)
Remark yearly_prices_consistent p m y :
  In p plans -> monthly p = Some m -> yearly p = Some y ->
  (y * 10 = m * 12 * 8)%Z /\ ((y + 5) / 10 + (m * 12 - y + 5) / 10 = m * 12 / 10)%Z.
Proof.
  intros Hin Hm Hy. repeat destruct Hin as [<-|Hin]; try done;
    injection Hm as <-; injection Hy as <-; by vm_compute.
Qed.

End PlanPage.

Module Sidebar.
Local Open Scope list_scope.

Record NavItem := { name : string; href : option string; children : list (string * string) }.

Definition navigationItems : list NavItem :=
  [{| name := "Dashboard"; href := Some "/dashboard"; children := [] |};
   {| name := "Creators"; href := Some "/creators"; children := [] |};
   {| name := "Products"; href := Some "/products"; children := [] |};
   {| name := "Analytics"; href := None;
      children := [("Sales Dashboard", "/analytics/sales"); ("Creator Analysis", "/analytics/creators")] |};
   {| name := "Settings"; href := Some "/settings"; children := [] |}].

(** [pathname === item.href] *)
Definition isActive (pathname : string) (item : NavItem) : bool :=
  match href item with Some h => String.eqb pathname h | None => false end.

(** The links shown: the logo, then each item or, while the analytics
    group is open, its children. *)
Definition links (openAnalytics : bool) : list string :=
  "/dashboard" ::
  List.concat (map (fun item =>
    match href item with
    | Some h => [h]
    | None => if openAnalytics then map snd (children item) else []
    end) navigationItems).

(** [user?.name ?? 'User'] and [user?.email ?? 'user@example.com'] *)
Definition footer (user : option props) : jsval * jsval :=
  match user with
  | Some u => (js_coalesce (get (JObj u) "name") (JStr "User"),
               js_coalesce (get (JObj u) "email") (JStr "user@example.com"))
  | None => (JStr "User", JStr "user@example.com")
  end.

Definition toggleAnalytics (openAnalytics : bool) : bool := negb openAnalytics.

(** [handleLogout = () => logout()] *)
Definition handleLogout {Srv} (serve : Srv -> Config -> Srv * Answer) (in_browser : bool) (fuel : nat) :
    prog (World Srv App) unit :=
  useLogout_mutate serve in_browser fuel.

(** [SidebarProps] without the setter, which the events stand for. *)
Record SidebarProps := { sidebarOpen : bool; pathname : string }.

(** The outer [div]: off-screen below [lg] unless the sidebar is open. *)
Definition container_classes (sidebarOpen : bool) : string :=
  Clsx.cn [Clsx.CStr "fixed inset-y-0 left-0 z-50 w-64 transform border-r border-gray-200 bg-white transition-transform duration-300 ease-in-out lg:static lg:translate-x-0";
           Clsx.CStr (if sidebarOpen then "translate-x-0" else "-translate-x-full")].

Definition link_classes (active : bool) : string :=
  Clsx.cn [Clsx.CStr "group flex items-center rounded-md px-3 py-2 text-sm transition";
           Clsx.CStr (if active then "bg-gray-200 text-gray-900 font-semibold"
                      else "text-gray-700 hover:bg-gray-100 hover:font-semibold")].

Definition icon_classes (active : bool) : string :=
  Clsx.cn [Clsx.CStr "mr-3 h-5 w-5 transition";
           Clsx.CStr (if active then "text-gray-900" else "text-gray-500 group-hover:text-gray-700")].

Definition group_classes (openAnalytics : bool) : string :=
  Clsx.cn [Clsx.CStr "group flex w-full items-center justify-between rounded-md px-3 py-2 text-left text-sm transition";
           Clsx.CStr (if openAnalytics then "bg-gray-100 text-gray-900 font-semibold"
                      else "text-gray-700 hover:bg-gray-100 hover:font-semibold")].

Definition chevron_classes (openAnalytics : bool) : string :=
  Clsx.cn [Clsx.CStr "h-4 w-4 transition-transform"; Clsx.CStr (if openAnalytics then "rotate-180" else "rotate-0")].

Definition sub_classes (active : bool) : string :=
  Clsx.cn [Clsx.CStr "block rounded-md px-3 py-1.5 text-sm transition";
           Clsx.CStr (if active then "bg-gray-200 text-gray-900 font-semibold"
                      else "text-gray-600 hover:bg-gray-100 hover:font-semibold")].

(** A rendered entry of the navigation: a [Link] (target, text, classes,
    icon classes for a top-level item), or the group's button (text,
    classes, chevron classes). *)
Inductive Entry :=
| ELink (target text cls : string) (icon : option string)
| EGroup (text cls chevron : string).

(** [navigationItems.map(...)]: an item with [children] is the group's
    button and, while open, its children's links; any other item is a
    link, active when [pathname === item.href]. *)
Definition nav_entries (pathname : string) (openAnalytics : bool) : list Entry :=
  List.concat (map (fun item =>
    match children item with
    | [] => let active := isActive pathname item in
            [ELink (default "" (href item)) (name item) (link_classes active) (Some (icon_classes active))]
    | cs => EGroup (name item) (group_classes openAnalytics) (chevron_classes openAnalytics) ::
            (if openAnalytics
             then map (fun '(n, h) => ELink h n (sub_classes (String.eqb pathname h)) None) cs
             else [])
    end) navigationItems).

(** What [Sidebar] renders: the outer classes, the logo's link, the
    entries, the user's name and e-mail, and the logout button's title. *)
Record SidebarView := {
  sv_class : string;
  sv_logo : string;
  sv_entries : list Entry;
  sv_user : jsval * jsval;
  sv_logout : string
}.

Definition render (p : SidebarProps) (openAnalytics : bool) (user : option props) : SidebarView :=
  {| sv_class := container_classes (sidebarOpen p); sv_logo := "/dashboard";
     sv_entries := nav_entries (pathname p) openAnalytics; sv_user := footer user;
     sv_logout := "Logout" |}.

Definition entry_target (e : Entry) : list string :=
  match e with ELink h _ _ _ => [h] | EGroup _ _ _ => [] end.

(** ** Lemmas *)

(** The links [render] shows are [links]. *)
Lemma render_links p openAnalytics user :
  sv_logo (render p openAnalytics user) ::
    List.concat (map entry_target (sv_entries (render p openAnalytics user))) = links openAnalytics.
Proof. by destruct openAnalytics. Qed.

(** Every link of the sidebar is a protected path: the route guard
    sends a visitor without a session to [/login] and lets a signed-in
    user through. *)
Lemma sidebar_links_guarded openAnalytics l h :
  In l (links openAnalytics) ->
  let r := {| Middleware.pathname := l; Middleware.cookie_header := h |} in
  Middleware.guard r =
    if Middleware.hasValidAuthToken r then Middleware.Next else Middleware.Redirect "/login".
Proof.
  intros Hl r. unfold r, Middleware.guard, Middleware.middleware.
  destruct openAnalytics; simpl in Hl; repeat destruct Hl as [<-|Hl]; try done;
    cbn -[Middleware.hasValidAuthToken]; by destruct (Middleware.hasValidAuthToken _).
Qed.

End Sidebar.

Module MainLayout.
Local Open Scope list_scope.

(** [handleOverlayKeyDown]: Escape, Enter or Space close the sidebar. *)
Definition handleOverlayKeyDown (key : string) (sidebarOpen : bool) : bool :=
  if String.eqb key "Escape" || String.eqb key "Enter" || String.eqb key " " then false
  else sidebarOpen.

(** The state of the layout and of its sidebar. *)
Record LayoutState := { sidebarOpen : bool; openAnalytics : bool }.

Definition init : LayoutState := {| sidebarOpen := false; openAnalytics := true |}.

(** The events the rendered layout wires: the overlay's click and
    keys, the header's menu button, the sidebar's close button and its
    group button. *)
Inductive LayoutEvent :=
| OverlayClick
| OverlayKeyDown (key : string)
| OpenSidebar
| CloseSidebar
| ToggleAnalytics.

Definition step (e : LayoutEvent) (st : LayoutState) : LayoutState :=
  match e with
  | OverlayClick | CloseSidebar => {| sidebarOpen := false; openAnalytics := openAnalytics st |}
  | OverlayKeyDown k =>
      {| sidebarOpen := handleOverlayKeyDown k (sidebarOpen st); openAnalytics := openAnalytics st |}
  | OpenSidebar => {| sidebarOpen := true; openAnalytics := openAnalytics st |}
  | ToggleAnalytics =>
      {| sidebarOpen := sidebarOpen st; openAnalytics := Sidebar.toggleAnalytics (openAnalytics st) |}
  end.

(** What [MainLayout] renders: the overlay while the sidebar is open, the
    sidebar, the header's menu button and the page. *)
Record LayoutView := {
  overlay : bool;
  sidebar : Sidebar.SidebarView;
  menu_button : string
}.

Definition view (st : LayoutState) (pathname : string) (user : option props) : LayoutView :=
  {| overlay := sidebarOpen st;
     sidebar := Sidebar.render {| Sidebar.sidebarOpen := sidebarOpen st; Sidebar.pathname := pathname |}
                  (openAnalytics st) user;
     menu_button := "Open sidebar" |}.

(** ** Lemmas *)

(** The overlay's keys: Escape, Enter and Space close the sidebar, any
    other key leaves the layout as it is. *)
Lemma overlay_keys k st :
  step (OverlayKeyDown k) st =
    if bool_decide (k ∈ ["Escape"; "Enter"; " "]) then {| sidebarOpen := false; openAnalytics := openAnalytics st |}
    else st.
Proof.
  destruct st as [so oa]. unfold step, handleOverlayKeyDown. cbn [sidebarOpen openAnalytics].
  destruct (String.eqb_spec k "Escape") as [->|H1]; [done|].
  destruct (String.eqb_spec k "Enter") as [->|H2]; [done|].
  destruct (String.eqb_spec k " ") as [->|H3]; [done|].
  rewrite bool_decide_false; [done|]. rewrite !elem_of_cons, elem_of_nil. tauto.
Qed.

End MainLayout.

(** [src/src/app/(root)/layout.tsx]: the signed-in pages render inside
    [AuthProvider] and [MainLayout].  [render] is the screen once the
    provider's effect has run on the profile query's result and React
    has rendered again: the store it leaves and the layout, whose
    sidebar reads the store's user. *)
Module RootLayout.

Definition render (q : AuthStore.ProfileQuery) (s : AuthStore.AuthState) (st : MainLayout.LayoutState)
    (pathname : string) : AuthStore.AuthState * MainLayout.LayoutView :=
  let s' := AuthStore.provider_effect q s in
  (s', MainLayout.view st pathname (AuthStore.user s')).

(** Once the profile query has delivered a user with a [name], the
    sidebar's footer shows that name, whatever the store held. *)
Lemma footer_shows_profile_name q s st pathname n :
  AuthStore.q_isSuccess q = true -> get (get (AuthStore.q_data q) "data") "name" = JStr n ->
  (Sidebar.sv_user (MainLayout.sidebar (render q s st pathname).2)).1 = JStr n.
Proof.
  intros Hq Hn. unfold render, AuthStore.provider_effect, AuthStore.syncProfile. rewrite Hq.
  destruct (get (AuthStore.q_data q) "data") as [| | | | |ps] eqn:Hd;
    try (cbn in Hn; discriminate).
  cbn [andb truthy MainLayout.view MainLayout.sidebar Sidebar.render Sidebar.sv_user Sidebar.footer
       AuthStore.setUser AuthStore.user fst snd].
  unfold get at 1. rewrite lookup_spread.
  - cbn [AuthStore.profile_payload lookup_prop]. change (String.eqb "name" "id") with false. change (String.eqb "name" "name") with true. cbn iota beta. rewrite Hn. reflexivity.
  - unfold keys_nodup, AuthStore.profile_payload. cbn [map fst].
    by apply (bool_decide_unpack _).
Qed.

End RootLayout.

(** What a static page renders, in document order: a text, a [Link]
    around a text (or an image's alternative text), or a [button] inside
    a [Link]. *)
Module Markup.
Local Open Scope list_scope.

Inductive Elem :=
| EText (t : string)
| ELink (target t : string)
| EButton (target t : string).

(** The targets of the links, in order. *)
Definition hrefs (es : list Elem) : list string :=
  List.concat (map (fun e => match e with
                             | EText _ => []
                             | ELink h _ => [h]
                             | EButton h _ => [h]
                             end) es).

Lemma hrefs_app a b : hrefs (a ++ b) = hrefs a ++ hrefs b.
Proof. unfold hrefs. by rewrite map_app, concat_app. Qed.

End Markup.

(** [src/src/components/screens/landingPage/landing-page.tsx]: its
    header, hero, feature grid and footer. *)
Module Landing.
Import Markup.
Local Open Scope list_scope.

Definition elements : list Elem :=
  [EText "Affli."; EText "ai";
   ELink "/login" "Login"; ELink "/signup" "Sign Up"; ELink "/plan" "Plan"; ELink "/privacy" "Privacy";
   EText "TikTok Shop Creator Management";
   EText "Automated creator outreach, affiliate tracking, and sales analytics for TikTok Shop sellers";
   EButton "/signup" "Get Started"; EButton "/login" "Login";
   EText "Creator Outreach";
   EText "Automate your TikTok creator outreach with personalized messages and follow-ups";
   EText "Affiliate Tracking"; EText "Track creator performance and commissions with real-time analytics";
   EText "Sales Analytics";
   EText "Comprehensive sales data and insights to optimize your TikTok Shop performance";
   EText "© 2025 Affli.ai. All rights reserved.";
   ELink "/privacy" "Privacy Policy"; ELink "/terms" "Terms of Service"].

(** The links of the header, hero and footer, in order. *)
Definition links : list string := hrefs elements.

End Landing.

(** [src/src/components/layouts/auth-layout.tsx]: the logo, the card
    with the title, the optional description, the screen and the
    optional footer, and the support link, around every auth screen. *)
Module AuthLayout.
Import Markup.
Local Open Scope list_scope.

Record AuthLayoutProps := { title : string; description : option string; footerContent : list Elem }.

(** [{description && ...}]: an empty description is not shown. *)
Definition view (p : AuthLayoutProps) (children : list Elem) : list Elem :=
  [ELink "/" "Brand Logo"; EText (title p)] ++
  (match description p with
   | None => []
   | Some d => if String.eqb d "" then [] else [EText d]
   end) ++
  children ++ footerContent p ++ [EText "Need help?"; ELink "/help" "Contact support"].

(** The logo and the support link. *)
Definition links : list string := ["/"; "/help"].

(** The layout's own links are [links], around those of the screen and
    of its footer. *)
Lemma view_links p children :
  hrefs (view p children) = ["/"] ++ hrefs children ++ hrefs (footerContent p) ++ ["/help"].
Proof.
  unfold view. rewrite !hrefs_app. cbn [hrefs map List.concat app].
  by destruct (description p) as [d|]; [destruct (String.eqb d "")|].
Qed.

End AuthLayout.

(** C31: every link a visitor without a session meets on the sign-up
    form, the landing page and the layout of the auth screens opens its
    page, except "Privacy" ([/privacy], while the public route is
    [/privacy-policy]) and "Contact support" ([/help]), which the route
    guard redirects to [/login]. *)
Theorem visitor_links_guard planParam billingParam isPending s l :
  SignUpPage.success s = false ->
  In l (links (SignUpPage.view planParam billingParam isPending s) ++ Landing.links ++ AuthLayout.links) ->
  Middleware.guard {| Middleware.pathname := l; Middleware.cookie_header := None |} =
    if String.eqb l "/privacy" || String.eqb l "/help" then Middleware.Redirect "/login"
    else Middleware.Next.
Proof.
  intros Hs Hl. unfold SignUpPage.view in Hl. rewrite Hs in Hl. simpl in Hl.
  destruct (SignUpPage.plan_chip planParam billingParam); simpl in Hl;
    repeat destruct Hl as [<-|Hl]; try done; by vm_compute.
Qed.

(** ** Concrete plan choices *)

Module NavigationWitnesses.
Import PlanPage.
Local Open Scope list_scope.

(** The Growth plan, billed yearly. *)
Lemma plan_select_signup_witness :
  let '(path, q) := Url.split_url (handlePlanSelect Yearly growth) in
  let s := SignUpPage.init (Url.search_get "plan" q) (Url.search_get "billing" q) in
  path = "/signup" /\
  get (JObj (SignUpPage.formData s)) "plan" = JStr (key growth) /\
  get (JObj (SignUpPage.formData s)) "billing" =
    JStr (if bool_decide (Yearly = Yearly) then "yearly" else "monthly") /\
  SignUpPage.plan_chip (Url.search_get "plan" q) (default "monthly" (Url.search_get "billing" q)) =
    Some (title growth +:+ " Plan (" +:+ (if bool_decide (Yearly = Yearly) then "Yearly" else "Monthly") +:+ ")").
Proof. apply (plan_select_signup Yearly growth); [simpl; tauto | discriminate]. Defined.

(** A visitor without cookies choosing Agency. *)
Lemma plan_select_guard_witness :
  let r := {| Middleware.pathname := fst (Url.split_url (handlePlanSelect Monthly agency));
              Middleware.cookie_header := None |} in
  Middleware.guard r =
    if String.eqb (key agency) "agency" then
      (if Middleware.hasValidAuthToken r then Middleware.Next else Middleware.Redirect "/login")
    else (if Middleware.hasValidAuthToken r then Middleware.Redirect "/dashboard" else Middleware.Next).
Proof. apply (plan_select_guard Monthly agency None). simpl; tauto. Defined.

(** The sign-up form of a visitor who chose the Growth plan. *)
Lemma visitor_links_guard_witness :
  Middleware.guard {| Middleware.pathname := "/privacy"; Middleware.cookie_header := None |} =
    if String.eqb "/privacy" "/privacy" || String.eqb "/privacy" "/help" then Middleware.Redirect "/login"
    else Middleware.Next.
Proof.
  apply (visitor_links_guard (Some "growth") "yearly" false
           (SignUpPage.init (Some "growth") (Some "yearly")) "/privacy"); [reflexivity | simpl; tauto].
Defined.

End NavigationWitnesses.
