(* ===== verification/ProfileCache.v ===== *)
(** * The profile query's cache across sessions

    [src/src/lib/api/queries/user.ts] gives the profile query (key
    [['profile']]) [staleTime: 5 * 60 * 1000]; the query client of
    [src/src/components/QueryProvider.tsx] lives as long as the tab.
    No logout path touches it: [useLogout] in
    [src/src/lib/api/mutations/auth.ts] only resets the session store,
    and only the profile update invalidates the key.  [AuthProvider]
    ([src/src/context/AuthContext.tsx]) copies [data.data] into the
    session store whenever the query reports success.

    Module [ProfileCache] models the cache entry of the key and what
    [useQuery] reports from it on a mount (react-query's behaviour:
    cached data is reported at once, with [isSuccess]; the entry is
    refetched on mount only when it is stale or invalidated), and the
    events of a tab as steps on the world and the entry ([tab_step]).
    The theorem: a profile fetched in one session is merged into the
    next session's user when the signed-in layout mounts within five
    minutes. *)

From S2P Require Import Prelude JsValue HttpClient AuthStore Mutations AuthFlows.
Import Http AuthStore Mutations AuthFlows.

Module ProfileCache.
Local Open Scope list_scope.

(** [staleTime: 5 * 60 * 1000], in milliseconds. *)
Definition staleTime : Z := 5 * 60 * 1000.

(** The entry of [['profile']] in the query cache. *)
Record CacheEntry := {
  ce_data : jsval;
  ce_updatedAt : Z;
  ce_invalidated : bool
}.

Definition is_stale (now : Z) (e : CacheEntry) : bool :=
  ce_invalidated e || (staleTime <=? now - ce_updatedAt e)%Z.

(** What [useProfileQuery()] reports on the first render of a mount. *)
Definition observe (now : Z) (c : option CacheEntry) : ProfileQuery :=
  match c with
  | Some e => {| q_data := ce_data e; q_error := JNull; q_isLoading := false;
                 q_isFetching := is_stale now e; q_isSuccess := true |}
  | None => {| q_data := JUndef; q_error := JNull; q_isLoading := true;
               q_isFetching := true; q_isSuccess := false |}
  end.

(** A fetch resolved with [d] at [now]. *)
Definition fetched (now : Z) (d : jsval) : option CacheEntry :=
  Some {| ce_data := d; ce_updatedAt := now; ce_invalidated := false |}.

(** [queryClient.invalidateQueries({ queryKey: ['profile'] })]. *)
Definition invalidate (c : option CacheEntry) : option CacheEntry :=
  option_map (fun e => {| ce_data := ce_data e; ce_updatedAt := ce_updatedAt e;
                          ce_invalidated := true |}) c.

(** What happens in a tab, one event at a time. *)
Inductive TabEvent :=
| LoginSucceeded (data : jsval)    (** the login mutation's function resolves: its callbacks run *)
| LogoutSucceeded                  (** [useLogout]'s [onSuccess] *)
| LayoutMounted (now : Z)          (** the signed-in layout mounts *)
| ProfileFetch (now : Z)           (** the profile query fetches *)
| ProfileInvalidated.              (** the profile update's invalidation *)

Section Tab.
Context {Srv : Type}.
Variable serve : Srv -> Config -> Srv * Answer.
Variable in_browser : bool.
Variable fuel : nat.

Abbreviation W := (World Srv App).

(** [AuthProvider]'s effect with what the query reports. *)
Definition sync (q : ProfileQuery) (w : W) : W := (modify_app (with_store (provider_effect q)) w).2.

Definition tab_step (ev : TabEvent) (t : W * option CacheEntry) : W * option CacheEntry :=
  let '(w, c) := t in
  match ev with
  | LoginSucceeded d => ((execute (pret (inl d)) loginOnSuccess loginOnError w).2, c)
  | LogoutSucceeded => ((logoutOnSuccess JUndef w).2, c)
  | LayoutMounted now => (sync (observe now c) w, c)
  | ProfileFetch now =>
      match profileQuery serve in_browser fuel w with
      | (Some (inl d), w1) => let c' := fetched now d in (sync (observe now c') w1, c')
      | (_, w1) => (w1, c)
      end
  | ProfileInvalidated => (w, invalidate c)
  end.

Definition run_tab (evs : list TabEvent) (t : W * option CacheEntry) : W * option CacheEntry :=
  fold_left (fun t ev => tab_step ev t) evs t.

(** ** Lemmas *)

Lemma store_sync q (w : W) : store (app (sync q w)) = provider_effect q (store (app w)).
Proof. reflexivity. Qed.

(** A login response with a [user] is stored by the hook's [onSuccess]. *)
Lemma store_login_resolved d (w : W) :
  nullish (get d "user") = false ->
  store (app (execute (pret (inl d)) loginOnSuccess loginOnError w).2) =
    login (login_payload d (get d "user")) (store (app w)).
Proof.
  intros Hu. unfold execute. rewrite pbind_pret_l. unfold loginOnSuccess, login_user.
  rewrite (dot_get _ _ (get_not_nullish _ _ Hu)), (dot_get _ _ Hu). reflexivity.
Qed.

Lemma login_payload_nodup d u : keys_nodup (login_payload d u).
Proof. unfold keys_nodup. simpl. apply (bool_decide_unpack _). by vm_compute. Qed.

(** Within [staleTime] of its fetch an entry is fresh: a mount reports
    its data and does not refetch. *)
Lemma observe_fresh now e :
  ce_invalidated e = false -> (now - ce_updatedAt e < staleTime)%Z ->
  q_isFetching (observe now (Some e)) = false.
Proof. intros Hi Ht. cbn. unfold is_stale. rewrite Hi. apply Z.leb_gt. lia. Qed.

(** C19: the cached profile crosses sessions.  Let user A's profile
    be fetched at [t0], A log out and B log in (with a response that
    has B's [user]), and the signed-in
    layout mount at [t1] less than five minutes after [t0].  The query
    reports A's cached profile without refetching, and [AuthProvider]
    merges it into B's user: the store is authenticated with B's access
    and refresh tokens but A's id, name and e-mail. *)
Theorem cached_profile_crosses_sessions (w : W) c t0 dA dB t1 :
  fst (profileQuery serve in_browser fuel w) = Some (inl dA) ->
  truthy (get dA "data") = true -> (t1 - t0 < staleTime)%Z -> nullish (get dB "user") = false ->
  let '(w', c') := run_tab [ProfileFetch t0; LogoutSucceeded; LoginSucceeded dB; LayoutMounted t1] (w, c) in
  let u := user_props (store (app w')) in
  q_isFetching (observe t1 c') = false /\
  isAuthenticated (store (app w')) = true /\
  lookup_prop "id" u = Some (get (get dA "data") "_id") /\
  lookup_prop "name" u = Some (get (get dA "data") "name") /\
  lookup_prop "email" u = Some (get (get dA "data") "email") /\
  lookup_prop "accessToken" u = Some (get dB "accessToken") /\
  lookup_prop "refreshToken" u = Some (get dB "refreshToken").
Proof.
  intros Hq Hd Ht Hu. unfold run_tab. cbn [fold_left]. unfold tab_step at 4.
  destruct (profileQuery serve in_browser fuel w) as [r w1]. cbn in Hq. subst r.
  cbn [tab_step]. split; [by apply observe_fresh|]. rewrite store_sync, (store_login_resolved _ _ Hu).
  set (s := login (login_payload dB (get dB "user")) _).
  unfold provider_effect, syncProfile. cbn [observe fetched ce_data q_data q_isSuccess andb].
  rewrite Hd. split; [done|].
  repeat split; rewrite (proj2 (setUser_lookup_eq _ s _ (profile_payload_nodup _) (login_payload_nodup dB _)));
    reflexivity.
Qed.

End Tab.

End ProfileCache.

Module ProfileCacheWitnesses.
Import ProfileCache MutationWitnesses.
Local Open Scope list_scope.

Definition ann_profile : jsval :=
  JObj [("success", JBool true);
        ("data", JObj [("_id", JStr "u1"); ("name", JStr "Ann"); ("email", JStr "a@x.io");
                       ("role", JStr "brand_owner")])].

Definition bob_login : jsval :=
  JObj [("user", JObj [("_id", JStr "u2"); ("email", JStr "b@y.io"); ("role", JStr "admin");
                       ("name", JStr "Bob")]);
        ("accessToken", JStr "tB"); ("refreshToken", JStr "rB")].

(** Answers the profile request with Ann's profile. *)
Definition ann_server (s : nat) (c : Config) : nat * Answer :=
  if String.eqb (url c) "/api/v1/user/me" then (S s, Reply 200 ann_profile)
  else (S s, Reply 200 (JObj [("success", JBool true)])).

(** Ann's profile fetched at 0; Bob signed in and the layout mounted a minute later. *)
Lemma cached_profile_crosses_sessions_witness :
  fst (profileQuery ann_server true 3 wm0) = Some (inl ann_profile) /\
  truthy (get ann_profile "data") = true /\ (60000 - 0 < staleTime)%Z /\
  nullish (get bob_login "user") = false /\
  let '(w', c') := run_tab ann_server true 3
      [ProfileFetch 0; LogoutSucceeded; LoginSucceeded bob_login; LayoutMounted 60000] (wm0, None) in
  let u := user_props (store (app w')) in
  q_isFetching (observe 60000 c') = false /\
  isAuthenticated (store (app w')) = true /\
  lookup_prop "id" u = Some (JStr "u1") /\
  lookup_prop "name" u = Some (JStr "Ann") /\
  lookup_prop "email" u = Some (JStr "a@x.io") /\
  lookup_prop "accessToken" u = Some (JStr "tB") /\
  lookup_prop "refreshToken" u = Some (JStr "rB").
Proof.
  split; [vm_compute; reflexivity|]. split; [reflexivity|]. split; [vm_compute; reflexivity|].
  split; [reflexivity|].
  apply (cached_profile_crosses_sessions ann_server true 3 wm0 None 0 ann_profile bob_login 60000);
    [vm_compute; reflexivity|reflexivity|vm_compute; reflexivity|reflexivity].
Defined.

End ProfileCacheWitnesses.
