(* ===== verification/Tests.v ===== *)
(** * The repository's test suites, run on the model

    The Jest suites under [src/src/__tests__/] state what the code is
    expected to do on concrete inputs.  Each [it] block whose subject is
    modelled is written here as a boolean over the model's definitions
    (its setup, its calls and its [expect]s, in order), and each suite
    has a remark that all its blocks hold, checked by evaluation.  Module
    [Jest] gives the matchers: [toBe] on primitives is equality, and
    [toEqual] on objects compares the defined properties whatever their
    order.  What the suites mock is replaced by the modelled code: the
    middleware suite's [cookie] mock by [Cookie.parse], which agrees with
    it on the suite's headers.  Module [JestSetup] is the environment
    [src/jest.setup.ts] gives every suite: the [axiosInstance] module
    replaced by a mock without interceptor. *)

From S2P Require Import Prelude JsValue Types Validation RouteGuard HttpClient AuthStore Mutations AuthFlows ProfileCache.

Module Jest.
Local Open Scope list_scope.

Fixpoint jsval_eqb (a b : jsval) : bool :=
  match a, b with
  | JUndef, JUndef | JNull, JNull => true
  | JBool x, JBool y => Bool.eqb x y
  | JNum x, JNum y => Z.eqb x y
  | JStr x, JStr y => String.eqb x y
  | JObj ps, JObj qs =>
      (fix go (ps qs : props) : bool :=
         match ps, qs with
         | [], [] => true
         | (k, x) :: ps', (k', y) :: qs' => String.eqb k k' && jsval_eqb x y && go ps' qs'
         | _, _ => false
         end) ps qs
  | _, _ => false
  end.

(** [expect(a).toEqual(b)]: the same defined properties with the same
    values, in any order. *)
Definition toEqual (a b : jsval) : bool :=
  match a, b with
  | JObj ps, JObj qs =>
      forallb (fun k => jsval_eqb (get a k) (get b k)) (map fst ps ++ map fst qs)
  | _, _ => jsval_eqb a b
  end.

End Jest.

(** [src/jest.setup.ts], run before every suite: [axios] is mocked so
    that [axios.create] returns [mockAxiosInstance], and the module
    [src/lib/api/axiosInstance] is replaced by that same object.  Its
    methods are bare [jest.fn()]s and its [interceptors.response.use]
    registers nothing, so a service called in a suite reaches the mock
    directly: no interceptor runs, and a mocked rejection reaches the
    caller as the very value the suite gave. *)
Module JestSetup.
Import Http.
Local Open Scope list_scope.

(** What a [jest.fn()] gives on its next call: a value queued by
    [mockResolvedValueOnce] or [mockRejectedValueOnce]. *)
Inductive Mocked := MockResolved (v : jsval) | MockRejected (e : jsval).

(** A [jest.fn()]: the values queued for its next calls, and the
    arguments of the calls made ([mock.calls]). *)
Record MockFn := { queued : list Mocked; calls : list (list jsval) }.

Definition jest_fn : MockFn := {| queued := []; calls := [] |}.

Definition mockResolvedValueOnce (v : jsval) (f : MockFn) : MockFn :=
  {| queued := queued f ++ [MockResolved v]; calls := calls f |}.
Definition mockRejectedValueOnce (e : jsval) (f : MockFn) : MockFn :=
  {| queued := queued f ++ [MockRejected e]; calls := calls f |}.

(** [jest.clearAllMocks()]: [mockClear] forgets the calls and keeps
    the queued values. *)
Definition mockClear (f : MockFn) : MockFn := {| queued := queued f; calls := [] |}.

(** A call: the first queued value is used up; with none, [jest.fn()]
    returns [undefined]. *)
Definition invoke (args : list jsval) (f : MockFn) : Mocked * MockFn :=
  match queued f with
  | m :: rest => (m, {| queued := rest; calls := calls f ++ [args] |})
  | [] => (MockResolved JUndef, {| queued := []; calls := calls f ++ [args] |})
  end.

(** [mockAxiosInstance]: [get], [post], [put] and [delete] are
    [jest.fn()]; the interceptors' [use] are mocks that register
    nothing, so the object has no interceptor to run. *)
Record MockAxiosInstance := { m_get : MockFn; m_post : MockFn; m_put : MockFn; m_delete : MockFn }.

Definition mockAxiosInstance : MockAxiosInstance :=
  {| m_get := jest_fn; m_post := jest_fn; m_put := jest_fn; m_delete := jest_fn |}.

Definition clearAllMocks (i : MockAxiosInstance) : MockAxiosInstance :=
  {| m_get := mockClear (m_get i); m_post := mockClear (m_post i); m_put := mockClear (m_put i);
     m_delete := mockClear (m_delete i) |}.

Definition method_fn (m : Method) (i : MockAxiosInstance) : MockFn :=
  match m with GET => m_get i | POST => m_post i | PUT => m_put i end.

Definition set_method_fn (m : Method) (f : MockFn) (i : MockAxiosInstance) : MockAxiosInstance :=
  match m with
  | GET => {| m_get := f; m_post := m_post i; m_put := m_put i; m_delete := m_delete i |}
  | POST => {| m_get := m_get i; m_post := f; m_put := m_put i; m_delete := m_delete i |}
  | PUT => {| m_get := m_get i; m_post := m_post i; m_put := f; m_delete := m_delete i |}
  end.

(** The arguments a service passes: [get(url)], [post(url, payload)],
    [put(url, payload)] and [logout]'s [post(url)]; [refreshToken] alone
    adds the request config [{ withCredentials: true }]. *)
Definition call_args (c : Config) : list jsval :=
  match method c, body c with
  | GET, _ | _, JUndef => [JStr (url c)]
  | _, b =>
      [JStr (url c); b] ++
      (if String.eqb (url c) AuthService.refresh_url then [JObj [("withCredentials", JBool true)]] else [])
  end.

(** [response.data] of what the mock resolved with; reading it off
    [undefined] throws. *)
Definition read_data (m : Mocked) : jsval + jsval :=
  match m with
  | MockResolved ((JUndef | JNull) as v) => inr (type_error "data" v)
  | MockResolved v => inl (get v "data")
  | MockRejected e => inr e
  end.

(** A service of the form [(await axiosInstance.m(url, payload)).data]
    (every service is, [service_shape]) run against the mocked module:
    its result, resolved or the value it rejects with, and the mock
    after the call. *)
Definition call_service (t : Async (jsval + ApiError)) (i : MockAxiosInstance)
    : option ((jsval + jsval) * MockAxiosInstance) :=
  match t with
  | Axios cfg _ =>
      let '(m, f) := invoke (call_args cfg) (method_fn (method cfg) i) in
      Some (read_data m, set_method_fn (method cfg) f i)
  | _ => None
  end.

End JestSetup.

(** [src/src/__tests__/lib/validations/schemas.test.ts] *)
Module SchemasTest.
Import Validation.

Definition validEmails : list string :=
  ["test@example.com"; "user.name@domain.co.uk"; "user+tag@example.org";
   "first.last@subdomain.example.com"].

(** [null] and [undefined] are not strings and are left out. *)
Definition invalidEmails : list string := ["plainaddress"; "@missingusername.com"; "username@.com"; ""].

Definition validates_valid_emails : bool := forallb (fun e => valid (emailSchema e)) validEmails.
Definition rejects_invalid_emails : bool := forallb (fun e => negb (valid (emailSchema e))) invalidEmails.
Definition requires_email : bool := existsb (String.eqb "Email is required") (emailSchema "").

Definition validPasswords : list string := ["Password1!"; "Complex@123"; "Str0ng&P@ssword"; "P@ssw0rd123"].
Definition invalidPasswords : list string := ["password123!"; "PASSWORD123!"; "Password!!!!"; "Password1234"].

Definition validates_valid_passwords : bool := forallb (fun p => valid (passwordSchema p)) validPasswords.
Definition rejects_short_password : bool :=
  existsb (String.eqb password_min_msg) (passwordSchema "Short1!").
Definition rejects_missing_characters : bool :=
  forallb (fun p => existsb (String.eqb password_matches_msg) (passwordSchema p)) invalidPasswords.
Definition rejects_empty_password : bool := negb (valid (passwordSchema "")).

Remark schemas_suite_passes :
  forallb id [validates_valid_emails; rejects_invalid_emails; requires_email; validates_valid_passwords;
              rejects_short_password; rejects_missing_characters; rejects_empty_password] = true.
Proof. vm_compute. reflexivity. Qed.

End SchemasTest.

(** [src/src/__tests__/lib/validations/authSchema.test.ts] *)
Module AuthSchemaTest.
Import Validation.

Definition signup (confirmPassword name : string) (acceptTerms : bool) : SignupValues :=
  {| sv_email := "test@example.com"; sv_password := "Password1!"; sv_confirmPassword := confirmPassword;
     sv_name := name; sv_companyName := "Test Company"; sv_acceptTerms := acceptTerms |}.

(** [expect(schema.validate(v)).rejects.toThrow(m)]: [m] is among the errors. *)
Definition throws (m : string) (errors : list string) : bool := existsb (String.eqb m) errors.

Definition validates_valid_signup : bool := valid (signupSchema (signup "Password1!" "Test User" true)).
Definition signup_passwords_must_match : bool :=
  throws "Passwords must match" (signupSchema (signup "DifferentPassword1!" "Test User" true)).
Definition signup_name_too_short : bool :=
  throws "Name must be at least 2 characters" (signupSchema (signup "Password1!" "T" true)).
Definition signup_terms_required : bool :=
  throws "You must accept the Terms and Privacy Policy" (signupSchema (signup "Password1!" "Test User" false)).
Definition validates_valid_login : bool := valid (loginSchema "test@example.com" "Password1!").
Definition login_invalid_email : bool := throws "Invalid email address" (loginSchema "invalid-email" "Password1!").
Definition login_invalid_password : bool := negb (valid (loginSchema "test@example.com" "weak")).
Definition validates_forgot_email : bool := valid (forgotPasswordSchema "test@example.com").
Definition forgot_invalid_email : bool := throws "Invalid email address" (forgotPasswordSchema "invalid-email").
Definition validates_reset : bool := valid (resetPasswordSchema "Password1!" "Password1!").
Definition reset_passwords_must_match : bool :=
  throws "Passwords must match" (resetPasswordSchema "Password1!" "DifferentPassword1!").
Definition reset_weak_password : bool := negb (valid (resetPasswordSchema "weak" "weak")).

Remark auth_schema_suite_passes :
  forallb id [validates_valid_signup; signup_passwords_must_match; signup_name_too_short;
              signup_terms_required; validates_valid_login; login_invalid_email; login_invalid_password;
              validates_forgot_email; forgot_invalid_email; validates_reset; reset_passwords_must_match;
              reset_weak_password] = true.
Proof. vm_compute. reflexivity. Qed.

End AuthSchemaTest.

(** [src/src/__tests__/middleware.test.ts] *)
Module MiddlewareTest.
Import Middleware.

Definition request (path header : string) : NextRequest :=
  {| pathname := path; cookie_header := Some header |}.

Definition is_next (r : NextResponse) : bool := match r with Next => true | Redirect _ => false end.

Definition public_routes : list string := ["/"; "/terms"; "/privacy-policy"; "/plan"].
Definition auth_routes : list string :=
  ["/login"; "/signup"; "/forgot-password"; "/reset-password"; "/verify-email"].

Definition allows_public_routes : bool := forallb (fun p => is_next (middleware (request p ""))) public_routes.
Definition validates_token : bool :=
  is_next (middleware (request "/" "accessToken=valid-token")) &&
  negb (is_next (middleware (request "/dashboard" "otherCookie=value"))).
Definition allows_auth_routes_signed_out : bool :=
  forallb (fun p => is_next (middleware (request p ""))) auth_routes.
Definition redirects_auth_routes_signed_in : bool :=
  forallb (fun p => negb (is_next (middleware (request p "accessToken=valid-token")))) auth_routes.
Definition redirects_protected_signed_out : bool := negb (is_next (middleware (request "/dashboard" ""))).
Definition allows_protected_signed_in : bool :=
  is_next (middleware (request "/dashboard" "accessToken=valid-token")).

Remark middleware_suite_passes :
  forallb id [allows_public_routes; validates_token; allows_auth_routes_signed_out;
              redirects_auth_routes_signed_in; redirects_protected_signed_out; allows_protected_signed_in] = true.
Proof. vm_compute. reflexivity. Qed.

End MiddlewareTest.

(** [src/src/__tests__/stores/useAuthStore.test.ts]: each test starts
    from [logout()] of the previous state. *)
Module AuthStoreTest.
Import AuthStore.
Local Open Scope list_scope.

Definition before_each (s : AuthState) : AuthState := logout s.

Definition test_user : props :=
  [("id", JStr "123"); ("name", JStr "Test User"); ("email", JStr "test@example.com"); ("role", JStr "user")].

Definition full_user : props :=
  test_user ++ [("companyName", JStr "Test Company"); ("picture", JStr "profile.jpg");
                ("accessToken", JStr "access-token"); ("refreshToken", JStr "refresh-token")].

Definition initializes (s : AuthState) : bool :=
  let s := before_each s in
  Jest.jsval_eqb (user_val s) JNull && negb (isAuthenticated s).

Definition logs_in (s : AuthState) : bool :=
  let s := login full_user (before_each s) in
  Jest.toEqual (user_val s) (JObj full_user) && isAuthenticated s.

Definition logs_out (s : AuthState) : bool :=
  let s1 := login test_user (before_each s) in
  let s2 := logout s1 in
  Jest.toEqual (user_val s1) (JObj test_user) && isAuthenticated s1 &&
  Jest.jsval_eqb (user_val s2) JNull && negb (isAuthenticated s2).

Definition updated_user : props :=
  [("id", JStr "123"); ("name", JStr "Updated Name"); ("email", JStr "test@example.com");
   ("role", JStr "user"); ("companyName", JStr "Updated Company")].

Definition updates_user (s : AuthState) : bool :=
  let s := setUser updated_user (login test_user (before_each s)) in
  Jest.toEqual (user_val s) (JObj updated_user) && isAuthenticated s.

Definition updates_role (s : AuthState) : bool :=
  let s := setRole admin (login test_user (before_each s)) in
  Jest.jsval_eqb (get (user_val s) "role") (JStr "admin").

Definition role_needs_user (s : AuthState) : bool :=
  Jest.jsval_eqb (user_val (setRole admin (before_each s))) JNull.

Remark auth_store_suite_passes s :
  forallb (fun t => t s) [initializes; logs_in; logs_out; updates_user; updates_role; role_needs_user] = true.
Proof. vm_compute. reflexivity. Qed.

End AuthStoreTest.

(** [src/src/__tests__/stores/useLoaderStore.test.ts]: each test starts
    from [setState({ isLoading: false, message: undefined })]. *)
Module LoaderStoreTest.
Import LoaderStore.

Definition before_each : LoaderState := {| isLoading := false; loader_message := None |}.

Definition initializes : bool :=
  negb (isLoading before_each) && bool_decide (loader_message before_each = None).
Definition shows_with_message : bool :=
  let s := showLoader (Some "Loading data...") before_each in
  isLoading s && bool_decide (loader_message s = Some "Loading data...").
Definition shows_without_message : bool :=
  let s := showLoader None before_each in isLoading s && bool_decide (loader_message s = None).
Definition hides : bool :=
  let s := hideLoader (showLoader (Some "Loading data...") before_each) in
  negb (isLoading s) && bool_decide (loader_message s = None).
Definition updates_repeatedly : bool :=
  let s1 := showLoader (Some "Processing data...") (showLoader (Some "Loading data...") before_each) in
  let s2 := showLoader (Some "Finishing up...") (hideLoader s1) in
  isLoading s1 && bool_decide (loader_message s1 = Some "Processing data...") &&
  isLoading s2 && bool_decide (loader_message s2 = Some "Finishing up...").

Remark loader_store_suite_passes :
  forallb id [initializes; shows_with_message; shows_without_message; hides; updates_repeatedly] = true.
Proof. vm_compute. reflexivity. Qed.

End LoaderStoreTest.

(** [src/src/__tests__/lib/api/services/authService.test.ts] and
    [userService.test.ts].  The suites mock [axiosInstance.post], [get]
    and [put].  They are run twice: first through the real instance
    against a server giving the mock's answer (a resolved mock is a 2xx
    answer whose body is the mock's [data]; a rejected mock is an answer
    with the mock's status and body, which the interceptor turns into an
    [ApiError]), then as Jest runs them, against [JestSetup]'s mocked
    module, where no interceptor runs. *)
Module ServiceTests.
Import Http.
Local Open Scope list_scope.

Definition mock (st : Z) (body : jsval) (s : nat) (_ : Config) : nat * Answer := (S s, Reply st body).

Definition w0 : World nat unit := {| server := 0; sent := []; href := None; app := tt |}.

Definition run_service (st : Z) (body : jsval) (t : Async (jsval + ApiError)) :
    option (jsval + ApiError) * World nat unit :=
  interp (mock st body) true 3 t w0.

Definition method_eqb (m n : Method) : bool :=
  match m, n with GET, GET | POST, POST | PUT, PUT => true | _, _ => false end.

Definition config_eqb (c d : Config) : bool :=
  method_eqb (method c) (method d) && String.eqb (url c) (url d) &&
  Jest.jsval_eqb (body c) (body d) && Bool.eqb (_retry c) (_retry d).

(** [expect(mock.post).toHaveBeenCalledWith(url, body)] and
    [expect(result).toEqual(mockResponse.data)]. *)
Definition resolves (t : Async (jsval + ApiError)) (m : Method) (u : string) (b data : jsval) : bool :=
  let '(r, w) := run_service 200 data t in
  match r, sent w with
  | Some (inl d), [c] => Jest.toEqual d data && config_eqb c {| method := m; url := u; body := b; _retry := false |}
  | _, _ => false
  end.

(** The [catch] block: [error.response.data.message] and
    [error.response.status] of what the call rejects with. *)
Definition rejects_as_mocked (t : Async (jsval + ApiError)) (st : Z) (data : jsval) : bool :=
  match fst (run_service st data t) with
  | Some (inr e) =>
      let error := Mutations.api_error_obj e in
      Jest.jsval_eqb (get (get (get error "response") "data") "message") (get data "message") &&
      Jest.jsval_eqb (get (get error "response") "status") (JNum st)
  | _ => false
  end.

(** What the rejection does carry: the body's message and the status. *)
Definition rejects_with (t : Async (jsval + ApiError)) (st : Z) (data : jsval) : bool :=
  match fst (run_service st data t) with
  | Some (inr e) =>
      let error := Mutations.api_error_obj e in
      Jest.jsval_eqb (get error "message") (get data "message") && Jest.jsval_eqb (get error "status") (JNum st)
  | _ => false
  end.

Definition failure (m : string) : jsval := JObj [("success", JBool false); ("message", JStr m)].
Definition done_msg (m : string) : jsval := JObj [("success", JBool true); ("message", JStr m)].

Definition login_body : jsval :=
  JObj [("email", JStr "test@example.com"); ("password", JStr "password123"); ("rememberMe", JBool true)].
Definition login_data : jsval :=
  JObj [("success", JBool true);
        ("data", JObj [("user", JObj [("_id", JStr "123"); ("name", JStr "Test User");
                                       ("email", JStr "test@example.com"); ("role", JStr "user")]);
                       ("accessToken", JStr "access-token"); ("refreshToken", JStr "refresh-token")])].
Definition signup_body : jsval :=
  JObj [("name", JStr "Test User"); ("email", JStr "test@example.com"); ("password", JStr "password123");
        ("companyName", JStr "Test Company")].

Definition login_posts : bool :=
  resolves (AuthService.login login_body) POST "/api/v1/auth/login/" login_body login_data.
Definition login_error : bool :=
  rejects_as_mocked (AuthService.login login_body) 401 (failure "Invalid credentials").
Definition signup_posts : bool :=
  resolves (AuthService.signUp signup_body) POST "/api/v1/auth/signup/" signup_body
    (done_msg "User registered successfully").
Definition signup_error : bool :=
  rejects_as_mocked (AuthService.signUp signup_body) 400 (failure "Email already exists").
Definition forgot_posts : bool :=
  resolves (AuthService.forgotPassword (JObj [("email", JStr "test@example.com")])) POST
    "/api/v1/auth/forgot-password/" (JObj [("email", JStr "test@example.com")])
    (done_msg "Password reset email sent").
Definition forgot_error : bool :=
  rejects_as_mocked (AuthService.forgotPassword (JObj [("email", JStr "nonexistent@example.com")])) 404
    (failure "Email not found").
Definition reset_posts : bool :=
  let b := JObj [("token", JStr "reset-token"); ("newPassword", JStr "newpassword123")] in
  resolves (AuthService.resetPassword b) POST "/api/v1/auth/reset-password/" b
    (done_msg "Password reset successful").
Definition reset_error : bool :=
  rejects_as_mocked (AuthService.resetPassword (JObj [("token", JStr "invalid-token");
                                                       ("newPassword", JStr "newpassword123")])) 400
    (failure "Invalid or expired token").
Definition logout_posts : bool :=
  resolves AuthService.logout POST "/api/v1/auth/logout/" JUndef (done_msg "Logged out successfully").
Definition logout_error : bool := rejects_as_mocked AuthService.logout 500 (failure "Logout failed").
Definition verify_posts : bool :=
  let b := JObj [("token", JStr "verification-token")] in
  resolves (AuthService.verifyEmail b) POST "/api/v1/auth/verify-email/" b
    (done_msg "Email verified successfully").
Definition verify_error : bool :=
  rejects_as_mocked (AuthService.verifyEmail (JObj [("token", JStr "invalid-token")])) 400
    (failure "Invalid verification token").
Definition refresh_posts : bool :=
  resolves AuthService.refreshToken POST "/api/v1/auth/refresh-token" (JObj [])
    (JObj [("success", JBool true); ("data", JObj [("accessToken", JStr "new-access-token")]);
           ("message", JStr "Token refreshed successfully")]).
Definition refresh_error : bool :=
  rejects_as_mocked AuthService.refreshToken 401 (failure "Invalid refresh token").

Definition me_data : jsval :=
  JObj [("success", JBool true);
        ("data", JObj [("user", JObj [("_id", JStr "123"); ("name", JStr "Test User");
                                      ("email", JStr "test@example.com"); ("role", JStr "user")])])].
Definition me_gets : bool := resolves UserService.me GET "/api/v1/user/me" JUndef me_data.
Definition me_error : bool := rejects_as_mocked UserService.me 500 (failure "Failed to fetch user profile").
Definition update_body : jsval :=
  JObj [("name", JStr "Updated User"); ("companyName", JStr "Updated Company")].
Definition update_data : jsval :=
  JObj [("success", JBool true); ("message", JStr "Profile updated successfully");
        ("data", JObj [("_id", JStr "123"); ("name", JStr "Updated User");
                       ("email", JStr "test@example.com"); ("companyName", JStr "Updated Company")])].
Definition update_puts : bool := resolves (UserService.updateProfile update_body) PUT "/api/v1/user/profile" update_body update_data.
Definition update_error : bool :=
  rejects_as_mocked (UserService.updateProfile (JObj [("name", JStr "Updated User")])) 400
    (failure "Failed to update profile").
Definition password_body (current : string) : jsval :=
  JObj [("currentPassword", JStr current); ("newPassword", JStr "newPass123");
        ("confirmPassword", JStr "newPass123")].
Definition change_posts : bool :=
  resolves (UserService.changePassword (password_body "oldPass123")) POST "/api/v1/user/change-password"
    (password_body "oldPass123") (done_msg "Password changed successfully").
Definition change_error : bool :=
  rejects_as_mocked (UserService.changePassword (password_body "incorrectOldPass")) 400
    (failure "Current password is incorrect").

(** Every request test holds: each service sends one request to its
    endpoint with its payload and resolves with the response body. *)
Remark service_requests_pass :
  forallb id [login_posts; signup_posts; forgot_posts; reset_posts; logout_posts; verify_posts;
              refresh_posts; me_gets; update_puts; change_posts] = true.
Proof. vm_compute. reflexivity. Qed.

(** Every error test fails against the real instance: the call rejects with
    an [ApiError], which has no [response]; the message and the status
    the tests look for are its [message] and [status]. *)
Remark service_error_tests_fail :
  forallb negb [login_error; signup_error; forgot_error; reset_error; logout_error; verify_error;
                refresh_error; me_error; update_error; change_error] = true /\
  forallb id [rejects_with (AuthService.login login_body) 401 (failure "Invalid credentials");
              rejects_with AuthService.logout 500 (failure "Logout failed");
              rejects_with UserService.me 500 (failure "Failed to fetch user profile")] = true.
Proof. split; vm_compute; reflexivity. Qed.

(** The suites as they run, under [jest.setup.ts]: the services call
    the mocked module.  [toHaveBeenCalledWith] compares the arguments of
    some call with [toEqual]. *)
Fixpoint args_eqb (a b : list jsval) : bool :=
  match a, b with
  | [], [] => true
  | x :: a', y :: b' => Jest.toEqual x y && args_eqb a' b'
  | _, _ => false
  end.

Definition prepared (m : Method) (mk : JestSetup.MockFn -> JestSetup.MockFn) : JestSetup.MockAxiosInstance :=
  let i := JestSetup.clearAllMocks JestSetup.mockAxiosInstance in
  JestSetup.set_method_fn m (mk (JestSetup.method_fn m i)) i.

(** [mock.m.mockResolvedValueOnce({ data })], the call, then its two
    [expect]s. *)
Definition resolves_in_setup (t : Async (jsval + ApiError)) (m : Method) (args : list jsval) (data : jsval)
    : bool :=
  match JestSetup.call_service t (prepared m (JestSetup.mockResolvedValueOnce (JObj [("data", data)]))) with
  | Some (inl d, i') => Jest.toEqual d data && existsb (args_eqb args) (JestSetup.calls (JestSetup.method_fn m i'))
  | _ => false
  end.

(** [mockError = { response: { data, status, ... } }] with the fields
    the [catch] blocks read. *)
Definition mock_error (st : Z) (data : jsval) : jsval :=
  JObj [("response", JObj [("data", data); ("status", JNum st)])].

Definition rejects_in_setup (t : Async (jsval + ApiError)) (m : Method) (st : Z) (data : jsval) : bool :=
  match JestSetup.call_service t (prepared m (JestSetup.mockRejectedValueOnce (mock_error st data))) with
  | Some (inr error, _) =>
      Jest.jsval_eqb (get (get (get error "response") "data") "message") (get data "message") &&
      Jest.jsval_eqb (get (get error "response") "status") (JNum st)
  | _ => false
  end.

(** Under the setup every block of both suites holds, the error tests
    included: the rejection they catch is their own [mockError], which
    no interceptor has turned into an [ApiError]. *)
Remark service_suites_pass_in_setup :
  forallb id
    [resolves_in_setup (AuthService.login login_body) POST [JStr "/api/v1/auth/login/"; login_body] login_data;
     rejects_in_setup (AuthService.login login_body) POST 401 (failure "Invalid credentials");
     resolves_in_setup (AuthService.signUp signup_body) POST [JStr "/api/v1/auth/signup/"; signup_body]
       (done_msg "User registered successfully");
     rejects_in_setup (AuthService.signUp signup_body) POST 400 (failure "Email already exists");
     resolves_in_setup (AuthService.forgotPassword (JObj [("email", JStr "test@example.com")])) POST
       [JStr "/api/v1/auth/forgot-password/"; JObj [("email", JStr "test@example.com")]]
       (done_msg "Password reset email sent");
     rejects_in_setup (AuthService.forgotPassword (JObj [("email", JStr "nonexistent@example.com")])) POST 404
       (failure "Email not found");
     resolves_in_setup (AuthService.resetPassword (JObj [("token", JStr "reset-token");
                                                         ("newPassword", JStr "newpassword123")])) POST
       [JStr "/api/v1/auth/reset-password/";
        JObj [("token", JStr "reset-token"); ("newPassword", JStr "newpassword123")]]
       (done_msg "Password reset successful");
     rejects_in_setup (AuthService.resetPassword (JObj [("token", JStr "invalid-token");
                                                        ("newPassword", JStr "newpassword123")])) POST 400
       (failure "Invalid or expired token");
     resolves_in_setup AuthService.logout POST [JStr "/api/v1/auth/logout/"] (done_msg "Logged out successfully");
     rejects_in_setup AuthService.logout POST 500 (failure "Logout failed");
     resolves_in_setup (AuthService.verifyEmail (JObj [("token", JStr "verification-token")])) POST
       [JStr "/api/v1/auth/verify-email/"; JObj [("token", JStr "verification-token")]]
       (done_msg "Email verified successfully");
     rejects_in_setup (AuthService.verifyEmail (JObj [("token", JStr "invalid-token")])) POST 400
       (failure "Invalid verification token");
     resolves_in_setup AuthService.refreshToken POST
       [JStr "/api/v1/auth/refresh-token"; JObj []; JObj [("withCredentials", JBool true)]]
       (JObj [("success", JBool true); ("data", JObj [("accessToken", JStr "new-access-token")]);
              ("message", JStr "Token refreshed successfully")]);
     rejects_in_setup AuthService.refreshToken POST 401 (failure "Invalid refresh token");
     resolves_in_setup UserService.me GET [JStr "/api/v1/user/me"] me_data;
     rejects_in_setup UserService.me GET 500 (failure "Failed to fetch user profile");
     resolves_in_setup (UserService.updateProfile update_body) PUT [JStr "/api/v1/user/profile"; update_body]
       update_data;
     rejects_in_setup (UserService.updateProfile (JObj [("name", JStr "Updated User")])) PUT 400
       (failure "Failed to update profile");
     resolves_in_setup (UserService.changePassword (password_body "oldPass123")) POST
       [JStr "/api/v1/user/change-password"; password_body "oldPass123"] (done_msg "Password changed successfully");
     rejects_in_setup (UserService.changePassword (password_body "incorrectOldPass")) POST 400
       (failure "Current password is incorrect")] = true.
Proof. vm_compute. reflexivity. Qed.

End ServiceTests.

(** [src/src/__tests__/lib/api/axiosInstance.test.ts]: the suite calls
    the interceptor's handlers directly, with [AuthService] auto-mocked
    (a method without a mocked value resolves with [undefined]).  Here
    the handler is [onRejected] run against a server that answers the
    refresh and logout endpoints as the mocks do ([Reply 200 v] for a
    resolved [v], [NetworkError] for a rejection) and any other request
    as [axiosInstance.request] is mocked. *)
Module InterceptorTests.
Import Http.
Local Open Scope list_scope.

Definition mocks (refresh logout other : Answer) (s : nat) (c : Config) : nat * Answer :=
  if String.eqb (url c) AuthService.refresh_url then (S s, refresh)
  else if String.eqb (url c) AuthService.logout_url then (S s, logout)
  else (S s, other).

(** [jest.fn()] of an auto-mocked method: resolves with [undefined]. *)
Definition auto_mock : Answer := Reply 200 JUndef.

Definition w0 : World nat unit := {| server := 0; sent := []; href := None; app := tt |}.

Definition run_handler (srv : nat -> Config -> nat * Answer) (err : AxiosError) :
    option outcome * World nat unit :=
  interp srv true 3 (onRejected true err) w0.

Definition called (u : string) (w : World nat unit) : bool := existsb (fun c => String.eqb (url c) u) (sent w).
Definition at_login (w : World nat unit) : bool :=
  match href w with Some h => String.eqb h "/login" | None => false end.
Definition rejected (r : option outcome) : bool := match r with Some (inr _) => true | _ => false end.

Definition test_cfg (retry : bool) : Config := {| method := GET; url := "/test"; body := JUndef; _retry := retry |}.
(** [config: {}]: no url, [_retry] undefined. *)
Definition empty_cfg : Config := {| method := GET; url := ""; body := JUndef; _retry := false |}.

Definition error401 (c : Config) (code : string) : AxiosError :=
  {| response := Some {| status := 401; data := JObj [("errorCode", JStr code); ("message", JStr "Token expired")] |};
     config := c |}.

Definition success_handler_passes : bool :=
  match fst (interp (mocks auto_mock auto_mock (Reply 200 (JObj [("success", JBool true)]))) true 3
               (pipeline true (test_cfg false)) w0) with
  | Some (inl r) => Z.eqb (status r) 200 && Jest.toEqual (data r) (JObj [("success", JBool true)])
  | _ => false
  end.

Definition refreshes_on_token_expired : bool :=
  let '(_, w) := run_handler (mocks (Reply 200 (JObj [("success", JBool true);
                                                      ("data", JObj [("accessToken", JStr "new-token")])]))
                                    auto_mock (Reply 200 (JStr "success")))
                             (error401 (test_cfg false) "TOKEN_EXPIRED") in
  called AuthService.refresh_url w && existsb (fun c => String.eqb (url c) "/test" && _retry c) (sent w).

Definition refresh_failure_logs_out : bool :=
  let '(r, w) := run_handler (mocks NetworkError auto_mock auto_mock) (error401 (test_cfg false) "TOKEN_EXPIRED") in
  rejected r && called AuthService.refresh_url w && called AuthService.logout_url w && at_login w.

Definition no_retry_when_retried : bool :=
  let '(r, w) := run_handler (mocks auto_mock auto_mock auto_mock) (error401 (test_cfg true) "TOKEN_EXPIRED") in
  rejected r && negb (called AuthService.refresh_url w) && called AuthService.logout_url w && at_login w.

Definition logs_out_on_invalid_token : bool :=
  let '(r, w) := run_handler (mocks auto_mock auto_mock auto_mock) (error401 empty_cfg "INVALID_TOKEN") in
  rejected r && called AuthService.logout_url w && at_login w.

Definition passes_regular_errors : bool :=
  let '(r, w) := run_handler (mocks auto_mock auto_mock auto_mock)
                   {| response := Some {| status := 500; data := JObj [("message", JStr "Server error")] |};
                      config := empty_cfg |} in
  rejected r && negb (called AuthService.refresh_url w) && negb (called AuthService.logout_url w).

Definition network_error : AxiosError := {| response := None; config := empty_cfg |}.

Definition handles_network_errors : bool :=
  let '(r, w) := run_handler (mocks auto_mock auto_mock auto_mock) network_error in
  rejected r && negb (called AuthService.refresh_url w) && negb (called AuthService.logout_url w).

Definition handles_session_expiration : bool :=
  let '(r, w) := run_handler (mocks auto_mock (Reply 200 (JObj [("success", JBool true);
                                                                  ("message", JStr "Logged out successfully")]))
                                    auto_mock) (error401 (test_cfg true) "TOKEN_EXPIRED") in
  rejected r && called AuthService.logout_url w && at_login w.

Definition network_error_format : bool :=
  let '(r, w) := run_handler (mocks auto_mock auto_mock auto_mock) network_error in
  match r with
  | Some (inr e) =>
      let obj := Mutations.api_error_obj e in
      Jest.jsval_eqb (get obj "success") (JBool false) && Jest.jsval_eqb (get obj "status") (JNum 500) &&
      negb (Jest.jsval_eqb (get obj "message") JUndef) && negb (called AuthService.refresh_url w)
  | _ => false
  end.

Remark interceptor_suite_passes :
  forallb id [success_handler_passes; refreshes_on_token_expired; refresh_failure_logs_out;
              no_retry_when_retried; logs_out_on_invalid_token; passes_regular_errors;
              handles_network_errors; handles_session_expiration; network_error_format] = true.
Proof. vm_compute. reflexivity. Qed.

(** The INVALID_TOKEN test passes although its name says the session
    ends at once: the interceptor calls the refresh endpoint first, and
    the auto-mocked refresh resolving with [undefined] is what makes it
    log out. *)
Remark invalid_token_refreshes_first :
  map url (sent (snd (run_handler (mocks auto_mock auto_mock auto_mock) (error401 empty_cfg "INVALID_TOKEN")))) =
    [AuthService.refresh_url; AuthService.logout_url].
Proof. vm_compute. reflexivity. Qed.

End InterceptorTests.

(** [src/src/__tests__/lib/api/mutations/auth.test.ts]: the suite mocks
    the stores, the toasts, the router and [AuthService]; here a hook's
    [mutate] runs on the application state against a server giving the
    mocked service's answer (a rejection with [new Error(m)] is an error
    answer whose body's message is [m]).  [showLoader] having been
    called with [msg] is observed while the request is in flight: the
    hook's function run with no nesting fuel stops at its service call,
    and the loader then shows [msg]. *)
Module MutationTests.
Import Http LoaderStore Mutations AuthFlows MutationWitnesses.
Local Open Scope list_scope.

Abbreviation Hook := ((nat -> Http.Config -> nat * Http.Answer) -> bool -> nat -> @MutationOptions nat).

Definition run (h : Hook) (st : Z) (b v : jsval) : World nat App :=
  snd (mutate (h (ServiceTests.mock st b) true 3) v noop noop wm0).

Definition shows_loader (h : Hook) (v : jsval) (msg : string) : bool :=
  let a := app (snd (mutationFn (h (ServiceTests.mock 200 JUndef) true 0) v wm0)) in
  isLoading (loader a) && bool_decide (loader_message (loader a) = Some msg).

Definition hides_loader (w : World nat App) : bool := negb (isLoading (loader (app w))).

Definition toast_eqb (t u : Toast) : bool :=
  match t, u with
  | ToastSuccess m, ToastSuccess n | ToastError m, ToastError n => Jest.jsval_eqb m n
  | ToastUI a m d, ToastUI b n e => String.eqb a b && Jest.jsval_eqb m n && Bool.eqb d e
  | _, _ => false
  end.

(** [expect(mockToast...).toHaveBeenCalledWith(...)], the one toast shown. *)
Definition toasted (w : World nat App) (t : Toast) : bool :=
  match toasts (app w) with [u] => toast_eqb u t | _ => false end.

Definition sent_to (w : World nat App) (u : string) (b : jsval) : bool :=
  match sent w with [c] => String.eqb (Http.url c) u && Jest.toEqual (Http.body c) b | _ => false end.

Definition ok_body (m : string) : jsval := JObj [("success", JBool true); ("message", JStr m)].
Definition failed_body (m : string) : jsval := JObj [("success", JBool false); ("message", JStr m)].

Definition login_hook : Hook := fun srv b f => useLoginMutation srv b f.
Definition user_data : jsval :=
  JObj [("user", JObj [("_id", JStr "123"); ("email", JStr "user@example.com"); ("role", JStr "user");
                       ("name", JStr "User Name")]);
        ("accessToken", JStr "access-token"); ("refreshToken", JStr "refresh-token")].
Definition login_values (remember : bool) : jsval :=
  JObj ([("email", JStr "user@example.com"); ("password", JStr "password123")] ++
        if remember then [("rememberMe", JBool true)] else []).

Definition login_calls_service : bool :=
  let w := run login_hook 200 (JObj [("success", JBool true); ("data", user_data)]) (login_values true) in
  shows_loader login_hook (login_values true) "Signing in..." &&
  sent_to w "/api/v1/auth/login/" (login_values true).

Definition login_succeeds : bool :=
  let w := run login_hook 200 (JObj [("success", JBool true); ("data", user_data)]) (login_values false) in
  hides_loader w &&
  Jest.toEqual (AuthStore.user_val (store (app w)))
    (JObj [("id", JStr "123"); ("email", JStr "user@example.com"); ("role", JStr "user");
           ("name", JStr "User Name"); ("accessToken", JStr "access-token");
           ("refreshToken", JStr "refresh-token")]) &&
  toasted w (ToastSuccess (JStr "Login successful!")) && bool_decide (pushed (app w) = ["/dashboard"]).

Definition login_fails_with_message : bool :=
  let w := run login_hook 200 (failed_body "Invalid credentials") (login_values false) in
  hides_loader w && toasted w (ToastError (JStr "Invalid credentials")).

Definition login_api_error : bool :=
  let w := run login_hook 500 (JObj [("message", JStr "Network error")]) (login_values false) in
  hides_loader w && toasted w (ToastError (JStr "Network error")).

Definition signup_hook : Hook := fun srv b f => useSignupMutation srv b f.
Definition signup_values : jsval :=
  JObj [("name", JStr "User Name"); ("email", JStr "user@example.com"); ("password", JStr "password123");
        ("companyName", JStr "Company Inc.")].

Definition signup_calls_service : bool :=
  shows_loader signup_hook signup_values "Signing up..." &&
  sent_to (run signup_hook 200 (ok_body "User registered successfully") signup_values)
    "/api/v1/auth/signup/" signup_values.
Definition signup_succeeds : bool :=
  let w := run signup_hook 200 (ok_body "User registered successfully") signup_values in
  hides_loader w && toasted w (ToastSuccess (JStr "User registered successfully")).
Definition signup_fails : bool :=
  let w := run signup_hook 200 (failed_body "Email already exists") signup_values in
  hides_loader w && toasted w (ToastError (JStr "Email already exists")).

Definition forgot_hook : Hook := fun srv b f => useForgotPasswordMutation srv b f.
Definition email_value : jsval := JObj [("email", JStr "user@example.com")].

Definition forgot_succeeds : bool :=
  let w := run forgot_hook 200 (ok_body "Password reset link sent to your email") email_value in
  shows_loader forgot_hook email_value "Sending Email..." &&
  sent_to w "/api/v1/auth/forgot-password/" email_value && hides_loader w &&
  toasted w (ToastSuccess (JStr "Password reset link sent to your email")).
Definition forgot_fails : bool :=
  let v := JObj [("email", JStr "nonexistent@example.com")] in
  let w := run forgot_hook 200 (failed_body "User not found") v in
  hides_loader w && toasted w (ToastError (JStr "User not found")).

Definition reset_hook : Hook := fun srv b f => useResetPasswordMutation srv b f.
Definition reset_values (tok : string) : jsval :=
  JObj [("token", JStr tok); ("newPassword", JStr "newpassword123")].

Definition reset_succeeds : bool :=
  let v := reset_values "valid-reset-token" in
  let w := run reset_hook 200 (ok_body "Password has been reset successfully") v in
  shows_loader reset_hook v "Resetting..." && sent_to w "/api/v1/auth/reset-password/" v &&
  hides_loader w && toasted w (ToastSuccess (JStr "Password has been reset successfully")).
Definition reset_fails : bool :=
  let w := run reset_hook 200 (failed_body "Invalid or expired token") (reset_values "invalid-token") in
  hides_loader w && toasted w (ToastError (JStr "Invalid or expired token")).

Definition logout_hook : Hook := fun srv b f => useLogout srv b f.

Definition logout_calls_service : bool :=
  shows_loader logout_hook JUndef "Signing out..." &&
  sent_to (run logout_hook 200 (ok_body "Logged out successfully") JUndef) "/api/v1/auth/logout/" JUndef.
Definition logout_succeeds : bool :=
  let w := run logout_hook 200 (ok_body "Logged out successfully") JUndef in
  hides_loader w && Jest.jsval_eqb (AuthStore.user_val (store (app w))) JNull &&
  toasted w (ToastSuccess (JStr "Logged out successfully")) && bool_decide (pushed (app w) = ["/login"]).
Definition logout_fails : bool :=
  let w := run logout_hook 200 (failed_body "Network error") JUndef in
  hides_loader w && toasted w (ToastError (JStr "Network error")).

Definition verify_hook : Hook := fun srv b f => useVerifyEmailMutation srv b f.

Definition verify_succeeds : bool :=
  let v := JStr "verification-token" in
  let w := run verify_hook 200 (ok_body "Email verified successfully") v in
  shows_loader verify_hook v "Verifying email..." &&
  sent_to w "/api/v1/auth/verify-email/" (JObj [("token", v)]) && hides_loader w &&
  toasted w (ToastSuccess (JStr "Email verified successfully")).
Definition verify_fails : bool :=
  let w := run verify_hook 200 (failed_body "Invalid or expired verification token") (JStr "invalid-token") in
  hides_loader w && toasted w (ToastError (JStr "Invalid or expired verification token")).
Definition verify_default_message : bool :=
  toasted (run verify_hook 200 (JObj [("success", JBool true)]) (JStr "verification-token"))
    (ToastSuccess (JStr "Email verified successfully")).

(** [src/src/__tests__/lib/api/mutations/user.test.ts].  A rejected
    mock carrying [response.data] is the error answer with that body; the
    suite's [mockError] also has its own [message], which an [ApiError]
    built by the interceptor never has. *)
Definition update_hook : Hook := fun srv b f => useUpdateProfileMutation srv b f.
Definition update_data : jsval := JObj [("name", JStr "Test User"); ("companyName", JStr "Test Company")].
Definition update_ok : jsval :=
  JObj [("success", JBool true); ("message", JStr "Profile updated successfully");
        ("data", JObj [("id", JStr "1"); ("name", JStr "Test User")])].

Definition update_shows_loader : bool := shows_loader update_hook update_data "Updating your profile...".
Definition update_calls_service : bool :=
  sent_to (run update_hook 200 update_ok update_data) "/api/v1/user/profile" update_data.
Definition update_hides_loader : bool := hides_loader (run update_hook 200 update_ok update_data).
Definition update_success_toast : bool :=
  toasted (run update_hook 200 update_ok update_data)
    (ToastUI "Success" (JStr "Profile updated successfully") false).
Definition update_invalidates : bool :=
  bool_decide (invalidated (app (run update_hook 200 update_ok update_data)) = [["profile"]]).
Definition update_error_toast : bool :=
  toasted (run update_hook 400 (JObj [("message", JStr "Failed to update profile")]) update_data)
    (ToastUI "Error" (JStr "Failed to update profile. Please try again.") true).
Definition update_generic_error : bool :=
  toasted (run update_hook 500 (JObj [("message", JStr "Network error")]) update_data)
    (ToastUI "Error" (JStr "Network error") true).
Definition update_hides_loader_on_failure : bool :=
  hides_loader (run update_hook 500 (JObj [("message", JStr "Test error")]) update_data).

Definition change_hook : Hook := fun srv b f => useChangePasswordMutation srv b f.
Definition password_data : jsval :=
  JObj [("currentPassword", JStr "oldPass123"); ("newPassword", JStr "newPass123");
        ("confirmPassword", JStr "newPass123")].
Definition change_ok : jsval := ok_body "Password changed successfully".

Definition change_shows_loader : bool := shows_loader change_hook password_data "Updating your password...".
Definition change_calls_service : bool :=
  sent_to (run change_hook 200 change_ok password_data) "/api/v1/user/change-password" password_data.
Definition change_hides_loader : bool := hides_loader (run change_hook 200 change_ok password_data).
Definition change_success_toast : bool :=
  toasted (run change_hook 200 change_ok password_data)
    (ToastUI "Success" (JStr "Password changed successfully") false).
Definition change_error_toast : bool :=
  toasted (run change_hook 400 (JObj [("message", JStr "Current password is incorrect")]) password_data)
    (ToastUI "Error" (JStr "Failed to change password. Please try again.") true).
Definition change_generic_error : bool :=
  toasted (run change_hook 500 (JObj [("message", JStr "Network error")]) password_data)
    (ToastUI "Error" (JStr "Network error") true).
Definition change_hides_loader_on_failure : bool :=
  hides_loader (run change_hook 500 (JObj [("message", JStr "Test error")]) password_data).

Remark user_mutations_suite :
  forallb id [update_shows_loader; update_calls_service; update_hides_loader; update_success_toast;
              update_invalidates; update_generic_error; update_hides_loader_on_failure;
              change_shows_loader; change_calls_service; change_hides_loader; change_success_toast;
              change_generic_error; change_hides_loader_on_failure] = true /\
  update_error_toast = false /\ change_error_toast = false.
Proof. vm_compute. repeat split. Qed.

(** What the two failing tests see instead: the server's message. *)
Remark user_mutation_errors_show_server_message :
  toasted (run update_hook 400 (JObj [("message", JStr "Failed to update profile")]) update_data)
    (ToastUI "Error" (JStr "Failed to update profile") true) &&
  toasted (run change_hook 400 (JObj [("message", JStr "Current password is incorrect")]) password_data)
    (ToastUI "Error" (JStr "Current password is incorrect") true) = true.
Proof. vm_compute. reflexivity. Qed.

Remark auth_mutations_suite_passes :
  forallb id [login_calls_service; login_succeeds; login_fails_with_message; login_api_error;
              signup_calls_service; signup_succeeds; signup_fails; forgot_succeeds; forgot_fails;
              reset_succeeds; reset_fails; logout_calls_service; logout_succeeds; logout_fails;
              verify_succeeds; verify_fails; verify_default_message] = true.
Proof. vm_compute. reflexivity. Qed.

End MutationTests.

(** [src/src/__tests__/lib/api/queries/user.test.ts]: the suite takes
    the options [useProfileQuery] passes to [useQuery] and runs their
    [queryFn]. *)
Module QueryTests.
Import Http LoaderStore Mutations AuthFlows MutationWitnesses.
Local Open Scope list_scope.

Definition profile : jsval :=
  JObj [("success", JBool true);
        ("data", JObj [("_id", JStr "123"); ("name", JStr "Test User"); ("email", JStr "test@example.com")]);
        ("message", JStr "Profile fetched successfully")].

Definition run_queryFn (st : Z) (b : jsval) : option (jsval + jsval) * World nat App :=
  profileQueryFn (ServiceTests.mock st b) true 3 wm0.

Definition query_fn_brackets_loader : bool :=
  let pending := loader (app (snd (profileQueryFn (ServiceTests.mock 200 profile) true 0 wm0))) in
  let '(r, w) := run_queryFn 200 profile in
  isLoading pending && bool_decide (loader_message pending = Some "Loading your profile...") &&
  MutationTests.sent_to w "/api/v1/user/me" JUndef &&
  match r with Some (inl d) => Jest.toEqual d profile | _ => false end &&
  negb (isLoading (loader (app w))).

Definition query_fn_hides_loader_on_failure : bool :=
  let '(r, w) := run_queryFn 500 (JObj [("message", JStr "Failed to fetch profile")]) in
  match r with
  | Some (inr e) => Jest.jsval_eqb (get e "message") (JStr "Failed to fetch profile")
  | _ => false
  end && negb (isLoading (loader (app w))).

(** [staleTime: 5 * 60 * 1000]; [retry: 1] is [profileQuery]'s second call. *)
Definition query_configuration : bool := Z.eqb ProfileCache.staleTime (5 * 60 * 1000).

Remark query_suite_passes :
  forallb id [query_fn_brackets_loader; query_fn_hides_loader_on_failure; query_configuration] = true.
Proof. vm_compute. reflexivity. Qed.

End QueryTests.

(** [src/src/__tests__/context/AuthContext.test.tsx]: the suite mocks
    [useProfileQuery]'s result and [setUser], and renders a component
    that prints the context. *)
Module AuthContextTests.
Import AuthStore.
Local Open Scope list_scope.

(** [TestComponent]: the five test ids' texts. *)
Definition test_component (c : AuthContextValue) : list string :=
  [if ctx_isLoading c then "true" else "false"; if ctx_isFetching c then "true" else "false";
   js_string (js_or (get (ctx_error c) "message") (JStr "no error"));
   js_string (js_or (get (ctx_user c) "name") (JStr "no user"));
   js_string (js_or (get (ctx_user c) "email") (JStr "no email"))].

Definition mockUser : jsval :=
  JObj [("_id", JStr "123"); ("name", JStr "Test User"); ("email", JStr "test@example.com");
        ("role", JStr "user"); ("picture", JStr "profile.jpg"); ("companyName", JStr "Test Company")].

Definition query (data error : jsval) (loading fetching success : bool) : ProfileQuery :=
  {| q_data := data; q_error := error; q_isLoading := loading; q_isFetching := fetching;
     q_isSuccess := success |}.

Definition provides_user : bool :=
  let q := query (JObj [("data", mockUser)]) JNull false false true in
  bool_decide (test_component (contextValue q) = ["false"; "false"; "no error"; "Test User"; "test@example.com"]) &&
  Jest.toEqual (user_val (provider_effect q initial))
    (JObj [("id", JStr "123"); ("name", JStr "Test User"); ("email", JStr "test@example.com");
           ("role", JStr "user"); ("picture", JStr "profile.jpg"); ("companyName", JStr "Test Company")]).

Definition no_user_when_signed_out : bool :=
  let q := query JNull JNull false false false in
  bool_decide (test_component (contextValue q) = ["false"; "false"; "no error"; "no user"; "no email"]) &&
  Jest.jsval_eqb (user_val (provider_effect q initial)) JNull.

Definition loading_state : bool :=
  bool_decide (test_component (contextValue (query JNull JNull true true false)) =
                 ["true"; "true"; "no error"; "no user"; "no email"]).

Definition error_state : bool :=
  let q := query JNull (JObj [("message", JStr "Failed to fetch user profile")]) false false false in
  bool_decide (test_component (contextValue q) =
                 ["false"; "false"; "Failed to fetch user profile"; "no user"; "no email"]).

Remark auth_context_suite_passes :
  forallb id [provides_user; no_user_when_signed_out; loading_state; error_state] = true.
Proof. vm_compute. reflexivity. Qed.

End AuthContextTests.

(** The type suites [src/src/__tests__/lib/api/types/auth.types.test.ts],
    [api.types.test.ts] and [src/src/__tests__/types/global.test.ts]:
    an object literal annotated with an interface compiles when it
    [conforms] to it, and [toHaveProperty(k)] holds when the object has
    the key.  The [MenuItem] block nests an array, which the values of
    the model do not have, and is left out. *)
Module TypeTests.
Import TsTypes.
Local Open Scope list_scope.

Definition typed_with (t : tstype) (ps : props) (keys : list string) : bool :=
  conforms t (JObj ps) && forallb (fun k => existsb (String.eqb k) (map fst ps)) keys.

Definition login_credentials : bool :=
  typed_with LoginCredentials [("email", JStr "test@example.com"); ("password", JStr "password123");
                               ("rememberMe", JBool true)] ["email"; "password"; "rememberMe"].
Definition signup_credentials : bool :=
  typed_with SignUpCredentials [("name", JStr "John Doe"); ("email", JStr "john@example.com");
                                ("password", JStr "password123"); ("companyName", JStr "Acme Inc")]
    ["name"; "email"; "password"; "companyName"].
Definition reset_credentials : bool :=
  typed_with ResetPasswordCredentials [("token", JStr "reset-token-123"); ("newPassword", JStr "newpassword123")]
    ["token"; "newPassword"].
Definition verify_credentials : bool :=
  typed_with VerifyEmailCredentials [("token", JStr "verify-token-123")] ["token"].
Definition jwt_payload : bool :=
  typed_with JwtPayload [("userId", JStr "user-123"); ("role", JStr "admin"); ("iat", JNum 1615806225);
                         ("exp", JNum 1615892625)] ["userId"; "role"; "iat"; "exp"].
Definition login_response : bool :=
  let user := JObj [("_id", JStr "user-123"); ("name", JStr "John Doe"); ("email", JStr "john@example.com");
                    ("role", JStr "user")] in
  conforms IUser user &&
  typed_with LoginResponse [("user", user); ("accessToken", JStr "access-token-123");
                            ("refreshToken", JStr "refresh-token-123")] ["user"; "accessToken"; "refreshToken"].
Definition refresh_response : bool :=
  typed_with RefreshTokenResponse [("accessToken", JStr "new-access-token-123");
                                   ("refreshToken", JStr "new-refresh-token-123"); ("expiresIn", JNum 3600)]
    ["accessToken"; "refreshToken"; "expiresIn"].
Definition api_response : bool :=
  typed_with (ApiResponse TsString) [("success", JBool true); ("data", JStr "Test data");
                                     ("message", JStr "Success message")] ["success"; "data"; "message"] &&
  typed_with (ApiResponse TsAny) [("success", JBool false); ("message", JStr "Error message");
                                  ("errorCode", JStr "ERROR_CODE")] ["success"; "message"; "errorCode"].
Definition layout_props : bool := typed_with LayoutProps [("children", JStr "Test Child")] ["children"].

Remark type_suites_pass :
  forallb id [login_credentials; signup_credentials; reset_credentials; verify_credentials; jwt_payload;
              login_response; refresh_response; api_response; layout_props] = true.
Proof. vm_compute. reflexivity. Qed.

End TypeTests.
