(* ===== verification/ComponentTests.v ===== *)
(** * The component suites, run on the model

    The Jest suites of [src/src/__tests__/components/] and
    [src/src/__tests__/app/] render a screen with its hooks mocked and
    look at what it shows.  Each [it] block whose subject is modelled is
    a boolean over the screens' models: the mocked hook is a parameter
    of the handler ([ComponentMocks.mockMutate] for a mocked [mutate]),
    a mocked [useState] is the state the view is computed from, and the
    text the suite looks for is searched in the screen's [Panel] or
    elements.  Spinners, icons and other markup the models leave out are
    not checked.  A remark per suite checks its blocks by evaluation. *)

From S2P Require Import Prelude JsValue Json HttpClient AuthStore Mutations Screen LoginPage VerifyEmail ResetPassword Timers SignUp Navigation Profile Settings UiKit RouteGuard Tests.

(** The component suites mock a mutation hook with a [mutate] of their
    own ([jest.fn()] or a literal function).  Its calls are kept in the
    world's environment component. *)
Module ComponentMocks.
Import Http AuthStore Mutations.
Local Open Scope list_scope.

(** The application state of a fresh page whose [localStorage] holds [st]. *)
Definition app_with (st : gmap string string) : App :=
  {| store := initial; loader := LoaderStore.init; toasts := []; pushed := []; storage := st;
     form := LoginPage.initial_form; invalidated := [] |}.

(** What the mock does after recording its first argument: nothing, or
    call the [onError] or the [onSuccess] it is given. *)
Inductive MockBehaviour := Noop | CallsOnError (err : jsval) | CallsOnSuccess.

Definition mockMutate {E} (b : MockBehaviour) (arg : jsval)
    (onSuccess onError : jsval -> prog (World (list jsval) E) unit) : prog (World (list jsval) E) unit :=
  fun w =>
    let w1 := {| server := server w ++ [arg]; sent := sent w; href := href w; app := app w |} in
    match b with
    | Noop => (Some tt, w1)
    | CallsOnError e => onError e w1
    | CallsOnSuccess => onSuccess JUndef w1
    end.

(** [expect(mock).toHaveBeenCalledWith(arg, ...)] and [not.toHaveBeenCalled()]. *)
Definition called_with {E} (w : World (list jsval) E) (arg : jsval) : bool :=
  existsb (Jest.toEqual arg) (server w).
Definition not_called {E} (w : World (list jsval) E) : bool := bool_decide (server w = []).

End ComponentMocks.

(** [src/src/__tests__/components/screens/auth/LoginForm.test.tsx]: the
    suite renders the form with [useLoginMutation] mocked by a [mutate]
    that runs the test's implementation, and [localStorage.getItem]
    mocked by a table.  The mock's calls are kept in the world's
    environment component; [Date.now()] is [now]; [toISOString] writes
    the time value's digits and [Date.parse] reads them back. *)
Module LoginFormTests.
Import Http AuthStore Mutations LoginPage ComponentMocks.
Local Open Scope list_scope.

Abbreviation MW := (World (list jsval) App).

Definition now : Z := 1700000000000.
Definition toISOString (t : Z) : string := pretty t.
Definition date_parse (d : string) : option Z :=
  match Json.JSON_parse d with Some (inl (JNum n)) => Some n | _ => None end.

(** [renderLoginPage()] with [getItem] answering from [st]: the mount
    effect has run. *)
Definition render (st : gmap string string) : option MW :=
  match mount_effect now date_parse (app_with st) with
  | Some (inl (a', _)) => Some {| server := []; sent := []; href := None; app := a' |}
  | _ => None
  end.

Definition submit (b : MockBehaviour) (email password : string) (rememberMe : bool) (w : MW) : MW :=
  snd (handleSubmit_with now toISOString (mockMutate b) email password rememberMe w).

(** The text of [alert-desc] contains [m] ([toHaveTextContent]). *)
Definition alert_has (w : MW) (m : string) : bool :=
  existsb (fun v => bool_decide (is_Some (String.index 0 m (js_string v))))
    (Screen.alerts (view false None (form (app w)) now)).

Definition bad_password : jsval :=
  JObj [("message", JStr "Invalid email or password"); ("code", JStr "INVALID_EMAIL_PASSWORD")].

Definition toggles_password_visibility : bool :=
  String.eqb (password_type false) "password" &&
  String.eqb (password_type (togglePasswordVisibility false)) "text" &&
  String.eqb (password_type (togglePasswordVisibility (togglePasswordVisibility false))) "password".

Definition empty_fields_error : bool :=
  match render ∅ with
  | Some w => let w' := submit Noop "" "" false w in
      alert_has w' "Please enter both email and password" && not_called w'
  | None => false
  end.

Definition calls_mutation : bool :=
  match render ∅ with
  | Some w =>
      called_with (submit Noop "test@example.com" "password123" (onCheckedChange (JBool true)) w)
        (JObj [("email", JStr "test@example.com"); ("password", JStr "password123"); ("rememberMe", JBool true)])
  | None => false
  end.

Definition shows_login_error : bool :=
  match render ∅ with
  | Some w => alert_has (submit (CallsOnError bad_password) "test@example.com" "wrongpassword" false w)
                "Invalid email or password"
  | None => false
  end.

Definition locks_after_five : bool :=
  match render (<["failed_login_attempts" := "4"]> ∅) with
  | Some w =>
      let w' := submit (CallsOnError bad_password) "test@example.com" "wrongpassword" false w in
      bool_decide (storage (app w') !! "failed_login_attempts" = Some "5") &&
      bool_decide (is_Some (storage (app w') !! "account_lockout")) &&
      alert_has w' "Too many login attempts. Please try again later"
  | None => false
  end.

(** [removeItem('failed_login_attempts')]: no count is left stored. *)
Definition clears_attempts_on_success : bool :=
  match render ∅ with
  | Some w =>
      bool_decide (storage (app (submit CallsOnSuccess "test@example.com" "password123" false w))
                     !! "failed_login_attempts" = None)
  | None => false
  end.

Definition previous_lockout : bool :=
  match render (<["account_lockout" := lockout_json (toISOString (now + 15 * 60 * 1000))]> ∅) with
  | Some w =>
      fields_disabled (form (app w)) &&
      alert_has (submit Noop "" "" false w) "Too many login attempts. Please try again later"
  | None => false
  end.

Remark login_form_suite_passes :
  forallb id [toggles_password_visibility; empty_fields_error; calls_mutation; shows_login_error;
              locks_after_five; clears_attempts_on_success; previous_lockout] = true.
Proof. vm_compute. reflexivity. Qed.

End LoginFormTests.

(** [src/src/__tests__/components/screens/auth/verify-email.test.tsx]:
    [React.useState] is mocked so that the screen renders in a given
    status (and error message); [useVerifyEmailMutation] resolves, and
    the state setters are mocks, so what is checked is the view of that
    state.  The progress bar is not modelled. *)
Module VerifyEmailTests.
Import VerifyEmail Screen.
Local Open Scope list_scope.

Definition renderWithState (s : VStatus) (msg : string) : Panel :=
  verify_view {| status := s; errorMsg := JStr msg; hasRun := true |}.

Definition has_text (p : Panel) (t : string) : bool :=
  String.eqb (heading p) t || existsb (fun v => Jest.jsval_eqb v (JStr t)) (texts p ++ alerts p).

Definition renders_loading : bool := has_text (renderWithState VLoading "") "Verifying your email…".

Definition renders_success : bool :=
  let p := renderWithState VSuccess "" in
  has_text p "Email Verified!" && has_text p "Your email has been successfully verified." &&
  has_text p "Redirecting to login…".

Definition renders_error : bool :=
  let p := renderWithState VError "Test error message" in
  has_text p "Verification Failed" && has_text p "Test error message".

(** [Back to Login] calls [goLogin], [router.push('/login')]. *)
Definition back_to_login : bool := existsb (String.eqb "/login") (links (renderWithState VSuccess "")).

Remark verify_email_suite_passes :
  forallb id [renders_loading; renders_success; renders_error; back_to_login] = true.
Proof. vm_compute. reflexivity. Qed.

End VerifyEmailTests.

(** [src/src/__tests__/app/(auth)/reset-password/page.test.tsx]: the
    page with [useResetPasswordMutation] mocked ([mutate] a [jest.fn()]
    or a function calling one callback) and [useSearchParams().get]
    answering [test-token], or [null] in one test.  Fake timers run the
    redirect effect on [Timers]' timeline.  The spinner is not
    modelled. *)
Module ResetPageTests.
Import Http ResetPage ComponentMocks Screen.
Local Open Scope list_scope.

Abbreviation PW := (World (list jsval) (Mutations.App * PageState)).

Definition mockToken : string := "test-token".

Definition w0 : PW :=
  {| server := []; sent := []; href := None; app := (app_with ∅, {| submitted := false; apiError := None |}) |}.

(** Typing [ValidPassword1!] twice and submitting the form. *)
Definition submit_valid (b : MockBehaviour) : PW :=
  snd (page_submit_with (mockMutate b) mockToken "ValidPassword1!" "ValidPassword1!" w0).

Definition page_view (w : PW) (isPending : bool) : Panel :=
  view mockToken "ValidPassword1!" "ValidPassword1!" isPending (snd (app w)).

Definition renders_with_token : bool :=
  let p := view mockToken "" "" false (snd (app w0)) in
  String.eqb (heading p) "Reset Your Password" && bool_decide (is_Some (submit_disabled p)).

Definition missing_token_view : bool :=
  let p := view "" "" "" false (snd (app w0)) in
  negb (bool_decide (alerts p = [])) && existsb (String.eqb "/forgot-password") (links p) &&
  bool_decide (submit_disabled p = None).

Definition toggles_visibility : bool :=
  String.eqb (input_type (negb false)) "text" && String.eqb (input_type (negb (negb false))) "password" &&
  String.eqb (input_type (negb false)) "text".

Definition submits_valid_data : bool :=
  called_with (submit_valid Noop) (JObj [("token", JStr mockToken); ("newPassword", JStr "ValidPassword1!")]).

(** The success view, then [jest.advanceTimersByTime(10000)]. *)
Definition success_view_redirects : bool :=
  let w := submit_valid CallsOnSuccess in
  let p := page_view w false in
  String.eqb (heading p) "Password Reset!" && existsb (String.eqb "/login") (links p) &&
  let ts := Timers.run Timers.reset_deps Timers.reset_timer [Timers.Elapse 10000]
              (Timers.commit Timers.reset_deps Timers.reset_timer (snd (app w)) (Timers.init 0)) in
  bool_decide (Timers.pushed ts = ["/login"]).

Definition shows_friendly_error : bool :=
  let w := submit_valid (CallsOnError (JObj [("errorCode", JStr "INVALID_RESET_TOKEN");
                                             ("message", JStr "API error message")])) in
  existsb (fun v => Jest.jsval_eqb v
             (JStr "Your reset link is invalid or expired. Please request a new password link."))
    (alerts (page_view w false)).

Definition disabled_while_pending : bool :=
  bool_decide (submit_disabled (view mockToken "" "" true (snd (app w0))) = Some true).

(** Every block holds; the friendly message shows only because the
    suite's [onError] is given an [errorCode], which the real mutation's
    rejection never has (C33). *)
Remark reset_page_suite_passes :
  forallb id [renders_with_token; missing_token_view; toggles_visibility; submits_valid_data;
              success_view_redirects; shows_friendly_error; disabled_while_pending] = true.
Proof. vm_compute. reflexivity. Qed.

End ResetPageTests.

(** What the render-only component suites check: the texts a rendered
    screen shows.  [getByText(t)] finds exactly one element with the
    text [t]; a regular expression matches part of one. *)
Module RenderTests.
Import Screen.
Local Open Scope list_scope.

Definition shown (p : Panel) : list string :=
  heading p :: map js_string (texts p ++ alerts p).

Definition getByText (p : Panel) (t : string) : bool := Nat.eqb (count_occ string_dec (shown p) t) 1.

Definition getByPartText (p : Panel) (t : string) : bool :=
  existsb (fun x => bool_decide (is_Some (String.index 0 t x))) (shown p).

(** [src/src/__tests__/components/screens/plan/page.test.tsx] *)
Definition plan_view : Panel := PlanPage.view PlanPage.init.

Definition plan_renders_content : bool := getByText plan_view "Simple & Transparent Pricing".
Definition plan_renders_options : bool :=
  getByText plan_view "Starter" && getByText plan_view "Growth" && getByText plan_view "Agency".
Definition plan_renders_pricing : bool := getByText plan_view "$199".

(** [src/src/__tests__/components/screens/auth/SignUpForm.test.tsx]:
    [searchParams.get] answers [starter] and [monthly]. *)
Definition signup_view : Panel :=
  SignUpPage.view (Some "starter") "monthly" false (SignUpPage.init (Some "starter") (Some "monthly")).

Definition signup_renders_form : bool :=
  getByText signup_view "Create an account" && getByText signup_view "Enter your information to get started".
Definition signup_shows_plan : bool :=
  getByText signup_view "Selected Plan:" && getByText signup_view "Starter Plan (Monthly)" &&
  existsb (String.eqb "/plan") (links signup_view).

(** [src/src/__tests__/components/screens/auth/ForgotPasswordForm.test.tsx] *)
Definition forgot_renders_form : bool :=
  let p := ForgotPassword.view false ForgotPassword.init in
  getByText p "Reset Your Password" && getByPartText p "Enter your email address" &&
  String.eqb (ForgotPassword.submit_label false) "Reset Password" && existsb (String.eqb "/login") (links p).
Definition forgot_shows_sending : bool := String.eqb (ForgotPassword.submit_label true) "Sending...".

(** [src/src/__tests__/components/screens/auth/ResetPasswordForm.test.tsx]:
    [searchParams.get('token')] answers [valid-token]. *)
Definition reset_form_renders : bool :=
  let p := ResetForm.view "valid-token" false {| ResetForm.localError := None; ResetForm.error := None |} in
  getByText p "Reset Your Password" && getByText p "Enter your new password below" &&
  existsb (String.eqb "/login") (links p).

(** The blocks that check rendered text hold; those that look for a
    progress bar check markup the model leaves out. *)
Remark render_suites_pass :
  forallb id [plan_renders_content; plan_renders_options; plan_renders_pricing; signup_renders_form;
              signup_shows_plan; forgot_renders_form; forgot_shows_sending; reset_form_renders] = true.
Proof. vm_compute. reflexivity. Qed.

End RenderTests.

(** The suites of the layouts and the static pages:
    [src/src/__tests__/components/shared/sidebar.test.tsx],
    [src/src/__tests__/components/layouts/main-layout.test.tsx] (its
    [Sidebar] mock shows the props it is given, and its toggle button
    calls [setSidebarOpen(!sidebarOpen)]),
    [src/src/__tests__/components/layouts/auth-layout.test.tsx] and
    [src/src/__tests__/components/screens/landingPage/landing-page.test.tsx]. *)
Module LayoutTests.
Import Sidebar MainLayout Markup.
Local Open Scope list_scope.

(** [pathname] [/dashboard]; the store's user is the suite's. *)
Definition sidebar_view : SidebarView :=
  Sidebar.render {| Sidebar.sidebarOpen := true; Sidebar.pathname := "/dashboard" |} true
    (Some [("name", JStr "User"); ("email", JStr "user@example.com")]).

(** A link with the item's text and an icon. *)
Definition has_item_link (target text : string) : bool :=
  existsb (fun e => match e with
                    | Sidebar.ELink h t _ (Some _) => String.eqb h target && String.eqb t text
                    | _ => false
                    end) (sv_entries sidebar_view).

Definition has_group (text : string) : bool :=
  existsb (fun e => match e with Sidebar.EGroup t _ _ => String.eqb t text | _ => false end)
    (sv_entries sidebar_view).

Definition sidebar_renders_items : bool :=
  has_item_link "/dashboard" "Dashboard" && has_item_link "/creators" "Creators" &&
  has_item_link "/products" "Products" && has_group "Analytics" && has_item_link "/settings" "Settings".
Definition sidebar_renders_user : bool :=
  Jest.jsval_eqb (sv_user sidebar_view).1 (JStr "User") &&
  Jest.jsval_eqb (sv_user sidebar_view).2 (JStr "user@example.com").
Definition sidebar_renders_analytics : bool := has_group "Analytics".

(** [data-open] of the mocked sidebar: the classes it is rendered with. *)
Definition data_open (st : LayoutState) (b : bool) : bool :=
  String.eqb (sv_class (sidebar (MainLayout.view st "/dashboard" None))) (container_classes b).

Definition run_layout (evs : list LayoutEvent) : LayoutState := fold_left (fun st e => step e st) evs init.

(** The mock's toggle: [setSidebarOpen(!sidebarOpen)]. *)
Definition mock_toggle (st : LayoutState) : LayoutEvent := if sidebarOpen st then CloseSidebar else OpenSidebar.

(** [sidebarOpen: false] and [pathname]: the sidebar is closed and
    marks the Dashboard link, the one for [/dashboard], active. *)
Definition layout_passes_props : bool :=
  data_open init false &&
  existsb (fun e => match e with
                    | Sidebar.ELink h _ cls _ => String.eqb h "/dashboard" && String.eqb cls (link_classes true)
                    | _ => false
                    end) (sv_entries (sidebar (MainLayout.view init "/dashboard" None))).
Definition layout_menu_opens : bool :=
  let st := run_layout [OpenSidebar] in
  data_open st true && overlay (MainLayout.view st "/dashboard" None).
Definition layout_overlay_closes : bool := data_open (run_layout [OpenSidebar; OverlayClick]) false.
Definition layout_keys_close : bool :=
  forallb (fun k => data_open (run_layout [OpenSidebar; OverlayKeyDown k]) false) ["Escape"; "Enter"; " "].
Definition layout_sidebar_controls : bool :=
  let st1 := step (mock_toggle init) init in
  let st2 := step (mock_toggle st1) st1 in
  data_open init false && data_open st1 true && data_open st2 false.

Definition texts_of (es : list Elem) : list string :=
  map (fun e => match e with EText t | ELink _ t | EButton _ t => t end) es.

Definition auth_props (d : option string) (footer : list Elem) : AuthLayout.AuthLayoutProps :=
  {| AuthLayout.title := "Test Title"; AuthLayout.description := d; AuthLayout.footerContent := footer |}.

Definition auth_layout_renders : bool :=
  let ts := texts_of (AuthLayout.view (auth_props None []) [EText "Test Content"]) in
  existsb (String.eqb "Brand Logo") ts && existsb (String.eqb "Test Title") ts &&
  existsb (String.eqb "Test Content") ts.
Definition auth_layout_description : bool :=
  existsb (String.eqb "Test Description")
    (texts_of (AuthLayout.view (auth_props (Some "Test Description") []) [EText "Test Content"])).
Definition auth_layout_footer : bool :=
  existsb (String.eqb "Footer Content")
    (texts_of (AuthLayout.view (auth_props None [EText "Footer Content"]) [EText "Test Content"])).
Definition auth_layout_support : bool :=
  let ts := texts_of (AuthLayout.view (auth_props None []) [EText "Test Content"]) in
  existsb (String.eqb "Need help?") ts && existsb (String.eqb "Contact support") ts.

Definition has_button (t : string) : bool :=
  existsb (fun e => match e with EButton _ t' => String.eqb t t' | _ => false end) Landing.elements.

Definition landing_renders : bool := existsb (String.eqb "TikTok Shop Creator Management") (texts_of Landing.elements).
Definition landing_nav_links : bool :=
  Nat.eqb (count_occ string_dec (texts_of Landing.elements) "Sign Up") 1 &&
  Nat.eqb (count_occ string_dec (texts_of Landing.elements) "Plan") 1.
Definition landing_buttons : bool := has_button "Get Started" && has_button "Login".

Remark layout_suites_pass :
  forallb id [sidebar_renders_items; sidebar_renders_user; sidebar_renders_analytics; layout_passes_props;
              layout_menu_opens; layout_overlay_closes; layout_keys_close; layout_sidebar_controls;
              auth_layout_renders; auth_layout_description; auth_layout_footer; auth_layout_support;
              landing_renders; landing_nav_links; landing_buttons] = true.
Proof. vm_compute. reflexivity. Qed.

End LayoutTests.

(** The route pages' suites:
    [src/src/__tests__/app/(root)/profile/page.test.tsx] (the store's
    user is the suite's) and
    [src/src/__tests__/app/(auth)/verify-email/page.test.tsx] (the screen
    is mocked to print the token it is given). *)
Module PageTests.
Local Open Scope list_scope.

Definition has_part (t m : string) : bool := bool_decide (is_Some (String.index 0 m t)).

Definition profile_view : ProfilePage.ProfileView :=
  ProfilePage.view {| AuthStore.user := Some [("_id", JStr "123"); ("name", JStr "Test User");
                                              ("email", JStr "test@example.com"); ("role", JStr "user")];
                      AuthStore.isAuthenticated := false |}.

Definition profile_renders_user : bool :=
  has_part (ProfilePage.pv_text profile_view) "Profile" && has_part (ProfilePage.pv_text profile_view) "Test User" &&
  has_part (ProfilePage.pv_text profile_view) "test@example.com".
Definition profile_renders_links : bool :=
  has_part (ProfilePage.pv_text profile_view) "dashboard" && has_part (ProfilePage.pv_text profile_view) "home" &&
  bool_decide (ProfilePage.pv_links profile_view = ["/dashboard/admin"; "/"]).

(** [Verify Email with token: {emailToken}] *)
Definition mock_verify_text (searchParams_token : option string) : string :=
  "Verify Email with token: " +:+ VerifyEmail.page_token searchParams_token.

Definition verify_page_passes_token : bool :=
  String.eqb (mock_verify_text (Some "test-token")) "Verify Email with token: test-token".
Definition verify_page_empty_token : bool :=
  String.eqb (mock_verify_text None) "Verify Email with token: ".

Remark page_suites_pass :
  forallb id [profile_renders_user; profile_renders_links; verify_page_passes_token; verify_page_empty_token] = true.
Proof. vm_compute. reflexivity. Qed.

End PageTests.

(** [src/src/__tests__/components/screens/accountSetting/page.test.tsx]:
    [React.useState] is mocked so that the profile form holds the
    suite's user on the account tab, and the state setters are mocks;
    what is checked is the view of that state. *)
Module SettingsTests.
Local Open Scope list_scope.

Definition mocked_state : Settings.SettingsState :=
  {| Settings.activeTab := "account";
     Settings.profileForm := [("name", JStr "Test User"); ("email", JStr "test@example.com");
                              ("company", JStr "Test Company")];
     Settings.passwordForm := Settings.empty_password_form |}.

Definition with_view (f : Screen.Panel -> bool) : bool :=
  match Settings.view false false mocked_state with inl p => f p | inr _ => false end.

Definition renders_content : bool :=
  with_view (fun p => RenderTests.getByText p "Settings" &&
                      RenderTests.getByText p "Manage your account settings and preferences").
Definition renders_account_tab : bool :=
  with_view (fun p => RenderTests.getByText p "Account Settings" &&
                      RenderTests.getByText p "Manage your account information and preferences").
Definition renders_form_elements : bool :=
  with_view (fun p => RenderTests.getByText p "Name" && RenderTests.getByText p "Email" &&
                      RenderTests.getByText p "Save Changes").

Remark settings_suite_passes : forallb id [renders_content; renders_account_tab; renders_form_elements] = true.
Proof. vm_compute. reflexivity. Qed.

End SettingsTests.

(** The suites of the UI kit and the helpers:
    [src/src/__tests__/components/ui/Button.test.tsx],
    [src/src/__tests__/components/ui/Typography.test.tsx],
    [src/src/__tests__/components/shared/Loader.test.tsx] and
    [src/src/__tests__/lib/index.test.ts] ([js-cookie] mocked: [get]
    answers two cookies, [remove] records its calls). *)
Module UiTests.
Import Clsx.
Local Open Scope list_scope.

(** [expect(el.className).toContain(c)] and [expect(el).toHaveClass(c, ...)]. *)
Definition contains (s c : string) : bool := bool_decide (is_Some (String.index 0 c s)).
Definition has_classes (s : string) (cs : list string) : bool :=
  forallb (fun c => existsb (String.eqb c) (Cookie.split_on " " s)) cs.

Definition button (v : option Button.ButtonVariant) (sz : option Button.ButtonSize) (ld dis : option bool)
    (cls : option string) : Button.ButtonView :=
  Button.render {| Button.variant := v; Button.size := sz; Button.isLoading := ld; Button.disabled := dis;
                   Button.className := cls; Button.type := None |}.

Definition default_button : Button.ButtonView := button None None None None None.

Definition button_default : bool :=
  contains (Button.b_class default_button) "rounded-[8px]" && negb (Button.b_disabled default_button).
Definition button_primary : bool := contains (Button.b_class default_button) "bg-[#5A49F8]".
Definition button_variants : bool :=
  contains (Button.b_class (button (Some Button.Secondary) None None None None)) "bg-gray-500" &&
  contains (Button.b_class (button (Some Button.Danger) None None None None)) "bg-red-500" &&
  contains (Button.b_class (button (Some Button.Outline) None None None None)) "border-gray-300" &&
  contains (Button.b_class (button (Some Button.Transparent) None None None None)) "bg-transparent".
Definition button_sizes : bool :=
  forallb (contains (Button.b_class (button None (Some Button.Sm) None None None))) ["px-2"; "py-1"; "text-sm"] &&
  forallb (contains (Button.b_class (button None (Some Button.Md) None None None))) ["px-4"; "py-2"; "text-base"] &&
  forallb (contains (Button.b_class (button None (Some Button.Lg) None None None))) ["px-6"; "py-3"; "text-lg"].
Definition button_disabled : bool :=
  let b := button None None None (Some true) None in
  Button.b_disabled b && contains (Button.b_class b) "opacity-50" && contains (Button.b_class b) "cursor-not-allowed".
Definition button_loading : bool :=
  let b := button None None (Some true) None None in
  Button.b_disabled b && Button.b_spinner b && contains (Button.b_class b) "opacity-50" &&
  contains (Button.b_class b) "cursor-not-allowed".
Definition button_custom_class : bool :=
  contains (Button.b_class (button None None None None (Some "custom-class"))) "custom-class".

Definition typo (as_ : option string) (size : option Z) (weight color className : option string)
    (l r : bool) : Typography.TypographyView :=
  Typography.render {| Typography.as_ := as_; Typography.size := size; Typography.weight := weight;
                       Typography.color := color; Typography.className := className;
                       Typography.leftIcon := l; Typography.rightIcon := r |}.

Definition plain : Typography.TypographyView := typo None None None None None false false.

Definition typography_defaults : bool :=
  String.eqb (Typography.t_tag plain) "p" &&
  has_classes (Typography.t_class plain) ["text-[16px]"; "font-normal"; "text-blue"].
Definition typography_custom : bool :=
  String.eqb (Typography.t_tag (typo (Some "h1") None None None None false false)) "h1" &&
  has_classes (Typography.t_class (typo None (Some 24%Z) None None None false false)) ["text-[24px]"] &&
  has_classes (Typography.t_class (typo None None (Some "bold") None None false false)) ["font-bold"] &&
  has_classes (Typography.t_class (typo None None None (Some "text-red-500") None false false)) ["text-red-500"] &&
  has_classes (Typography.t_wrapper (typo None None None None (Some "custom-class") false false)) ["custom-class"].
Definition typography_icons : bool :=
  Typography.t_left (typo None None None None None true false) &&
  Typography.t_right (typo None None None None None false true) &&
  let both := typo None None None None None true true in Typography.t_left both && Typography.t_right both.
Definition typography_container : bool := has_classes (Typography.t_wrapper plain) ["flex"; "items-center"; "gap-2"].
Definition typography_levels : bool :=
  forallb (fun l => String.eqb (Typography.t_tag (typo (Some l) None None None None false false)) l)
    ["h1"; "h2"; "h3"; "h4"; "h5"; "h6"].
Definition typography_sizes : bool :=
  forallb (fun n => has_classes (Typography.t_class (typo None (Some n) None None None false false))
                      ["text-[" +:+ pretty n +:+ "px]"]) [12; 14; 16; 18; 20; 24; 26; 28; 30; 32; 36]%Z.
Definition typography_weights : bool :=
  forallb (fun '(w, c) => has_classes (Typography.t_class (typo None None (Some w) None None false false)) [c])
    [("normal", "font-normal"); ("medium", "font-medium"); ("semibold", "font-semibold"); ("bold", "font-bold")].

Definition loader_shows_message : bool :=
  bool_decide (Loader.view {| LoaderStore.isLoading := true; LoaderStore.loader_message := Some "Loading..." |} =
               Some (Some "Loading...")).
Definition loader_hidden : bool :=
  bool_decide (Loader.view {| LoaderStore.isLoading := false; LoaderStore.loader_message := Some "" |} = None).

(** [cn('class1', undefined, null, 'class2')]: a falsy argument adds no class. *)
Definition cn_combines : bool :=
  String.eqb (cn [CStr "class1"; CStr "class2"]) "class1 class2" &&
  String.eqb (cn [CStr "class1"; CArr []; CArr []; CStr "class2"]) "class1 class2".

(** Two cookies at [/], both visible: [remove] is called for each, once. *)
Definition jar : list BrowserCookies.Cookie :=
  [{| BrowserCookies.c_name := "cookie1"; BrowserCookies.c_value := "value1"; BrowserCookies.c_path := "/";
      BrowserCookies.httpOnly := false |};
   {| BrowserCookies.c_name := "cookie2"; BrowserCookies.c_value := "value2"; BrowserCookies.c_path := "/";
      BrowserCookies.httpOnly := false |}].
Definition removes_all_cookies : bool :=
  bool_decide (map BrowserCookies.c_name (List.filter (BrowserCookies.visible "/") jar) = ["cookie1"; "cookie2"]) &&
  bool_decide (BrowserCookies.removeAllCookies "/" jar = []).

(** The suites of [@/lib/utils] expect a [cn] that resolves Tailwind
    conflicts ([cn('p-2', 'p-4')] is [p-4]); that module is not in the
    sources, and the [cn] of [src/src/lib/index.ts] is [clsx] alone,
    which keeps both classes. *)
Remark cn_keeps_conflicts :
  cn [CStr "p-2"; CStr "p-4"] = "p-2 p-4" /\ cn [CStr "px-2 py-1"; CStr "px-4"] = "px-2 py-1 px-4".
Proof. split; reflexivity. Qed.

Remark ui_suites_pass :
  forallb id [button_default; button_primary; button_variants; button_sizes; button_disabled; button_loading;
              button_custom_class; typography_defaults; typography_custom; typography_icons;
              typography_container; typography_levels; typography_sizes; typography_weights;
              loader_shows_message; loader_hidden; cn_combines; removes_all_cookies] = true.
Proof. vm_compute. reflexivity. Qed.

End UiTests.
